(** * A shallow embedding of the 33TU/socks protocol engine

    The development follows the layout of the Go repository:

    - [io], [bufio], [internal], [net], [fmt]: the parts of the Go standard
      library (and of the repository's [internal] package) that the codecs
      are written against, as pure state-passing functions;
    - [socks4]: request/response codecs, the dialer and the listener;
    - [socks5]: the handshake, request, reply, user/password, GSSAPI and UDP
      packet codecs;
    - the theorems about them.

    Go values are modelled as the code has them: a [byte] is a [Byte.byte],
    a [[]byte] is a [list byte], a Go [string] is a [String.string] (whose
    characters are the bytes of the Go string), a [uint16] or [int64] is a
    [Z], [error] is an inductive type whose [None] option is Go's [nil]. *)

From Stdlib Require Import ZArith List Bool Lia String Ascii.
From Stdlib Require Import Strings.Byte.
Import ListNotations.

Local Open Scope string_scope.
Local Open Scope list_scope.
Local Open Scope Z_scope.

Set Implicit Arguments.

(* ================================================================== *)
(** ** Bytes, integers and strings *)

Definition byte : Set := Byte.byte.

(** [byte(z)]: Go's truncating conversion of an integer to a byte. *)
Definition byte_of_Z (z : Z) : byte :=
  match Byte.of_N (Z.to_N (z mod 256)) with
  | Some b => b
  | None => x00
  end.

(** [int(b)]: the numeric value of a byte. *)
Definition Z_of_byte (b : byte) : Z := Z.of_N (Byte.to_N b).

(** [uint16(z)]: Go's truncating conversion to 16 bits. *)
Definition uint16 (z : Z) : Z := z mod 65536.

(** [int64]: the result of an operation on [int64] values wraps around
    between [math.MinInt64] and [math.MaxInt64]. *)
Module math.
Definition MinInt64 : Z := -9223372036854775808.
Definition MaxInt64 : Z := 9223372036854775807.
End math.

Definition int64 (z : Z) : Z :=
  (z - math.MinInt64) mod 18446744073709551616 + math.MinInt64.

(** [len(s)] of a Go string and the two conversions between [string] and
    [[]byte]. *)
Definition len_string (s : string) : Z := Z.of_nat (String.length s).
Definition bytes_of_string (s : string) : list byte := list_byte_of_string s.
Definition string_of_bytes (b : list byte) : string := string_of_list_byte b.

Definition len {A} (l : list A) : Z := Z.of_nat (List.length l).

(** [s[:len(s)-1]] on a byte slice: everything but the last element. *)
Definition drop_last {A} (l : list A) : list A := removelast l.

Module binary.
(** [binary.BigEndian.PutUint16] and [binary.BigEndian.Uint16]. *)
Definition PutUint16 (v : Z) : list byte :=
  [byte_of_Z (Z.shiftr v 8); byte_of_Z v].

Definition Uint16 (b0 b1 : byte) : Z :=
  Z.lor (Z.shiftl (Z_of_byte b0) 8) (Z_of_byte b1).
End binary.

(* ================================================================== *)
(** ** Errors

    An [error] is either a package-level sentinel created by [errors.New]
    (identified by the name of the variable that holds it, since Go compares
    sentinels by identity) or a value built by [fmt.Errorf] from a format
    string and its arguments. *)

Inductive error : Type :=
| errors_New (id : string) (msg : string)
| fmt_Errorf (format : string) (args : list fmt_arg)
with fmt_arg : Type :=
| ArgByte (b : byte)
| ArgInt (z : Z)
| ArgString (s : string)
| ArgError (e : error).

(** [err == sentinel] for a sentinel created by [errors.New]. *)
Definition is_sentinel (e sentinel : error) : bool :=
  match e, sentinel with
  | errors_New i _, errors_New j _ => String.eqb i j
  | _, _ => false
  end.

Module fmt.
(** The verbs used by the repository: [%w], [%d], [%02x] and [%q]. *)
Inductive verb := Vw | Vd | V02x | Vq.

Definition hexdigit (n : Z) : ascii :=
  if n <? 10 then ascii_of_N (Z.to_N (48 + n))
  else ascii_of_N (Z.to_N (87 + n)).

(** [%02x] of a byte: two lower-case hexadecimal digits. *)
Definition hex2 (b : byte) : string :=
  String (hexdigit (Z_of_byte b / 16))
    (String (hexdigit (Z_of_byte b mod 16)) EmptyString).

Fixpoint dec_digits (fuel : nat) (n : Z) (acc : string) : string :=
  match fuel with
  | O => acc
  | S fuel' =>
      let acc' := String (ascii_of_N (Z.to_N (48 + n mod 10))) acc in
      if n / 10 =? 0 then acc' else dec_digits fuel' (n / 10) acc'
  end.

(** [%d] of an integer. *)
Definition dec (n : Z) : string :=
  if n <? 0 then String "-"%char (dec_digits (Z.to_nat (- n)) (- n) EmptyString)
  else dec_digits (S (Z.to_nat n)) n EmptyString.

Definition dquote : string := String (ascii_of_nat 34) EmptyString.

(** [%q] of a string of printable characters without quotes or
    backslashes (nothing has to be escaped). *)
Definition quote (s : string) : string := (dquote ++ s ++ dquote)%string.

(** Expansion of a format string against already rendered arguments. *)
Fixpoint expand (f : string) (args : list (verb -> string)) : string :=
  match f with
  | EmptyString => EmptyString
  | String "%"%char (String "w"%char f') =>
      match args with
      | a :: args' => (a Vw ++ expand f' args')%string
      | [] => ("%!w(MISSING)" ++ expand f' [])%string
      end
  | String "%"%char (String "d"%char f') =>
      match args with
      | a :: args' => (a Vd ++ expand f' args')%string
      | [] => ("%!d(MISSING)" ++ expand f' [])%string
      end
  | String "%"%char (String "q"%char f') =>
      match args with
      | a :: args' => (a Vq ++ expand f' args')%string
      | [] => ("%!q(MISSING)" ++ expand f' [])%string
      end
  | String "%"%char (String "0"%char (String "2"%char (String "x"%char f'))) =>
      match args with
      | a :: args' => (a V02x ++ expand f' args')%string
      | [] => ("%!x(MISSING)" ++ expand f' [])%string
      end
  | String c f' => String c (expand f' args)
  end.
End fmt.

(** [err.Error()]: the message of an error. *)
Fixpoint Error (e : error) : string :=
  match e with
  | errors_New _ msg => msg
  | fmt_Errorf f args =>
      fmt.expand f
        ((fix render (l : list fmt_arg) : list (fmt.verb -> string) :=
            match l with
            | [] => []
            | a :: l' =>
                (fun v =>
                   match a, v with
                   | ArgByte b, fmt.V02x => fmt.hex2 b
                   | ArgByte b, _ => fmt.dec (Z_of_byte b)
                   | ArgInt z, _ => fmt.dec z
                   | ArgString s, fmt.Vq => fmt.quote s
                   | ArgString s, _ => s
                   | ArgError e', _ => Error e'
                   end) :: render l'
            end) args)
  end.

(* ================================================================== *)
(** ** Package io: readers and writers *)

Module io.

Definition EOF : error := errors_New "io.EOF" "EOF".
Definition ErrUnexpectedEOF : error :=
  errors_New "io.ErrUnexpectedEOF" "unexpected EOF".
Definition ErrClosedPipe : error :=
  errors_New "io.ErrClosedPipe" "io: read/write on closed pipe".
Definition ErrNoProgress : error :=
  errors_New "io.ErrNoProgress"
    "multiple Read calls return no data or error".

(** An [io.Reader] is modelled by what it will deliver: a sequence of
    chunks, each the most that one [Read] call can return, ended by the
    error that every later [Read] reports ([EOF] at the end of a stream,
    another error on a broken transport). *)
Inductive Stream : Type :=
| Chunk (c : list byte) (rest : Stream)
| End (e : error).

(** [r.Read(p)] with [len(p) = k]: the bytes stored in [p], the error and
    the reader afterwards. *)
Definition Read (s : Stream) (k : nat)
  : (list byte * option error) * Stream :=
  match s with
  | End e => (([], Some e), s)
  | Chunk c s' =>
      if (List.length c <=? k)%nat then ((c, None), s')
      else ((firstn k c, None), Chunk (skipn k c) s')
  end.

(** The loop of [io.ReadAtLeast(r, buf, len(buf))]: [want] bytes are still
    missing and [acc] is what [buf] holds. *)
Fixpoint ReadFull_loop (s : Stream) (want : nat) (acc : list byte)
  : (list byte * option error) * Stream :=
  match want with
  | O => ((acc, None), s)
  | S _ =>
      match s with
      | End e =>
          ((acc,
            Some (match acc with
                  | [] => e
                  | _ :: _ => if is_sentinel e EOF then ErrUnexpectedEOF else e
                  end)), s)
      | Chunk c s' =>
          if (List.length c <=? want)%nat
          then ReadFull_loop s' (want - List.length c) (acc ++ c)
          else ((acc ++ firstn want c, None), Chunk (skipn want c) s')
      end
  end.

(** [io.ReadFull(r, buf)] with [len(buf) = n]: the bytes read (their number
    is Go's [n]), the error and the reader afterwards. *)
Definition ReadFull (s : Stream) (n : nat)
  : (list byte * option error) * Stream :=
  ReadFull_loop s n [].

(** [io.ReadAll(r)]. *)
Fixpoint ReadAll (s : Stream) : (list byte * option error) * Stream :=
  match s with
  | End e => (([], if is_sentinel e EOF then None else Some e), s)
  | Chunk c s' =>
      let '((d, e), s'') := ReadAll s' in ((c ++ d, e), s'')
  end.

(** Everything a stream still delivers. *)
Fixpoint concat (s : Stream) : list byte :=
  match s with
  | End _ => []
  | Chunk c s' => c ++ concat s'
  end.

(** An [io.Writer]: [Write w p] is [(n, err)] and the writer afterwards. *)
Class Writer (W : Type) : Type :=
  Write : W -> list byte -> (Z * option error) * W.

(** [io.WriteString(w, s)]. *)
Definition WriteString {W} `{Writer W} (w : W) (s : string)
  : (Z * option error) * W :=
  Write w (bytes_of_string s).

End io.

Module bytes_.
(** [bytes.Buffer] (and [bytes.Reader]): the unread bytes. *)
Record Buffer : Type := mkBuffer { Bytes : list byte }.

#[global] Instance Buffer_Writer : io.Writer Buffer :=
  fun b p => ((len p, None), mkBuffer (Bytes b ++ p)).

(** Reading from a buffer: one [Read] returns as much as is asked for and
    available, [EOF] once the buffer is empty. *)
Definition NewReader (b : list byte) : io.Stream :=
  match b with
  | [] => io.End io.EOF
  | _ :: _ => io.Chunk b (io.End io.EOF)
  end.

Definition Reader (b : Buffer) : io.Stream := NewReader (Bytes b).

(** [bytes.IndexByte]. *)
Fixpoint IndexByte (l : list byte) (c : byte) : option nat :=
  match l with
  | [] => None
  | x :: l' =>
      if Byte.eqb x c then Some O
      else match IndexByte l' c with
           | Some i => Some (S i)
           | None => None
           end
  end.
End bytes_.

(* ================================================================== *)
(** ** Package internal: the limited reader and the pooled scanner *)

Module internal.

(** [internal.LimitedReader]. *)
Record LimitedReader : Type := mkLimitedReader {
  R : io.Stream;   (* underlying reader *)
  N : Z            (* max bytes remaining *)
}.

Definition LimitedReader_Init (src : io.Stream) (n : Z) : LimitedReader :=
  {| R := src; N := n |}.

(** [LimitedReader.Read(p)] with [len(p) = k]. *)
Definition LimitedReader_Read (l : LimitedReader) (k : nat)
  : (list byte * option error) * LimitedReader :=
  if N l <=? 0 then (([], Some io.EOF), l)
  else
    let k' := if Z.of_nat k >? N l then Z.to_nat (N l) else k in
    let '((bs, e), s') := io.Read (R l) k' in
    ((bs, e), {| R := s'; N := N l - len bs |}).

(** The buffer size of the readers of [ReaderPool]. *)
Definition ReaderPool_size : nat := 256.

End internal.

(* ================================================================== *)
(** ** Package bufio: the part of [bufio.Reader] behind [ReadString]

    The reader is the one [internal.GetReader] hands out: it wraps the
    caller's [LimitedReader], which the caller re-initialises between two
    scans while the buffered bytes stay in place. *)

Module bufio.

Definition ErrBufferFull : error :=
  errors_New "bufio.ErrBufferFull" "bufio: buffer full".

Definition maxConsecutiveEmptyReads : nat := 100.

Record Reader : Type := mkReader {
  size : nat;                   (* len(b.buf) *)
  buf : list byte;              (* b.buf[b.r:b.w], the unread bytes *)
  rd : internal.LimitedReader;  (* the reader provided by the client *)
  err : option error
}.

(** [b.Reset(r)] on a reader of the pool. *)
Definition Reset (sz : nat) (r : internal.LimitedReader) : Reader :=
  {| size := sz; buf := []; rd := r; err := None |}.

(** The retry loop of [b.fill()]. *)
Fixpoint fill_loop (i : nat) (b : Reader) : Reader :=
  match i with
  | O => {| size := size b; buf := buf b; rd := rd b;
            err := Some io.ErrNoProgress |}
  | S i' =>
      let '((bs, e), rd') :=
        internal.LimitedReader_Read (rd b) (size b - List.length (buf b)) in
      let b' := {| size := size b; buf := buf b ++ bs; rd := rd';
                   err := err b |} in
      match e with
      | Some e' => {| size := size b; buf := buf b ++ bs; rd := rd';
                      err := Some e' |}
      | None => if (0 <? List.length bs)%nat then b' else fill_loop i' b'
      end
  end.

Definition fill (b : Reader) : Reader := fill_loop maxConsecutiveEmptyReads b.

(** The loop of [b.ReadSlice(delim)]; [None] only when the fuel runs out. *)
Fixpoint ReadSlice_loop (fuel : nat) (b : Reader) (delim : byte)
  : option ((list byte * option error) * Reader) :=
  match fuel with
  | O => None
  | S fuel' =>
      match bytes_.IndexByte (buf b) delim with
      | Some i =>
          Some ((firstn (S i) (buf b), None),
                {| size := size b; buf := skipn (S i) (buf b); rd := rd b;
                   err := err b |})
      | None =>
          match err b with
          | Some e =>
              Some ((buf b, Some e),
                    {| size := size b; buf := []; rd := rd b; err := None |})
          | None =>
              if (size b <=? List.length (buf b))%nat
              then Some ((buf b, Some ErrBufferFull),
                         {| size := size b; buf := []; rd := rd b;
                            err := None |})
              else ReadSlice_loop fuel' (fill b) delim
          end
      end
  end.

(** Every round of the loop that does not return adds a byte to the buffer,
    so [size + 2] rounds are enough. *)
Definition ReadSlice (b : Reader) (delim : byte)
  : option ((list byte * option error) * Reader) :=
  ReadSlice_loop (S (S (size b))) b delim.

(** The loop of [b.collectFragments(delim)]: [full] holds the full buffers
    gathered so far. *)
Fixpoint collectFragments_loop (fuel : nat) (b : Reader) (delim : byte)
  (full : list byte)
  : option ((list byte * option error) * Reader) :=
  match fuel with
  | O => None
  | S fuel' =>
      match ReadSlice b delim with
      | None => None
      | Some ((frag, None), b') => Some ((full ++ frag, None), b')
      | Some ((frag, Some e), b') =>
          if is_sentinel e ErrBufferFull
          then collectFragments_loop fuel' b' delim (full ++ frag)
          else Some ((full ++ frag, Some e), b')
      end
  end.

(** [b.ReadString(delim)], as bytes. A full buffer takes at least one byte
    from the limited reader, so its budget bounds the number of rounds. *)
Definition ReadString (b : Reader) (delim : byte)
  : option ((list byte * option error) * Reader) :=
  collectFragments_loop (S (S (Z.to_nat (internal.N (rd b))))) b delim [].

End bufio.

Module internal_pool.
(** [internal.GetReader(rd)]: a reader of the pool, reset to [rd]. *)
Definition GetReader (r : internal.LimitedReader) : bufio.Reader :=
  bufio.Reset internal.ReaderPool_size r.
End internal_pool.

(* ================================================================== *)
(** ** Package net: IP addresses and address parsing *)

Module net.

Definition ErrClosed : error :=
  errors_New "net.ErrClosed" "use of closed network connection".

(** [net.IP] is a byte slice; [None] is the [nil] slice. *)
Definition IP : Type := option (list byte).

Definition IPv4len : nat := 4.
Definition IPv6len : nat := 16.

Definition v4InV6Prefix : list byte :=
  [x00; x00; x00; x00; x00; x00; x00; x00; x00; x00; xff; xff].

Definition bytes_eqb (a b : list byte) : bool :=
  if list_eq_dec Byte.byte_eq_dec a b then true else false.

Definition IP_len (ip : IP) : nat :=
  match ip with
  | Some l => List.length l
  | None => O
  end.

Definition IP_bytes (ip : IP) : list byte :=
  match ip with
  | Some l => l
  | None => []
  end.

(** [net.IPv4(a, b, c, d)]: the 16-byte form of an IPv4 address. *)
Definition IPv4 (a b c d : byte) : IP := Some (v4InV6Prefix ++ [a; b; c; d]).

Definition IPv4zero : IP := IPv4 x00 x00 x00 x00.

(** [ip.To4()]. *)
Definition To4 (ip : IP) : IP :=
  let l := IP_bytes ip in
  if (IP_len ip =? IPv4len)%nat then ip
  else if ((IP_len ip =? IPv6len)%nat
           && bytes_eqb (firstn 10 l) (repeat x00 10)
           && Byte.eqb (nth 10 l x00) xff
           && Byte.eqb (nth 11 l x00) xff)%bool
       then Some (skipn 12 l)
       else None.

(** [ip.To16()]. *)
Definition To16 (ip : IP) : IP :=
  let l := IP_bytes ip in
  if (IP_len ip =? IPv4len)%nat
  then IPv4 (nth 0 l x00) (nth 1 l x00) (nth 2 l x00) (nth 3 l x00)
  else if (IP_len ip =? IPv6len)%nat then ip
       else None.

(** [ip.Equal(x)]. *)
Definition Equal (ip x : IP) : bool :=
  let a := IP_bytes ip in
  let b := IP_bytes x in
  if (IP_len ip =? IP_len x)%nat then bytes_eqb a b
  else if ((IP_len ip =? IPv4len)%nat && (IP_len x =? IPv6len)%nat)%bool
       then (bytes_eqb (firstn 12 b) v4InV6Prefix
             && bytes_eqb a (skipn 12 b))%bool
       else if ((IP_len ip =? IPv6len)%nat && (IP_len x =? IPv4len)%nat)%bool
            then (bytes_eqb (firstn 12 a) v4InV6Prefix
                  && bytes_eqb (skipn 12 a) b)%bool
            else false.

(** *** [net.ParseIP], after [netip.ParseAddr] *)

Definition digit_val (c : ascii) : option Z :=
  let n := Z.of_N (N_of_ascii c) in
  if (48 <=? n) && (n <=? 57) then Some (n - 48) else None.

Definition hex_val (c : ascii) : option Z :=
  let n := Z.of_N (N_of_ascii c) in
  if (48 <=? n) && (n <=? 57) then Some (n - 48)
  else if (97 <=? n) && (n <=? 102) then Some (n - 97 + 10)
  else if (65 <=? n) && (n <=? 70) then Some (n - 65 + 10)
  else None.

(** The loop of [parseIPv4Fields]: [first] says that no character has been
    read yet, [prevdot] that the previous character was a dot; [fields]
    are the octets closed so far. *)
Fixpoint parseIPv4Fields_loop (s : string) (first prevdot : bool)
  (val digLen : Z) (fields : list byte) : option (list byte) :=
  match s with
  | EmptyString =>
      if (List.length fields <? 3)%nat then None
      else Some (fields ++ [byte_of_Z val])
  | String c s' =>
      match digit_val c with
      | Some d =>
          if (digLen =? 1) && (val =? 0) then None
          else if val * 10 + d >? 255 then None
          else parseIPv4Fields_loop s' false false (val * 10 + d)
                 (digLen + 1) fields
      | None =>
          if Ascii.eqb c "."%char then
            if first || prevdot
               || match s' with EmptyString => true | _ => false end
            then None
            else if (List.length fields =? 3)%nat then None
            else parseIPv4Fields_loop s' false true 0 0
                   (fields ++ [byte_of_Z val])
          else None
      end
  end.

Definition parseIPv4Fields (s : string) : option (list byte) :=
  parseIPv4Fields_loop s true false 0 0 [].

(** One group of hexadecimal digits: the number of digits, the value and
    the rest of the string. *)
Fixpoint hexGroup (s : string) (off : nat) (acc : Z)
  : option (nat * Z * string) :=
  match s with
  | EmptyString => Some (off, acc, s)
  | String c s' =>
      match hex_val c with
      | Some d =>
          if (3 <? off)%nat then None
          else if acc * 16 + d >? 65535 then None
          else hexGroup s' (S off) (acc * 16 + d)
      | None => Some (off, acc, s)
      end
  end.

(** The loop of [parseIPv6]: [ip] holds the [i] bytes written so far. *)
Fixpoint parseIPv6_loop (fuel : nat) (s : string) (ip : list byte)
  (ellipsis : option nat) : option (list byte * option nat * string) :=
  match fuel with
  | O => Some (ip, ellipsis, s)
  | S fuel' =>
      if (16 <=? List.length ip)%nat then Some (ip, ellipsis, s)
      else
        match hexGroup s 0 0 with
        | None => None
        | Some (O, _, _) => None
        | Some (_, acc, String "."%char _) =>
            if match ellipsis with None => true | Some _ => false end
               && negb (List.length ip =? 12)%nat
            then None
            else if (16 <? List.length ip + 4)%nat then None
            else match parseIPv4Fields s with
                 | Some f => Some (ip ++ f, ellipsis, EmptyString)
                 | None => None
                 end
        | Some (_, acc, rest) =>
            let ip' := ip ++ [byte_of_Z (Z.shiftr acc 8); byte_of_Z acc] in
            match rest with
            | EmptyString => Some (ip', ellipsis, EmptyString)
            | String ":"%char EmptyString => None
            | String ":"%char (String ":"%char rest') =>
                match ellipsis with
                | Some _ => None
                | None =>
                    match rest' with
                    | EmptyString =>
                        Some (ip', Some (List.length ip'), EmptyString)
                    | _ => parseIPv6_loop fuel' rest' ip'
                             (Some (List.length ip'))
                    end
                end
            | String ":"%char rest' => parseIPv6_loop fuel' rest' ip' ellipsis
            | _ => None
            end
        end
  end.

Fixpoint has_char (c : ascii) (s : string) : bool :=
  match s with
  | EmptyString => false
  | String x s' => Ascii.eqb x c || has_char c s'
  end.

(** [parseIPv6], for strings without a zone (an address with a zone is
    refused by [net.ParseIP]). *)
Definition parseIPv6 (s : string) : option (list byte) :=
  if has_char "%"%char s then None
  else
    let '(s1, ellipsis0) :=
      match s with
      | String ":"%char (String ":"%char s') => (s', Some O)
      | _ => (s, None)
      end in
    match ellipsis0, s1 with
    | Some _, EmptyString => Some (repeat x00 16)
    | _, _ =>
        match parseIPv6_loop 9 s1 [] ellipsis0 with
        | None => None
        | Some (ip, ellipsis, rest) =>
            match rest with
            | String _ _ => None
            | EmptyString =>
                if (List.length ip <? 16)%nat then
                  match ellipsis with
                  | None => None
                  | Some e =>
                      Some (firstn e ip
                              ++ repeat x00 (16 - List.length ip)
                              ++ skipn e ip)
                  end
                else match ellipsis with
                     | Some _ => None
                     | None => Some ip
                     end
            end
        end
    end.

(** [netip.ParseAddr] followed by [As16]: the first of ['.'], [':'] and
    ['%'] in the string decides how it is parsed. *)
Fixpoint ParseAddr_scan (whole s : string) : option (list byte) :=
  match s with
  | EmptyString => None
  | String c s' =>
      if Ascii.eqb c "."%char then
        match parseIPv4Fields whole with
        | Some f => Some (v4InV6Prefix ++ f)
        | None => None
        end
      else if Ascii.eqb c ":"%char then parseIPv6 whole
      else if Ascii.eqb c "%"%char then None
      else ParseAddr_scan whole s'
  end.

(** [net.ParseIP(s)]: a 16-byte address or [nil]. *)
Definition ParseIP (s : string) : IP := ParseAddr_scan s s.

(** *** [net.SplitHostPort] and [net.LookupPort] *)

(** [&AddrError{Err: why, Addr: addr}] *)
Definition AddrError (why addr : string) : error :=
  errors_New "net.AddrError" ("address " ++ addr ++ ": " ++ why)%string.

Fixpoint IndexByteString (s : string) (c : ascii) : option nat :=
  match s with
  | EmptyString => None
  | String x s' =>
      if Ascii.eqb x c then Some O
      else match IndexByteString s' c with
           | Some i => Some (S i)
           | None => None
           end
  end.

Fixpoint LastIndexByteString (s : string) (c : ascii) : option nat :=
  match s with
  | EmptyString => None
  | String x s' =>
      match LastIndexByteString s' c with
      | Some i => Some (S i)
      | None => if Ascii.eqb x c then Some O else None
      end
  end.

(** [s[i:]] *)
Definition string_from (s : string) (i : nat) : string :=
  substring i (String.length s - i) s.

Definition has_index (o : option nat) : bool :=
  match o with
  | Some _ => true
  | None => false
  end.

Definition SplitHostPort (hostport : string) : (string * string) + error :=
  let missingPort := "missing port in address" in
  let tooManyColons := "too many colons in address" in
  (* The port starts after the last colon. *)
  match LastIndexByteString hostport ":"%char with
  | None => inr (AddrError missingPort hostport)
  | Some i =>
      let checked : (string * nat * nat) + error :=
        match hostport with
        | String "["%char _ =>
            (* Expect the first ']' just before the last ':'. *)
            match IndexByteString hostport "]"%char with
            | None => inr (AddrError "missing ']' in address" hostport)
            | Some e =>
                if (S e =? String.length hostport)%nat
                then inr (AddrError missingPort hostport)
                else if (S e =? i)%nat
                then inl (substring 1 (e - 1) hostport, 1%nat, S e)
                else
                  match String.get (S e) hostport with
                  | Some ":"%char => inr (AddrError tooManyColons hostport)
                  | _ => inr (AddrError missingPort hostport)
                  end
            end
        | _ =>
            let host := substring 0 i hostport in
            if has_index (IndexByteString host ":"%char)
            then inr (AddrError tooManyColons hostport)
            else inl (host, O, O)
        end in
      match checked with
      | inr e => inr e
      | inl (host, j, k) =>
          if has_index (IndexByteString (string_from hostport j) "["%char)
          then inr (AddrError "unexpected '[' in address" hostport)
          else if has_index
                    (IndexByteString (string_from hostport k) "]"%char)
          then inr (AddrError "unexpected ']' in address" hostport)
          else inl (host, string_from hostport (S i))
      end
  end.

(** The digits of [parsePort], accumulated in a [uint32] that saturates;
    [None] when a character is not a digit (the service has to be looked
    up by name). *)
Fixpoint parsePort_digits (s : string) (n : Z) : option Z :=
  let max := 4294967295 in
  let cutoff := 1073741824 in
  match s with
  | EmptyString => Some n
  | String c s' =>
      match digit_val c with
      | None => None
      | Some d =>
          if n >=? cutoff then Some max
          else
            let n10 := (n * 10) mod 4294967296 in
            let nn := (n10 + d) mod 4294967296 in
            if nn <? n10 then Some max else parsePort_digits s' nn
      end
  end.

Definition parsePort (service : string) : option Z :=
  let cutoff := 1073741824 in
  match service with
  | EmptyString => Some 0
  | String c rest =>
      let '(neg, digits) :=
        if Ascii.eqb c "+"%char then (false, rest)
        else if Ascii.eqb c "-"%char then (true, rest)
        else (false, service) in
      match parsePort_digits digits 0 with
      | None => None
      | Some n =>
          let port :=
            if negb neg && (n >=? cutoff) then cutoff - 1
            else if neg && (n >? cutoff) then cutoff
            else n in
          Some (if neg then - port else port)
      end
  end.

(** [net.LookupPort(network, service)], given the services database of
    the host for the names that are not numbers. *)
Definition LookupPort (services : string -> string -> Z + error)
  (network service : string) : Z + error :=
  let looked :=
    match parsePort service with
    | Some port => inl port
    | None => services network service
    end in
  match looked with
  | inr e => inr e
  | inl port =>
      if (0 >? port) || (port >? 65535)
      then inr (AddrError "invalid port" service)
      else inl port
  end.

(** [&DNSError{Err: why, Name: name, IsNotFound: true}], whose message is
    "lookup <name>: <why>". *)
Definition DNSError (why name : string) : error :=
  errors_New "net.DNSError" ("lookup " ++ name ++ ": " ++ why)%string.

(** The services database of a host that knows no service by name: the
    lookup of [network/service] fails with "unknown port". *)
Definition no_services (network service : string) : Z + error :=
  inr (DNSError "unknown port" (network ++ "/" ++ service)%string).

End net.

(* ================================================================== *)
(** ** Decoding with a receiver

    Every [ReadFrom] of the repository has the same shape: it reads from
    [src] piece by piece, adds what it read to a running total, stores
    fields in its receiver as it goes and returns the total with the first
    error. [Dec R A] threads the receiver, the total and the source; an
    error ends the decoding and leaves the three as they are. *)

Module dec.

Record State (R : Type) : Type := mkState {
  recv : R;
  total : Z;
  src : io.Stream
}.

Definition Dec (R A : Type) : Type := State R -> (A + error) * State R.

Definition ret {R A} (a : A) : Dec R A := fun st => (inl a, st).

Definition bind {R A B} (m : Dec R A) (k : A -> Dec R B) : Dec R B :=
  fun st =>
    match m st with
    | (inl a, st') => k a st'
    | (inr e, st') => (inr e, st')
    end.

(** [n, err := io.ReadFull(src, buf); total += n; if err != nil { return }] *)
Definition readFull {R} (n : nat) : Dec R (list byte) :=
  fun st =>
    let '((bs, e), s') := io.ReadFull (src st) n in
    let st' := {| recv := recv st; total := total st + len bs; src := s' |} in
    match e with
    | Some err => (inr err, st')
    | None => (inl bs, st')
    end.

(** [data, err := io.ReadAll(src); total += len(data); if err != nil ...] *)
Definition readAll {R} : Dec R (list byte) :=
  fun st =>
    let '((bs, e), s') := io.ReadAll (src st) in
    let st' := {| recv := recv st; total := total st + len bs; src := s' |} in
    match e with
    | Some err => (inr err, st')
    | None => (inl bs, st')
    end.

Definition get {R} : Dec R R := fun st => (inl (recv st), st).

Definition modify {R} (f : R -> R) : Dec R unit :=
  fun st =>
    (inl tt, {| recv := f (recv st); total := total st; src := src st |}).

(** [return total, err] *)
Definition finish {R} (e : option error) : Dec R unit :=
  fun st =>
    match e with
    | Some err => (inr err, st)
    | None => (inl tt, st)
    end.

(** What a [ReadFrom] leaves behind: the count and error it returns, its
    receiver and the source. *)
Record Result (R : Type) : Type := mkResult {
  n : Z;
  err : option error;
  self : R;
  rest : io.Stream
}.

Definition run {R A} (m : Dec R A) (r : R) (s : io.Stream) : Result R :=
  let '(res, st) := m {| recv := r; total := 0; src := s |} in
  {| n := total st;
     err := match res with inl _ => None | inr e => Some e end;
     self := recv st;
     rest := src st |}.

End dec.

Notation "x <- m ;; k" := (dec.bind m (fun x => k))
  (at level 61, m at next level, right associativity).
Notation "m ;;; k" := (dec.bind m (fun _ => k))
  (at level 61, right associativity).

(** A [[4]byte] array. *)
Record Array4 : Type := mkArray4 { a0 : byte; a1 : byte; a2 : byte; a3 : byte }.

Definition Array4_slice (a : Array4) : list byte := [a0 a; a1 a; a2 a; a3 a].

(** [copy(a[:], src)]: as many bytes as [src] has, at most four. *)
Definition copy4 (a : Array4) (src : list byte) : Array4 :=
  match src with
  | [] => a
  | [x] => mkArray4 x (a1 a) (a2 a) (a3 a)
  | [x; y] => mkArray4 x y (a2 a) (a3 a)
  | [x; y; z] => mkArray4 x y z (a3 a)
  | x :: y :: z :: w :: _ => mkArray4 x y z w
  end.

Definition Array4_zero : Array4 := mkArray4 x00 x00 x00 x00.

(** [s[i:j]] on a byte slice. *)
Definition slice (l : list byte) (i j : nat) : list byte :=
  firstn (j - i) (skipn i l).

(** [hdr[i]], for an index inside the array. *)
Definition at_ (l : list byte) (i : nat) : byte := nth i l x00.

(* ================================================================== *)
(** ** Package socks4 *)

Module socks4.

Definition SocksVersion : byte := x04.
Definition CmdConnect : byte := x01.
Definition CmdBind : byte := x02.
Definition DefaultMaxUserIDLen : Z := 256.
Definition DefaultMaxDomainLen : Z := 256.
Definition RepGranted : byte := x5a.
Definition RepRejected : byte := x5b.
Definition RepIdentFailed : byte := x5c.
Definition RepUserIDMismatch : byte := x5d.
Definition ReqGranted : byte := RepGranted.
Definition ReqRejected : byte := RepRejected.

Definition ErrInvalidVersion : error :=
  errors_New "socks4.ErrInvalidVersion" "invalid SOCKS version (must be 4)".
Definition ErrInvalidCommand : error :=
  errors_New "socks4.ErrInvalidCommand"
    "invalid command (must be 1=CONNECT or 2=BIND)".
Definition ErrInvalidIP : error :=
  errors_New "socks4.ErrInvalidIP" "invalid IP (must be IPv4)".
Definition ErrInvalidDomain : error :=
  errors_New "socks4.ErrInvalidDomain" "invalid SOCKS4a domain usage".
Definition ErrInvalidResponseVersion : error :=
  errors_New "socks4.ErrInvalidResponseVersion"
    "invalid SOCKS4 response version (must be 0x00)".
Definition ErrInvalidResponseCode : error :=
  errors_New "socks4.ErrInvalidResponseCode" "invalid SOCKS4 response code".

(** [writeCString(dst, s)] *)
Definition writeCString {W} `{io.Writer W} (dst : W) (s : string)
  : (Z * option error) * W :=
  let '((total, err), dst) :=
    if negb (len_string s =? 0) then
      let '((n, err), dst) := io.WriteString dst s in (((0 + n), err), dst)
    else ((0, None), dst) in
  match err with
  | Some e => ((total, Some e), dst)
  | None =>
      let '((n, err), dst) := io.Write dst [x00] in
      ((total + n, err), dst)
  end.

Module Request.

(** A SOCKS4 or SOCKS4a CONNECT/BIND request. *)
Record t : Type := mk {
  Version : byte;
  Command : byte;
  Port : Z;
  IP : Array4;
  UserID : string;
  Domain : string
}.

(** The zero value, [var r Request]. *)
Definition zero : t := mk x00 x00 0 Array4_zero "" "".

Definition IsSOCKS4a (r : t) : bool :=
  let ip : net.IP := Some (Array4_slice (IP r)) in
  match ip with
  | None => false
  | Some l =>
      Byte.eqb (at_ l 0) x00 && Byte.eqb (at_ l 1) x00
      && Byte.eqb (at_ l 2) x00 && negb (Byte.eqb (at_ l 3) x00)
  end.

Definition IsSOCKS4 (r : t) : bool :=
  let ip : net.IP := Some (Array4_slice (IP r)) in
  match ip with
  | None => false
  | Some l =>
      negb (Byte.eqb (at_ l 0) x00 && Byte.eqb (at_ l 1) x00
            && Byte.eqb (at_ l 2) x00 && negb (Byte.eqb (at_ l 3) x00))
  end.

Definition GetIP (r : t) : net.IP := net.To4 (Some (Array4_slice (IP r))).

Definition Init (r : t) (version command : byte) (port : Z) (ip : net.IP)
  (userID domain : string) : t :=
  {| Version := version;
     Command := command;
     Port := port;
     IP := copy4 (IP r) (net.IP_bytes (net.To4 ip));
     UserID := userID;
     Domain := domain |}.

Definition ValidateHeader (r : t) : option error :=
  if negb (Byte.eqb (Version r) SocksVersion) then Some ErrInvalidVersion
  else if negb (Byte.eqb (Command r) CmdConnect)
          && negb (Byte.eqb (Command r) CmdBind)
  then Some ErrInvalidCommand
  else
    let ip := net.To4 (Some (Array4_slice (IP r))) in
    match ip with
    | None => Some ErrInvalidIP
    | Some _ =>
        (* 0.0.0.0 is invalid for CONNECT, valid for BIND *)
        if net.Equal ip net.IPv4zero && Byte.eqb (Command r) CmdConnect
        then Some ErrInvalidIP
        else None
    end.

Definition ValidateDomain (r : t) : option error :=
  if IsSOCKS4a r then
    if len_string (Domain r) =? 0 then Some ErrInvalidDomain else None
  else
    if len_string (Domain r) >? 0 then Some ErrInvalidDomain else None.

Definition Validate (r : t) : option error :=
  match ValidateHeader r with
  | Some e => Some e
  | None => ValidateDomain r
  end.

Definition ReadHeaderFrom (r : t) (src : io.Stream) : dec.Result t :=
  dec.run
    (hdr <- dec.readFull 8 ;;
     dec.modify (fun r =>
       {| Version := at_ hdr 0;
          Command := at_ hdr 1;
          Port := binary.Uint16 (at_ hdr 2) (at_ hdr 3);
          IP := copy4 (IP r) (slice hdr 4 8);
          UserID := UserID r;
          Domain := Domain r |}) ;;;
     r <- dec.get ;;
     dec.finish (ValidateHeader r))
    r src.

(** [s[:len(s)-1]] on what [ReadString] returned. *)
Definition trim_terminator (s : list byte) : string :=
  string_of_bytes (drop_last s).

(** [ReadUserIDAndDomain]. The scanner [rdr] reads through the limited
    reader [lr], which is re-initialised for the domain while the bytes
    that [rdr] has buffered stay in it. The result is [None] only if the
    scanner's loops run out of fuel. The limits are [int64] values, and
    so are [maxUserIDLen+1] and [maxDomainLen+1]. *)
Definition ReadUserIDAndDomain (r : t) (src : io.Stream)
  (maxUserIDLen maxDomainLen : Z) : option (dec.Result t) :=
  (* read USERID *)
  let lr := internal.LimitedReader_Init src (int64 (maxUserIDLen + 1)) in
  let rdr := internal_pool.GetReader lr in
  match bufio.ReadString rdr x00 with
  | None => None
  | Some ((userID, err), rdr) =>
      let total := 0 + len userID in
      let src := internal.R (bufio.rd rdr) in
      match err with
      | Some e => Some (dec.mkResult total (Some e) r src)
      | None =>
          let r := {| Version := Version r; Command := Command r;
                      Port := Port r; IP := IP r;
                      UserID := trim_terminator userID;
                      Domain := Domain r |} in
          (* read DOMAIN *)
          if IsSOCKS4a r then
            let lr :=
              internal.LimitedReader_Init src (int64 (maxDomainLen + 1)) in
            let rdr := {| bufio.size := bufio.size rdr;
                          bufio.buf := bufio.buf rdr;
                          bufio.rd := lr;
                          bufio.err := bufio.err rdr |} in
            match bufio.ReadString rdr x00 with
            | None => None
            | Some ((domain, err), rdr) =>
                let total := total + len domain in
                let src := internal.R (bufio.rd rdr) in
                match err with
                | Some e => Some (dec.mkResult total (Some e) r src)
                | None =>
                    let r := {| Version := Version r; Command := Command r;
                                Port := Port r; IP := IP r;
                                UserID := UserID r;
                                Domain := trim_terminator domain |} in
                    Some (dec.mkResult total None r src)
                end
            end
          else Some (dec.mkResult total None r src)
      end
  end.

Definition ReadFromWithLimits (r : t) (src : io.Stream)
  (maxUserIDLen maxDomainLen : Z) : option (dec.Result t) :=
  let h := ReadHeaderFrom r src in
  match dec.err h with
  | Some e => Some h
  | None =>
      match ReadUserIDAndDomain (dec.self h) (dec.rest h)
              maxUserIDLen maxDomainLen with
      | None => None
      | Some u =>
          Some (dec.mkResult (dec.n h + dec.n u) (dec.err u)
                  (dec.self u) (dec.rest u))
      end
  end.

Definition ReadFrom (r : t) (src : io.Stream) : option (dec.Result t) :=
  ReadFromWithLimits r src DefaultMaxUserIDLen DefaultMaxDomainLen.

Definition WriteTo {W} `{io.Writer W} (r : t) (dst : W)
  : (Z * option error) * W :=
  (* write header *)
  let hdr := [Version r; Command r] ++ binary.PutUint16 (Port r)
             ++ Array4_slice (IP r) in
  let '((n, err), dst) := io.Write dst hdr in
  let total := 0 + n in
  match err with
  | Some e => ((total, Some e), dst)
  | None =>
      (* write USERID *)
      let '((ns, err), dst) := writeCString dst (UserID r) in
      let total := total + ns in
      match err with
      | Some e => ((total, Some e), dst)
      | None =>
          (* write DOMAIN *)
          if IsSOCKS4a r then
            let '((ns, err), dst) := writeCString dst (Domain r) in
            let total := total + ns in
            match err with
            | Some e => ((total, Some e), dst)
            | None => ((total, None), dst)
            end
          else ((total, None), dst)
      end
  end.

End Request.

Module Response.

(** A SOCKS4 reply. *)
Record t : Type := mk {
  Version : byte;
  Code : byte;
  Port : Z;
  IP : Array4
}.

Definition zero : t := mk x00 x00 0 Array4_zero.

Definition Init (r : t) (version code : byte) (port : Z) (ip : net.IP) : t :=
  {| Version := version;
     Code := code;
     Port := port;
     IP := copy4 (IP r) (net.IP_bytes (net.To4 ip)) |}.

Definition Validate (r : t) : option error :=
  if negb (Byte.eqb (Version r) x00) then Some ErrInvalidResponseVersion
  else if Byte.eqb (Code r) RepGranted || Byte.eqb (Code r) RepRejected
          || Byte.eqb (Code r) RepIdentFailed
          || Byte.eqb (Code r) RepUserIDMismatch
  then None
  else Some ErrInvalidResponseCode.

Definition IsGranted (r : t) : bool := Byte.eqb (Code r) RepGranted.

Definition GetIP (r : t) : net.IP := net.To4 (Some (Array4_slice (IP r))).

Definition ReadFrom (r : t) (src : io.Stream) : dec.Result t :=
  dec.run
    (hdr <- dec.readFull 8 ;;
     dec.modify (fun r =>
       {| Version := at_ hdr 0;
          Code := at_ hdr 1;
          Port := binary.Uint16 (at_ hdr 2) (at_ hdr 3);
          IP := copy4 (IP r) (slice hdr 4 8) |}) ;;;
     r <- dec.get ;;
     dec.finish (Validate r))
    r src.

Definition WriteTo {W} `{io.Writer W} (r : t) (dst : W)
  : (Z * option error) * W :=
  let hdr := [Version r; Code r] ++ binary.PutUint16 (Port r)
             ++ Array4_slice (IP r) in
  io.Write dst hdr.

End Response.

(** *** Connections

    A [net.Conn] as the dialer and the listener see it: the bytes the peer
    will deliver, a writer for the bytes sent to the peer, and whether
    [Close] has been called. *)
Record Conn (W : Type) : Type := mkConn {
  inbound : io.Stream;
  outbound : W;
  closed : bool
}.

Arguments mkConn {W} _ _ _.
Arguments inbound {W} _.
Arguments outbound {W} _.
Arguments closed {W} _.

#[global] Instance Conn_Writer {W} `{io.Writer W} : io.Writer (Conn W) :=
  fun c p =>
    if closed c then ((0, Some net.ErrClosed), c)
    else
      let '(res, w) := io.Write (outbound c) p in
      (res, mkConn (inbound c) w (closed c)).

(** The connection as an [io.Reader]. *)
Definition Conn_Reader {W} (c : Conn W) : io.Stream :=
  if closed c then io.End net.ErrClosed else inbound c.

(** [x.ReadFrom(conn)] for a decoder [f]: what [f] returns and the
    connection afterwards. *)
Definition Conn_ReadFrom {W R} (f : io.Stream -> dec.Result R) (c : Conn W)
  : dec.Result R * Conn W :=
  let res := f (Conn_Reader c) in
  (res, if closed c then c else mkConn (dec.rest res) (outbound c) false).

Definition Conn_Close {W} (c : Conn W) : Conn W :=
  mkConn (inbound c) (outbound c) true.

(** *** The dialer (dial.go) *)

Section Dial.

Variable W : Type.
Context `{io.Writer W}.

(** The environment of the dialer: [net.Dialer.DialContext] and the
    address functions of package [net]. *)
Variable DefaultDialer : string -> string -> Conn W + error.
Variable SplitHostPort : string -> (string * string) + error.
Variable LookupPort : string -> string -> Z + error.
Variable ParseIP : string -> net.IP.

Definition DialFunc : Type := string -> string -> Conn W + error.

Record Dialer : Type := mkDialer {
  ProxyAddr : string;
  UserID : string;
  dialFunc : option DialFunc   (* the field DialFunc; None is nil *)
}.

Definition NewDialer (proxyAddr userID : string) (f : option DialFunc)
  : Dialer :=
  mkDialer proxyAddr userID f.

(** [parsePort] *)
Definition parsePort (p : string) : Z + error :=
  match LookupPort "tcp" p with
  | inr err => inr err
  | inl n => inl (uint16 n)
  end.

(** The request that [DialContext] and [BindContext] build for a target
    [host] and [port]. *)
Definition buildRequest (command : byte) (port : Z) (host userID : string)
  : Request.t :=
  let req := Request.Init Request.zero SocksVersion command port
               (ParseIP host) userID "" in
  match ParseIP host with
  | None =>
      (* SOCKS4a fallback *)
      {| Request.Version := Request.Version req;
         Request.Command := Request.Command req;
         Request.Port := Request.Port req;
         Request.IP := copy4 (Request.IP req) [x00; x00; x00; x01];
         Request.UserID := Request.UserID req;
         Request.Domain := host |}
  | Some _ => req
  end.

(** What a call leaves behind: the connection handed to the caller ([None]
    is [nil]), the error, and the proxy connection as the call left it
    ([None] if it was never opened). *)
Record DialResult : Type := mkDialResult {
  ret_conn : option (Conn W);
  ret_err : option error;
  proxy : option (Conn W)
}.

Definition fail_closed (proxyConn : Conn W) (e : error) : DialResult :=
  let proxyConn := Conn_Close proxyConn in
  mkDialResult None (Some e) (Some proxyConn).

(** [DialContext], for a context that is not cancelled during the call. *)
Definition DialContext (d : Dialer) (network address : string)
  : DialResult :=
  let dial := match dialFunc d with
              | Some f => f
              | None => DefaultDialer
              end in
  (* Connect to proxy *)
  match dial network (ProxyAddr d) with
  | inr err =>
      mkDialResult None
        (Some (fmt_Errorf "connect to proxy: %w" [ArgError err])) None
  | inl proxyConn =>
      (* Parse target host/port *)
      match SplitHostPort address with
      | inr err =>
          fail_closed proxyConn
            (fmt_Errorf "invalid target address: %w" [ArgError err])
      | inl (host, portStr) =>
          match parsePort portStr with
          | inr err =>
              fail_closed proxyConn
                (fmt_Errorf "invalid target port %q: %w"
                   [ArgString portStr; ArgError err])
          | inl port =>
              (* Build SOCKS4 request *)
              let req := buildRequest CmdConnect port host (UserID d) in
              (* Send request *)
              let '((_, err), proxyConn) := Request.WriteTo req proxyConn in
              match err with
              | Some err =>
                  fail_closed proxyConn
                    (fmt_Errorf "send request: %w" [ArgError err])
              | None =>
                  (* Read response *)
                  let '(res, proxyConn) :=
                    Conn_ReadFrom (Response.ReadFrom Response.zero)
                      proxyConn in
                  match dec.err res with
                  | Some err =>
                      fail_closed proxyConn
                        (fmt_Errorf "read response: %w" [ArgError err])
                  | None =>
                      let resp := dec.self res in
                      if negb (Response.IsGranted resp) then
                        fail_closed proxyConn
                          (fmt_Errorf "proxy rejected request (code 0x%02x)"
                             [ArgByte (Response.Code resp)])
                      else
                        (* Connection established *)
                        mkDialResult (Some proxyConn) None (Some proxyConn)
                  end
              end
          end
      end
  end.

(** [net.TCPAddr] *)
Record TCPAddr : Type := mkTCPAddr { TCP_IP : net.IP; TCP_Port : Z }.

(** The synchronous part of [BindContext]: up to the first response. On
    success the caller also gets the bind address and the channel
    [readyCh], on which the second phase reports. *)
Record BindResult : Type := mkBindResult {
  bind_conn : option (Conn W);
  bind_addr : option TCPAddr;
  bind_ready : bool;            (* is readyCh non-nil *)
  bind_err : option error;
  bind_proxy : option (Conn W)
}.

Definition bind_fail_closed (proxyConn : Conn W) (e : error) : BindResult :=
  let proxyConn := Conn_Close proxyConn in
  mkBindResult None None false (Some e) (Some proxyConn).

Definition BindContext (d : Dialer) (network address : string)
  : BindResult :=
  let dial := match dialFunc d with
              | Some f => f
              | None => DefaultDialer
              end in
  (* Connect to proxy *)
  match dial network (ProxyAddr d) with
  | inr err =>
      mkBindResult None None false
        (Some (fmt_Errorf "connect to proxy: %w" [ArgError err])) None
  | inl proxyConn =>
      (* Parse target host:port *)
      match SplitHostPort address with
      | inr err =>
          bind_fail_closed proxyConn
            (fmt_Errorf "invalid target address: %w" [ArgError err])
      | inl (host, portStr) =>
          match parsePort portStr with
          | inr err =>
              bind_fail_closed proxyConn
                (fmt_Errorf "invalid target port %q: %w"
                   [ArgString portStr; ArgError err])
          | inl port =>
              (* Build SOCKS4 BIND request *)
              let req := buildRequest CmdBind port host (UserID d) in
              (* Send BIND request *)
              let '((_, err), proxyConn) := Request.WriteTo req proxyConn in
              match err with
              | Some err =>
                  bind_fail_closed proxyConn
                    (fmt_Errorf "send BIND request: %w" [ArgError err])
              | None =>
                  (* Read first response (proxy bind address) *)
                  let '(res, proxyConn) :=
                    Conn_ReadFrom (Response.ReadFrom Response.zero)
                      proxyConn in
                  match dec.err res with
                  | Some err =>
                      bind_fail_closed proxyConn
                        (fmt_Errorf "read first BIND response: %w"
                           [ArgError err])
                  | None =>
                      let resp1 := dec.self res in
                      if negb (Response.IsGranted resp1) then
                        bind_fail_closed proxyConn
                          (fmt_Errorf
                             "proxy rejected BIND setup (code 0x%02x)"
                             [ArgByte (Response.Code resp1)])
                      else
                        let bindAddr :=
                          mkTCPAddr (Response.GetIP resp1)
                            (Response.Port resp1) in
                        (* Connection established *)
                        mkBindResult (Some proxyConn) (Some bindAddr) true
                          None (Some proxyConn)
                  end
              end
          end
      end
  end.

(** The body of the goroutine that [BindContext] starts before it returns:
    the values it sends on [readyCh], in program order, and the connection
    afterwards. The deferred [close(readyCh)] follows the last send. *)
Definition bindReady (proxyConn : Conn W)
  : list (option error) * Conn W :=
  (* Wait for second response (remote host connected) *)
  let '(res, proxyConn) :=
    Conn_ReadFrom (Response.ReadFrom Response.zero) proxyConn in
  let resp2 := dec.self res in
  let sends1 :=
    match dec.err res with
    | Some err =>
        [Some (fmt_Errorf "read second BIND response: %w" [ArgError err])]
    | None => []
    end in
  let sends2 :=
    if negb (Response.IsGranted resp2) then
      [Some (fmt_Errorf "proxy rejected BIND finalization (code 0x%02x)"
               [ArgByte (Response.Code resp2)])]
    else [] in
  (sends1 ++ sends2 ++ [None], proxyConn).

End Dial.

(** *** The concurrent phase of BIND

    After the first response [BindContext] runs three tasks next to its
    caller: the watcher started right after the proxy connection is opened
    ([select] on [ctx.Done()] and [exitCh]), the function itself, whose
    deferred [close(exitCh)] runs when it returns, and the goroutine that
    reads the second response and reports on [readyCh], a channel of
    capacity one. The interleavings are the schedules of [Action]s. *)

Inductive WatcherPC : Type :=
| WWaiting          (* blocked in the select *)
| WDone.            (* took one of the two cases *)

Inductive ReaderPC : Type :=
| RNotStarted
| RReading                               (* in resp2.ReadFrom(proxyConn) *)
| RSending (vals : list (option error))  (* the sends still to be done *)
| RExited.                               (* readyCh closed by the defer *)

(** What the caller gets from [<-readyCh]: a value that was sent, or the
    zero value of a closed channel. *)
Inductive Received : Type :=
| Value (v : option error)
| ChanClosed.

Record BindState : Type := mkBindState {
  ctxDone : bool;               (* the context has been cancelled *)
  exitCh_closed : bool;         (* BindContext has returned *)
  watcher : WatcherPC;
  arrived : list byte;          (* unread bytes received from the proxy *)
  peerClosed : bool;            (* the proxy has closed its side *)
  connClosed : bool;            (* proxyConn.Close() has been called *)
  reader : ReaderPC;
  readyCh : list (option error);
  readyCh_closed : bool;
  received : list Received
}.

Definition readyCh_cap : nat := 1.

Inductive Action : Type :=
| Cancel              (* the environment cancels ctx *)
| Spawn               (* go func() { ... } *)
| Return              (* return proxyConn, bindAddr, readyCh, nil *)
| WatcherOnCtx        (* case <-ctx.Done(): proxyConn.Close() *)
| WatcherOnExit       (* case <-exitCh: return *)
| Arrive (bs : list byte)   (* bytes from the proxy arrive *)
| PeerClose           (* the proxy closes the connection *)
| ReaderRead          (* resp2.ReadFrom(proxyConn) returns *)
| ReaderSend          (* readyCh <- v *)
| ReaderClose         (* the deferred close(readyCh) *)
| Recv.               (* the caller's <-readyCh *)

(** The state right after the first response has been granted. *)
Definition bind_init (ctx : bool) : BindState :=
  mkBindState ctx false WWaiting [] false false RNotStarted [] false [].

(** The proxy connection of a state, as the reading goroutine sees it. *)
Definition state_conn (s : BindState) : Conn bytes_.Buffer :=
  mkConn
    (if peerClosed s then bytes_.NewReader (arrived s)
     else io.Chunk (arrived s) (io.End io.EOF))
    (bytes_.mkBuffer []) (connClosed s).

Definition step (a : Action) (s : BindState) : option BindState :=
  match a with
  | Cancel =>
      Some (mkBindState true (exitCh_closed s) (watcher s) (arrived s)
              (peerClosed s) (connClosed s) (reader s) (readyCh s)
              (readyCh_closed s) (received s))
  | Spawn =>
      match reader s with
      | RNotStarted =>
          if exitCh_closed s then None
          else Some (mkBindState (ctxDone s) (exitCh_closed s) (watcher s)
                       (arrived s) (peerClosed s) (connClosed s) RReading
                       (readyCh s) (readyCh_closed s) (received s))
      | _ => None
      end
  | Return =>
      match reader s with
      | RNotStarted => None
      | _ =>
          if exitCh_closed s then None
          else Some (mkBindState (ctxDone s) true (watcher s) (arrived s)
                       (peerClosed s) (connClosed s) (reader s) (readyCh s)
                       (readyCh_closed s) (received s))
      end
  | WatcherOnCtx =>
      match watcher s with
      | WWaiting =>
          if ctxDone s
          then Some (mkBindState (ctxDone s) (exitCh_closed s) WDone
                       (arrived s) (peerClosed s) true (reader s)
                       (readyCh s) (readyCh_closed s) (received s))
          else None
      | WDone => None
      end
  | WatcherOnExit =>
      match watcher s with
      | WWaiting =>
          if exitCh_closed s
          then Some (mkBindState (ctxDone s) (exitCh_closed s) WDone
                       (arrived s) (peerClosed s) (connClosed s) (reader s)
                       (readyCh s) (readyCh_closed s) (received s))
          else None
      | WDone => None
      end
  | Arrive bs =>
      if peerClosed s then None
      else Some (mkBindState (ctxDone s) (exitCh_closed s) (watcher s)
                   (arrived s ++ bs) (peerClosed s) (connClosed s)
                   (reader s) (readyCh s) (readyCh_closed s) (received s))
  | PeerClose =>
      Some (mkBindState (ctxDone s) (exitCh_closed s) (watcher s)
              (arrived s) true (connClosed s) (reader s) (readyCh s)
              (readyCh_closed s) (received s))
  | ReaderRead =>
      match reader s with
      | RReading =>
          (* the read blocks until the response is there, the proxy has
             closed, or the connection has been closed under it *)
          if connClosed s || peerClosed s
             || (8 <=? List.length (arrived s))%nat
          then
            let '(vals, c) := bindReady (state_conn s) in
            Some (mkBindState (ctxDone s) (exitCh_closed s) (watcher s)
                    (io.concat (inbound c)) (peerClosed s) (connClosed s)
                    (RSending vals) (readyCh s) (readyCh_closed s)
                    (received s))
          else None
      | _ => None
      end
  | ReaderSend =>
      match reader s with
      | RSending (v :: vals) =>
          if (List.length (readyCh s) <? readyCh_cap)%nat
          then Some (mkBindState (ctxDone s) (exitCh_closed s) (watcher s)
                       (arrived s) (peerClosed s) (connClosed s)
                       (RSending vals) (readyCh s ++ [v]) (readyCh_closed s)
                       (received s))
          else None
      | _ => None
      end
  | ReaderClose =>
      match reader s with
      | RSending [] =>
          Some (mkBindState (ctxDone s) (exitCh_closed s) (watcher s)
                  (arrived s) (peerClosed s) (connClosed s) RExited
                  (readyCh s) true (received s))
      | _ => None
      end
  | Recv =>
      if exitCh_closed s then
        match readyCh s with
        | v :: q =>
            Some (mkBindState (ctxDone s) (exitCh_closed s) (watcher s)
                    (arrived s) (peerClosed s) (connClosed s) (reader s) q
                    (readyCh_closed s) (received s ++ [Value v]))
        | [] =>
            if readyCh_closed s
            then Some (mkBindState (ctxDone s) (exitCh_closed s) (watcher s)
                         (arrived s) (peerClosed s) (connClosed s) (reader s)
                         [] (readyCh_closed s) (received s ++ [ChanClosed]))
            else None
        end
      else None
  end.

(** A schedule, run from a state; [None] if one of its actions is not
    enabled when its turn comes. *)
Fixpoint run (sched : list Action) (s : BindState) : option BindState :=
  match sched with
  | [] => Some s
  | a :: sched' =>
      match step a s with
      | Some s' => run sched' s'
      | None => None
      end
  end.

(** The values, sent by the goroutine, that a receive has delivered. *)
Fixpoint values (l : list Received) : list (option error) :=
  match l with
  | [] => []
  | Value v :: l' => v :: values l'
  | ChanClosed :: l' => values l'
  end.

(** *** The listener (listen.go) *)

Section Listen.

Variable W : Type.
Context `{io.Writer W}.

(** How a hook ends: it returns an error (or nil), or it panics. *)
Inductive Outcome : Type :=
| Returned (e : option error)
| Panicked (v : string).

(** The hooks invoked while one connection is handled, in order.
    [EvUnrecovered v] is the end of the goroutine by a panic that no
    deferred function recovers: the panic of [OnPanic] itself. *)
Inductive Event : Type :=
| EvOnAccept
| EvSetReadDeadline (armed : bool)
| EvOnRequest (req : Request.t)
| EvOnConnect (req : Request.t)
| EvOnBind (req : Request.t)
| EvOnError (e : error)
| EvOnPanic (v : string)
| EvClose
| EvUnrecovered (v : string).

(** The connection being handled and the hooks invoked so far. *)
Record World : Type := mkWorld {
  conn : Conn W;
  trace : list Event
}.

Definition log (e : Event) (w : World) : World :=
  mkWorld (conn w) (trace w ++ [e]).

Definition Hook : Type := World -> Outcome * World.
Definition ReqHook : Type := World -> Request.t -> Outcome * World.

(** [OnError] and [OnPanic] have no result: such a callback returns
    ([None]) or panics with a value ([Some v]). *)
Definition ErrorHook : Type := error -> World -> option string * World.
Definition PanicHook : Type := string -> World -> option string * World.

(** [ListenerOptions]; a [None] field is a nil callback. *)
Record ListenerOptions : Type := mkListenerOptions {
  RequestReadTimeout : Z;
  OnAccept : option Hook;
  OnRequest : option ReqHook;
  OnConnect : option ReqHook;
  OnBind : option ReqHook;
  OnError : option ErrorHook;
  OnPanic : option PanicHook
}.

(** The default CONNECT handler dials the target and relays; it is left
    to the environment. *)
Variable OnConnectDefault : ReqHook.

Definition OnAcceptDefault : Hook := fun w => (Returned None, w).

Definition OnBindDefault : ReqHook :=
  fun w req =>
    let resp := Response.Init Response.zero x00 ReqRejected 0 net.IPv4zero in
    let '(_, c) := Response.WriteTo resp (conn w) in
    (Returned None, mkWorld c (trace w)).

Definition OnErrorDefault : ErrorHook := fun _ w => (None, w).
Definition OnPanicDefault : PanicHook := fun _ w => (None, w).

(** [OnRequestDefault], given the [OnConnect] and [OnBind] of [opts]. *)
Definition OnRequestDefault (onConnect onBind : ReqHook) : ReqHook :=
  fun w req =>
    if Byte.eqb (Request.Command req) CmdConnect
    then onConnect (log (EvOnConnect req) w) req
    else if Byte.eqb (Request.Command req) CmdBind
    then onBind (log (EvOnBind req) w) req
    else
      let resp := Response.Init Response.zero x00 ReqRejected 0
                    net.IPv4zero in
      let '(_, c) := Response.WriteTo resp (conn w) in
      (Returned (Some (fmt_Errorf "unknown command: %d"
                         [ArgByte (Request.Command req)])),
       mkWorld c (trace w)).

(** The callbacks after [ServeContext] has put the defaults in. *)
Record Hooks : Type := mkHooks {
  timeout : Z;
  onAccept : Hook;
  onRequest : ReqHook;
  onConnect : ReqHook;
  onBind : ReqHook;
  onError : ErrorHook;
  onPanic : PanicHook
}.

Definition init_defaults (opts : ListenerOptions) : Hooks :=
  let onConnect := match OnConnect opts with
                   | Some f => f
                   | None => OnConnectDefault
                   end in
  let onBind := match OnBind opts with
                | Some f => f
                | None => OnBindDefault
                end in
  {| timeout := RequestReadTimeout opts;
     onAccept := match OnAccept opts with
                 | Some f => f
                 | None => OnAcceptDefault
                 end;
     onRequest := match OnRequest opts with
                  | Some f => f
                  | None => OnRequestDefault onConnect onBind
                  end;
     onConnect := onConnect;
     onBind := onBind;
     onError := match OnError opts with
                | Some f => f
                | None => OnErrorDefault
                end;
     onPanic := match OnPanic opts with
                | Some f => f
                | None => OnPanicDefault
                end |}.

(** [opts.OnError(ctx, opts, conn, err); return]: the goroutine returns,
    unless [OnError] panics. *)
Definition call_onError (h : Hooks) (e : error) (w : World)
  : Outcome * World :=
  match onError h e (log (EvOnError e) w) with
  | (Some v, w) => (Panicked v, w)
  | (None, w) => (Returned None, w)
  end.

(** The body of the goroutine of one connection, before its deferred
    function runs. [None] only if the request scanner runs out of fuel. *)
Definition handle_body (h : Hooks) (w : World) : option (Outcome * World) :=
  (* Accept *)
  match onAccept h (log EvOnAccept w) with
  | (Panicked v, w) => Some (Panicked v, w)
  | (Returned (Some err), w) => Some (call_onError h err w)
  | (Returned None, w) =>
      (* Read request *)
      let reqTimeout := negb (timeout h =? 0) in
      let w := if reqTimeout then log (EvSetReadDeadline true) w else w in
      match Request.ReadFrom Request.zero (Conn_Reader (conn w)) with
      | None => None
      | Some res =>
          let c := if closed (conn w) then conn w
                   else mkConn (dec.rest res) (outbound (conn w)) false in
          let w := mkWorld c (trace w) in
          match dec.err res with
          | Some err => Some (call_onError h err w)
          | None =>
              let w := if reqTimeout then log (EvSetReadDeadline false) w
                       else w in
              (* Handle request *)
              let req := dec.self res in
              match onRequest h (log (EvOnRequest req) w) req with
              | (Panicked v, w) => Some (Panicked v, w)
              | (Returned (Some err), w) => Some (call_onError h err w)
              | (Returned None, w) => Some (Returned None, w)
              end
          end
      end
  end.

(** One accepted connection, handled to the end: the body, then the
    deferred function, which recovers a panic of the body, hands it to
    [OnPanic] and closes the connection. A panic of [OnPanic] leaves the
    deferred function before [conn.Close()], and nothing recovers it. *)
Definition handle (h : Hooks) (c : Conn W) : option World :=
  match handle_body h (mkWorld c []) with
  | None => None
  | Some (out, w) =>
      let '(r, w) := match out with
                     | Panicked v => onPanic h v (log (EvOnPanic v) w)
                     | Returned _ => (None, w)
                     end in
      match r with
      | Some v => Some (log (EvUnrecovered v) w)
      | None =>
          let w := log EvClose w in
          Some (mkWorld (Conn_Close (conn w)) (trace w))
      end
  end.

(** What the accept loop does with one result of [listener.Accept()];
    for a connection, what its goroutine does when it runs to its end. *)
Inductive Served : Type :=
| AcceptFailed (e : error)            (* OnError(ctx, opts, nil, err) *)
| Handled (w : option World).         (* go func() { ... }() *)

(** [ServeContext] over the results that [Accept] returns until the
    context is cancelled. *)
Definition ServeContext (opts : ListenerOptions)
  (accepted : list (Conn W + error)) : list Served :=
  let h := init_defaults opts in
  map (fun a => match a with
                | inr err => AcceptFailed err
                | inl c => Handled (handle h c)
                end) accepted.

End Listen.

End socks4.

(* ================================================================== *)
(** ** Package socks5 *)

Module socks5.

Definition SocksVersion : byte := x05.
Definition CmdConnect : byte := x01.
Definition CmdBind : byte := x02.
Definition CmdUDPAssociate : byte := x03.
Definition CmdResolve : byte := xf0.
Definition CmdResolvePTR : byte := xf1.
Definition AddrTypeIPv4 : byte := x01.
Definition AddrTypeDomain : byte := x03.
Definition AddrTypeIPv6 : byte := x04.
Definition AuthVersionUserPass : byte := x01.
Definition GSSAPITypeInit : byte := x01.
Definition GSSAPITypeReply : byte := x02.
Definition GSSAPITypeAbort : byte := xff.

Definition ErrInvalidHandshakeVersion : error :=
  errors_New "socks5.ErrInvalidHandshakeVersion"
    "invalid SOCKS version (must be 5)".
Definition ErrTooManyMethods : error :=
  errors_New "socks5.ErrTooManyMethods" "too many authentication methods".
Definition ErrNoMethodsProvided : error :=
  errors_New "socks5.ErrNoMethodsProvided"
    "no authentication methods provided".
Definition ErrInvalidHandshakeReplyVersion : error :=
  errors_New "socks5.ErrInvalidHandshakeReplyVersion"
    "invalid SOCKS version in handshake reply (must be 5)".
Definition ErrInvalidVersion : error :=
  errors_New "socks5.ErrInvalidVersion" "invalid SOCKS version (must be 5)".
Definition ErrInvalidCommand : error :=
  errors_New "socks5.ErrInvalidCommand"
    "invalid command (must be 1=CONNECT, 2=BIND, 3=UDP ASSOCIATE, F0=RESOLVE, or F1=RESOLVE_PTR)".
Definition ErrInvalidAddr : error :=
  errors_New "socks5.ErrInvalidAddr" "invalid address or address type".
Definition ErrInvalidDomain : error :=
  errors_New "socks5.ErrInvalidDomain" "invalid domain (empty or too long)".
Definition ErrInvalidRSV : error :=
  errors_New "socks5.ErrInvalidRSV" "invalid reserved byte (must be 0x00)".
Definition ErrInvalidReplyVersion : error :=
  errors_New "socks5.ErrInvalidReplyVersion"
    "invalid SOCKS version in reply (must be 5)".
Definition ErrInvalidReplyRSV : error :=
  errors_New "socks5.ErrInvalidReplyRSV"
    "invalid reserved byte in reply (must be 0x00)".
Definition ErrInvalidReplyAddr : error :=
  errors_New "socks5.ErrInvalidReplyAddr"
    "invalid address or address type in reply".
Definition ErrInvalidReplyDomain : error :=
  errors_New "socks5.ErrInvalidReplyDomain"
    "invalid domain in reply (empty or too long)".
Definition ErrInvalidUserPassVersion : error :=
  errors_New "socks5.ErrInvalidUserPassVersion"
    "invalid user/password auth version (must be 1)".
Definition ErrEmptyUserPassUsername : error :=
  errors_New "socks5.ErrEmptyUserPassUsername" "username cannot be empty".
Definition ErrEmptyUserPassPassword : error :=
  errors_New "socks5.ErrEmptyUserPassPassword" "password cannot be empty".
Definition ErrUserPassTooLong : error :=
  errors_New "socks5.ErrUserPassTooLong"
    "username or password too long (max 255)".
Definition ErrInvalidUserPassReplyVersion : error :=
  errors_New "socks5.ErrInvalidUserPassReplyVersion"
    "invalid user/password reply version (must be 1)".
Definition ErrInvalidGSSAPIVersion : error :=
  errors_New "socks5.ErrInvalidGSSAPIVersion"
    "invalid GSSAPI version (must be 1)".
Definition ErrEmptyGSSAPIToken : error :=
  errors_New "socks5.ErrEmptyGSSAPIToken" "GSSAPI token cannot be empty".
Definition ErrGSSAPITokenTooLong : error :=
  errors_New "socks5.ErrGSSAPITokenTooLong"
    "GSSAPI token too long (max 65535)".
Definition ErrInvalidGSSAPIReplyVersion : error :=
  errors_New "socks5.ErrInvalidGSSAPIReplyVersion"
    "invalid GSSAPI reply version (must be 1)".
Definition ErrEmptyGSSAPIReplyToken : error :=
  errors_New "socks5.ErrEmptyGSSAPIReplyToken"
    "GSSAPI reply token cannot be empty".
Definition ErrGSSAPIReplyTooLong : error :=
  errors_New "socks5.ErrGSSAPIReplyTooLong"
    "GSSAPI reply token too long (max 65535)".
Definition ErrInvalidUDPReserved : error :=
  errors_New "socks5.ErrInvalidUDPReserved"
    "invalid UDP reserved bytes (must be 0x0000)".
Definition ErrUnsupportedFrag : error :=
  errors_New "socks5.ErrUnsupportedFrag"
    "unsupported UDP fragmentation (FRAG must be 0x00)".
Definition ErrInvalidUDPAddrType : error :=
  errors_New "socks5.ErrInvalidUDPAddrType" "invalid UDP address type".
Definition ErrInvalidUDPDomain : error :=
  errors_New "socks5.ErrInvalidUDPDomain"
    "invalid UDP domain (empty or too long)".
Definition ErrMissingUDPData : error :=
  errors_New "socks5.ErrMissingUDPData" "missing UDP payload data".

(** [make([]byte, b)] has [int(b)] elements. *)
Definition nat_of_byte (b : byte) : nat := Z.to_nat (Z_of_byte b).

(** The address part shared by the writers of requests, replies and UDP
    packets: the [switch] on the address type, entered with the [n], [err]
    and [total] left by the write of the header, followed by
    [total += int64(n)]. *)
Definition write_addr {W} `{io.Writer W} (dst : W) (addrType : byte)
  (ip : net.IP) (domain : string) (n : Z) (err : option error) (total : Z)
  : (Z * option error) * W :=
  let '(((n, err), total), dst) :=
    if Byte.eqb addrType AddrTypeIPv4 then
      let '((n, err), dst) := io.Write dst (net.IP_bytes (net.To4 ip)) in
      (((n, err), total), dst)
    else if Byte.eqb addrType AddrTypeIPv6 then
      let '((n, err), dst) := io.Write dst (net.IP_bytes (net.To16 ip)) in
      (((n, err), total), dst)
    else if Byte.eqb addrType AddrTypeDomain then
      let '((n, err), dst) := io.Write dst [byte_of_Z (len_string domain)] in
      let total := total + n in
      match err with
      | None =>
          let '((n, err), dst) := io.WriteString dst domain in
          (((n, err), total), dst)
      | Some _ => (((n, err), total), dst)
      end
    else (((n, err), total), dst) in
  ((total + n, err), dst).

Module HandshakeRequest.

Record t : Type := mk {
  Version : byte;
  NMethods : byte;
  Methods : list byte
}.

Definition zero : t := mk x00 x00 [].

Definition Init (version : byte) (methods : list byte) : t :=
  {| Version := version;
     NMethods := byte_of_Z (len methods);
     Methods := methods |}.

Definition Validate (h : t) : option error :=
  if negb (Byte.eqb (Version h) SocksVersion)
  then Some ErrInvalidHandshakeVersion
  else if Byte.eqb (NMethods h) x00 then Some ErrNoMethodsProvided
  else if negb (len (Methods h) =? Z_of_byte (NMethods h))
  then Some ErrTooManyMethods
  else None.

Definition ReadFrom (h : t) (src : io.Stream) : dec.Result t :=
  dec.run
    (hdr <- dec.readFull 2 ;;
     dec.modify (fun h =>
       {| Version := at_ hdr 0; NMethods := at_ hdr 1;
          Methods := Methods h |}) ;;;
     h <- dec.get ;;
     (if Byte.eqb (NMethods h) x00
      then dec.finish (Some ErrNoMethodsProvided)
      else dec.ret tt) ;;;
     methods <- dec.readFull (nat_of_byte (NMethods h)) ;;
     dec.modify (fun h =>
       {| Version := Version h; NMethods := NMethods h;
          Methods := methods |}) ;;;
     h <- dec.get ;;
     dec.finish (Validate h))
    h src.

Definition WriteTo {W} `{io.Writer W} (h : t) (dst : W)
  : (Z * option error) * W :=
  let '((n, err), dst) := io.Write dst [Version h; NMethods h] in
  let total := n in
  match err with
  | Some e => ((total, Some e), dst)
  | None =>
      let '((n2, err), dst) := io.Write dst (Methods h) in
      ((total + n2, err), dst)
  end.

End HandshakeRequest.

Module HandshakeReply.

Record t : Type := mk {
  Version : byte;
  Method : byte
}.

Definition zero : t := mk x00 x00.

Definition Init (version method : byte) : t :=
  {| Version := version; Method := method |}.

Definition Validate (h : t) : option error :=
  if negb (Byte.eqb (Version h) SocksVersion)
  then Some ErrInvalidHandshakeReplyVersion
  else None.

Definition ReadFrom (h : t) (src : io.Stream) : dec.Result t :=
  dec.run
    (buf <- dec.readFull 2 ;;
     dec.modify (fun _ => {| Version := at_ buf 0; Method := at_ buf 1 |}) ;;;
     h <- dec.get ;;
     dec.finish (Validate h))
    h src.

Definition WriteTo {W} `{io.Writer W} (h : t) (dst : W)
  : (Z * option error) * W :=
  io.Write dst [Version h; Method h].

End HandshakeReply.

Module Request.

Record t : Type := mk {
  Version : byte;
  Command : byte;
  Reserved : byte;
  AddrType : byte;
  IP : net.IP;
  Domain : string;
  Port : Z
}.

Definition zero : t := mk x00 x00 x00 x00 None "" 0.

Definition Init (version command reserved addrType : byte) (ip : net.IP)
  (domain : string) (port : Z) : t :=
  mk version command reserved addrType ip domain port.

Definition set_IP (ip : net.IP) (r : t) : t :=
  mk (Version r) (Command r) (Reserved r) (AddrType r) ip (Domain r) (Port r).
Definition set_Domain (d : string) (r : t) : t :=
  mk (Version r) (Command r) (Reserved r) (AddrType r) (IP r) d (Port r).
Definition set_Port (p : Z) (r : t) : t :=
  mk (Version r) (Command r) (Reserved r) (AddrType r) (IP r) (Domain r) p.

Definition ValidateHeader (r : t) : option error :=
  if negb (Byte.eqb (Version r) SocksVersion) then Some ErrInvalidVersion
  else if negb (Byte.eqb (Reserved r) x00) then Some ErrInvalidRSV
  else if negb (Byte.eqb (Command r) CmdConnect
                || Byte.eqb (Command r) CmdBind
                || Byte.eqb (Command r) CmdUDPAssociate
                || Byte.eqb (Command r) CmdResolve
                || Byte.eqb (Command r) CmdResolvePTR)
  then Some ErrInvalidCommand
  else if negb (Byte.eqb (AddrType r) AddrTypeIPv4
                || Byte.eqb (AddrType r) AddrTypeDomain
                || Byte.eqb (AddrType r) AddrTypeIPv6)
  then Some ErrInvalidAddr
  else None.

Definition Validate (r : t) : option error :=
  match ValidateHeader r with
  | Some e => Some e
  | None =>
      if Byte.eqb (AddrType r) AddrTypeDomain then
        if (len_string (Domain r) =? 0) || (len_string (Domain r) >? 255)
        then Some ErrInvalidDomain
        else None
      else if Byte.eqb (AddrType r) AddrTypeIPv4
              || Byte.eqb (AddrType r) AddrTypeIPv6
      then match IP r with
           | None => Some ErrInvalidAddr
           | Some _ => None
           end
      else None
  end.

Definition ReadFrom (r : t) (src : io.Stream) : dec.Result t :=
  dec.run
    (hdr <- dec.readFull 4 ;;
     dec.modify (fun r =>
       mk (at_ hdr 0) (at_ hdr 1) (at_ hdr 2) (at_ hdr 3)
          (IP r) (Domain r) (Port r)) ;;;
     r <- dec.get ;;
     dec.finish (ValidateHeader r) ;;;
     (if Byte.eqb (AddrType r) AddrTypeIPv4 then
        buf <- dec.readFull 4 ;; dec.modify (set_IP (Some buf))
      else if Byte.eqb (AddrType r) AddrTypeIPv6 then
        buf <- dec.readFull 16 ;; dec.modify (set_IP (Some buf))
      else if Byte.eqb (AddrType r) AddrTypeDomain then
        ln <- dec.readFull 1 ;;
        buf <- dec.readFull (nat_of_byte (at_ ln 0)) ;;
        dec.modify (set_Domain (string_of_bytes buf))
      else dec.ret tt) ;;;
     portBuf <- dec.readFull 2 ;;
     dec.modify (set_Port (binary.Uint16 (at_ portBuf 0) (at_ portBuf 1))) ;;;
     r <- dec.get ;;
     dec.finish (Validate r))
    r src.

Definition WriteTo {W} `{io.Writer W} (r : t) (dst : W)
  : (Z * option error) * W :=
  if Byte.eqb (AddrType r) AddrTypeDomain
     && ((len_string (Domain r) =? 0) || (len_string (Domain r) >? 255))
  then ((0, Some ErrInvalidReplyDomain), dst)
  else
    let hdr := [Version r; Command r; Reserved r; AddrType r] in
    let '((n, err), dst) := io.Write dst hdr in
    let total := 0 + n in
    match err with
    | Some e => ((total, Some e), dst)
    | None =>
        let '((total, err), dst) :=
          write_addr dst (AddrType r) (IP r) (Domain r) n err total in
        match err with
        | Some e => ((total, Some e), dst)
        | None =>
            let '((n, err), dst) :=
              io.Write dst (binary.PutUint16 (Port r)) in
            ((total + n, err), dst)
        end
    end.

End Request.

Module Reply.

Record t : Type := mk {
  Version : byte;
  Reply : byte;
  Reserved : byte;
  AddrType : byte;
  IP : net.IP;
  Domain : string;
  Port : Z
}.

Definition zero : t := mk x00 x00 x00 x00 None "" 0.

Definition Init (version rep reserved addrType : byte) (ip : net.IP)
  (domain : string) (port : Z) : t :=
  mk version rep reserved addrType ip domain port.

Definition set_IP (ip : net.IP) (r : t) : t :=
  mk (Version r) (Reply r) (Reserved r) (AddrType r) ip (Domain r) (Port r).
Definition set_Domain (d : string) (r : t) : t :=
  mk (Version r) (Reply r) (Reserved r) (AddrType r) (IP r) d (Port r).
Definition set_Port (p : Z) (r : t) : t :=
  mk (Version r) (Reply r) (Reserved r) (AddrType r) (IP r) (Domain r) p.

Definition ValidateHeader (r : t) : option error :=
  if negb (Byte.eqb (Version r) SocksVersion) then Some ErrInvalidReplyVersion
  else if negb (Byte.eqb (Reserved r) x00) then Some ErrInvalidReplyRSV
  else if negb (Byte.eqb (AddrType r) AddrTypeIPv4
                || Byte.eqb (AddrType r) AddrTypeDomain
                || Byte.eqb (AddrType r) AddrTypeIPv6)
  then Some ErrInvalidReplyAddr
  else None.

Definition Validate (r : t) : option error :=
  match ValidateHeader r with
  | Some e => Some e
  | None =>
      if Byte.eqb (AddrType r) AddrTypeDomain then
        if (len_string (Domain r) =? 0) || (len_string (Domain r) >? 255)
        then Some ErrInvalidReplyDomain
        else None
      else if Byte.eqb (AddrType r) AddrTypeIPv4
              || Byte.eqb (AddrType r) AddrTypeIPv6
      then match IP r with
           | None => Some ErrInvalidReplyAddr
           | Some _ => None
           end
      else None
  end.

Definition ReadFrom (r : t) (src : io.Stream) : dec.Result t :=
  dec.run
    (hdr <- dec.readFull 4 ;;
     dec.modify (fun r =>
       mk (at_ hdr 0) (at_ hdr 1) (at_ hdr 2) (at_ hdr 3)
          (IP r) (Domain r) (Port r)) ;;;
     r <- dec.get ;;
     dec.finish (ValidateHeader r) ;;;
     (if Byte.eqb (AddrType r) AddrTypeIPv4 then
        ip <- dec.readFull 4 ;; dec.modify (set_IP (Some ip))
      else if Byte.eqb (AddrType r) AddrTypeIPv6 then
        ip <- dec.readFull 16 ;; dec.modify (set_IP (Some ip))
      else if Byte.eqb (AddrType r) AddrTypeDomain then
        ln <- dec.readFull 1 ;;
        buf <- dec.readFull (nat_of_byte (at_ ln 0)) ;;
        dec.modify (set_Domain (string_of_bytes buf))
      else dec.ret tt) ;;;
     portBuf <- dec.readFull 2 ;;
     dec.modify (set_Port (binary.Uint16 (at_ portBuf 0) (at_ portBuf 1))) ;;;
     r <- dec.get ;;
     dec.finish (Validate r))
    r src.

Definition WriteTo {W} `{io.Writer W} (r : t) (dst : W)
  : (Z * option error) * W :=
  match Validate r with
  | Some e => ((0, Some e), dst)
  | None =>
      let hdr := [Version r; Reply r; Reserved r; AddrType r] in
      let total := 0 in
      let '((n, err), dst) := io.Write dst hdr in
      let total := total + n in
      match err with
      | Some e => ((total, Some e), dst)
      | None =>
          let '((total, err), dst) :=
            write_addr dst (AddrType r) (IP r) (Domain r) n err total in
          match err with
          | Some e => ((total, Some e), dst)
          | None =>
              let '((n, err), dst) :=
                io.Write dst (binary.PutUint16 (Port r)) in
              ((total + n, err), dst)
          end
      end
  end.

End Reply.

Module UserPassRequest.

Record t : Type := mk {
  Version : byte;
  Username : string;
  Password : string
}.

Definition zero : t := mk x00 "" "".

Definition Init (version : byte) (username password : string) : t :=
  mk version username password.

Definition Validate (r : t) : option error :=
  if negb (Byte.eqb (Version r) AuthVersionUserPass)
  then Some ErrInvalidUserPassVersion
  else if len_string (Username r) =? 0 then Some ErrEmptyUserPassUsername
  else if len_string (Password r) =? 0 then Some ErrEmptyUserPassPassword
  else if (len_string (Username r) >? 255) || (len_string (Password r) >? 255)
  then Some ErrUserPassTooLong
  else None.

Definition ReadFrom (r : t) (src : io.Stream) : dec.Result t :=
  dec.run
    ((* Read VER and ULEN *)
     hdr <- dec.readFull 2 ;;
     dec.modify (fun r => mk (at_ hdr 0) (Username r) (Password r)) ;;;
     let ulen := nat_of_byte (at_ hdr 1) in
     (if (ulen =? 0)%nat then dec.finish (Some ErrEmptyUserPassUsername)
      else dec.ret tt) ;;;
     (* Read username *)
     username <- dec.readFull ulen ;;
     dec.modify (fun r =>
       mk (Version r) (string_of_bytes username) (Password r)) ;;;
     (* Read PLEN *)
     plen <- dec.readFull 1 ;;
     (* Read password *)
     let pwlen := nat_of_byte (at_ plen 0) in
     (if (pwlen =? 0)%nat then dec.finish (Some ErrEmptyUserPassPassword)
      else dec.ret tt) ;;;
     password <- dec.readFull pwlen ;;
     dec.modify (fun r =>
       mk (Version r) (Username r) (string_of_bytes password)) ;;;
     r <- dec.get ;;
     dec.finish (Validate r))
    r src.

Definition WriteTo {W} `{io.Writer W} (r : t) (dst : W)
  : (Z * option error) * W :=
  if (len_string (Username r) >? 255) || (len_string (Password r) >? 255)
  then ((0, Some ErrUserPassTooLong), dst)
  else
    let buf := [Version r; byte_of_Z (len_string (Username r))] in
    let total := 0 in
    (* Write version + ULEN *)
    let '((n, err), dst) := io.Write dst buf in
    let total := total + n in
    match err with
    | Some e => ((total, Some e), dst)
    | None =>
        (* Write username *)
        let '((n, err), dst) := io.WriteString dst (Username r) in
        let total := total + n in
        match err with
        | Some e => ((total, Some e), dst)
        | None =>
            (* Write password header and body *)
            let pwHdr := [byte_of_Z (len_string (Password r))] in
            let '((n, err), dst) := io.Write dst pwHdr in
            let total := total + n in
            match err with
            | Some e => ((total, Some e), dst)
            | None =>
                let '((n, err), dst) := io.WriteString dst (Password r) in
                ((total + n, err), dst)
            end
        end
    end.

End UserPassRequest.

Module UserPassReply.

Record t : Type := mk {
  Version : byte;
  Status : byte
}.

Definition zero : t := mk x00 x00.

Definition Init (version status : byte) : t := mk version status.

Definition Validate (r : t) : option error :=
  if negb (Byte.eqb (Version r) AuthVersionUserPass)
  then Some ErrInvalidUserPassReplyVersion
  else None.

Definition ReadFrom (r : t) (src : io.Stream) : dec.Result t :=
  dec.run
    (buf <- dec.readFull 2 ;;
     dec.modify (fun _ => mk (at_ buf 0) (at_ buf 1)) ;;;
     r <- dec.get ;;
     dec.finish (Validate r))
    r src.

Definition WriteTo {W} `{io.Writer W} (r : t) (dst : W)
  : (Z * option error) * W :=
  io.Write dst [Version r; Status r].

Definition Success (r : t) : bool := Byte.eqb (Status r) x00.

End UserPassReply.

Module GSSAPIRequest.

Record t : Type := mk {
  Version : byte;
  MsgType : byte;
  Token : list byte
}.

Definition zero : t := mk x00 x00 [].

Definition Init (version msgType : byte) (token : list byte) : t :=
  mk version msgType token.

Definition Validate (r : t) : option error :=
  if negb (Byte.eqb (Version r) x01) then Some ErrInvalidGSSAPIVersion
  else if Byte.eqb (MsgType r) GSSAPITypeAbort then None
  else if len (Token r) =? 0 then Some ErrEmptyGSSAPIToken
  else if len (Token r) >? 65535 then Some ErrGSSAPITokenTooLong
  else None.

Definition ReadFrom (r : t) (src : io.Stream) : dec.Result t :=
  dec.run
    (hdr <- dec.readFull 2 ;;
     dec.modify (fun r => mk (at_ hdr 0) (at_ hdr 1) (Token r)) ;;;
     r <- dec.get ;;
     if Byte.eqb (MsgType r) GSSAPITypeAbort then dec.ret tt
     else
       (* Read length *)
       lenb <- dec.readFull 2 ;;
       let length := binary.Uint16 (at_ lenb 0) (at_ lenb 1) in
       (if length =? 0 then dec.finish (Some ErrEmptyGSSAPIToken)
        else dec.ret tt) ;;;
       token <- dec.readFull (Z.to_nat length) ;;
       dec.modify (fun r => mk (Version r) (MsgType r) token) ;;;
       r <- dec.get ;;
       dec.finish (Validate r))
    r src.

Definition WriteTo {W} `{io.Writer W} (r : t) (dst : W)
  : (Z * option error) * W :=
  match Validate r with
  | Some e => ((0, Some e), dst)
  | None =>
      if Byte.eqb (MsgType r) GSSAPITypeAbort then
        (* Only version + abort message type *)
        io.Write dst [Version r; MsgType r]
      else
        let hdr := [Version r; MsgType r]
                   ++ binary.PutUint16 (uint16 (len (Token r))) in
        let '((n, err), dst) := io.Write dst hdr in
        let total := n in
        match err with
        | Some e => ((total, Some e), dst)
        | None =>
            let '((n2, err), dst) := io.Write dst (Token r) in
            ((total + n2, err), dst)
        end
  end.

End GSSAPIRequest.

Module GSSAPIReply.

Record t : Type := mk {
  Version : byte;
  MsgType : byte;
  Token : list byte
}.

Definition zero : t := mk x00 x00 [].

Definition Init (version msgType : byte) (token : list byte) : t :=
  mk version msgType token.

Definition Validate (r : t) : option error :=
  if negb (Byte.eqb (Version r) x01) then Some ErrInvalidGSSAPIReplyVersion
  else if Byte.eqb (MsgType r) GSSAPITypeAbort then None
  else if len (Token r) =? 0 then Some ErrEmptyGSSAPIReplyToken
  else if len (Token r) >? 65535 then Some ErrGSSAPIReplyTooLong
  else None.

Definition ReadFrom (r : t) (src : io.Stream) : dec.Result t :=
  dec.run
    (hdr <- dec.readFull 2 ;;
     dec.modify (fun r => mk (at_ hdr 0) (at_ hdr 1) (Token r)) ;;;
     r <- dec.get ;;
     if Byte.eqb (MsgType r) GSSAPITypeAbort then dec.ret tt
     else
       lenb <- dec.readFull 2 ;;
       let length := binary.Uint16 (at_ lenb 0) (at_ lenb 1) in
       (if length =? 0 then dec.finish (Some ErrEmptyGSSAPIReplyToken)
        else dec.ret tt) ;;;
       token <- dec.readFull (Z.to_nat length) ;;
       dec.modify (fun r => mk (Version r) (MsgType r) token) ;;;
       r <- dec.get ;;
       dec.finish (Validate r))
    r src.

Definition WriteTo {W} `{io.Writer W} (r : t) (dst : W)
  : (Z * option error) * W :=
  match Validate r with
  | Some e => ((0, Some e), dst)
  | None =>
      if Byte.eqb (MsgType r) GSSAPITypeAbort then
        io.Write dst [Version r; MsgType r]
      else
        let hdr := [Version r; MsgType r]
                   ++ binary.PutUint16 (uint16 (len (Token r))) in
        let '((n, err), dst) := io.Write dst hdr in
        let total := n in
        match err with
        | Some e => ((total, Some e), dst)
        | None =>
            let '((n2, err), dst) := io.Write dst (Token r) in
            ((total + n2, err), dst)
        end
  end.

End GSSAPIReply.

Module UDPPacket.

Record t : Type := mk {
  Reserved : byte * byte;
  Frag : byte;
  AddrType : byte;
  IP : net.IP;
  Domain : string;
  Port : Z;
  Data : list byte
}.

Definition zero : t := mk (x00, x00) x00 x00 None "" 0 [].

Definition Init (reserved : byte * byte) (frag addrType : byte) (ip : net.IP)
  (domain : string) (port : Z) (data : list byte) : t :=
  mk reserved frag addrType ip domain port data.

Definition set_IP (ip : net.IP) (p : t) : t :=
  mk (Reserved p) (Frag p) (AddrType p) ip (Domain p) (Port p) (Data p).
Definition set_Domain (d : string) (p : t) : t :=
  mk (Reserved p) (Frag p) (AddrType p) (IP p) d (Port p) (Data p).
Definition set_Port (x : Z) (p : t) : t :=
  mk (Reserved p) (Frag p) (AddrType p) (IP p) (Domain p) x (Data p).
Definition set_Data (d : list byte) (p : t) : t :=
  mk (Reserved p) (Frag p) (AddrType p) (IP p) (Domain p) (Port p) d.

Definition Reserved_is_zero (p : t) : bool :=
  Byte.eqb (fst (Reserved p)) x00 && Byte.eqb (snd (Reserved p)) x00.

Definition Validate (p : t) : option error :=
  if negb (Reserved_is_zero p) then Some ErrInvalidUDPReserved
  else if negb (Byte.eqb (Frag p) x00) then Some ErrUnsupportedFrag
  else
    let addr :=
      if Byte.eqb (AddrType p) AddrTypeIPv4
         || Byte.eqb (AddrType p) AddrTypeIPv6
      then match IP p with
           | None => Some ErrInvalidUDPAddrType
           | Some _ => None
           end
      else if Byte.eqb (AddrType p) AddrTypeDomain then
        if (len_string (Domain p) =? 0) || (len_string (Domain p) >? 255)
        then Some ErrInvalidUDPDomain
        else None
      else Some ErrInvalidUDPAddrType in
    match addr with
    | Some e => Some e
    | None => if len (Data p) =? 0 then Some ErrMissingUDPData else None
    end.

Definition ValidateHeader (p : t) : option error :=
  if negb (Reserved_is_zero p) then Some ErrInvalidUDPReserved
  else if negb (Byte.eqb (Frag p) x00) then Some ErrUnsupportedFrag
  else if negb (Byte.eqb (AddrType p) AddrTypeIPv4
                || Byte.eqb (AddrType p) AddrTypeIPv6
                || Byte.eqb (AddrType p) AddrTypeDomain)
  then Some ErrInvalidUDPAddrType
  else None.

Definition ReadFrom (p : t) (src : io.Stream) : dec.Result t :=
  dec.run
    ((* Read RSV + FRAG + ATYP *)
     hdr <- dec.readFull 4 ;;
     dec.modify (fun p =>
       mk (at_ hdr 0, at_ hdr 1) (at_ hdr 2) (at_ hdr 3)
          (IP p) (Domain p) (Port p) (Data p)) ;;;
     p <- dec.get ;;
     dec.finish (ValidateHeader p) ;;;
     (* Read DST.ADDR *)
     (if Byte.eqb (AddrType p) AddrTypeIPv4 then
        ip <- dec.readFull 4 ;; dec.modify (set_IP (Some ip))
      else if Byte.eqb (AddrType p) AddrTypeIPv6 then
        ip <- dec.readFull 16 ;; dec.modify (set_IP (Some ip))
      else if Byte.eqb (AddrType p) AddrTypeDomain then
        ln <- dec.readFull 1 ;;
        buf <- dec.readFull (nat_of_byte (at_ ln 0)) ;;
        dec.modify (set_Domain (string_of_bytes buf))
      else dec.ret tt) ;;;
     (* Read DST.PORT *)
     portBuf <- dec.readFull 2 ;;
     dec.modify (set_Port (binary.Uint16 (at_ portBuf 0) (at_ portBuf 1))) ;;;
     (* Remaining bytes are DATA *)
     data <- dec.readAll ;;
     dec.modify (set_Data data) ;;;
     p <- dec.get ;;
     dec.finish (Validate p))
    p src.

Definition WriteTo {W} `{io.Writer W} (p : t) (dst : W)
  : (Z * option error) * W :=
  match Validate p with
  | Some e => ((0, Some e), dst)
  | None =>
      let total := 0 in
      (* Write RSV + FRAG + ATYP *)
      let hdr := [fst (Reserved p); snd (Reserved p); Frag p; AddrType p] in
      let '((n, err), dst) := io.Write dst hdr in
      let total := total + n in
      match err with
      | Some e => ((total, Some e), dst)
      | None =>
          let '((total, err), dst) :=
            write_addr dst (AddrType p) (IP p) (Domain p) n err total in
          match err with
          | Some e => ((total, Some e), dst)
          | None =>
              (* Write DST.PORT *)
              let '((n, err), dst) :=
                io.Write dst (binary.PutUint16 (Port p)) in
              let total := total + n in
              match err with
              | Some e => ((total, Some e), dst)
              | None =>
                  (* Write DATA *)
                  let '((n, err), dst) := io.Write dst (Data p) in
                  ((total + n, err), dst)
              end
          end
      end
  end.

End UDPPacket.

End socks5.

(* ================================================================== *)
(** * Properties *)

Unset Implicit Arguments.

(* ================================================================== *)
(** ** Notions used in the statements

    Observations on streams and scanners, test environments and concrete
    messages, and the predicates in which the properties below are
    stated. *)

(** The error that ends a stream. *)
Fixpoint final (s : io.Stream) : error :=
  match s with
  | io.End e => e
  | io.Chunk _ s' => final s'
  end.

(** The reader after [io.ReadFull(r, buf)] with [len(buf) = n]. *)
Definition advance (s : io.Stream) (n : nat) : io.Stream :=
  snd (io.ReadFull s n).

Definition default_options (W : Type) : socks4.ListenerOptions W :=
  socks4.mkListenerOptions 0 None None None None None None.

Definition rejected_reply : list byte :=
  [x00; x5b; x00; x00; x00; x00; x00; x00].

(** A proxy connection on which the proxy grants the request. *)
Definition granting_proxy : socks4.Conn bytes_.Buffer :=
  socks4.mkConn
    (bytes_.NewReader [x00; x5a; x00; x50; x00; x00; x00; x00])
    (bytes_.mkBuffer []) false.

Definition test_dialer : socks4.Dialer bytes_.Buffer :=
  socks4.NewDialer "127.0.0.1:1080" "user"
    (Some (fun _ _ => inl granting_proxy)).

Definition run_DialContext (d : socks4.Dialer bytes_.Buffer)
  (address : string) : socks4.DialResult bytes_.Buffer :=
  socks4.DialContext (fun _ _ => inl granting_proxy) net.SplitHostPort
    (net.LookupPort net.no_services) net.ParseIP d "tcp" address.

Definition granted_reply : list byte :=
  [x00; x5a; x15; xb3; x7f; x00; x00; x01].

Definition rejected_second_reply : list byte :=
  [x00; x5b; x15; xb3; x7f; x00; x00; x01].

Definition unhexdigit (c : ascii) : Z :=
  let n := Z.of_N (N_of_ascii c) in
  if n <? 58 then n - 48 else n - 87.

Definition unhex2 (s : string) : option byte :=
  match s with
  | String a (String b EmptyString) =>
      Some (byte_of_Z (16 * unhexdigit a + unhexdigit b))
  | _ => None
  end.

(** A reply that is read without error has one of the four known codes,
    so a reply that is read and not granted is a rejection. *)
Definition is_rejection (code : byte) : Prop :=
  code = socks4.RepRejected \/ code = socks4.RepIdentFailed
  \/ code = socks4.RepUserIDMismatch.

Section DialEnvironment.

Variable W : Type.
Context `{HW : io.Writer W}.
Variable DefaultDialer : string -> string -> socks4.Conn W + error.
Variable SplitHostPort : string -> (string * string) + error.
Variable LookupPort : string -> string -> Z + error.
Variable ParseIP : string -> net.IP.

Definition dial_of (d : socks4.Dialer W) : socks4.DialFunc W :=
  match socks4.dialFunc d with
  | Some f => f
  | None => DefaultDialer
  end.

(** The environment in which the proxy answers the request for [address]
    with the eight bytes of a reply with the given code. *)
Definition proxy_replies (command : byte) (d : socks4.Dialer W)
  (network address : string) (code : byte) : Prop :=
  exists c0 host portStr n k c1 p0 p1 i0 i1 i2 i3,
    dial_of d network (socks4.ProxyAddr d) = inl c0
    /\ SplitHostPort address = inl (host, portStr)
    /\ LookupPort "tcp" portStr = inl n
    /\ socks4.Request.WriteTo
         (socks4.buildRequest ParseIP command (uint16 n) host
            (socks4.UserID d)) c0 = ((k, None), c1)
    /\ firstn 8 (io.concat (socks4.Conn_Reader c1))
       = [x00; code; p0; p1; i0; i1; i2; i3].

End DialEnvironment.

(** A proxy that answers every request with a rejection. *)
Definition rejecting_proxy : socks4.Conn bytes_.Buffer :=
  socks4.mkConn
    (bytes_.NewReader [x00; x5b; x00; x00; x00; x00; x00; x00])
    (bytes_.mkBuffer []) false.

Definition rejected_dialer : socks4.Dialer bytes_.Buffer :=
  socks4.NewDialer "127.0.0.1:1080" "" (Some (fun _ _ => inl rejecting_proxy)).

(** A stream is productive when none of its chunks is empty: a [Read]
    returns at least one byte or an error. *)
Fixpoint productive (s : io.Stream) : Prop :=
  match s with
  | io.End _ => True
  | io.Chunk c s' => c <> [] /\ productive s'
  end.

(** The bytes a scanner can still deliver, its budget and its shape. *)
Definition pending (b : bufio.Reader) : list byte :=
  bufio.buf b ++ io.concat (internal.R (bufio.rd b)).

Definition budget (b : bufio.Reader) : Z := internal.N (bufio.rd b).

Definition source (b : bufio.Reader) : io.Stream := internal.R (bufio.rd b).

Definition wf (b : bufio.Reader) : Prop :=
  (0 < bufio.size b)%nat /\ (List.length (bufio.buf b) <= bufio.size b)%nat.

(** The errors a scan can end with: the budget is used up, the stream has
    ended, or the stream kept returning nothing (which a productive stream
    does not do; [P0] stands for the stream of the scanner being
    productive when the scan began). *)
Definition scan_error (P0 : Prop) (b : bufio.Reader) (x : error) : Prop :=
  (x = io.EOF /\ budget b <= 0)
  \/ (x = final (source b) /\ io.concat (source b) = [])
  \/ (x = io.ErrNoProgress /\ ~ P0).

(** The state of a scan between two rounds of [ReadSlice]: an error that
    is pending was set by a [fill] that found nothing, after a search of
    the buffer that found nothing either. *)
Definition loop_ok (P0 : Prop) (delim : byte) (b : bufio.Reader) : Prop :=
  wf b
  /\ (P0 -> productive (source b))
  /\ match bufio.err b with
     | Some x =>
         scan_error P0 b x /\ bytes_.IndexByte (bufio.buf b) delim = None
     | None => True
     end.

(** What one call of [ReadSlice] returns and leaves behind. *)
Definition slice_result (P0 : Prop) (delim : byte) (b : bufio.Reader)
  (line : list byte) (e : option error) (b' : bufio.Reader) : Prop :=
  line ++ pending b' = pending b
  /\ bufio.size b' = bufio.size b
  /\ wf b'
  /\ bufio.err b' = None
  /\ budget b' =
       budget b - (len line + len (bufio.buf b') - len (bufio.buf b))
  /\ ((0 <= budget b -> 0 <= budget b')
      /\ (budget b <= 0 -> budget b' = budget b))
  /\ final (source b') = final (source b)
  /\ (P0 -> productive (source b'))
  /\ match e with
     | None =>
         exists i, bytes_.IndexByte line delim = Some i
                   /\ List.length line = S i
     | Some x =>
         bufio.buf b' = []
         /\ bytes_.IndexByte line delim = None
         /\ ((x = bufio.ErrBufferFull /\ List.length line = bufio.size b
              /\ ((List.length (bufio.buf b) < bufio.size b)%nat ->
                  budget b' < budget b))
             \/ scan_error P0 b' x)
     end.

(** What [ReadString] returns and leaves behind: on success the bytes up
    to and including the first delimiter; otherwise bytes without a
    delimiter, an empty buffer and the error that ended the scan. *)
Definition string_result (P0 : Prop) (delim : byte) (b : bufio.Reader)
  (res : list byte) (e : option error) (b' : bufio.Reader) : Prop :=
  res ++ pending b' = pending b
  /\ bufio.size b' = bufio.size b
  /\ wf b'
  /\ bufio.err b' = None
  /\ budget b' =
       budget b - (len res + len (bufio.buf b') - len (bufio.buf b))
  /\ ((0 <= budget b -> 0 <= budget b')
      /\ (budget b <= 0 -> budget b' = budget b))
  /\ final (source b') = final (source b)
  /\ (P0 -> productive (source b'))
  /\ match e with
     | None => exists pre, res = pre ++ [delim] /\ ~ In delim pre
     | Some x =>
         bufio.buf b' = [] /\ ~ In delim res /\ scan_error P0 b' x
         /\ is_sentinel x bufio.ErrBufferFull = false
     end.

(** The second half of the claim about the scans, as it is stated: a scan
    that does not find the terminator within the bound and a scan whose
    stream ends before a terminator fail with different errors. *)
Definition scan_errors_distinct : Prop :=
  forall (r : socks4.Request.t) (mu md : Z) (within ended : io.Stream)
    (res_within res_ended : dec.Result socks4.Request.t) (e1 e2 : error),
    0 <= mu ->
    (* no terminator among the first mu + 1 bytes *)
    (Z.to_nat (mu + 1) <= List.length (io.concat within))%nat ->
    ~ In x00 (firstn (Z.to_nat (mu + 1)) (io.concat within)) ->
    socks4.Request.ReadUserIDAndDomain r within mu md = Some res_within ->
    dec.err res_within = Some e1 ->
    (* the stream ends before a terminator and before the bound *)
    (List.length (io.concat ended) < Z.to_nat (mu + 1))%nat ->
    ~ In x00 (io.concat ended) -> final ended = io.EOF ->
    socks4.Request.ReadUserIDAndDomain r ended mu md = Some res_ended ->
    dec.err res_ended = Some e2 ->
    e1 <> e2.

(** A writer that records every [Write] made on it: the bytes and what
    the underlying writer returned. *)
Record Logged (W : Type) : Type := mkLogged {
  inner : W;
  calls : list (list byte * (Z * option error))
}.
Arguments mkLogged {W} _ _.
Arguments inner {W} _.
Arguments calls {W} _.

#[global] Instance Logged_Writer {W} `{io.Writer W} : io.Writer (Logged W) :=
  fun l p =>
    let '(res, w) := io.Write (inner l) p in
    (res, mkLogged w (calls l ++ [(p, res)])).

(** The error of the first recorded write that failed. *)
Fixpoint first_error (l : list (list byte * (Z * option error)))
  : option error :=
  match l with
  | [] => None
  | (_, (_, Some e)) :: _ => Some e
  | (_, (_, None)) :: l' => first_error l'
  end.

Fixpoint count_sum (l : list (list byte * (Z * option error))) : Z :=
  match l with
  | [] => 0
  | (_, (n, _)) :: l' => n + count_sum l'
  end.

(** The wire form of a request: the header, the user ID and its
    terminator and, for SOCKS4a, the domain and its terminator. *)
Definition frame (r : socks4.Request.t) : list byte :=
  [socks4.Request.Version r; socks4.Request.Command r]
  ++ binary.PutUint16 (socks4.Request.Port r)
  ++ Array4_slice (socks4.Request.IP r)
  ++ bytes_of_string (socks4.Request.UserID r) ++ [x00]
  ++ (if socks4.Request.IsSOCKS4a r
      then bytes_of_string (socks4.Request.Domain r) ++ [x00]
      else []).

(** A decoder stops after a header of [hdr] bytes: on every source whose
    first [hdr] bytes are a corrupted header it fails and has taken these
    [hdr] bytes from the source and no more. *)
Definition stops_after_header {R}
  (decode : io.Stream -> option (dec.Result R))
  (hdr : nat) (corrupted : list byte -> Prop) : Prop :=
  forall src,
    (hdr <= List.length (io.concat src))%nat ->
    corrupted (firstn hdr (io.concat src)) ->
    exists res,
      decode src = Some res
      /\ dec.err res <> None
      /\ dec.n res = Z.of_nat hdr
      /\ io.concat (dec.rest res) = skipn hdr (io.concat src).

(** A decoder that always returns. *)
Definition returns {R} (decode : io.Stream -> dec.Result R)
  : io.Stream -> option (dec.Result R) :=
  fun src => Some (decode src).

Definition wrong_version (version : byte) (hdr : list byte) : Prop :=
  at_ hdr 0 <> version.

(** The claim as it is stated, for the two decoders it names: a handshake
    request and a user/password request with a wrong version byte fail
    right after their two header bytes. *)
Definition header_first_everywhere : Prop :=
  stops_after_header
    (returns (socks5.HandshakeRequest.ReadFrom socks5.HandshakeRequest.zero))
    2 (wrong_version socks5.SocksVersion)
  /\ stops_after_header
       (returns (socks5.UserPassRequest.ReadFrom socks5.UserPassRequest.zero))
       2 (wrong_version socks5.AuthVersionUserPass).

(** The headers as the decoders store them, the other fields being those
    of the receiver. *)
Definition socks4_Request_header (r : socks4.Request.t) (hdr : list byte)
  : socks4.Request.t :=
  socks4.Request.mk (at_ hdr 0) (at_ hdr 1)
    (binary.Uint16 (at_ hdr 2) (at_ hdr 3))
    (mkArray4 (at_ hdr 4) (at_ hdr 5) (at_ hdr 6) (at_ hdr 7))
    (socks4.Request.UserID r) (socks4.Request.Domain r).

Definition socks5_Request_header (r : socks5.Request.t) (hdr : list byte)
  : socks5.Request.t :=
  socks5.Request.mk (at_ hdr 0) (at_ hdr 1) (at_ hdr 2) (at_ hdr 3)
    (socks5.Request.IP r) (socks5.Request.Domain r) (socks5.Request.Port r).

Definition socks5_Reply_header (r : socks5.Reply.t) (hdr : list byte)
  : socks5.Reply.t :=
  socks5.Reply.mk (at_ hdr 0) (at_ hdr 1) (at_ hdr 2) (at_ hdr 3)
    (socks5.Reply.IP r) (socks5.Reply.Domain r) (socks5.Reply.Port r).

Definition UDPPacket_header (p : socks5.UDPPacket.t) (hdr : list byte)
  : socks5.UDPPacket.t :=
  socks5.UDPPacket.mk (at_ hdr 0, at_ hdr 1) (at_ hdr 2) (at_ hdr 3)
    (socks5.UDPPacket.IP p) (socks5.UDPPacket.Domain p)
    (socks5.UDPPacket.Port p) (socks5.UDPPacket.Data p).

Definition zero_length (hdr : list byte) : Prop := at_ hdr 1 = x00.

(** The four header bytes of a GSSAPI message that is not an abort and
    declares an empty token. *)
Definition empty_token (hdr : list byte) : Prop :=
  at_ hdr 1 <> socks5.GSSAPITypeAbort /\ at_ hdr 2 = x00 /\ at_ hdr 3 = x00.

(** Writing [m] to an empty buffer and reading the buffer into the zero
    value: the decoder returns without error a message that is the same
    as [m], and both directions report the same number of bytes. *)
Definition round_trip {M : Type}
  (write : M -> bytes_.Buffer -> (Z * option error) * bytes_.Buffer)
  (read : io.Stream -> option (dec.Result M))
  (same : M -> M -> Prop) (m : M) : Prop :=
  exists res,
    read (bytes_.Reader (snd (write m (bytes_.mkBuffer [])))) = Some res
    /\ snd (fst (write m (bytes_.mkBuffer []))) = None
    /\ dec.err res = None
    /\ same (dec.self res) m
    /\ dec.n res = fst (fst (write m (bytes_.mkBuffer []))).

(** The address of a SOCKS5 message on the wire, as [write_addr] writes
    it for the address type [atyp]. *)
Definition address_bytes (atyp : byte) (ip : net.IP) (domain : string)
  : list byte :=
  if Byte.eqb atyp socks5.AddrTypeIPv4 then net.IP_bytes (net.To4 ip)
  else if Byte.eqb atyp socks5.AddrTypeIPv6 then net.IP_bytes (net.To16 ip)
  else if Byte.eqb atyp socks5.AddrTypeDomain
       then byte_of_Z (len_string domain) :: bytes_of_string domain
       else [].

Definition known_address_type (atyp : byte) : bool :=
  Byte.eqb atyp socks5.AddrTypeIPv4 || Byte.eqb atyp socks5.AddrTypeIPv6
  || Byte.eqb atyp socks5.AddrTypeDomain.

(** The address part of the decoders of requests, replies and UDP
    packets. *)
Definition read_address {R} (atyp : byte) (set_IP : net.IP -> R -> R)
  (set_Domain : string -> R -> R) : dec.Dec R unit :=
  if Byte.eqb atyp socks5.AddrTypeIPv4 then
    buf <- dec.readFull 4 ;; dec.modify (set_IP (Some buf))
  else if Byte.eqb atyp socks5.AddrTypeIPv6 then
    buf <- dec.readFull 16 ;; dec.modify (set_IP (Some buf))
  else if Byte.eqb atyp socks5.AddrTypeDomain then
    ln <- dec.readFull 1 ;;
    buf <- dec.readFull (socks5.nat_of_byte (at_ ln 0)) ;;
    dec.modify (set_Domain (string_of_bytes buf))
  else dec.ret tt.

(** The bytes [addr] are an address of type [atyp]. *)
Definition address_frame (atyp : byte) (addr : list byte) : Prop :=
  if Byte.eqb atyp socks5.AddrTypeIPv4 then List.length addr = 4%nat
  else if Byte.eqb atyp socks5.AddrTypeIPv6 then List.length addr = 16%nat
  else if Byte.eqb atyp socks5.AddrTypeDomain
       then exists ln dom,
              addr = ln :: dom /\ List.length dom = socks5.nat_of_byte ln
       else addr = [].

Definition decoded_address {R} (atyp : byte) (set_IP : net.IP -> R -> R)
  (set_Domain : string -> R -> R) (addr : list byte) (r : R) : R :=
  if Byte.eqb atyp socks5.AddrTypeIPv4 then set_IP (Some addr) r
  else if Byte.eqb atyp socks5.AddrTypeIPv6 then set_IP (Some addr) r
  else if Byte.eqb atyp socks5.AddrTypeDomain
       then set_Domain (string_of_bytes (tl addr)) r
       else r.

(** GSSAPI messages: an abort message has no token on the wire; the
    token of an abort message is not compared. *)
Definition same_GSSAPIRequest (a b : socks5.GSSAPIRequest.t) : Prop :=
  socks5.GSSAPIRequest.Version a = socks5.GSSAPIRequest.Version b
  /\ socks5.GSSAPIRequest.MsgType a = socks5.GSSAPIRequest.MsgType b
  /\ (socks5.GSSAPIRequest.MsgType b <> socks5.GSSAPITypeAbort ->
      socks5.GSSAPIRequest.Token a = socks5.GSSAPIRequest.Token b).

Definition same_GSSAPIReply (a b : socks5.GSSAPIReply.t) : Prop :=
  socks5.GSSAPIReply.Version a = socks5.GSSAPIReply.Version b
  /\ socks5.GSSAPIReply.MsgType a = socks5.GSSAPIReply.MsgType b
  /\ (socks5.GSSAPIReply.MsgType b <> socks5.GSSAPITypeAbort ->
      socks5.GSSAPIReply.Token a = socks5.GSSAPIReply.Token b).

(** The address of a message is the one its address type selects: the
    domain for a domain name, the IP address otherwise, compared as
    [net.IP.Equal] does. *)
Definition same_address (atyp : byte) (ip ip' : net.IP)
  (domain domain' : string) : Prop :=
  if Byte.eqb atyp socks5.AddrTypeDomain then domain = domain'
  else net.Equal ip ip' = true.

(** The IP address of a message can be written in the form its address
    type asks for. *)
Definition address_ok (atyp : byte) (ip : net.IP) : Prop :=
  (atyp = socks5.AddrTypeIPv4 -> net.To4 ip <> None)
  /\ (atyp = socks5.AddrTypeIPv6 -> net.To16 ip <> None).

Definition same_Request (a b : socks5.Request.t) : Prop :=
  socks5.Request.Version a = socks5.Request.Version b
  /\ socks5.Request.Command a = socks5.Request.Command b
  /\ socks5.Request.Reserved a = socks5.Request.Reserved b
  /\ socks5.Request.AddrType a = socks5.Request.AddrType b
  /\ socks5.Request.Port a = socks5.Request.Port b
  /\ same_address (socks5.Request.AddrType b)
       (socks5.Request.IP a) (socks5.Request.IP b)
       (socks5.Request.Domain a) (socks5.Request.Domain b).

Definition same_Reply (a b : socks5.Reply.t) : Prop :=
  socks5.Reply.Version a = socks5.Reply.Version b
  /\ socks5.Reply.Reply a = socks5.Reply.Reply b
  /\ socks5.Reply.Reserved a = socks5.Reply.Reserved b
  /\ socks5.Reply.AddrType a = socks5.Reply.AddrType b
  /\ socks5.Reply.Port a = socks5.Reply.Port b
  /\ same_address (socks5.Reply.AddrType b)
       (socks5.Reply.IP a) (socks5.Reply.IP b)
       (socks5.Reply.Domain a) (socks5.Reply.Domain b).

Definition same_UDPPacket (a b : socks5.UDPPacket.t) : Prop :=
  socks5.UDPPacket.Reserved a = socks5.UDPPacket.Reserved b
  /\ socks5.UDPPacket.Frag a = socks5.UDPPacket.Frag b
  /\ socks5.UDPPacket.AddrType a = socks5.UDPPacket.AddrType b
  /\ socks5.UDPPacket.Port a = socks5.UDPPacket.Port b
  /\ socks5.UDPPacket.Data a = socks5.UDPPacket.Data b
  /\ same_address (socks5.UDPPacket.AddrType b)
       (socks5.UDPPacket.IP a) (socks5.UDPPacket.IP b)
       (socks5.UDPPacket.Domain a) (socks5.UDPPacket.Domain b).

(** The law as it is stated: for every message type and every message,
    writing the message and reading the bytes back gives the same message
    and the same count. *)
Definition round_trip_for_every_message : Prop :=
  (forall m, round_trip socks4.Request.WriteTo
               (socks4.Request.ReadFrom socks4.Request.zero) eq m)
  /\ (forall m, round_trip socks4.Response.WriteTo
                  (returns (socks4.Response.ReadFrom socks4.Response.zero))
                  eq m)
  /\ (forall m, round_trip socks5.HandshakeRequest.WriteTo
                  (returns (socks5.HandshakeRequest.ReadFrom
                              socks5.HandshakeRequest.zero)) eq m)
  /\ (forall m, round_trip socks5.HandshakeReply.WriteTo
                  (returns (socks5.HandshakeReply.ReadFrom
                              socks5.HandshakeReply.zero)) eq m)
  /\ (forall m, round_trip socks5.Request.WriteTo
                  (returns (socks5.Request.ReadFrom socks5.Request.zero))
                  same_Request m)
  /\ (forall m, round_trip socks5.Reply.WriteTo
                  (returns (socks5.Reply.ReadFrom socks5.Reply.zero))
                  same_Reply m)
  /\ (forall m, round_trip socks5.UserPassRequest.WriteTo
                  (returns (socks5.UserPassRequest.ReadFrom
                              socks5.UserPassRequest.zero)) eq m)
  /\ (forall m, round_trip socks5.UserPassReply.WriteTo
                  (returns (socks5.UserPassReply.ReadFrom
                              socks5.UserPassReply.zero)) eq m)
  /\ (forall m, round_trip socks5.GSSAPIRequest.WriteTo
                  (returns (socks5.GSSAPIRequest.ReadFrom
                              socks5.GSSAPIRequest.zero))
                  same_GSSAPIRequest m)
  /\ (forall m, round_trip socks5.GSSAPIReply.WriteTo
                  (returns (socks5.GSSAPIReply.ReadFrom
                              socks5.GSSAPIReply.zero))
                  same_GSSAPIReply m)
  /\ (forall m, round_trip socks5.UDPPacket.WriteTo
                  (returns (socks5.UDPPacket.ReadFrom socks5.UDPPacket.zero))
                  same_UDPPacket m).

(** A SOCKS4 CONNECT request to 127.0.0.1:80 whose user ID is "a", a zero
    byte, "b". *)
Definition request_with_NUL : socks4.Request.t :=
  socks4.Request.mk x04 x01 80 (mkArray4 x7f x00 x00 x01)
    (string_of_bytes ["a"%byte; x00; "b"%byte]) "".

(** A decoding step accounts for the bytes it takes: what it adds to the
    count is what the source has lost. *)
Definition accounts {R A} (m : dec.Dec R A) : Prop :=
  forall st,
    dec.total (snd (m st)) + len (io.concat (dec.src (snd (m st))))
    = dec.total st + len (io.concat (dec.src st)).

(** A decoder ends with the validation [V]: whenever it succeeds, the
    receiver passes [V]. *)
Definition validates {R A} (V : R -> option error) (m : dec.Dec R A)
  : Prop :=
  forall st a st', m st = (inl a, st') -> V (dec.recv st') = None.

(** A decoder is framed: when it succeeds it has taken a number [c] of
    bytes from the source, and it depends on these bytes only. On every
    source that starts with the same [c] bytes it succeeds in the same way
    and leaves what follows them; on a source that ends (with [EOF])
    inside these [c] bytes it fails with [EOF] or [ErrUnexpectedEOF],
    having counted and taken every byte of that source. *)
Definition framed {R A} (m : dec.Dec R A) : Prop :=
  forall r t s1 a st1',
    m (dec.mkState r t s1) = (inl a, st1') ->
    exists c : nat,
      dec.total st1' = t + Z.of_nat c
      /\ (c <= List.length (io.concat s1))%nat
      /\ io.concat (dec.src st1') = skipn c (io.concat s1)
      /\ forall s2,
           ((c <= List.length (io.concat s2))%nat ->
            firstn c (io.concat s2) = firstn c (io.concat s1) ->
            exists s2',
              m (dec.mkState r t s2)
              = (inl a, dec.mkState (dec.recv st1') (dec.total st1') s2')
              /\ io.concat s2' = skipn c (io.concat s2)
              /\ final s2' = final s2)
           /\ ((List.length (io.concat s2) < c)%nat ->
               firstn (List.length (io.concat s2)) (io.concat s1)
               = io.concat s2 ->
               final s2 = io.EOF ->
               exists e st2',
                 m (dec.mkState r t s2) = (inr e, st2')
                 /\ (e = io.EOF \/ e = io.ErrUnexpectedEOF)
                 /\ dec.total st2' = t + len (io.concat s2)
                 /\ io.concat (dec.src st2') = []).

(** The count of a result is what its decoder took from [src]: the count
    and the bytes left add up to the bytes that [src] held. *)
Definition counts_taken {R} (src : io.Stream) (res : dec.Result R) : Prop :=
  dec.n res + len (io.concat (dec.rest res)) = len (io.concat src).

(** A result that carries no error holds a message that passes [V]. *)
Definition accepted_passes {R} (V : R -> option error)
  (res : dec.Result R) : Prop :=
  dec.err res = None -> V (dec.self res) = None.

(** A decoder reads one frame: when it accepts a source, having counted
    [n] bytes, it accepts every source that starts with the same [n]
    bytes, with the same message and the same count, and leaves in it
    exactly the bytes after the first [n]. *)
Definition reads_a_frame {R} (read : io.Stream -> dec.Result R) : Prop :=
  forall s1 s2 : io.Stream,
    dec.err (read s1) = None ->
    let c := Z.to_nat (dec.n (read s1)) in
    (c <= List.length (io.concat s2))%nat ->
    firstn c (io.concat s2) = firstn c (io.concat s1) ->
    dec.err (read s2) = None
    /\ dec.self (read s2) = dec.self (read s1)
    /\ dec.n (read s2) = dec.n (read s1)
    /\ io.concat (dec.rest (read s2)) = skipn c (io.concat s2).

(** A decoder refuses a message that is cut short: when it accepts a
    source, having counted [n] bytes, it fails with [EOF] or
    [ErrUnexpectedEOF] on every source that ends, with [EOF], after fewer
    than [n] of these bytes; its count is then the number of bytes that
    source held, and it leaves none of them. *)
Definition fails_when_cut {R} (read : io.Stream -> dec.Result R) : Prop :=
  forall s1 s2 : io.Stream,
    dec.err (read s1) = None ->
    (List.length (io.concat s2) < Z.to_nat (dec.n (read s1)))%nat ->
    io.concat s2 = firstn (List.length (io.concat s2)) (io.concat s1) ->
    final s2 = io.EOF ->
    (dec.err (read s2) = Some io.EOF
     \/ dec.err (read s2) = Some io.ErrUnexpectedEOF)
    /\ dec.n (read s2) = len (io.concat s2)
    /\ io.concat (dec.rest (read s2)) = [].

(** A part of the decoder of UDP packets that runs to the end of the
    source [s0]: started after [c] bytes of [s0], it succeeds only with
    the source exhausted, all of [s0] counted, and a payload that is a
    tail of [s0]. *)
Definition reads_to_the_end {A} (s0 : io.Stream)
  (m : dec.Dec socks5.UDPPacket.t A) : Prop :=
  forall r (c : nat) s a st',
    (c <= List.length (io.concat s0))%nat ->
    io.concat s = skipn c (io.concat s0) ->
    m (dec.mkState r (Z.of_nat c) s) = (inl a, st') ->
    io.concat (dec.src st') = []
    /\ dec.total st' = len (io.concat s0)
    /\ exists d : nat,
         (d <= List.length (io.concat s0))%nat
         /\ socks5.UDPPacket.Data (dec.recv st') = skipn d (io.concat s0).

(** What an encoder returns on a writer that records its calls, for a
    message that its check before the first write answers with [refused]:
    a refused message is answered with that error and the count 0, and no
    write is made; otherwise at least one write is made, the error
    returned is the error of the write that failed, if one did, no write
    follows a write that failed, and when no write failed the count is
    the sum of the counts of the writes. *)
Definition stops_at_first_failure {W} (refused : option error)
  (res : (Z * option error) * Logged W) : Prop :=
  match refused with
  | Some v => fst (fst res) = 0 /\ snd (fst res) = Some v
              /\ calls (snd res) = []
  | None => calls (snd res) <> []
            /\ snd (fst res) = first_error (calls (snd res))
            /\ first_error (removelast (calls (snd res))) = None
            /\ (snd (fst res) = None ->
                fst (fst res) = count_sum (calls (snd res)))
  end.

(** The count returned is the sum of the counts of the writes made, also
    when a write failed. *)
Definition counts_every_write {W} (res : (Z * option error) * Logged W)
  : Prop :=
  fst (fst res) = count_sum (calls (snd res)).

(** The check of [socks5.Request.WriteTo] before its first write. *)
Definition Request_refused (r : socks5.Request.t) : option error :=
  if Byte.eqb (socks5.Request.AddrType r) socks5.AddrTypeDomain
     && ((len_string (socks5.Request.Domain r) =? 0)
         || (len_string (socks5.Request.Domain r) >? 255))
  then Some socks5.ErrInvalidReplyDomain
  else None.

(** The check of [socks5.UserPassRequest.WriteTo] before its first
    write. *)
Definition UserPassRequest_refused (r : socks5.UserPassRequest.t)
  : option error :=
  if (len_string (socks5.UserPassRequest.Username r) >? 255)
     || (len_string (socks5.UserPassRequest.Password r) >? 255)
  then Some socks5.ErrUserPassTooLong
  else None.

(** The callbacks [h] with an [OnRequest] that is only reached for a
    request whose header is valid: on any other request it panics. *)
Definition only_valid_headers {W} (h : socks4.Hooks W) : socks4.Hooks W :=
  socks4.mkHooks (socks4.timeout h) (socks4.onAccept h)
    (fun w req =>
       match socks4.Request.ValidateHeader req with
       | None => socks4.onRequest h w req
       | Some _ => (socks4.Panicked "invalid header", w)
       end)
    (socks4.onConnect h) (socks4.onBind h) (socks4.onError h)
    (socks4.onPanic h).

(** A connection on which the client has sent the request [m], and on
    which nothing has been written yet. *)
Definition client_sends (m : socks4.Request.t) : socks4.Conn bytes_.Buffer :=
  socks4.mkConn
    (bytes_.Reader (snd (socks4.Request.WriteTo m (bytes_.mkBuffer []))))
    (bytes_.mkBuffer []) false.

(** Successive calls of [LimitedReader.Read] with buffers of the lengths
    [ks]: all the bytes delivered, and the reader afterwards. *)
Fixpoint LimitedReader_reads (l : internal.LimitedReader) (ks : list nat)
  : list byte * internal.LimitedReader :=
  match ks with
  | [] => ([], l)
  | k :: ks' =>
      let '((bs, _), l') := internal.LimitedReader_Read l k in
      let '(more, l'') := LimitedReader_reads l' ks' in
      (bs ++ more, l'')
  end.

(** A decoder of SOCKS4 requests accounts for what it takes: when it
    accepts a request from a source, the source held the wire form of
    that request first, the count returned is the length of this wire
    form, and of the bytes that followed at most [lost] (no more than the
    scanner buffers) are gone while the others are left in the source. *)
Definition takes_the_request
  (read : io.Stream -> option (dec.Result socks4.Request.t)) : Prop :=
  forall (src : io.Stream) (res : dec.Result socks4.Request.t),
    productive src ->
    is_sentinel (final src) bufio.ErrBufferFull = false ->
    read src = Some res ->
    dec.err res = None ->
    exists lost,
      io.concat src = frame (dec.self res) ++ lost ++ io.concat (dec.rest res)
      /\ dec.n res = len (frame (dec.self res))
      /\ (List.length lost <= internal.ReaderPool_size)%nat.

(** A connection whose reads do not end with the error
    [bufio.ErrBufferFull], the one error after which the scanner of the
    request decoder goes on reading. *)
Definition readable {W} (c : socks4.Conn W) : Prop :=
  is_sentinel (final (socks4.Conn_Reader c)) bufio.ErrBufferFull = false.

(** How the handling of a connection has ended, read off the world it
    leaves. Either the deferred function came to its last step,
    [conn.Close()]: the connection is closed and the call of Close is the
    last event. *)
Definition ends_closed {W} (w : socks4.World W) : Prop :=
  socks4.closed (socks4.conn w) = true
  /\ exists t, socks4.trace w = t ++ [socks4.EvClose].

(** Or [OnPanic] has panicked, with the value [v'], and the goroutine
    ended there: the world is the one that [OnPanic] left, and Close has
    not been called on its connection. *)
Definition ends_unrecovered {W} (h : socks4.Hooks W) (w : socks4.World W)
  : Prop :=
  exists v w0 v' w1,
    socks4.onPanic h v w0 = (Some v', w1)
    /\ w = socks4.log (socks4.EvUnrecovered v') w1.

(** Options whose [OnRequest] panics and whose [OnPanic] panics in its
    turn, and options whose [OnRequest] returns an error that makes
    [OnError] panic. *)
Definition panicking_options : socks4.ListenerOptions bytes_.Buffer :=
  socks4.mkListenerOptions 0 None
    (Some (fun w _ => (socks4.Panicked "request", w))) None None None
    (Some (fun _ w => (Some "again", w))).

Definition failing_options : socks4.ListenerOptions bytes_.Buffer :=
  socks4.mkListenerOptions 0 None
    (Some (fun w _ => (socks4.Returned (Some io.ErrClosedPipe), w)))
    None None
    (Some (fun _ w => (Some "on error", w))) None.

Definition connect_request : socks4.Request.t :=
  socks4.Request.mk x04 x01 80 (mkArray4 x7f x00 x00 x01) "u" "".

(** Writing what was read gives back the bytes it was read from: when the
    decoder accepts a message (of which [P] holds) with the count n, the
    encoder writes this message to an empty buffer without error, returns
    the count n, and the buffer then holds the first n bytes of the
    source. *)
Definition reencodes {M : Type} (P : M -> Prop)
  (read : io.Stream -> dec.Result M)
  (write : M -> bytes_.Buffer -> (Z * option error) * bytes_.Buffer) : Prop :=
  forall src : io.Stream,
    dec.err (read src) = None ->
    P (dec.self (read src)) ->
    write (dec.self (read src)) (bytes_.mkBuffer [])
    = ((dec.n (read src), None),
       bytes_.mkBuffer
         (firstn (Z.to_nat (dec.n (read src))) (io.concat src))).

(** ** Bytes and integers *)

Lemma Byte_eqb_refl (b : byte) : Byte.eqb b b = true.
Proof. now apply Byte.byte_dec_lb. Qed.

Lemma Byte_eqb_eq (a b : byte) : Byte.eqb a b = true <-> a = b.
Proof.
  split; intro E.
  - now apply Byte.byte_dec_bl.
  - subst; apply Byte_eqb_refl.
Qed.

Lemma Byte_eqb_neq (a b : byte) : Byte.eqb a b = false <-> a <> b.
Proof.
  split; intro E.
  - now apply Byte.eqb_false.
  - destruct (Byte.eqb a b) eqn:E'; [|reflexivity].
    apply Byte_eqb_eq in E'; contradiction.
Qed.

Lemma Z_of_byte_range (b : byte) : 0 <= Z_of_byte b < 256.
Proof.
  unfold Z_of_byte; pose proof (Byte.to_N_bounded b); lia.
Qed.

Lemma Z_of_byte_of_Z (z : Z) : Z_of_byte (byte_of_Z z) = z mod 256.
Proof.
  unfold Z_of_byte, byte_of_Z.
  assert (R : 0 <= z mod 256 < 256) by (apply Z.mod_pos_bound; lia).
  destruct (Byte.of_N (Z.to_N (z mod 256))) as [b|] eqn:E.
  - apply Byte.to_of_N in E; rewrite E; lia.
  - apply Byte.of_N_None_iff in E; lia.
Qed.

Lemma byte_of_Z_of_byte (b : byte) : byte_of_Z (Z_of_byte b) = b.
Proof.
  unfold byte_of_Z.
  rewrite Z.mod_small by apply Z_of_byte_range.
  unfold Z_of_byte; rewrite N2Z.id, Byte.of_to_N; reflexivity.
Qed.

Lemma Z_of_byte_inj (a b : byte) : Z_of_byte a = Z_of_byte b -> a = b.
Proof.
  intro E; rewrite <- (byte_of_Z_of_byte a), <- (byte_of_Z_of_byte b).
  now rewrite E.
Qed.

Lemma Z_of_byte_x00 (b : byte) : Z_of_byte b = 0 <-> b = x00.
Proof.
  split; intro E.
  - apply Z_of_byte_inj; rewrite E; reflexivity.
  - subst; reflexivity.
Qed.

Lemma lor_shiftl8 (a b : Z) :
  0 <= a -> 0 <= b < 256 -> Z.lor (Z.shiftl a 8) b = a * 256 + b.
Proof.
  intros Ha Hb.
  assert (L : Z.land (Z.shiftl a 8) b = 0).
  { apply Z.bits_inj'; intros n Hn.
    rewrite Z.land_spec, Z.bits_0.
    destruct (Z.ltb_spec n 8).
    - rewrite Z.shiftl_spec_low by lia; reflexivity.
    - replace (Z.testbit b n) with false; [apply andb_false_r|].
      symmetry; apply Z.bits_above_log2; [lia|].
      destruct (Z.eq_dec b 0) as [->|]; [simpl; lia|].
      apply Z.log2_lt_pow2; [lia|].
      apply Z.lt_le_trans with (2 ^ 8); [simpl; lia|].
      apply Z.pow_le_mono_r; lia. }
  rewrite <- Z.lxor_lor by exact L.
  rewrite <- Z.add_nocarry_lxor by exact L.
  rewrite Z.shiftl_mul_pow2 by lia; reflexivity.
Qed.

(** The port survives [PutUint16] followed by [Uint16]. *)
Lemma Uint16_PutUint16 (p : Z) :
  0 <= p < 65536 ->
  binary.Uint16 (byte_of_Z (Z.shiftr p 8)) (byte_of_Z p) = p.
Proof.
  intro Hp; unfold binary.Uint16.
  rewrite !Z_of_byte_of_Z, Z.shiftr_div_pow2 by lia.
  change (2 ^ 8) with 256.
  assert (0 <= p / 256 < 256).
  { split; [apply Z.div_pos; lia|apply Z.div_lt_upper_bound; lia]. }
  rewrite (Z.mod_small (p / 256)) by lia.
  rewrite lor_shiftl8; [|lia|apply Z.mod_pos_bound; lia].
  pose proof (Z.div_mod p 256); lia.
Qed.

Lemma Uint16_range (a b : byte) : 0 <= binary.Uint16 a b < 65536.
Proof.
  unfold binary.Uint16.
  pose proof (Z_of_byte_range a); pose proof (Z_of_byte_range b).
  rewrite lor_shiftl8; lia.
Qed.

(** ** Strings and byte slices *)

Lemma string_length_bytes (s : string) :
  List.length (bytes_of_string s) = String.length s.
Proof.
  unfold bytes_of_string, list_byte_of_string.
  rewrite length_map.
  induction s as [|c s IH]; simpl; [reflexivity|now rewrite IH].
Qed.

Lemma bytes_of_string_of_bytes (l : list byte) :
  bytes_of_string (string_of_bytes l) = l.
Proof. apply list_byte_of_string_of_list_byte. Qed.

Lemma string_of_bytes_of_string (s : string) :
  string_of_bytes (bytes_of_string s) = s.
Proof. apply string_of_list_byte_of_string. Qed.

Lemma len_string_bytes (s : string) : len (bytes_of_string s) = len_string s.
Proof. unfold len, len_string; now rewrite string_length_bytes. Qed.

Lemma len_string_zero (s : string) : len_string s = 0 <-> s = "".
Proof.
  unfold len_string; destruct s; simpl; split; intro E;
    try reflexivity; try discriminate; lia.
Qed.

Lemma len_app {A} (a b : list A) : len (a ++ b) = len a + len b.
Proof. unfold len; rewrite length_app; lia. Qed.

Lemma len_nonneg {A} (a : list A) : 0 <= len a.
Proof. unfold len; lia. Qed.

(* ================================================================== *)
(** ** The SOCKS4a address rule *)

Lemma IsSOCKS4a_iff (r : socks4.Request.t) :
  socks4.Request.IsSOCKS4a r = true <->
  a0 (socks4.Request.IP r) = x00 /\ a1 (socks4.Request.IP r) = x00 /\
  a2 (socks4.Request.IP r) = x00 /\ a3 (socks4.Request.IP r) <> x00.
Proof.
  unfold socks4.Request.IsSOCKS4a, Array4_slice, at_; simpl.
  rewrite !andb_true_iff, negb_true_iff, !Byte_eqb_eq, Byte_eqb_neq.
  tauto.
Qed.

Lemma IsSOCKS4_negb (r : socks4.Request.t) :
  socks4.Request.IsSOCKS4 r = negb (socks4.Request.IsSOCKS4a r).
Proof. reflexivity. Qed.

Lemma ValidateHeader_zero_ip (r : socks4.Request.t) :
  socks4.Request.IP r = Array4_zero ->
  socks4.Request.Version r = socks4.SocksVersion ->
  socks4.Request.ValidateHeader r =
    if Byte.eqb (socks4.Request.Command r) socks4.CmdConnect
    then Some socks4.ErrInvalidIP
    else if Byte.eqb (socks4.Request.Command r) socks4.CmdBind
         then None
         else Some socks4.ErrInvalidCommand.
Proof.
  intros Hip Hv; unfold socks4.Request.ValidateHeader.
  rewrite Hip, Hv; simpl.
  destruct (Byte.eqb (socks4.Request.Command r) socks4.CmdConnect) eqn:E1;
    destruct (Byte.eqb (socks4.Request.Command r) socks4.CmdBind) eqn:E2;
    reflexivity.
Qed.

(** C4. A request is SOCKS4a exactly when its address is 0.0.0.x with x
    not 0. With address 0.0.0.1 and a non-empty domain it passes the
    domain validation and is SOCKS4a; with 127.0.0.1 and a non-empty
    domain the domain validation fails; 0.0.0.0 is never SOCKS4a; a
    request with address 0.0.0.0 fails the header validation when its
    command is CONNECT and (its version being 4) passes it when its
    command is BIND. *)
Theorem C4_socks4a_address_rule :
  (forall r,
      socks4.Request.IsSOCKS4a r = true <->
      exists x, x <> x00 /\ socks4.Request.IP r = mkArray4 x00 x00 x00 x)
  /\ (forall r,
        socks4.Request.IP r = mkArray4 x00 x00 x00 x01 ->
        socks4.Request.Domain r <> "" ->
        socks4.Request.ValidateDomain r = None
        /\ socks4.Request.IsSOCKS4a r = true)
  /\ (forall r,
        socks4.Request.IP r = mkArray4 x7f x00 x00 x01 ->
        socks4.Request.Domain r <> "" ->
        socks4.Request.ValidateDomain r = Some socks4.ErrInvalidDomain)
  /\ (forall r,
        socks4.Request.IP r = mkArray4 x00 x00 x00 x00 ->
        socks4.Request.IsSOCKS4a r = false)
  /\ (forall r,
        socks4.Request.IP r = mkArray4 x00 x00 x00 x00 ->
        socks4.Request.Command r = socks4.CmdConnect ->
        socks4.Request.ValidateHeader r <> None)
  /\ (forall r,
        socks4.Request.IP r = mkArray4 x00 x00 x00 x00 ->
        socks4.Request.Command r = socks4.CmdBind ->
        socks4.Request.Version r = socks4.SocksVersion ->
        socks4.Request.ValidateHeader r = None).
Proof.
  repeat split.
  - intro E; apply IsSOCKS4a_iff in E.
    destruct (socks4.Request.IP r) as [i0 i1 i2 i3]; simpl in E.
    destruct E as (-> & -> & -> & N); exists i3; split; [exact N|reflexivity].
  - intros (x & N & E); apply IsSOCKS4a_iff; rewrite E; simpl; auto.
  - unfold socks4.Request.ValidateDomain.
    assert (S4 : socks4.Request.IsSOCKS4a r = true)
      by (apply IsSOCKS4a_iff; rewrite H; simpl; repeat split; discriminate).
    rewrite S4.
    destruct (len_string (socks4.Request.Domain r) =? 0) eqn:E;
      [|reflexivity].
    apply Z.eqb_eq, len_string_zero in E; contradiction.
  - apply IsSOCKS4a_iff; rewrite H; simpl; repeat split; discriminate.
  - intros r Hip Hd; unfold socks4.Request.ValidateDomain.
    assert (S4 : socks4.Request.IsSOCKS4a r = false).
    { destruct (socks4.Request.IsSOCKS4a r) eqn:E; [|reflexivity].
      apply IsSOCKS4a_iff in E; rewrite Hip in E; simpl in E.
      destruct E as (E & _); discriminate. }
    rewrite S4.
    destruct (len_string (socks4.Request.Domain r) >? 0) eqn:E;
      [reflexivity|].
    exfalso; apply Hd, len_string_zero.
    pose proof (Zgt_cases (len_string (socks4.Request.Domain r)) 0) as G.
    rewrite E in G; unfold len_string in *; lia.
  - intros r Hip.
    destruct (socks4.Request.IsSOCKS4a r) eqn:E; [|reflexivity].
    apply IsSOCKS4a_iff in E; rewrite Hip in E; simpl in E.
    destruct E as (_ & _ & _ & E); contradiction.
  - intros r Hip Hc; unfold socks4.Request.ValidateHeader.
    rewrite Hip, Hc; simpl.
    destruct (negb (Byte.eqb (socks4.Request.Version r) socks4.SocksVersion));
      discriminate.
  - intros r Hip Hc Hv.
    rewrite ValidateHeader_zero_ip by assumption.
    rewrite Hc; reflexivity.
Qed.

(** The rule at the requests of the repository's tests. *)
Lemma C4_socks4a_address_rule_witness :
  (socks4.Request.ValidateDomain
     (socks4.Request.mk x04 x01 443 (mkArray4 x00 x00 x00 x01) "alice"
        "example.org") = None
   /\ socks4.Request.IsSOCKS4a
        (socks4.Request.mk x04 x01 443 (mkArray4 x00 x00 x00 x01) "alice"
           "example.org") = true)
  /\ socks4.Request.ValidateDomain
       (socks4.Request.mk x04 x01 80 (mkArray4 x7f x00 x00 x01) ""
          "should-not-have") = Some socks4.ErrInvalidDomain
  /\ socks4.Request.ValidateHeader
       (socks4.Request.mk x04 x01 0 (mkArray4 x00 x00 x00 x00) "" "") <> None
  /\ socks4.Request.ValidateHeader
       (socks4.Request.mk x04 x02 0 (mkArray4 x00 x00 x00 x00) "" "") = None.
Proof.
  destruct C4_socks4a_address_rule as (_ & H1 & H2 & _ & H4 & H5).
  split; [|split; [|split]].
  - apply H1; [reflexivity|discriminate].
  - apply H2; [reflexivity|discriminate].
  - apply H4; reflexivity.
  - apply H5; reflexivity.
Defined.

(* ================================================================== *)
(** ** Readers *)

Lemma concat_NewReader (l : list byte) : io.concat (bytes_.NewReader l) = l.
Proof. destruct l; simpl; [reflexivity|now rewrite app_nil_r]. Qed.

Lemma final_NewReader (l : list byte) : final (bytes_.NewReader l) = io.EOF.
Proof. destruct l; reflexivity. Qed.

Lemma ReadFull_loop_enough (s : io.Stream) :
  forall (n : nat) (acc : list byte),
    (n <= List.length (io.concat s))%nat ->
    fst (io.ReadFull_loop s n acc) = (acc ++ firstn n (io.concat s), None)
    /\ io.concat (snd (io.ReadFull_loop s n acc)) = skipn n (io.concat s)
    /\ final (snd (io.ReadFull_loop s n acc)) = final s.
Proof.
  induction s as [c s IH|e]; intros n acc Hn.
  - destruct n as [|n].
    + simpl; rewrite app_nil_r; auto.
    + cbn [io.ReadFull_loop].
      destruct (Nat.leb_spec (List.length c) (S n)) as [L|L].
      * simpl in Hn; rewrite length_app in Hn.
        destruct (IH (S n - List.length c)%nat (acc ++ c)) as (A & B & C);
          [lia|].
        rewrite A, B, C; cbn [io.concat final].
        rewrite firstn_app, skipn_app.
        rewrite (@firstn_all2 _ (S n) c), (@skipn_all2 _ (S n) c) by lia.
        rewrite <- app_assoc; auto.
      * cbn [fst snd io.concat final].
        rewrite firstn_app, skipn_app.
        replace (S n - List.length c)%nat with O by lia.
        simpl; rewrite app_nil_r; auto.
  - simpl in Hn; destruct n; [|lia].
    simpl; rewrite app_nil_r; auto.
Qed.

Lemma ReadFull_enough (s : io.Stream) (n : nat) :
  (n <= List.length (io.concat s))%nat ->
  io.ReadFull s n = ((firstn n (io.concat s), None), advance s n)
  /\ io.concat (advance s n) = skipn n (io.concat s)
  /\ final (advance s n) = final s.
Proof.
  intro Hn; unfold advance, io.ReadFull.
  destruct (ReadFull_loop_enough s n [] Hn) as (A & B & C).
  destruct (io.ReadFull_loop s n []) as [r s'] eqn:E.
  simpl in *; subst r; auto.
Qed.

(** A stream that ends before [n] bytes: everything is read, and the
    error is the one of the stream, or [ErrUnexpectedEOF] when bytes were
    read before the end of the stream. *)
Lemma ReadFull_loop_short (s : io.Stream) :
  forall (n : nat) (acc : list byte),
    (List.length (io.concat s) < n)%nat ->
    io.ReadFull_loop s n acc =
      ((acc ++ io.concat s,
        Some (match acc ++ io.concat s with
              | [] => final s
              | _ :: _ =>
                  if is_sentinel (final s) io.EOF then io.ErrUnexpectedEOF
                  else final s
              end)), io.End (final s)).
Proof.
  induction s as [c s IH|e]; intros n acc Hn.
  - destruct n as [|n]; [simpl in Hn; lia|].
    cbn [io.ReadFull_loop].
    simpl in Hn; rewrite length_app in Hn.
    destruct (Nat.leb_spec (List.length c) (S n)) as [L|L]; [|lia].
    rewrite IH by lia.
    cbn [io.concat final]; rewrite <- app_assoc; reflexivity.
  - destruct n as [|n]; [simpl in Hn; lia|].
    simpl; rewrite app_nil_r; reflexivity.
Qed.

Lemma ReadFull_NewReader_app (l rest : list byte) :
  io.ReadFull (bytes_.NewReader (l ++ rest)) (List.length l)
  = ((l, None), bytes_.NewReader rest).
Proof.
  unfold io.ReadFull.
  destruct l as [|x l]; [destruct rest; reflexivity|].
  destruct rest as [|y rest].
  - rewrite app_nil_r.
    cbn [bytes_.NewReader io.ReadFull_loop List.length].
    rewrite Nat.leb_refl, Nat.sub_diag; reflexivity.
  - cbn [bytes_.NewReader io.ReadFull_loop List.length app].
    destruct (Nat.leb_spec (S (List.length (l ++ y :: rest)))
                (S (List.length l))) as [L|L].
    { rewrite length_app in L; simpl in L; lia. }
    change (x :: l ++ y :: rest) with ((x :: l) ++ y :: rest).
    change (S (List.length l)) with (List.length (x :: l)).
    rewrite firstn_app, skipn_app, Nat.sub_diag, firstn_all, skipn_all.
    simpl; rewrite app_nil_r; reflexivity.
Qed.

Lemma ReadAll_spec (s : io.Stream) :
  io.ReadAll s =
    ((io.concat s,
      if is_sentinel (final s) io.EOF then None else Some (final s)),
     io.End (final s)).
Proof.
  induction s as [c s IH|e]; simpl; [now rewrite IH|reflexivity].
Qed.

(** ** The decoding monad *)

Lemma readFull_enough {R} (n : nat) (r : R) (t : Z) (s : io.Stream) :
  (n <= List.length (io.concat s))%nat ->
  dec.readFull n (dec.mkState r t s) =
    (inl (firstn n (io.concat s)),
     dec.mkState r (t + Z.of_nat n) (advance s n)).
Proof.
  intro Hn; unfold dec.readFull; cbn [dec.src dec.recv dec.total].
  destruct (ReadFull_enough s n Hn) as (A & _).
  rewrite A; unfold len; rewrite length_firstn, Nat.min_l by lia.
  reflexivity.
Qed.

Lemma readFull_NewReader {R} (l rest : list byte) (r : R) (t : Z) :
  dec.readFull (List.length l)
    (dec.mkState r t (bytes_.NewReader (l ++ rest)))
  = (inl l, dec.mkState r (t + len l) (bytes_.NewReader rest)).
Proof.
  unfold dec.readFull; simpl.
  rewrite ReadFull_NewReader_app; reflexivity.
Qed.

(* ================================================================== *)
(** ** The listener and requests with an undefined command *)

Lemma Request_ReadHeaderFrom_enough (r : socks4.Request.t) (s : io.Stream)
  (v c p0 p1 i0 i1 i2 i3 : byte) :
  firstn 8 (io.concat s) = [v; c; p0; p1; i0; i1; i2; i3] ->
  socks4.Request.ReadHeaderFrom r s =
    let r' := socks4.Request.mk v c (binary.Uint16 p0 p1)
                (mkArray4 i0 i1 i2 i3) (socks4.Request.UserID r)
                (socks4.Request.Domain r) in
    dec.mkResult 8 (socks4.Request.ValidateHeader r') r' (advance s 8).
Proof.
  intro E.
  assert (L : (8 <= List.length (io.concat s))%nat).
  { rewrite <- (firstn_skipn 8 (io.concat s)), E, length_app; simpl; lia. }
  unfold socks4.Request.ReadHeaderFrom, dec.run, dec.bind.
  rewrite readFull_enough by exact L.
  rewrite E; cbn.
  destruct (socks4.Request.ValidateHeader _); reflexivity.
Qed.

(** With an undefined command the header validation fails, whatever the
    address is. *)
Lemma ValidateHeader_unknown_command (r : socks4.Request.t) :
  socks4.Request.Version r = socks4.SocksVersion ->
  socks4.Request.Command r <> socks4.CmdConnect ->
  socks4.Request.Command r <> socks4.CmdBind ->
  socks4.Request.ValidateHeader r = Some socks4.ErrInvalidCommand.
Proof.
  intros Hv H1 H2; unfold socks4.Request.ValidateHeader.
  rewrite Hv, Byte_eqb_refl; simpl.
  apply Byte_eqb_neq in H1, H2; rewrite H1, H2; reflexivity.
Qed.

(** The listener, on a request with version 4 and a command that is
    neither CONNECT nor BIND: the decoding of the request fails, the error
    goes to the on-error hook, the connection is closed, and nothing has
    been written to it; [OnRequest] is not reached. *)
Lemma handle_unknown_command (W : Type) (HW : io.Writer W)
  (onConnectDefault : socks4.ReqHook W) (c : socks4.Conn W)
  (cmd p0 p1 i0 i1 i2 i3 : byte) :
  socks4.closed c = false ->
  firstn 8 (io.concat (socks4.inbound c))
    = [x04; cmd; p0; p1; i0; i1; i2; i3] ->
  cmd <> socks4.CmdConnect -> cmd <> socks4.CmdBind ->
  socks4.handle (socks4.init_defaults onConnectDefault (default_options W)) c
  = Some (socks4.mkWorld
            (socks4.mkConn (advance (socks4.inbound c) 8)
               (socks4.outbound c) true)
            [socks4.EvOnAccept; socks4.EvOnError socks4.ErrInvalidCommand;
             socks4.EvClose]).
Proof.
  intros Hc E N1 N2.
  unfold socks4.handle, socks4.handle_body, socks4.init_defaults,
    default_options, socks4.OnAcceptDefault; cbn -[socks4.Request.ReadFrom].
  unfold socks4.Request.ReadFrom, socks4.Request.ReadFromWithLimits,
    socks4.Conn_Reader; rewrite Hc.
  rewrite (Request_ReadHeaderFrom_enough _ _ _ _ _ _ _ _ _ _ E).
  cbv zeta.
  rewrite ValidateHeader_unknown_command by (try reflexivity; assumption).
  reflexivity.
Qed.

(** What [OnRequestDefault] would do with such a request: it writes the
    rejected reply and returns an error. *)
Lemma OnRequestDefault_unknown_command (onConnect onBind
    : socks4.ReqHook bytes_.Buffer) (w : socks4.World bytes_.Buffer)
  (req : socks4.Request.t) :
  socks4.closed (socks4.conn w) = false ->
  socks4.Request.Command req <> socks4.CmdConnect ->
  socks4.Request.Command req <> socks4.CmdBind ->
  socks4.OnRequestDefault onConnect onBind w req =
    (socks4.Returned
       (Some (fmt_Errorf "unknown command: %d"
                [ArgByte (socks4.Request.Command req)])),
     socks4.mkWorld
       (socks4.mkConn (socks4.inbound (socks4.conn w))
          (bytes_.mkBuffer
             (bytes_.Bytes (socks4.outbound (socks4.conn w))
                ++ rejected_reply))
          false)
       (socks4.trace w)).
Proof.
  intros Hc N1 N2; unfold socks4.OnRequestDefault.
  apply Byte_eqb_neq in N1, N2; rewrite N1, N2.
  unfold socks4.Response.WriteTo, io.Write, socks4.Conn_Writer.
  rewrite Hc; reflexivity.
Qed.

(** C9. A connection that sends a request with the undefined command byte
    3 to a listener with the default callbacks: the on-error hook is
    invoked with [ErrInvalidCommand] and the connection is closed, but no
    reply has been written to the connection. *)
Theorem C9_unknown_command_gets_no_reply :
  forall onConnectDefault : socks4.ReqHook bytes_.Buffer,
    socks4.handle
      (socks4.init_defaults onConnectDefault (default_options bytes_.Buffer))
      (socks4.mkConn
         (bytes_.NewReader [x04; x03; x00; x50; x01; x02; x03; x04; x00])
         (bytes_.mkBuffer []) false)
    = Some (socks4.mkWorld
              (socks4.mkConn (bytes_.NewReader [x00]) (bytes_.mkBuffer [])
                 true)
              [socks4.EvOnAccept; socks4.EvOnError socks4.ErrInvalidCommand;
               socks4.EvClose]).
Proof. intro; reflexivity. Qed.

(** The accept loop treats every accepted connection on its own: what it
    does with the others does not depend on the one with the undefined
    command. *)
Lemma ServeContext_isolated (W : Type) (HW : io.Writer W)
  (onConnectDefault : socks4.ReqHook W) (opts : socks4.ListenerOptions W)
  (before after : list (socks4.Conn W + error)) (c : socks4.Conn W) :
  socks4.ServeContext onConnectDefault opts (before ++ inl c :: after)
  = socks4.ServeContext onConnectDefault opts before
    ++ socks4.Handled (socks4.handle
                         (socks4.init_defaults onConnectDefault opts) c)
    :: socks4.ServeContext onConnectDefault opts after.
Proof. unfold socks4.ServeContext; rewrite map_app; reflexivity. Qed.

(* ================================================================== *)
(** ** The request built by the dialer *)

(** A host that [net.ParseIP] does not accept is sent in SOCKS4a form. *)
Lemma buildRequest_not_an_address (ParseIP : string -> net.IP)
  (command : byte) (port : Z) (host userID : string) :
  ParseIP host = None ->
  socks4.buildRequest ParseIP command port host userID
  = socks4.Request.mk socks4.SocksVersion command port
      (mkArray4 x00 x00 x00 x01) userID host.
Proof.
  intro E; unfold socks4.buildRequest; rewrite E; reflexivity.
Qed.

(** A host that [net.ParseIP] accepts is sent without a domain, with the
    four bytes of [To4] as address; these are missing when the address is
    not an IPv4 address, and the address field stays 0.0.0.0. *)
Lemma buildRequest_address (ParseIP : string -> net.IP)
  (command : byte) (port : Z) (host userID : string) (ip : list byte) :
  ParseIP host = Some ip ->
  socks4.buildRequest ParseIP command port host userID
  = socks4.Request.mk socks4.SocksVersion command port
      (copy4 Array4_zero (net.IP_bytes (net.To4 (Some ip)))) userID "".
Proof.
  intro E; unfold socks4.buildRequest; rewrite E; reflexivity.
Qed.

(** C8. The target [[::1]:80] has the host [::1], which is not a literal
    IPv4 address; the request built for it is not in SOCKS4a form: its
    address is 0.0.0.0 and its domain is empty, and the header validation
    of the package refuses it. These are the bytes [DialContext] sends. *)
Theorem C8_ipv6_literal_is_not_sent_as_socks4a :
  net.SplitHostPort "[::1]:80" = inl ("::1", "80")
  /\ net.To4 (net.ParseIP "::1") = None
  /\ socks4.buildRequest net.ParseIP socks4.CmdConnect 80 "::1" "user"
     = socks4.Request.mk x04 x01 80 (mkArray4 x00 x00 x00 x00) "user" ""
  /\ socks4.Request.IsSOCKS4a
       (socks4.buildRequest net.ParseIP socks4.CmdConnect 80 "::1" "user")
     = false
  /\ socks4.Request.ValidateHeader
       (socks4.buildRequest net.ParseIP socks4.CmdConnect 80 "::1" "user")
     = Some socks4.ErrInvalidIP
  /\ option_map (fun c => bytes_.Bytes (socks4.outbound c))
       (socks4.proxy (run_DialContext test_dialer "[::1]:80"))
     = Some [x04; x01; x00; x50; x00; x00; x00; x00;
             "u"%byte; "s"%byte; "e"%byte; "r"%byte; x00].
Proof. repeat split. Qed.

(** The same dialer on a host name: the SOCKS4a form. *)
Example DialContext_host_name :
  option_map (fun c => bytes_.Bytes (socks4.outbound c))
    (socks4.proxy (run_DialContext test_dialer "a.io:80"))
  = Some [x04; x01; x00; x50; x00; x00; x00; x01;
          "u"%byte; "s"%byte; "e"%byte; "r"%byte; x00;
          "a"%byte; "."%byte; "i"%byte; "o"%byte; x00].
Proof. reflexivity. Qed.

(* ================================================================== *)
(** ** The second phase of BIND *)

(** The number of values the goroutine sends on [readyCh]: one, plus one
    when reading the second response failed, plus one when the response
    it holds is not granted. *)
Lemma bindReady_sends (W : Type) (HW : io.Writer W) (c : socks4.Conn W) :
  let res := socks4.Response.ReadFrom socks4.Response.zero
               (socks4.Conn_Reader c) in
  fst (socks4.bindReady c) =
    match dec.err res with
    | Some err =>
        [Some (fmt_Errorf "read second BIND response: %w" [ArgError err])]
    | None => []
    end
    ++ (if socks4.Response.IsGranted (dec.self res) then []
        else [Some (fmt_Errorf
                      "proxy rejected BIND finalization (code 0x%02x)"
                      [ArgByte (socks4.Response.Code (dec.self res))])])
    ++ [None].
Proof.
  unfold socks4.bindReady, socks4.Conn_ReadFrom; cbv zeta.
  destruct (socks4.Response.IsGranted _); reflexivity.
Qed.

Lemma bindReady_one_value_iff (W : Type) (HW : io.Writer W)
  (c : socks4.Conn W) :
  let res := socks4.Response.ReadFrom socks4.Response.zero
               (socks4.Conn_Reader c) in
  List.length (fst (socks4.bindReady c)) = 1%nat <->
  dec.err res = None /\ socks4.Response.IsGranted (dec.self res) = true.
Proof.
  cbv zeta; rewrite (bindReady_sends W HW c).
  destruct (dec.err _); destruct (socks4.Response.IsGranted _); simpl;
    split; intro E; try discriminate; try (destruct E; discriminate); auto.
Qed.

(** C6. When the proxy closes the connection instead of sending the second
    response, the caller that keeps receiving from [readyCh] gets three
    values: the read error, a rejection with code 0x00 and nil; when the
    second response is a rejection (code 0x5b), it gets the rejection and
    then nil. Only a granted second response is reported by one value. *)
Theorem C6_readyCh_gets_more_than_one_value :
  (exists s,
      socks4.run
        [socks4.Spawn; socks4.Return; socks4.PeerClose; socks4.ReaderRead;
         socks4.ReaderSend; socks4.Recv; socks4.ReaderSend; socks4.Recv;
         socks4.ReaderSend; socks4.Recv; socks4.ReaderClose]
        (socks4.bind_init false) = Some s
      /\ socks4.received s =
           [socks4.Value
              (Some (fmt_Errorf "read second BIND response: %w"
                       [ArgError io.EOF]));
            socks4.Value
              (Some (fmt_Errorf
                       "proxy rejected BIND finalization (code 0x%02x)"
                       [ArgByte x00]));
            socks4.Value None])
  /\ (exists s,
         socks4.run
           [socks4.Spawn; socks4.Return; socks4.Arrive rejected_second_reply;
            socks4.ReaderRead; socks4.ReaderSend; socks4.Recv;
            socks4.ReaderSend; socks4.Recv; socks4.ReaderClose]
           (socks4.bind_init false) = Some s
         /\ socks4.received s =
              [socks4.Value
                 (Some (fmt_Errorf
                          "proxy rejected BIND finalization (code 0x%02x)"
                          [ArgByte x5b]));
               socks4.Value None])
  /\ (exists s,
         socks4.run
           [socks4.Spawn; socks4.Return; socks4.Arrive granted_reply;
            socks4.ReaderRead; socks4.ReaderSend; socks4.Recv;
            socks4.ReaderClose]
           (socks4.bind_init false) = Some s
         /\ socks4.received s = [socks4.Value None]).
Proof.
  split; [|split]; eexists; (split; [vm_compute; reflexivity|reflexivity]).
Qed.

(** ** Cancellation of BIND *)

(** Before [BindContext] returns, a cancelled context lets the watcher
    close the connection, and the pending read of the second phase then
    fails. *)
Lemma cancel_before_return_closes :
  exists s,
    socks4.run
      [socks4.Spawn; socks4.Cancel; socks4.WatcherOnCtx; socks4.ReaderRead]
      (socks4.bind_init false) = Some s
    /\ socks4.connClosed s = true
    /\ socks4.reader s =
         socks4.RSending
           [Some (fmt_Errorf "read second BIND response: %w"
                    [ArgError net.ErrClosed]);
            Some (fmt_Errorf
                    "proxy rejected BIND finalization (code 0x%02x)"
                    [ArgByte x00]);
            None].
Proof. eexists; split; [vm_compute; reflexivity|split; reflexivity]. Qed.

(** Once [BindContext] has returned, the watcher can leave through
    [exitCh]. *)
Lemma watcher_can_exit_after_return (s : socks4.BindState) :
  socks4.exitCh_closed s = true -> socks4.watcher s = socks4.WWaiting ->
  exists s', socks4.step socks4.WatcherOnExit s = Some s'
             /\ socks4.watcher s' = socks4.WDone
             /\ socks4.connClosed s' = socks4.connClosed s.
Proof.
  intros E Hw; unfold socks4.step; rewrite E, Hw.
  eexists; repeat split.
Qed.

Lemma step_watcher_done (a : socks4.Action) (s s' : socks4.BindState) :
  socks4.watcher s = socks4.WDone -> socks4.step a s = Some s' ->
  socks4.watcher s' = socks4.WDone
  /\ socks4.connClosed s' = socks4.connClosed s.
Proof.
  intros Hw E; destruct a; unfold socks4.step in E;
    repeat match type of E with
      | context [match ?x with _ => _ end] => destruct x eqn:?
      end;
    try discriminate; try (inversion E; subst; simpl; auto; fail);
    congruence.
Qed.

(** After the watcher has left, nothing closes the connection any more,
    whatever happens to the context. *)
Lemma watcher_done_never_closes (sched : list socks4.Action) :
  forall s s' : socks4.BindState,
    socks4.watcher s = socks4.WDone -> socks4.run sched s = Some s' ->
    socks4.connClosed s' = socks4.connClosed s.
Proof.
  induction sched as [|a sched IH]; intros s s' Hw E; simpl in E.
  - now inversion E.
  - destruct (socks4.step a s) as [s1|] eqn:E1; [|discriminate].
    destruct (step_watcher_done a s s1 Hw E1) as (Hw1 & Hc1).
    rewrite <- Hc1; apply (IH s1 s' Hw1 E).
Qed.

(** C7. [BindContext] returns, the watcher leaves through [exitCh], and
    only then the context is cancelled, before the second response
    arrives: the connection is not closed, the second response is read
    and the caller receives the readiness signal (nil). *)
Theorem C7_cancel_after_return_does_not_close :
  exists s,
    socks4.run
      [socks4.Spawn; socks4.Return; socks4.WatcherOnExit; socks4.Cancel;
       socks4.Arrive granted_reply; socks4.ReaderRead; socks4.ReaderSend;
       socks4.ReaderClose; socks4.Recv]
      (socks4.bind_init false) = Some s
    /\ socks4.ctxDone s = true
    /\ socks4.connClosed s = false
    /\ socks4.received s = [socks4.Value None].
Proof.
  eexists; split; [vm_compute; reflexivity|repeat split; reflexivity].
Qed.

(* ================================================================== *)
(** ** Failure paths of the dialer *)

Lemma unhex2_hex2 (b : byte) : unhex2 (fmt.hex2 b) = Some b.
Proof. destruct b; vm_compute; reflexivity. Qed.

(** Two reply codes with the same two hexadecimal digits are the same. *)
Lemma hex2_inj (a b : byte) : fmt.hex2 a = fmt.hex2 b -> a = b.
Proof.
  intro E; apply (f_equal unhex2) in E.
  rewrite !unhex2_hex2 in E; now inversion E.
Qed.

Lemma Error_rejected (code : byte) :
  Error (fmt_Errorf "proxy rejected request (code 0x%02x)" [ArgByte code])
  = ("proxy rejected request (code 0x" ++ fmt.hex2 code ++ ")")%string.
Proof. reflexivity. Qed.

Lemma Error_rejected_bind (code : byte) :
  Error (fmt_Errorf "proxy rejected BIND setup (code 0x%02x)" [ArgByte code])
  = ("proxy rejected BIND setup (code 0x" ++ fmt.hex2 code ++ ")")%string.
Proof. reflexivity. Qed.

Lemma Response_ReadFrom_enough (r : socks4.Response.t) (s : io.Stream)
  (v c p0 p1 i0 i1 i2 i3 : byte) :
  firstn 8 (io.concat s) = [v; c; p0; p1; i0; i1; i2; i3] ->
  socks4.Response.ReadFrom r s =
    let r' := socks4.Response.mk v c (binary.Uint16 p0 p1)
                (mkArray4 i0 i1 i2 i3) in
    dec.mkResult 8 (socks4.Response.Validate r') r' (advance s 8).
Proof.
  intro E.
  assert (L : (8 <= List.length (io.concat s))%nat).
  { rewrite <- (firstn_skipn 8 (io.concat s)), E, length_app; simpl; lia. }
  unfold socks4.Response.ReadFrom, dec.run, dec.bind.
  rewrite readFull_enough by exact L.
  rewrite E; cbn.
  destruct (socks4.Response.Validate _); reflexivity.
Qed.

Lemma Response_Validate_rejection (code : byte) (port : Z) (ip : Array4) :
  is_rejection code ->
  socks4.Response.Validate (socks4.Response.mk x00 code port ip) = None
  /\ socks4.Response.IsGranted (socks4.Response.mk x00 code port ip) = false.
Proof.
  intros [->|[->| ->]]; split; reflexivity.
Qed.

Section DialFailures.

Variable W : Type.
Context `{HW : io.Writer W}.
Variable DefaultDialer : string -> string -> socks4.Conn W + error.
Variable SplitHostPort : string -> (string * string) + error.
Variable LookupPort : string -> string -> Z + error.
Variable ParseIP : string -> net.IP.

Lemma DialContext_failure (d : socks4.Dialer W) (network address : string)
  (e : error) :
  let r := socks4.DialContext DefaultDialer SplitHostPort LookupPort ParseIP
             d network address in
  socks4.ret_err r = Some e ->
  socks4.ret_conn r = None
  /\ (forall c, socks4.proxy r = Some c -> socks4.closed c = true).
Proof.
  cbv zeta; unfold socks4.DialContext, socks4.fail_closed.
  destruct (match socks4.dialFunc d with Some f => f | None => _ end _ _)
    as [c0|e0]; [|simpl; intros _; split; [reflexivity|discriminate]].
  destruct (SplitHostPort address) as [[host portStr]|e1];
    [|simpl; intros _; split; [reflexivity|intros c E; now inversion E]].
  destruct (socks4.parsePort LookupPort portStr) as [port|e2];
    [|simpl; intros _; split; [reflexivity|intros c E; now inversion E]].
  destruct (socks4.Request.WriteTo _ c0) as [[k [e3|]] c1];
    [simpl; intros _; split; [reflexivity|intros c E; now inversion E]|].
  destruct (socks4.Conn_ReadFrom _ c1) as [res c2].
  destruct (dec.err res) as [e4|];
    [simpl; intros _; split; [reflexivity|intros c E; now inversion E]|].
  destruct (negb _);
    [simpl; intros _; split; [reflexivity|intros c E; now inversion E]|].
  simpl; discriminate.
Qed.

Lemma BindContext_failure (d : socks4.Dialer W) (network address : string)
  (e : error) :
  let r := socks4.BindContext DefaultDialer SplitHostPort LookupPort ParseIP
             d network address in
  socks4.bind_err r = Some e ->
  socks4.bind_conn r = None /\ socks4.bind_ready r = false
  /\ (forall c, socks4.bind_proxy r = Some c -> socks4.closed c = true).
Proof.
  cbv zeta; unfold socks4.BindContext, socks4.bind_fail_closed.
  destruct (match socks4.dialFunc d with Some f => f | None => _ end _ _)
    as [c0|e0]; [|simpl; intros _; repeat split; discriminate].
  destruct (SplitHostPort address) as [[host portStr]|e1];
    [|simpl; intros _; repeat split; intros c E; now inversion E].
  destruct (socks4.parsePort LookupPort portStr) as [port|e2];
    [|simpl; intros _; repeat split; intros c E; now inversion E].
  destruct (socks4.Request.WriteTo _ c0) as [[k [e3|]] c1];
    [simpl; intros _; repeat split; intros c E; now inversion E|].
  destruct (socks4.Conn_ReadFrom _ c1) as [res c2].
  destruct (dec.err res) as [e4|];
    [simpl; intros _; repeat split; intros c E; now inversion E|].
  destruct (negb _);
    [simpl; intros _; repeat split; intros c E; now inversion E|].
  simpl; discriminate.
Qed.

Lemma DialContext_rejected (d : socks4.Dialer W) (network address : string)
  (code : byte) :
  @proxy_replies W HW DefaultDialer SplitHostPort LookupPort ParseIP
    socks4.CmdConnect d network address code ->
  is_rejection code ->
  socks4.ret_err
    (socks4.DialContext DefaultDialer SplitHostPort LookupPort ParseIP
       d network address)
  = Some (fmt_Errorf "proxy rejected request (code 0x%02x)" [ArgByte code]).
Proof.
  intros (c0 & host & portStr & n & k & c1 & p0 & p1 & i0 & i1 & i2 & i3
          & E0 & E1 & E2 & E3 & E4) Hc.
  unfold dial_of in E0.
  unfold socks4.DialContext, socks4.parsePort; cbv zeta.
  rewrite E0, E1, E2, E3.
  unfold socks4.Conn_ReadFrom.
  rewrite (Response_ReadFrom_enough _ _ _ _ _ _ _ _ _ _ E4); cbv zeta.
  destruct (Response_Validate_rejection code (binary.Uint16 p0 p1)
              (mkArray4 i0 i1 i2 i3) Hc) as (V & G).
  cbn [dec.err dec.self]; rewrite V, G; reflexivity.
Qed.

Lemma BindContext_rejected (d : socks4.Dialer W) (network address : string)
  (code : byte) :
  @proxy_replies W HW DefaultDialer SplitHostPort LookupPort ParseIP
    socks4.CmdBind d network address code ->
  is_rejection code ->
  socks4.bind_err
    (socks4.BindContext DefaultDialer SplitHostPort LookupPort ParseIP
       d network address)
  = Some (fmt_Errorf "proxy rejected BIND setup (code 0x%02x)"
            [ArgByte code]).
Proof.
  intros (c0 & host & portStr & n & k & c1 & p0 & p1 & i0 & i1 & i2 & i3
          & E0 & E1 & E2 & E3 & E4) Hc.
  unfold dial_of in E0.
  unfold socks4.BindContext, socks4.parsePort; cbv zeta.
  rewrite E0, E1, E2, E3.
  unfold socks4.Conn_ReadFrom.
  rewrite (Response_ReadFrom_enough _ _ _ _ _ _ _ _ _ _ E4); cbv zeta.
  destruct (Response_Validate_rejection code (binary.Uint16 p0 p1)
              (mkArray4 i0 i1 i2 i3) Hc) as (V & G).
  cbn [dec.err dec.self]; rewrite V, G; reflexivity.
Qed.

End DialFailures.



(* ================================================================== *)
(** ** The scanner behind [ReadString] *)

Lemma productive_NewReader (l : list byte) : productive (bytes_.NewReader l).
Proof. destruct l; simpl; auto; split; [discriminate|auto]. Qed.

Lemma Read_spec (s : io.Stream) (k : nat) :
  forall bs e s', io.Read s k = ((bs, e), s') ->
    bs ++ io.concat s' = io.concat s
    /\ (List.length bs <= k)%nat
    /\ final s' = final s
    /\ (productive s -> productive s')
    /\ (forall x, e = Some x -> bs = [] /\ x = final s /\ io.concat s = [])
    /\ (e = None -> productive s -> (1 <= k)%nat -> bs <> []).
Proof.
  intros bs e s' E; destruct s as [c s|x]; simpl in E.
  - destruct (Nat.leb_spec (List.length c) k) as [L|L];
      inversion E; subst; clear E; cbn [io.concat final productive].
    + split; [reflexivity|]. split; [exact L|]. split; [reflexivity|].
      split; [tauto|]. split; [discriminate|]. tauto.
    + split; [rewrite app_assoc, firstn_skipn; reflexivity|].
      split; [rewrite length_firstn; lia|]. split; [reflexivity|].
      split.
      { intros [Hc Hp]; split; [|exact Hp].
        intro Z0; apply (f_equal (@List.length byte)) in Z0.
        rewrite length_skipn in Z0; simpl in Z0; lia. }
      split; [discriminate|].
      intros _ _ Hk Z0; apply (f_equal (@List.length byte)) in Z0.
      rewrite length_firstn in Z0; simpl in Z0; lia.
  - inversion E; subst; clear E; cbn [io.concat final productive].
    split; [reflexivity|]. split; [simpl; lia|]. split; [reflexivity|].
    split; [tauto|]. split; [|discriminate].
    intros y Ey; inversion Ey; auto.
Qed.

Lemma LimitedReader_Read_spec (l : internal.LimitedReader) (k : nat) :
  forall bs e l', internal.LimitedReader_Read l k = ((bs, e), l') ->
    bs ++ io.concat (internal.R l') = io.concat (internal.R l)
    /\ (List.length bs <= k)%nat
    /\ internal.N l' = internal.N l - len bs
    /\ ((0 <= internal.N l -> 0 <= internal.N l')
        /\ (internal.N l <= 0 -> internal.N l' = internal.N l))
    /\ final (internal.R l') = final (internal.R l)
    /\ (productive (internal.R l) -> productive (internal.R l'))
    /\ (forall x, e = Some x ->
          bs = []
          /\ ((x = io.EOF /\ internal.N l <= 0)
              \/ (x = final (internal.R l)
                  /\ io.concat (internal.R l) = [])))
    /\ (e = None -> productive (internal.R l) -> (1 <= k)%nat -> bs <> []).
Proof.
  intros bs e l' E; unfold internal.LimitedReader_Read in E.
  destruct (Z.leb_spec (internal.N l) 0) as [L|L].
  - inversion E; subst; clear E; unfold len; simpl.
    split; [reflexivity|]. split; [lia|]. split; [lia|]. split; [lia|].
    split; [reflexivity|]. split; [tauto|]. split; [|discriminate].
    intros x Ex; inversion Ex; auto.
  - destruct (io.Read (internal.R l) _) as [[bs0 e0] s0] eqn:ER.
    inversion E; subst; clear E; cbn [internal.R internal.N].
    destruct (Read_spec _ _ _ _ _ ER) as (A & B & C & D & F & G).
    assert (Hb : (List.length bs <= k)%nat /\ len bs <= internal.N l).
    { unfold len; destruct (Z.gtb_spec (Z.of_nat k) (internal.N l)); lia. }
    split; [exact A|]. split; [tauto|]. split; [reflexivity|].
    split; [lia|]. split; [exact C|]. split; [exact D|]. split.
    + intros x Ex; destruct (F x Ex) as (F1 & F2 & F3); auto.
    + intros He Hp Hk1; apply G; auto.
      destruct (Z.gtb_spec (Z.of_nat k) (internal.N l)); lia.
Qed.

Lemma fill_loop_spec (P0 : Prop) (i : nat) :
  forall b, (List.length (bufio.buf b) < bufio.size b)%nat ->
    (P0 -> productive (source b)) ->
    let b' := bufio.fill_loop i b in
    pending b' = pending b
    /\ bufio.size b' = bufio.size b
    /\ (List.length (bufio.buf b) <= List.length (bufio.buf b'))%nat
    /\ (List.length (bufio.buf b') <= bufio.size b)%nat
    /\ budget b' =
         budget b - (len (bufio.buf b') - len (bufio.buf b))
    /\ ((0 <= budget b -> 0 <= budget b')
        /\ (budget b <= 0 -> budget b' = budget b))
    /\ final (source b') = final (source b)
    /\ (P0 -> productive (source b'))
    /\ (bufio.err b = None ->
        match bufio.err b' with
        | Some x =>
            bufio.buf b' = bufio.buf b
            /\ (scan_error P0 b' x \/ (x = io.ErrNoProgress /\ i = O))
        | None =>
            (List.length (bufio.buf b) < List.length (bufio.buf b'))%nat
        end).
Proof.
  induction i as [|i IH]; intros b Hlt Hp0; cbv zeta.
  - simpl; unfold pending, budget, source, scan_error in *; simpl.
    repeat split; auto; lia.
  - cbn [bufio.fill_loop].
    destruct (internal.LimitedReader_Read (bufio.rd b) _)
      as [[bs e] rd'] eqn:ER.
    destruct (LimitedReader_Read_spec _ _ _ _ _ ER)
      as (A & B & C & D & F & G & H & I).
    destruct e as [x|].
    + destruct (H x eq_refl) as (-> & Hx).
      unfold pending, budget, source, scan_error in *; simpl.
      rewrite app_nil_r in *; simpl in A; rewrite A.
      unfold len in *; simpl in C.
      split; [reflexivity|]. split; [reflexivity|]. split; [lia|].
      split; [lia|]. split; [lia|]. split; [exact D|].
      split; [exact F|]. split; [tauto|].
      intros _; split; [reflexivity|]; left.
      unfold scan_error, budget, source; simpl.
      destruct Hx as [[Hx HN]|[Hx Hc]]; [left; split; [exact Hx|lia]|].
      right; left; split; [rewrite F; exact Hx|rewrite A; exact Hc].
    + destruct (Nat.ltb_spec 0 (List.length bs)) as [Lb|Lb].
      * unfold pending, budget, source, scan_error in *; simpl.
        rewrite <- app_assoc, A, length_app.
        unfold len in *; rewrite length_app.
        split; [reflexivity|]. split; [reflexivity|]. split; [lia|].
        split; [lia|]. split; [lia|]. split; [exact D|].
        split; [exact F|]. split; [tauto|].
        intros ->; lia.
      * assert (bs = []) by (destruct bs; [reflexivity|simpl in Lb; lia]).
        subst bs.
        assert (NP : ~ P0).
        { intro Hp; apply (I eq_refl (Hp0 Hp)); [lia|reflexivity]. }
        specialize (IH {| bufio.size := bufio.size b;
                          bufio.buf := bufio.buf b ++ [];
                          bufio.rd := rd';
                          bufio.err := bufio.err b |}).
        cbv zeta in IH; simpl in IH; rewrite app_nil_r in IH.
        specialize (IH Hlt).
        destruct IH as (P1 & P2 & P3 & P4 & P5 & P6 & P7 & P8 & P9);
          [intro; contradiction|].
        rewrite app_nil_r.
        unfold pending, budget, source, scan_error in *; simpl in *.
        unfold len in C; simpl in C.
        split; [rewrite P1, A; reflexivity|]. split; [exact P2|].
        split; [exact P3|]. split; [exact P4|].
        split; [rewrite P5; lia|]. split; [lia|].
        split; [rewrite P7; exact F|]. split; [exact P8|].
        intro He; specialize (P9 He).
        destruct (bufio.err (bufio.fill_loop i _)) as [x|]; [|exact P9].
        destruct P9 as (Q1 & Q2); split; [exact Q1|].
        left; destruct Q2 as [Q|[Q _]]; [exact Q|].
        right; right; split; [exact Q|exact NP].
Qed.

Lemma fill_spec (P0 : Prop) (b : bufio.Reader) :
  (List.length (bufio.buf b) < bufio.size b)%nat ->
  (P0 -> productive (source b)) ->
  let b' := bufio.fill b in
  pending b' = pending b
  /\ bufio.size b' = bufio.size b
  /\ (List.length (bufio.buf b) <= List.length (bufio.buf b'))%nat
  /\ (List.length (bufio.buf b') <= bufio.size b)%nat
  /\ budget b' = budget b - (len (bufio.buf b') - len (bufio.buf b))
  /\ ((0 <= budget b -> 0 <= budget b')
      /\ (budget b <= 0 -> budget b' = budget b))
  /\ final (source b') = final (source b)
  /\ (P0 -> productive (source b'))
  /\ (bufio.err b = None ->
      match bufio.err b' with
      | Some x => bufio.buf b' = bufio.buf b /\ scan_error P0 b' x
      | None => (List.length (bufio.buf b) < List.length (bufio.buf b'))%nat
      end).
Proof.
  intros Hlt Hp0; cbv zeta; unfold bufio.fill.
  destruct (fill_loop_spec P0 bufio.maxConsecutiveEmptyReads b Hlt Hp0)
    as (P1 & P2 & P3 & P4 & P5 & P6 & P7 & P8 & P9).
  repeat (split; [assumption|]).
  intro He; specialize (P9 He).
  destruct (bufio.err _) as [x|]; [|exact P9].
  destruct P9 as (Q1 & [Q|[_ Q]]); [auto|discriminate].
Qed.

Lemma IndexByte_None (l : list byte) (d : byte) :
  bytes_.IndexByte l d = None <-> ~ In d l.
Proof.
  induction l as [|x l IH]; simpl; [tauto|].
  destruct (Byte.eqb x d) eqn:E.
  - apply Byte_eqb_eq in E; subst; split; [discriminate|tauto].
  - apply Byte_eqb_neq in E.
    destruct (bytes_.IndexByte l d); split; try discriminate; try tauto.
    intro H; exfalso; apply H; right.
    destruct IH as [_ IH].
    destruct (in_dec Byte.byte_eq_dec d l) as [I|I]; [exact I|].
    specialize (IH I); discriminate.
Qed.

Lemma IndexByte_Some (l : list byte) (d : byte) :
  forall i, bytes_.IndexByte l d = Some i ->
    (i < List.length l)%nat
    /\ firstn (S i) l = firstn i l ++ [d]
    /\ ~ In d (firstn i l).
Proof.
  induction l as [|x l IH]; simpl; intros i E; [discriminate|].
  destruct (Byte.eqb x d) eqn:Ex.
  - apply Byte_eqb_eq in Ex; subst; inversion E; subst; simpl.
    repeat split; [lia|tauto].
  - apply Byte_eqb_neq in Ex.
    destruct (bytes_.IndexByte l d) as [j|]; [|discriminate].
    inversion E; subst; clear E.
    destruct (IH j eq_refl) as (A & B & C).
    split; [lia|]. split.
    + change (firstn (S (S j)) (x :: l)) with (x :: firstn (S j) l).
      rewrite B; reflexivity.
    + simpl; intros [F|F]; [now apply Ex|now apply C].
Qed.

Lemma IndexByte_app (pre post : list byte) (d : byte) :
  ~ In d pre ->
  bytes_.IndexByte (pre ++ d :: post) d = Some (List.length pre).
Proof.
  induction pre as [|x pre IH]; simpl; intro H.
  - now rewrite Byte_eqb_refl.
  - assert (E : Byte.eqb x d = false) by (apply Byte_eqb_neq; tauto).
    rewrite E, IH by tauto; reflexivity.
Qed.

Lemma ReadSlice_loop_spec (P0 : Prop) (delim : byte) (fuel : nat) :
  forall b, loop_ok P0 delim b ->
    (match bufio.err b with
     | Some _ => 1
     | None => bufio.size b - List.length (bufio.buf b) + 2
     end <= fuel)%nat ->
    exists line e b',
      bufio.ReadSlice_loop fuel b delim = Some ((line, e), b')
      /\ slice_result P0 delim b line e b'.
Proof.
  induction fuel as [|fuel IH]; intros b (Hwf & Hp & He) Hf.
  { destruct (bufio.err b); lia. }
  cbn [bufio.ReadSlice_loop].
  destruct (bytes_.IndexByte (bufio.buf b) delim) as [i|] eqn:EI.
  - (* the delimiter is in the buffer *)
    assert (En : bufio.err b = None).
    { destruct (bufio.err b); [|reflexivity].
      destruct He as (_ & He); discriminate. }
    destruct (IndexByte_Some _ _ _ EI) as (Li & _ & _).
    do 3 eexists; split; [reflexivity|].
    unfold slice_result, pending, budget, source, wf in *;
      cbn [bufio.buf bufio.rd bufio.size bufio.err internal.R internal.N].
    destruct Hwf as (W1 & W2).
    rewrite app_assoc, firstn_skipn.
    unfold len; rewrite length_firstn, length_skipn.
    split; [reflexivity|]. split; [reflexivity|].
    split; [split; [exact W1|lia]|]. split; [exact En|].
    split; [lia|]. split; [lia|]. split; [reflexivity|].
    split; [exact Hp|].
    exists i; split; [|lia].
    destruct (IndexByte_Some _ _ _ EI) as (_ & F & NI).
    rewrite F, IndexByte_app by exact NI.
    rewrite length_firstn; f_equal; lia.
  - destruct (bufio.err b) as [x|] eqn:En.
    + (* a pending error *)
      do 3 eexists; split; [reflexivity|].
      unfold slice_result, pending, budget, source, wf in *;
      cbn [bufio.buf bufio.rd bufio.size bufio.err internal.R internal.N].
      destruct Hwf as (W1 & W2); destruct He as (He & _).
      unfold len; cbn [List.length app].
      split; [reflexivity|]. split; [reflexivity|].
      split; [split; [exact W1|lia]|]. split; [reflexivity|].
      split; [lia|]. split; [lia|]. split; [reflexivity|].
      split; [exact Hp|].
      split; [reflexivity|]. split; [exact EI|].
      right; exact He.
    + destruct (Nat.leb_spec (bufio.size b) (List.length (bufio.buf b)))
        as [Lf|Lf].
      * (* the buffer is full *)
        do 3 eexists; split; [reflexivity|].
        unfold slice_result, pending, budget, source, wf in *;
      cbn [bufio.buf bufio.rd bufio.size bufio.err internal.R internal.N].
        destruct Hwf as (W1 & W2).
        unfold len; cbn [List.length app].
        split; [reflexivity|]. split; [reflexivity|].
        split; [split; [exact W1|lia]|]. split; [reflexivity|].
        split; [lia|]. split; [lia|]. split; [reflexivity|].
        split; [exact Hp|].
        split; [reflexivity|]. split; [exact EI|].
        left; split; [reflexivity|]. split; lia.
      * (* fill and search again *)
        destruct (fill_spec P0 b Lf Hp)
          as (P1 & P2 & P3 & P4 & P5 & P6 & P7 & P8 & P9).
        specialize (P9 En).
        destruct Hwf as (W1 & W2).
        destruct (IH (bufio.fill b)) as (line & e & b' & ER & RS).
        { split; [split; lia|]. split; [exact P8|].
          destruct (bufio.err (bufio.fill b)); [|exact I].
          destruct P9 as (Q1 & Q2); split; [exact Q2|].
          rewrite Q1; exact EI. }
        { destruct (bufio.err (bufio.fill b)); lia. }
        exists line, e, b'; split; [exact ER|].
        destruct RS as (R1 & R2 & R3 & R4 & R5 & R6 & R7 & R8 & R9).
        unfold slice_result.
        split; [rewrite R1; exact P1|]. split; [lia|].
        split; [exact R3|]. split; [exact R4|].
        split; [rewrite R5, P5; lia|]. split; [lia|].
        split; [rewrite R7; exact P7|]. split; [exact R8|].
        destruct e as [x|]; [|exact R9].
        destruct R9 as (S1 & S2 & S3); split; [exact S1|].
        split; [exact S2|].
        destruct S3 as [(T1 & T2 & T3)|T]; [left|right; exact T].
        split; [exact T1|]. split; [lia|].
        intros _.
        assert (Hl : len line = Z.of_nat (bufio.size b))
          by (unfold len; lia).
        rewrite R5, P5, S1, Hl; unfold len; simpl; lia.
Qed.

Lemma ReadSlice_spec (P0 : Prop) (delim : byte) (b : bufio.Reader) :
  loop_ok P0 delim b ->
  exists line e b',
    bufio.ReadSlice b delim = Some ((line, e), b')
    /\ slice_result P0 delim b line e b'.
Proof.
  intro H; apply ReadSlice_loop_spec; [exact H|].
  destruct (bufio.err b); lia.
Qed.

Lemma collectFragments_loop_spec (P0 : Prop) (delim : byte) (fuel : nat) :
  forall b full,
    wf b -> bufio.err b = None -> (P0 -> productive (source b)) ->
    is_sentinel (final (source b)) bufio.ErrBufferFull = false ->
    (Z.to_nat (budget b)
     + (if (List.length (bufio.buf b) <? bufio.size b)%nat then 0 else 1)
     + 1 <= fuel)%nat ->
    exists res e b',
      bufio.collectFragments_loop fuel b delim full
        = Some ((full ++ res, e), b')
      /\ string_result P0 delim b res e b'.
Proof.
  induction fuel as [|fuel IH]; intros b full Hwf He Hp Hfin Hf; [lia|].
  cbn [bufio.collectFragments_loop].
  destruct (ReadSlice_spec P0 delim b) as (line & e & b1 & ER & RS).
  { split; [exact Hwf|]. split; [exact Hp|]. rewrite He; exact I. }
  rewrite ER.
  destruct RS as (R1 & R2 & R3 & R4 & R5 & R6 & R7 & R8 & R9).
  destruct e as [x|].
  - destruct R9 as (S1 & S2 & S3).
    destruct S3 as [(T1 & T2 & T3)|T].
    + (* a full buffer without the delimiter: one more round *)
      subst x; cbn [is_sentinel bufio.ErrBufferFull String.eqb].
      change (("bufio.ErrBufferFull" =? "bufio.ErrBufferFull")%string)
        with true; cbv iota.
      destruct (IH b1 (full ++ line)) as (res & e & b' & EC & CS).
      * exact R3.
      * exact R4.
      * exact R8.
      * rewrite R7; exact Hfin.
      * destruct Hwf as (W1 & W2).
        rewrite S1; simpl.
        destruct (Nat.ltb_spec 0 (bufio.size b1)) as [_|]; [|lia].
        destruct (Nat.ltb_spec (List.length (bufio.buf b)) (bufio.size b))
          as [L|L].
        -- specialize (T3 L); lia.
        -- assert (len line = len (bufio.buf b))
             by (unfold len; lia).
           rewrite S1 in R5; unfold len in R5; simpl in R5.
           unfold len in *; lia.
      * exists (line ++ res), e, b'.
        split; [rewrite app_assoc; exact EC|].
        destruct CS as (C1 & C2 & C3 & C4 & C5 & C6 & C7 & C8 & C9).
        unfold string_result.
        split; [rewrite <- app_assoc, C1; exact R1|].
        split; [lia|]. split; [exact C3|]. split; [exact C4|].
        split; [rewrite C5, R5, len_app; lia|]. split; [lia|].
        split; [rewrite C7; exact R7|]. split; [exact C8|].
        apply IndexByte_None in S2.
        destruct e as [y|].
        -- destruct C9 as (D1 & D2 & D3 & D4).
           split; [exact D1|]. split; [|split; [exact D3|exact D4]].
           intro F; apply in_app_or in F; tauto.
        -- destruct C9 as (pre & D1 & D2).
           exists (line ++ pre); split; [rewrite D1, app_assoc; reflexivity|].
           intro F; apply in_app_or in F; tauto.
    + (* the scan has ended *)
      assert (Hx : is_sentinel x bufio.ErrBufferFull = false).
      { destruct T as [(-> & _)|[(-> & _)|(-> & _)]];
          [reflexivity|rewrite R7; exact Hfin|reflexivity]. }
      rewrite Hx.
      exists line, (Some x), b1; split; [reflexivity|].
      unfold string_result.
      repeat (split; [assumption|]).
      split; [apply IndexByte_None; exact S2|].
      split; [exact T|exact Hx].
  - exists line, None, b1; split; [reflexivity|].
    unfold string_result.
    repeat (split; [assumption|]).
    destruct R9 as (i & I1 & I2).
    destruct (IndexByte_Some _ _ _ I1) as (_ & F & NI).
    exists (firstn i line); split; [|exact NI].
    rewrite <- F, firstn_all2 by lia; reflexivity.
Qed.

Lemma ReadString_spec (P0 : Prop) (delim : byte) (b : bufio.Reader) :
  wf b -> bufio.err b = None -> (P0 -> productive (source b)) ->
  is_sentinel (final (source b)) bufio.ErrBufferFull = false ->
  exists res e b',
    bufio.ReadString b delim = Some ((res, e), b')
    /\ string_result P0 delim b res e b'.
Proof.
  intros Hwf He Hp Hfin; unfold bufio.ReadString.
  destruct (collectFragments_loop_spec P0 delim
              (S (S (Z.to_nat (internal.N (bufio.rd b))))) b []
              Hwf He Hp Hfin) as (res & e & b' & E & S).
  { unfold budget; destruct (_ <? _)%nat; lia. }
  exists res, e, b'; split; [exact E|exact S].
Qed.

Lemma split_at_first (d : byte) (pre u t r : list byte) :
  pre ++ d :: t = u ++ d :: r -> ~ In d pre -> ~ In d u ->
  pre = u /\ t = r.
Proof.
  revert u; induction pre as [|x pre IH]; intros [|y u] E Hp Hu;
    simpl in *.
  - inversion E; auto.
  - inversion E; subst; tauto.
  - inversion E; subst; tauto.
  - inversion E; subst.
    destruct (IH u H1) as (-> & ->); tauto.
Qed.

Lemma prefix_contains (d : byte) (res tail u r : list byte) :
  res ++ tail = u ++ d :: r ->
  (List.length u < List.length res)%nat -> In d res.
Proof.
  intros E L.
  rewrite <- (firstn_skipn (S (List.length u)) res).
  apply in_or_app; left.
  assert (F : firstn (S (List.length u)) (res ++ tail)
              = firstn (S (List.length u)) (u ++ d :: r)) by now rewrite E.
  rewrite !firstn_app in F.
  replace (S (List.length u) - List.length res)%nat with O in F by lia.
  replace (S (List.length u) - List.length u)%nat with 1%nat in F by lia.
  rewrite (@firstn_all2 _ (S (List.length u)) u) in F by lia.
  change (firstn 1 (d :: r)) with [d] in F.
  rewrite firstn_O, app_nil_r in F.
  rewrite F; apply in_or_app; right; left; reflexivity.
Qed.

(** A scan that has the delimiter within its reach finds it: the bytes
    pending start with [u], free of the delimiter, then the delimiter, and
    the budget covers what of them is not buffered yet. *)
Lemma ReadString_finds (delim : byte) (b : bufio.Reader)
  (u rest : list byte) :
  wf b -> bufio.err b = None -> productive (source b) ->
  is_sentinel (final (source b)) bufio.ErrBufferFull = false ->
  pending b = u ++ delim :: rest -> ~ In delim u ->
  len u + 1 <= len (bufio.buf b) + budget b ->
  exists b',
    bufio.ReadString b delim = Some ((u ++ [delim], None), b')
    /\ pending b' = rest
    /\ wf b' /\ bufio.size b' = bufio.size b /\ bufio.err b' = None
    /\ productive (source b')
    /\ final (source b') = final (source b).
Proof.
  intros Hwf He Hp Hfin Hpend Hu Hb.
  destruct (ReadString_spec True delim b Hwf He (fun _ => Hp) Hfin)
    as (res & e & b' & E & S).
  destruct S as (S1 & S2 & S3 & S4 & S5 & S6 & S7 & S8 & S9).
  rewrite Hpend in S1.
  destruct e as [x|].
  - exfalso; destruct S9 as (D1 & D2 & D3 & _).
    destruct D3 as [(_ & D)|[(_ & D)|(_ & D)]]; [| |tauto].
    + apply D2, (prefix_contains delim res (pending b') u rest S1).
      rewrite D1 in S5; unfold len in *; simpl in S5; lia.
    + unfold pending, source in *; rewrite D1, D in S1; simpl in S1.
      rewrite app_nil_r in S1; subst res.
      apply D2, in_or_app; right; left; reflexivity.
  - destruct S9 as (pre & D1 & D2); subst res.
    rewrite <- app_assoc in S1; simpl in S1.
    destruct (split_at_first _ _ _ _ _ S1 D2 Hu) as (-> & R).
    exists b'; split; [exact E|]. split; [exact R|].
    split; [exact S3|]. split; [exact S2|]. split; [exact S4|].
    split; [exact (S8 I)|exact S7].
Qed.

(* ================================================================== *)
(** ** Scanning the user ID and the domain *)

Lemma trim_terminator_last (pre : list byte) (d : byte) :
  socks4.Request.trim_terminator (pre ++ [d]) = string_of_bytes pre.
Proof.
  unfold socks4.Request.trim_terminator, drop_last.
  now rewrite removelast_last.
Qed.

Lemma scan_error_EOF (P0 : Prop) (b : bufio.Reader) (x : error) :
  scan_error P0 b x -> final (source b) = io.EOF ->
  x = io.EOF \/ (x = io.ErrNoProgress /\ ~ P0).
Proof.
  intros [(-> & _)|[(-> & _)|F]] E; [left; reflexivity|left; exact E|].
  right; exact F.
Qed.

(** [maxUserIDLen+1] and [maxDomainLen+1] on [int64] limits: the sum, or
    [math.MinInt64] when the limit is [math.MaxInt64]. *)
Lemma int64_succ (m : Z) :
  math.MinInt64 <= m <= math.MaxInt64 ->
  int64 (m + 1) = m + 1
  \/ (m = math.MaxInt64 /\ int64 (m + 1) = math.MinInt64).
Proof.
  unfold int64, math.MinInt64, math.MaxInt64; intros H.
  destruct (Z.eq_dec m 9223372036854775807) as [->|N].
  - right; split; reflexivity.
  - left; rewrite Z.mod_small; lia.
Qed.

Lemma int64_succ_le (m : Z) :
  math.MinInt64 <= m <= math.MaxInt64 ->
  int64 (m + 1) <= m + 1.
Proof.
  intro H; destruct (int64_succ m H) as [->|(-> & ->)];
    [lia|unfold math.MinInt64, math.MaxInt64; lia].
Qed.

Lemma IsSOCKS4a_ip (r r' : socks4.Request.t) :
  socks4.Request.IP r' = socks4.Request.IP r ->
  socks4.Request.IsSOCKS4a r' = socks4.Request.IsSOCKS4a r.
Proof. unfold socks4.Request.IsSOCKS4a; now intros ->. Qed.

(** What [ReadUserIDAndDomain] does on a stream that ends with [EOF],
    for every pair of limits; [n1] and [n2] are the budgets of the two
    scans. *)
Lemma ReadUserIDAndDomain_spec (r : socks4.Request.t) (src : io.Stream)
  (mu md : Z) :
  final src = io.EOF ->
  exists res,
    socks4.Request.ReadUserIDAndDomain r src mu md = Some res
    /\ (dec.err res = None ->
        len_string (socks4.Request.UserID (dec.self res))
        <= int64 (mu + 1) - 1
        /\ ~ In x00 (bytes_of_string
                       (socks4.Request.UserID (dec.self res))))
    /\ (socks4.Request.UserID (dec.self res) = socks4.Request.UserID r
        \/ ~ In x00 (bytes_of_string
                       (socks4.Request.UserID (dec.self res))))
    /\ Z.of_nat (List.length (io.concat src))
       - Z.of_nat (List.length (io.concat (dec.rest res)))
       <= Z.max 0 (int64 (mu + 1)) + Z.max 0 (int64 (md + 1))
    /\ (forall e, dec.err res = Some e ->
          e = io.EOF \/ (e = io.ErrNoProgress /\ ~ productive src))
    /\ (~ In x00 (firstn (Z.to_nat (int64 (mu + 1))) (io.concat src)) ->
        dec.err res <> None)
    /\ (~ In x00 (io.concat src) -> dec.err res <> None).
Proof.
  intros Hfin.
  unfold socks4.Request.ReadUserIDAndDomain.
  generalize (int64 (mu + 1)), (int64 (md + 1)); clear mu md; intros n1 n2.
  set (b0 := internal_pool.GetReader
               (internal.LimitedReader_Init src n1)).
  assert (W0 : wf b0).
  { unfold wf, b0, internal_pool.GetReader, bufio.Reset,
      internal.ReaderPool_size; cbn [bufio.size bufio.buf List.length].
    split; lia. }
  assert (F0 : is_sentinel (final (source b0)) bufio.ErrBufferFull = false)
    by (unfold source, b0; simpl; rewrite Hfin; reflexivity).
  destruct (ReadString_spec (productive src) x00 b0 W0 eq_refl
              (fun Hp => Hp) F0)
    as (res1 & e1 & b1 & E1 & S).
  rewrite E1.
  destruct S as (S1 & S2 & S3 & S4 & S5 & S6 & S7 & S8 & S9).
  unfold pending, budget, source in *; simpl in S1, S5, S6, S7.
  assert (L1 : Z.of_nat (List.length (io.concat src))
               = len res1 + len (bufio.buf b1)
                 + len (io.concat (internal.R (bufio.rd b1)))).
  { rewrite <- S1; unfold len; rewrite !length_app; lia. }
  assert (B1 : len res1 + len (bufio.buf b1) <= Z.max 0 n1).
  { pose proof (len_nonneg res1); pose proof (len_nonneg (bufio.buf b1)).
    unfold len in *; simpl in *; lia. }
  assert (NoSuccess :
            e1 = None ->
            (~ In x00 (firstn (Z.to_nat n1) (io.concat src)) -> False)
            /\ (~ In x00 (io.concat src) -> False)).
  { intros ->; destruct S9 as (pre & -> & _).
    assert (I0 : In x00 (pre ++ [x00]))
      by (apply in_or_app; right; left; reflexivity).
    split.
    - intros Hn; apply Hn; rewrite <- S1.
      rewrite firstn_app; apply in_or_app; left.
      rewrite firstn_all2; [exact I0|].
      pose proof (len_nonneg (bufio.buf b1)); unfold len in *; lia.
    - intros Hn; apply Hn; rewrite <- S1.
      apply in_or_app; left; exact I0. }
  destruct e1 as [x|].
  - (* the user ID is not terminated *)
    destruct S9 as (D1 & D2 & D3 & _).
    assert (Hx : x = io.EOF \/ (x = io.ErrNoProgress /\ ~ productive src)).
    { apply (scan_error_EOF _ _ _ D3); unfold source; rewrite S7; exact Hfin. }
    eexists; split; [reflexivity|]; cbn [dec.err dec.self dec.rest].
    split; [discriminate|]. split; [left; reflexivity|].
    split; [pose proof (len_nonneg res1); unfold len in *; lia|].
    split; [intros e Ee; inversion Ee; subst; exact Hx|].
    split; discriminate.
  - destruct S9 as (pre & -> & Hpre).
    destruct (NoSuccess eq_refl) as (NA & NB).
    rewrite trim_terminator_last.
    assert (Lu : len_string (string_of_bytes pre) <= n1 - 1).
    { rewrite <- len_string_bytes, bytes_of_string_of_bytes.
      rewrite len_app in B1; unfold len in *; simpl in B1.
      pose proof (len_nonneg (bufio.buf b1)); unfold len in *; lia. }
    match goal with
    | |- context [socks4.Request.IsSOCKS4a ?r1] =>
        destruct (socks4.Request.IsSOCKS4a r1) eqn:E4
    end.
    + (* the domain *)
      set (b2 := {| bufio.size := bufio.size b1;
                    bufio.buf := bufio.buf b1;
                    bufio.rd := internal.LimitedReader_Init
                                  (internal.R (bufio.rd b1)) n2;
                    bufio.err := bufio.err b1 |}).
      assert (W2 : wf b2) by exact S3.
      assert (F2 : is_sentinel (final (source b2)) bufio.ErrBufferFull
                   = false)
        by (unfold source; simpl; rewrite S7, Hfin; reflexivity).
      destruct (ReadString_spec (productive src) x00 b2 W2 S4 S8 F2)
        as (res2 & e2 & b3 & E2 & T).
      rewrite E2.
      destruct T as (T1 & T2 & T3 & T4 & T5 & T6 & T7 & T8 & T9).
      unfold pending, budget, source in *; simpl in T1, T5, T6, T7.
      assert (L2 : len (bufio.buf b1)
                   + len (io.concat (internal.R (bufio.rd b1)))
                   = len res2 + len (bufio.buf b3)
                     + len (io.concat (internal.R (bufio.rd b3)))).
      { pose proof (f_equal (@List.length byte) T1) as T1'.
        rewrite !length_app in T1'; unfold len; lia. }
      assert (B2 : len res2 + len (bufio.buf b3) - len (bufio.buf b1)
                   <= Z.max 0 n2) by lia.
      assert (Cons : Z.of_nat (List.length (io.concat src))
                     - Z.of_nat (List.length
                                   (io.concat (internal.R (bufio.rd b3))))
                     <= Z.max 0 n1 + Z.max 0 n2).
      { unfold len in *; lia. }
      destruct e2 as [x|].
      * destruct T9 as (D1 & D2 & D3 & _).
        assert (Hx : x = io.EOF
                     \/ (x = io.ErrNoProgress /\ ~ productive src)).
        { apply (scan_error_EOF _ _ _ D3); unfold source.
          rewrite T7, S7; exact Hfin. }
        eexists; split; [reflexivity|]; cbn [dec.err dec.self dec.rest
                                             socks4.Request.UserID].
        rewrite bytes_of_string_of_bytes.
        split; [discriminate|]. split; [right; exact Hpre|].
        split; [exact Cons|].
        split; [intros e Ee; inversion Ee; subst; exact Hx|].
        split; discriminate.
      * eexists; split; [reflexivity|]; cbn [dec.err dec.self dec.rest
                                             socks4.Request.UserID].
        rewrite bytes_of_string_of_bytes.
        split; [intros _; split; [exact Lu|exact Hpre]|].
        split; [right; exact Hpre|]. split; [exact Cons|].
        split; [discriminate|].
        split; [intros Hn; destruct (NA Hn)|intro Hn; destruct (NB Hn)].
    + eexists; split; [reflexivity|]; cbn [dec.err dec.self dec.rest
                                           socks4.Request.UserID].
      rewrite bytes_of_string_of_bytes.
      split; [intros _; split; [exact Lu|exact Hpre]|].
      split; [right; exact Hpre|].
      split; [pose proof (len_nonneg (bufio.buf b1)); unfold len in *; lia|].
      split; [discriminate|].
      split; [intros Hn; destruct (NA Hn)|intro Hn; destruct (NB Hn)].
Qed.


(** The bound of the domain does not hold for the bytes that the scan of
    the user ID has left in the buffer: with [maxDomainLen = 0] the domain
    "abc" is accepted. *)
Example domain_longer_than_its_limit :
  option_map (fun res => (dec.err res, socks4.Request.Domain (dec.self res)))
    (socks4.Request.ReadUserIDAndDomain
       (socks4.Request.mk x04 x01 80 (mkArray4 x00 x00 x00 x01) "" "")
       (bytes_.NewReader [x00; "a"%byte; "b"%byte; "c"%byte; x00]) 256 0)
  = Some (None, "abc").
Proof. vm_compute; reflexivity. Qed.

(** With [maxUserIDLen = math.MaxInt64] the budget of the first scan is
    [math.MinInt64]: the user ID "u" is refused with [io.EOF] and nothing
    is counted. *)
Example limit_of_MaxInt64_reads_nothing :
  option_map (fun res => (dec.n res, dec.err res))
    (socks4.Request.ReadUserIDAndDomain socks4.Request.zero
       (bytes_.NewReader ["u"%byte; x00]) math.MaxInt64 256)
  = Some (0, Some io.EOF).
Proof. vm_compute; reflexivity. Qed.



(* ================================================================== *)
(** ** Writing a SOCKS4 request *)

Lemma writeCString_Buffer (b : list byte) (s : string) :
  socks4.writeCString (bytes_.mkBuffer b) s
  = ((len (bytes_of_string s ++ [x00]), None),
     bytes_.mkBuffer (b ++ bytes_of_string s ++ [x00])).
Proof.
  unfold socks4.writeCString.
  destruct (len_string s =? 0) eqn:E; cbn.
  - apply Z.eqb_eq, len_string_zero in E; subst; reflexivity.
  - rewrite len_app, <- app_assoc; unfold len at 3; simpl.
    reflexivity.
Qed.

(** Every request is written in full to a buffer, whatever its fields. *)
Lemma Request_WriteTo_Buffer (r : socks4.Request.t) (b : list byte) :
  socks4.Request.WriteTo r (bytes_.mkBuffer b)
  = ((len (frame r), None), bytes_.mkBuffer (b ++ frame r)).
Proof.
  unfold socks4.Request.WriteTo, frame.
  unfold io.Write at 1, bytes_.Buffer_Writer at 1.
  cbn [bytes_.Bytes].
  rewrite writeCString_Buffer.
  destruct (socks4.Request.IsSOCKS4a r).
  - rewrite writeCString_Buffer.
    f_equal; [f_equal|f_equal].
    + unfold binary.PutUint16, Array4_slice.
      unfold len; rewrite !length_app; cbn [List.length]; lia.
    + unfold binary.PutUint16, Array4_slice.
      rewrite <- !app_assoc; reflexivity.
  - f_equal; [f_equal|f_equal].
    + unfold binary.PutUint16, Array4_slice.
      unfold len; rewrite !length_app; cbn [List.length]; lia.
    + unfold binary.PutUint16, Array4_slice.
      rewrite app_nil_r, <- !app_assoc; reflexivity.
Qed.

(** The error of [writeCString] is the error of the first write that
    failed, its count is the sum of the counts of its writes, and it stops
    at the first failure. *)
Lemma writeCString_Logged (W : Type) (HW : io.Writer W) (w : W)
  (log : list (list byte * (Z * option error))) (s : string) :
  first_error log = None ->
  exists more,
    let '((n, e), lw) := socks4.writeCString (mkLogged w log) s in
    calls lw = log ++ more
    /\ more <> []
    /\ e = first_error more
    /\ n = count_sum more
    /\ first_error (removelast more) = None.
Proof.
  intro Hl; unfold socks4.writeCString, io.WriteString.
  destruct (negb (len_string s =? 0)).
  - unfold io.Write at 1, Logged_Writer at 1; cbn [inner calls].
    destruct (io.Write w (bytes_of_string s)) as [[n1 [e1|]] w1].
    + eexists [_]; cbn; repeat split; auto; try discriminate; lia.
    + unfold io.Write at 1, Logged_Writer at 1; cbn [inner calls].
      destruct (io.Write w1 [x00]) as [[n2 e2] w2].
      eexists [_; _]; cbn; rewrite <- app_assoc.
      repeat split; auto; try discriminate; try lia.
      destruct e2; reflexivity.
  - unfold io.Write at 1, Logged_Writer at 1; cbn [inner calls].
    destruct (io.Write w [x00]) as [[n2 e2] w2].
    eexists [_]; cbn.
    repeat split; auto; try discriminate; try lia.
    destruct e2; reflexivity.
Qed.

Lemma first_error_app (l1 l2 : list (list byte * (Z * option error))) :
  first_error l1 = None -> first_error (l1 ++ l2) = first_error l2.
Proof.
  induction l1 as [|[p [n [e|]]] l1 IH]; simpl; intro H;
    [reflexivity|discriminate|auto].
Qed.

Lemma count_sum_app (l1 l2 : list (list byte * (Z * option error))) :
  count_sum (l1 ++ l2) = count_sum l1 + count_sum l2.
Proof.
  induction l1 as [|[p [n e]] l1 IH]; simpl; [reflexivity|rewrite IH; lia].
Qed.

Lemma first_error_Exists (l : list (list byte * (Z * option error))) :
  first_error l <> None <-> Exists (fun c => snd (snd c) <> None) l.
Proof.
  induction l as [|[p [n [e|]]] l IH]; simpl.
  - split; [tauto|intro H; inversion H].
  - split; [intros _; left; discriminate|discriminate].
  - rewrite IH; split; [intro H; right; exact H|].
    intro H; inversion H; subst; [simpl in *; tauto|assumption].
Qed.

(** [WriteTo] on a recording writer: the error it returns is the error of
    the first write that failed, and the failed write is the last one;
    the count is the sum of the counts of the writes. *)
Lemma Request_WriteTo_Logged (W : Type) (HW : io.Writer W)
  (r : socks4.Request.t) (w : W) :
  forall n e lw,
    socks4.Request.WriteTo r (mkLogged w []) = ((n, e), lw) ->
    calls lw <> []
    /\ e = first_error (calls lw)
    /\ n = count_sum (calls lw)
    /\ first_error (removelast (calls lw)) = None.
Proof.
  intros n e lw; unfold socks4.Request.WriteTo.
  unfold io.Write at 1, Logged_Writer at 1; cbn [inner calls app].
  destruct (io.Write w _) as [[n1 [e1|]] w1].
  { intro E; inversion E; subst; cbn; repeat split; auto;
      try discriminate; lia. }
  set (log1 := [(_, (n1, None))]).
  assert (H1 : first_error log1 = None) by reflexivity.
  destruct (writeCString_Logged W HW w1 log1 (socks4.Request.UserID r) H1)
    as (more1 & M1).
  destruct (socks4.writeCString (mkLogged w1 log1) _) as [[n2 e2] lw2].
  destruct M1 as (C1 & N1 & E1 & S1 & R1).
  assert (A1 : calls lw2 <> []
               /\ e2 = first_error (calls lw2)
               /\ 0 + n1 + n2 = count_sum (calls lw2)
               /\ first_error (removelast (calls lw2)) = None).
  { rewrite C1; split; [destruct more1; [tauto|discriminate]|].
    rewrite first_error_app, count_sum_app, removelast_app,
      first_error_app by assumption.
    subst; cbn; repeat split; auto; lia. }
  destruct e2 as [e2|].
  { intro E; inversion E; subst; exact A1. }
  destruct (socks4.Request.IsSOCKS4a r).
  - assert (H2 : first_error (calls lw2) = None)
      by (destruct A1 as (_ & A & _); auto).
    destruct lw2 as [w2 log2]; cbn [calls] in *.
    destruct (writeCString_Logged W HW w2 log2 (socks4.Request.Domain r) H2)
      as (more2 & M2).
    destruct (socks4.writeCString (mkLogged w2 log2) _) as [[n3 e3] lw3].
    destruct M2 as (C2 & N2 & E2 & S2 & R2).
    assert (A2 : calls lw3 <> []
                 /\ e3 = first_error (calls lw3)
                 /\ 0 + n1 + n2 + n3 = count_sum (calls lw3)
                 /\ first_error (removelast (calls lw3)) = None).
    { rewrite C2; split; [destruct more2; [tauto|destruct log2; discriminate]|].
      rewrite first_error_app, count_sum_app, removelast_app,
        first_error_app by assumption.
      destruct A1 as (_ & _ & A & _).
      subst; repeat split; auto; lia. }
    destruct e3; intro E; inversion E; subst; exact A2.
  - intro E; inversion E; subst; exact A1.
Qed.

Lemma Request_ReadHeaderFrom_NewReader (r : socks4.Request.t)
  (v c p0 p1 i0 i1 i2 i3 : byte) (rest : list byte) :
  socks4.Request.ReadHeaderFrom r
    (bytes_.NewReader ([v; c; p0; p1; i0; i1; i2; i3] ++ rest))
  = let r' := socks4.Request.mk v c (binary.Uint16 p0 p1)
                (mkArray4 i0 i1 i2 i3) (socks4.Request.UserID r)
                (socks4.Request.Domain r) in
    dec.mkResult 8 (socks4.Request.ValidateHeader r') r'
      (bytes_.NewReader rest).
Proof.
  rewrite (Request_ReadHeaderFrom_enough r _ v c p0 p1 i0 i1 i2 i3).
  - unfold advance.
    change 8%nat with (List.length [v; c; p0; p1; i0; i1; i2; i3]).
    rewrite ReadFull_NewReader_app; reflexivity.
  - rewrite concat_NewReader; reflexivity.
Qed.

(** A user ID that [ReadFrom] has decoded into a fresh request holds no
    zero byte. *)
Lemma Request_ReadFrom_UserID_no_NUL (l : list byte) :
  exists res,
    socks4.Request.ReadFrom socks4.Request.zero (bytes_.NewReader l)
      = Some res
    /\ ~ In x00 (bytes_of_string (socks4.Request.UserID (dec.self res))).
Proof.
  unfold socks4.Request.ReadFrom, socks4.Request.ReadFromWithLimits.
  destruct (Nat.leb_spec 8 (List.length l)) as [L|L].
  - destruct l as [|v [|c [|p0 [|p1 [|i0 [|i1 [|i2 [|i3 rest]]]]]]]];
      simpl in L; try lia.
    change (v :: c :: p0 :: p1 :: i0 :: i1 :: i2 :: i3 :: rest)
      with ([v; c; p0; p1; i0; i1; i2; i3] ++ rest).
    rewrite Request_ReadHeaderFrom_NewReader; cbv zeta.
    cbn [dec.err dec.self dec.rest dec.n].
    destruct (socks4.Request.ValidateHeader _) as [e|].
    + eexists; split; [reflexivity|]; simpl; tauto.
    + destruct (ReadUserIDAndDomain_spec
                  (socks4.Request.mk v c (binary.Uint16 p0 p1)
                     (mkArray4 i0 i1 i2 i3) "" "")
                  (bytes_.NewReader rest) socks4.DefaultMaxUserIDLen
                  socks4.DefaultMaxDomainLen (final_NewReader rest))
        as (res & E & _ & A & _).
      cbn [socks4.Request.UserID socks4.Request.Domain socks4.Request.zero].
      rewrite E; eexists; split; [reflexivity|].
      cbn [dec.self].
      destruct A as [A|A]; [rewrite A; simpl; tauto|exact A].
  - unfold socks4.Request.ReadHeaderFrom, dec.run, dec.bind, dec.readFull.
    cbn [dec.src dec.recv dec.total].
    unfold io.ReadFull; rewrite ReadFull_loop_short
      by (rewrite concat_NewReader; exact L).
    cbn; eexists; split; [reflexivity|]; simpl; tauto.
Qed.

(** C10. [WriteTo] of a SOCKS4 request validates nothing. On any writer,
    the error it returns is the error of the first write that failed, so
    it returns an error exactly when a write of the underlying stream
    fails; on a buffer, whose writes do not fail, every request (whatever
    its version, command, user ID and domain) is written without error as
    its header followed by the bytes of its strings, not escaped, with
    their terminators. Hence a user ID that holds a zero byte does not
    come back: decoding the written bytes yields another user ID. *)
Theorem C10_WriteTo_validates_nothing :
  (forall (W : Type) (HW : io.Writer W) (r : socks4.Request.t) (w : W)
      n e lw,
      socks4.Request.WriteTo r (mkLogged w []) = ((n, e), lw) ->
      e = first_error (calls lw)
      /\ (e <> None <->
          Exists (fun c => snd (snd c) <> None) (calls lw)))
  /\ (forall (r : socks4.Request.t) (b : list byte),
        socks4.Request.WriteTo r (bytes_.mkBuffer b)
        = ((len (frame r), None), bytes_.mkBuffer (b ++ frame r)))
  /\ (forall r : socks4.Request.t,
        In x00 (bytes_of_string (socks4.Request.UserID r)) ->
        exists res,
          socks4.Request.ReadFrom socks4.Request.zero
            (bytes_.Reader
               (snd (socks4.Request.WriteTo r (bytes_.mkBuffer []))))
          = Some res
          /\ socks4.Request.UserID (dec.self res)
             <> socks4.Request.UserID r).
Proof.
  split; [|split].
  - intros W HW r w n e lw E.
    destruct (Request_WriteTo_Logged W HW r w n e lw E) as (_ & A & _).
    split; [exact A|]. rewrite A; apply first_error_Exists.
  - exact Request_WriteTo_Buffer.
  - intros r Hr.
    rewrite Request_WriteTo_Buffer; cbn [snd bytes_.Reader bytes_.Bytes app].
    destruct (Request_ReadFrom_UserID_no_NUL (frame r)) as (res & E & N).
    exists res; split; [exact E|].
    intro F; rewrite F in N; contradiction.
Qed.

(** The user ID "a", a zero byte, "b" is written as it is and comes back
    as "a". *)
Lemma C10_WriteTo_validates_nothing_witness :
  exists res,
    socks4.Request.ReadFrom socks4.Request.zero
      (bytes_.Reader
         (snd (socks4.Request.WriteTo
                 (socks4.Request.mk x04 x01 80 (mkArray4 x7f x00 x00 x01)
                    (string_of_bytes ["a"%byte; x00; "b"%byte]) "")
                 (bytes_.mkBuffer []))))
    = Some res
    /\ socks4.Request.UserID (dec.self res)
       <> string_of_bytes ["a"%byte; x00; "b"%byte].
Proof.
  destruct C10_WriteTo_validates_nothing as (_ & _ & H).
  apply (H (socks4.Request.mk x04 x01 80 (mkArray4 x7f x00 x00 x01)
              (string_of_bytes ["a"%byte; x00; "b"%byte]) "")).
  simpl; right; left; reflexivity.
Defined.

Example NUL_in_UserID_decodes_shorter :
  option_map
    (fun res => (dec.n res, socks4.Request.UserID (dec.self res)))
    (socks4.Request.ReadFrom socks4.Request.zero
       (bytes_.Reader
          (snd (socks4.Request.WriteTo
                  (socks4.Request.mk x04 x01 80 (mkArray4 x7f x00 x00 x01)
                     (string_of_bytes ["a"%byte; x00; "b"%byte]) "")
                  (bytes_.mkBuffer [])))))
  = Some (10, "a").
Proof. vm_compute; reflexivity. Qed.

(* ================================================================== *)
(** ** Validation of the header before the trailing fields *)

Lemma advance_concat (s : io.Stream) (l rest : list byte) :
  io.concat s = l ++ rest ->
  io.concat (advance s (List.length l)) = rest
  /\ final (advance s (List.length l)) = final s.
Proof.
  intro E.
  destruct (ReadFull_enough s (List.length l)) as (_ & B & C).
  { rewrite E, length_app; lia. }
  rewrite B, E, skipn_app, Nat.sub_diag, skipn_all; simpl; auto.
Qed.

(** [readFull] on a stream that delivers [l] first. *)
Lemma readFull_prefix {R} (l rest : list byte) (r : R) (t : Z)
  (s : io.Stream) :
  io.concat s = l ++ rest ->
  dec.readFull (List.length l) (dec.mkState r t s)
  = (inl l, dec.mkState r (t + len l) (advance s (List.length l))).
Proof.
  intro E; rewrite readFull_enough by (rewrite E, length_app; lia).
  rewrite E, firstn_app, Nat.sub_diag, firstn_all; simpl.
  rewrite app_nil_r; reflexivity.
Qed.

(** C2, counterexample. A handshake request with version 4 that declares
    two methods: both method bytes are read before the version is
    refused. *)
Lemma C2_handshake_reads_methods_before_version_check :
  ~ header_first_everywhere.
Proof.
  intros (H & _).
  destruct (H (bytes_.NewReader [x04; x02; x00; x02]))
    as (res & E & _ & N & _).
  - simpl; lia.
  - unfold wrong_version; simpl; discriminate.
  - unfold returns in E; injection E as <-.
    vm_compute in N; discriminate.
Qed.

Example handshake_wrong_version_example :
  socks5.HandshakeRequest.ReadFrom socks5.HandshakeRequest.zero
    (bytes_.NewReader [x04; x02; x00; x02])
  = dec.mkResult 4 (Some socks5.ErrInvalidHandshakeVersion)
      (socks5.HandshakeRequest.mk x04 x02 [x00; x02]) (io.End io.EOF).
Proof. reflexivity. Qed.

Lemma socks4_Request_header_first (r : socks4.Request.t) (src : io.Stream)
  (v c p0 p1 i0 i1 i2 i3 : byte) (rest : list byte) (e : error) :
  io.concat src = [v; c; p0; p1; i0; i1; i2; i3] ++ rest ->
  socks4.Request.ValidateHeader
    (socks4.Request.mk v c (binary.Uint16 p0 p1) (mkArray4 i0 i1 i2 i3)
       (socks4.Request.UserID r) (socks4.Request.Domain r)) = Some e ->
  socks4.Request.ReadFrom r src
  = Some (dec.mkResult 8 (Some e)
            (socks4.Request.mk v c (binary.Uint16 p0 p1)
               (mkArray4 i0 i1 i2 i3) (socks4.Request.UserID r)
               (socks4.Request.Domain r))
            (advance src 8))
  /\ io.concat (advance src 8) = rest.
Proof.
  intros E V.
  unfold socks4.Request.ReadFrom, socks4.Request.ReadFromWithLimits.
  rewrite (Request_ReadHeaderFrom_enough r src v c p0 p1 i0 i1 i2 i3)
    by (rewrite E; reflexivity).
  cbv zeta; rewrite V; cbn [dec.err]; split; [reflexivity|].
  change 8%nat with (List.length [v; c; p0; p1; i0; i1; i2; i3]).
  apply (advance_concat src _ rest E).
Qed.

Lemma socks5_Request_header_first (r : socks5.Request.t) (src : io.Stream)
  (v c rsv atyp : byte) (rest : list byte) (e : error) :
  io.concat src = [v; c; rsv; atyp] ++ rest ->
  socks5.Request.ValidateHeader
    (socks5.Request.mk v c rsv atyp (socks5.Request.IP r)
       (socks5.Request.Domain r) (socks5.Request.Port r)) = Some e ->
  socks5.Request.ReadFrom r src
  = dec.mkResult 4 (Some e)
      (socks5.Request.mk v c rsv atyp (socks5.Request.IP r)
         (socks5.Request.Domain r) (socks5.Request.Port r))
      (advance src 4)
  /\ io.concat (advance src 4) = rest.
Proof.
  intros E V.
  unfold socks5.Request.ReadFrom, dec.run, dec.bind.
  change 4%nat with (List.length [v; c; rsv; atyp]) at 1.
  rewrite (readFull_prefix _ rest) by exact E.
  cbn [dec.modify dec.get dec.recv dec.total dec.src at_ nth].
  rewrite V; cbn; split; [reflexivity|].
  change 4%nat with (List.length [v; c; rsv; atyp]).
  apply (advance_concat src _ rest E).
Qed.

Lemma socks5_Reply_header_first (r : socks5.Reply.t) (src : io.Stream)
  (v c rsv atyp : byte) (rest : list byte) (e : error) :
  io.concat src = [v; c; rsv; atyp] ++ rest ->
  socks5.Reply.ValidateHeader
    (socks5.Reply.mk v c rsv atyp (socks5.Reply.IP r)
       (socks5.Reply.Domain r) (socks5.Reply.Port r)) = Some e ->
  socks5.Reply.ReadFrom r src
  = dec.mkResult 4 (Some e)
      (socks5.Reply.mk v c rsv atyp (socks5.Reply.IP r)
         (socks5.Reply.Domain r) (socks5.Reply.Port r))
      (advance src 4)
  /\ io.concat (advance src 4) = rest.
Proof.
  intros E V.
  unfold socks5.Reply.ReadFrom, dec.run, dec.bind.
  change 4%nat with (List.length [v; c; rsv; atyp]) at 1.
  rewrite (readFull_prefix _ rest) by exact E.
  cbn [dec.modify dec.get dec.recv dec.total dec.src at_ nth].
  rewrite V; cbn; split; [reflexivity|].
  change 4%nat with (List.length [v; c; rsv; atyp]).
  apply (advance_concat src _ rest E).
Qed.

Lemma UDPPacket_header_first (p : socks5.UDPPacket.t) (src : io.Stream)
  (r0 r1 frag atyp : byte) (rest : list byte) (e : error) :
  io.concat src = [r0; r1; frag; atyp] ++ rest ->
  socks5.UDPPacket.ValidateHeader
    (socks5.UDPPacket.mk (r0, r1) frag atyp (socks5.UDPPacket.IP p)
       (socks5.UDPPacket.Domain p) (socks5.UDPPacket.Port p)
       (socks5.UDPPacket.Data p)) = Some e ->
  socks5.UDPPacket.ReadFrom p src
  = dec.mkResult 4 (Some e)
      (socks5.UDPPacket.mk (r0, r1) frag atyp (socks5.UDPPacket.IP p)
         (socks5.UDPPacket.Domain p) (socks5.UDPPacket.Port p)
         (socks5.UDPPacket.Data p))
      (advance src 4)
  /\ io.concat (advance src 4) = rest.
Proof.
  intros E V.
  unfold socks5.UDPPacket.ReadFrom, dec.run, dec.bind.
  change 4%nat with (List.length [r0; r1; frag; atyp]) at 1.
  rewrite (readFull_prefix _ rest) by exact E.
  cbn [dec.modify dec.get dec.recv dec.total dec.src at_ nth].
  rewrite V; cbn; split; [reflexivity|].
  change 4%nat with (List.length [r0; r1; frag; atyp]).
  apply (advance_concat src _ rest E).
Qed.

Lemma nat_of_byte_x00 (b : byte) :
  (socks5.nat_of_byte b =? 0)%nat = Byte.eqb b x00.
Proof.
  unfold socks5.nat_of_byte.
  pose proof (Z_of_byte_range b).
  destruct (Byte.eqb b x00) eqn:E.
  - apply Byte_eqb_eq in E; subst; reflexivity.
  - apply Byte_eqb_neq in E.
    apply Nat.eqb_neq; intro F; apply E, Z_of_byte_x00; lia.
Qed.

Lemma nat_of_byte_of_len (l : list byte) :
  (List.length l < 256)%nat ->
  socks5.nat_of_byte (byte_of_Z (len l)) = List.length l.
Proof.
  intro L; unfold socks5.nat_of_byte, len.
  rewrite Z_of_byte_of_Z, Z.mod_small by lia; lia.
Qed.

(** A handshake request is decoded from a source that delivers its two
    header bytes and the declared number of methods: everything is read,
    and only then validated. *)
Lemma HandshakeRequest_ReadFrom_frame (h : socks5.HandshakeRequest.t)
  (src : io.Stream) (v n : byte) (methods rest : list byte) :
  io.concat src = [v; n] ++ methods ++ rest ->
  List.length methods = socks5.nat_of_byte n -> n <> x00 ->
  socks5.HandshakeRequest.ReadFrom h src
  = dec.mkResult (2 + len methods)
      (socks5.HandshakeRequest.Validate
         (socks5.HandshakeRequest.mk v n methods))
      (socks5.HandshakeRequest.mk v n methods)
      (advance (advance src 2) (List.length methods))
  /\ io.concat (advance (advance src 2) (List.length methods)) = rest
  /\ final (advance (advance src 2) (List.length methods)) = final src.
Proof.
  intros E L N.
  destruct (advance_concat src [v; n] _ E) as (E2 & F2).
  destruct (advance_concat _ methods rest E2) as (E3 & F3).
  change (List.length [v; n]) with 2%nat in *.
  split; [|split; [exact E3|rewrite F3; exact F2]].
  unfold socks5.HandshakeRequest.ReadFrom, dec.run, dec.bind.
  change 2%nat with (List.length [v; n]) at 1.
  rewrite (readFull_prefix _ (methods ++ rest)) by exact E.
  cbn [dec.modify dec.get dec.recv dec.total dec.src at_ nth dec.ret
       socks5.HandshakeRequest.NMethods].
  apply Byte_eqb_neq in N; rewrite N.
  cbn [dec.ret dec.recv socks5.HandshakeRequest.NMethods].
  rewrite <- L.
  rewrite (readFull_prefix _ rest) by exact E2.
  cbn [dec.modify dec.get dec.recv dec.total dec.src dec.finish
       socks5.HandshakeRequest.Version socks5.HandshakeRequest.NMethods].
  change (List.length [v; n]) with 2%nat.
  destruct (socks5.HandshakeRequest.Validate _); reflexivity.
Qed.

Lemma HandshakeRequest_ReadFrom_no_methods (h : socks5.HandshakeRequest.t)
  (src : io.Stream) (v : byte) (rest : list byte) :
  io.concat src = [v; x00] ++ rest ->
  socks5.HandshakeRequest.ReadFrom h src
  = dec.mkResult 2 (Some socks5.ErrNoMethodsProvided)
      (socks5.HandshakeRequest.mk v x00 (socks5.HandshakeRequest.Methods h))
      (advance src 2)
  /\ io.concat (advance src 2) = rest.
Proof.
  intros E.
  destruct (advance_concat src [v; x00] _ E) as (E2 & F2).
  split; [|exact E2].
  unfold socks5.HandshakeRequest.ReadFrom, dec.run, dec.bind.
  change 2%nat with (List.length [v; x00]) at 1.
  rewrite (readFull_prefix _ rest) by exact E.
  reflexivity.
Qed.

(** The same for a user/password request. *)
Lemma UserPassRequest_ReadFrom_frame (r : socks5.UserPassRequest.t)
  (src : io.Stream) (v ul pl : byte) (uname pass rest : list byte) :
  io.concat src = [v; ul] ++ uname ++ [pl] ++ pass ++ rest ->
  List.length uname = socks5.nat_of_byte ul -> ul <> x00 ->
  List.length pass = socks5.nat_of_byte pl -> pl <> x00 ->
  let r' := socks5.UserPassRequest.mk v (string_of_bytes uname)
              (string_of_bytes pass) in
  let src' := advance (advance (advance (advance src 2)
                                  (List.length uname)) 1)
                (List.length pass) in
  socks5.UserPassRequest.ReadFrom r src
  = dec.mkResult (2 + len uname + 1 + len pass)
      (socks5.UserPassRequest.Validate r') r' src'
  /\ io.concat src' = rest
  /\ final src' = final src.
Proof.
  intros E Lu Nu Lp Np; cbv zeta.
  destruct (advance_concat src [v; ul] _ E) as (E2 & F2).
  destruct (advance_concat _ uname _ E2) as (E3 & F3).
  destruct (advance_concat _ [pl] _ E3) as (E4 & F4).
  destruct (advance_concat _ pass rest E4) as (E5 & F5).
  change (List.length [v; ul]) with 2%nat in *.
  change (List.length [pl]) with 1%nat in *.
  split; [|split; [exact E5|rewrite F5, F4, F3; exact F2]].
  unfold socks5.UserPassRequest.ReadFrom, dec.run, dec.bind.
  change 2%nat with (List.length [v; ul]) at 1.
  rewrite (readFull_prefix _ (uname ++ [pl] ++ pass ++ rest)) by exact E.
  cbn [dec.modify dec.get dec.recv dec.total dec.src at_ nth dec.ret].
  rewrite nat_of_byte_x00.
  apply Byte_eqb_neq in Nu; rewrite Nu; cbn [dec.ret].
  rewrite <- Lu.
  change (List.length [v; ul]) with 2%nat.
  rewrite (readFull_prefix _ ([pl] ++ pass ++ rest)) by exact E2.
  cbn [dec.modify dec.get dec.recv dec.total dec.src dec.ret].
  change 1%nat with (List.length [pl]) at 1.
  rewrite (readFull_prefix _ (pass ++ rest)) by exact E3.
  cbn [dec.modify dec.get dec.recv dec.total dec.src at_ nth dec.ret].
  rewrite nat_of_byte_x00.
  apply Byte_eqb_neq in Np; rewrite Np; cbn [dec.ret].
  rewrite <- Lp.
  change (List.length [pl]) with 1%nat.
  rewrite (readFull_prefix _ rest) by exact E4.
  cbn [dec.modify dec.get dec.recv dec.total dec.src dec.finish
       socks5.UserPassRequest.Version socks5.UserPassRequest.Username
       socks5.UserPassRequest.Password].
  assert (T : 0 + len [v; ul] + len uname + len [pl] + len pass
              = 2 + len uname + 1 + len pass) by (unfold len; simpl; lia).
  rewrite T.
  destruct (socks5.UserPassRequest.Validate _); reflexivity.
Qed.

Lemma UserPassRequest_ReadFrom_no_username (r : socks5.UserPassRequest.t)
  (src : io.Stream) (v : byte) (rest : list byte) :
  io.concat src = [v; x00] ++ rest ->
  socks5.UserPassRequest.ReadFrom r src
  = dec.mkResult 2 (Some socks5.ErrEmptyUserPassUsername)
      (socks5.UserPassRequest.mk v (socks5.UserPassRequest.Username r)
         (socks5.UserPassRequest.Password r))
      (advance src 2)
  /\ io.concat (advance src 2) = rest.
Proof.
  intros E.
  destruct (advance_concat src [v; x00] _ E) as (E2 & F2).
  split; [|exact E2].
  unfold socks5.UserPassRequest.ReadFrom, dec.run, dec.bind.
  change 2%nat with (List.length [v; x00]) at 1.
  rewrite (readFull_prefix _ rest) by exact E.
  reflexivity.
Qed.

Lemma GSSAPIRequest_ReadFrom_frame (r : socks5.GSSAPIRequest.t)
  (src : io.Stream) (v mt l0 l1 : byte) (tok rest : list byte) :
  io.concat src = [v; mt] ++ [l0; l1] ++ tok ++ rest ->
  mt <> socks5.GSSAPITypeAbort ->
  binary.Uint16 l0 l1 <> 0 ->
  List.length tok = Z.to_nat (binary.Uint16 l0 l1) ->
  exists src',
    socks5.GSSAPIRequest.ReadFrom r src
    = dec.mkResult (2 + 2 + len tok)
        (socks5.GSSAPIRequest.Validate (socks5.GSSAPIRequest.mk v mt tok))
        (socks5.GSSAPIRequest.mk v mt tok) src'
    /\ io.concat src' = rest.
Proof.
  intros E A N L.
  destruct (advance_concat src [v; mt] _ E) as (E2 & _).
  destruct (advance_concat _ [l0; l1] _ E2) as (E3 & _).
  destruct (advance_concat _ tok rest E3) as (E4 & _).
  eexists; split; [|exact E4].
  unfold socks5.GSSAPIRequest.ReadFrom, dec.run, dec.bind.
  change 2%nat with (List.length [v; mt]) at 1.
  rewrite (readFull_prefix _ ([l0; l1] ++ tok ++ rest)) by exact E.
  cbn [dec.modify dec.get dec.recv dec.total dec.src at_ nth
       socks5.GSSAPIRequest.MsgType].
  apply Byte_eqb_neq in A; rewrite A.
  change 2%nat with (List.length [l0; l1]) at 1.
  rewrite (readFull_prefix _ (tok ++ rest)) by exact E2.
  cbn [at_ nth].
  apply Z.eqb_neq in N; rewrite N; cbn [dec.ret].
  rewrite <- L.
  rewrite (readFull_prefix _ rest) by exact E3.
  cbn [dec.modify dec.get dec.recv dec.total dec.src dec.finish
       socks5.GSSAPIRequest.Version socks5.GSSAPIRequest.MsgType].
  destruct (socks5.GSSAPIRequest.Validate _); reflexivity.
Qed.

Lemma GSSAPIReply_ReadFrom_frame (r : socks5.GSSAPIReply.t)
  (src : io.Stream) (v mt l0 l1 : byte) (tok rest : list byte) :
  io.concat src = [v; mt] ++ [l0; l1] ++ tok ++ rest ->
  mt <> socks5.GSSAPITypeAbort ->
  binary.Uint16 l0 l1 <> 0 ->
  List.length tok = Z.to_nat (binary.Uint16 l0 l1) ->
  exists src',
    socks5.GSSAPIReply.ReadFrom r src
    = dec.mkResult (2 + 2 + len tok)
        (socks5.GSSAPIReply.Validate (socks5.GSSAPIReply.mk v mt tok))
        (socks5.GSSAPIReply.mk v mt tok) src'
    /\ io.concat src' = rest.
Proof.
  intros E A N L.
  destruct (advance_concat src [v; mt] _ E) as (E2 & _).
  destruct (advance_concat _ [l0; l1] _ E2) as (E3 & _).
  destruct (advance_concat _ tok rest E3) as (E4 & _).
  eexists; split; [|exact E4].
  unfold socks5.GSSAPIReply.ReadFrom, dec.run, dec.bind.
  change 2%nat with (List.length [v; mt]) at 1.
  rewrite (readFull_prefix _ ([l0; l1] ++ tok ++ rest)) by exact E.
  cbn [dec.modify dec.get dec.recv dec.total dec.src at_ nth
       socks5.GSSAPIReply.MsgType].
  apply Byte_eqb_neq in A; rewrite A.
  change 2%nat with (List.length [l0; l1]) at 1.
  rewrite (readFull_prefix _ (tok ++ rest)) by exact E2.
  cbn [at_ nth].
  apply Z.eqb_neq in N; rewrite N; cbn [dec.ret].
  rewrite <- L.
  rewrite (readFull_prefix _ rest) by exact E3.
  cbn [dec.modify dec.get dec.recv dec.total dec.src dec.finish
       socks5.GSSAPIReply.Version socks5.GSSAPIReply.MsgType].
  destruct (socks5.GSSAPIReply.Validate _); reflexivity.
Qed.

Lemma GSSAPIRequest_ReadFrom_empty_token (r : socks5.GSSAPIRequest.t)
  (src : io.Stream) (v mt : byte) (rest : list byte) :
  io.concat src = [v; mt; x00; x00] ++ rest ->
  mt <> socks5.GSSAPITypeAbort ->
  socks5.GSSAPIRequest.ReadFrom r src
  = dec.mkResult 4 (Some socks5.ErrEmptyGSSAPIToken)
      (socks5.GSSAPIRequest.mk v mt (socks5.GSSAPIRequest.Token r))
      (advance (advance src 2) 2)
  /\ io.concat (advance (advance src 2) 2) = rest.
Proof.
  intros E A.
  change (io.concat src = [v; mt] ++ [x00; x00] ++ rest) in E.
  destruct (advance_concat src [v; mt] _ E) as (E2 & _).
  destruct (advance_concat _ [x00; x00] _ E2) as (E3 & _).
  split; [|exact E3].
  unfold socks5.GSSAPIRequest.ReadFrom, dec.run, dec.bind.
  change 2%nat with (List.length [v; mt]) at 1.
  rewrite (readFull_prefix _ ([x00; x00] ++ rest)) by exact E.
  cbn [dec.modify dec.get dec.recv dec.total dec.src at_ nth
       socks5.GSSAPIRequest.MsgType].
  apply Byte_eqb_neq in A; rewrite A.
  change 2%nat with (List.length [x00; x00]) at 1.
  rewrite (readFull_prefix _ rest) by exact E2.
  reflexivity.
Qed.

Lemma GSSAPIReply_ReadFrom_empty_token (r : socks5.GSSAPIReply.t)
  (src : io.Stream) (v mt : byte) (rest : list byte) :
  io.concat src = [v; mt; x00; x00] ++ rest ->
  mt <> socks5.GSSAPITypeAbort ->
  socks5.GSSAPIReply.ReadFrom r src
  = dec.mkResult 4 (Some socks5.ErrEmptyGSSAPIReplyToken)
      (socks5.GSSAPIReply.mk v mt (socks5.GSSAPIReply.Token r))
      (advance (advance src 2) 2)
  /\ io.concat (advance (advance src 2) 2) = rest.
Proof.
  intros E A.
  change (io.concat src = [v; mt] ++ [x00; x00] ++ rest) in E.
  destruct (advance_concat src [v; mt] _ E) as (E2 & _).
  destruct (advance_concat _ [x00; x00] _ E2) as (E3 & _).
  split; [|exact E3].
  unfold socks5.GSSAPIReply.ReadFrom, dec.run, dec.bind.
  change 2%nat with (List.length [v; mt]) at 1.
  rewrite (readFull_prefix _ ([x00; x00] ++ rest)) by exact E.
  cbn [dec.modify dec.get dec.recv dec.total dec.src at_ nth
       socks5.GSSAPIReply.MsgType].
  apply Byte_eqb_neq in A; rewrite A.
  change 2%nat with (List.length [x00; x00]) at 1.
  rewrite (readFull_prefix _ rest) by exact E2.
  reflexivity.
Qed.

Lemma take_header (l : list byte) (n : nat) :
  (n <= List.length l)%nat ->
  l = firstn n l ++ skipn n l /\ List.length (firstn n l) = n.
Proof.
  intro L; split; [symmetry; apply firstn_skipn|].
  rewrite length_firstn; lia.
Qed.

(** Names the [n] bytes of a header [h] of length [n]. *)
Tactic Notation "name_header" ident(h) ident(Len) integer(n) :=
  do n (destruct h as [|? h]; [simpl in Len; lia|]);
  destruct h; [|simpl in Len; lia].

Lemma socks4_Request_stops_after_header (r : socks4.Request.t) :
  stops_after_header (socks4.Request.ReadFrom r) 8
    (fun hdr =>
       socks4.Request.ValidateHeader (socks4_Request_header r hdr) <> None).
Proof.
  intros src L C.
  destruct (take_header _ _ L) as (E & Len).
  set (rest := skipn 8 (io.concat src)) in *.
  remember (firstn 8 (io.concat src)) as h eqn:Hh; clear Hh.
  name_header h Len 8.
  unfold socks4_Request_header in C; cbn [at_ nth] in C.
  destruct (socks4.Request.ValidateHeader _) as [e|] eqn:V;
    [|contradiction].
  destruct (socks4_Request_header_first r src _ _ _ _ _ _ _ _ rest e E V)
    as (A & B).
  eexists; split; [exact A|].
  cbn [dec.err dec.n dec.rest]; repeat split; [discriminate|exact B].
Qed.

Lemma socks5_Request_stops_after_header (r : socks5.Request.t) :
  stops_after_header (returns (socks5.Request.ReadFrom r)) 4
    (fun hdr =>
       socks5.Request.ValidateHeader (socks5_Request_header r hdr) <> None).
Proof.
  intros src L C.
  destruct (take_header _ _ L) as (E & Len).
  set (rest := skipn 4 (io.concat src)) in *.
  remember (firstn 4 (io.concat src)) as h eqn:Hh; clear Hh.
  name_header h Len 4.
  unfold socks5_Request_header in C; cbn [at_ nth] in C.
  destruct (socks5.Request.ValidateHeader _) as [e|] eqn:V;
    [|contradiction].
  destruct (socks5_Request_header_first r src _ _ _ _ rest e E V)
    as (A & B).
  unfold returns; rewrite A.
  eexists; split; [reflexivity|].
  cbn [dec.err dec.n dec.rest]; repeat split; [discriminate|exact B].
Qed.

Lemma socks5_Reply_stops_after_header (r : socks5.Reply.t) :
  stops_after_header (returns (socks5.Reply.ReadFrom r)) 4
    (fun hdr =>
       socks5.Reply.ValidateHeader (socks5_Reply_header r hdr) <> None).
Proof.
  intros src L C.
  destruct (take_header _ _ L) as (E & Len).
  set (rest := skipn 4 (io.concat src)) in *.
  remember (firstn 4 (io.concat src)) as h eqn:Hh; clear Hh.
  name_header h Len 4.
  unfold socks5_Reply_header in C; cbn [at_ nth] in C.
  destruct (socks5.Reply.ValidateHeader _) as [e|] eqn:V;
    [|contradiction].
  destruct (socks5_Reply_header_first r src _ _ _ _ rest e E V)
    as (A & B).
  unfold returns; rewrite A.
  eexists; split; [reflexivity|].
  cbn [dec.err dec.n dec.rest]; repeat split; [discriminate|exact B].
Qed.

Lemma UDPPacket_stops_after_header (p : socks5.UDPPacket.t) :
  stops_after_header (returns (socks5.UDPPacket.ReadFrom p)) 4
    (fun hdr =>
       socks5.UDPPacket.ValidateHeader (UDPPacket_header p hdr) <> None).
Proof.
  intros src L C.
  destruct (take_header _ _ L) as (E & Len).
  set (rest := skipn 4 (io.concat src)) in *.
  remember (firstn 4 (io.concat src)) as h eqn:Hh; clear Hh.
  name_header h Len 4.
  unfold UDPPacket_header in C; cbn [at_ nth] in C.
  destruct (socks5.UDPPacket.ValidateHeader _) as [e|] eqn:V;
    [|contradiction].
  destruct (UDPPacket_header_first p src _ _ _ _ rest e E V)
    as (A & B).
  unfold returns; rewrite A.
  eexists; split; [reflexivity|].
  cbn [dec.err dec.n dec.rest]; repeat split; [discriminate|exact B].
Qed.

Lemma HandshakeRequest_stops_at_zero_length (h : socks5.HandshakeRequest.t) :
  stops_after_header (returns (socks5.HandshakeRequest.ReadFrom h)) 2
    zero_length.
Proof.
  intros src L C.
  destruct (take_header _ _ L) as (E & Len).
  set (rest := skipn 2 (io.concat src)) in *.
  remember (firstn 2 (io.concat src)) as hd eqn:Hh; clear Hh.
  name_header hd Len 2.
  unfold zero_length in C; cbn [at_ nth] in C; subst.
  destruct (HandshakeRequest_ReadFrom_no_methods h src _ rest E) as (A & B).
  unfold returns; rewrite A.
  eexists; split; [reflexivity|].
  cbn [dec.err dec.n dec.rest]; repeat split; [discriminate|exact B].
Qed.

Lemma UserPassRequest_stops_at_zero_length (r : socks5.UserPassRequest.t) :
  stops_after_header (returns (socks5.UserPassRequest.ReadFrom r)) 2
    zero_length.
Proof.
  intros src L C.
  destruct (take_header _ _ L) as (E & Len).
  set (rest := skipn 2 (io.concat src)) in *.
  remember (firstn 2 (io.concat src)) as hd eqn:Hh; clear Hh.
  name_header hd Len 2.
  unfold zero_length in C; cbn [at_ nth] in C; subst.
  destruct (UserPassRequest_ReadFrom_no_username r src _ rest E) as (A & B).
  unfold returns; rewrite A.
  eexists; split; [reflexivity|].
  cbn [dec.err dec.n dec.rest]; repeat split; [discriminate|exact B].
Qed.

Lemma GSSAPIRequest_stops_at_empty_token (r : socks5.GSSAPIRequest.t) :
  stops_after_header (returns (socks5.GSSAPIRequest.ReadFrom r)) 4
    empty_token.
Proof.
  intros src L C.
  destruct (take_header _ _ L) as (E & Len).
  set (rest := skipn 4 (io.concat src)) in *.
  remember (firstn 4 (io.concat src)) as hd eqn:Hh; clear Hh.
  name_header hd Len 4.
  unfold empty_token in C; cbn [at_ nth] in C.
  destruct C as (A & -> & ->).
  destruct (GSSAPIRequest_ReadFrom_empty_token r src _ _ rest E A)
    as (R & B).
  unfold returns; rewrite R.
  eexists; split; [reflexivity|].
  cbn [dec.err dec.n dec.rest]; repeat split; [discriminate|exact B].
Qed.

Lemma GSSAPIReply_stops_at_empty_token (r : socks5.GSSAPIReply.t) :
  stops_after_header (returns (socks5.GSSAPIReply.ReadFrom r)) 4
    empty_token.
Proof.
  intros src L C.
  destruct (take_header _ _ L) as (E & Len).
  set (rest := skipn 4 (io.concat src)) in *.
  remember (firstn 4 (io.concat src)) as hd eqn:Hh; clear Hh.
  name_header hd Len 4.
  unfold empty_token in C; cbn [at_ nth] in C.
  destruct C as (A & -> & ->).
  destruct (GSSAPIReply_ReadFrom_empty_token r src _ _ rest E A)
    as (R & B).
  unfold returns; rewrite R.
  eexists; split; [reflexivity|].
  cbn [dec.err dec.n dec.rest]; repeat split; [discriminate|exact B].
Qed.

(** C2, amended. The decoders with a [ValidateHeader] step (SOCKS4
    request, SOCKS5 request, reply and UDP packet) fail right after the
    fixed header whenever [ValidateHeader] refuses it, and read none of
    the trailing fields. The decoders of the handshake request, of the
    user/password request and of the GSSAPI messages check only the
    declared length after their header bytes: a zero length fails there,
    while a wrong version byte is reported by [Validate] after the
    methods, respectively the user name and the password or the token,
    have been read from the source. *)
Theorem C2_header_first_where_ValidateHeader_runs :
  (forall r, stops_after_header (socks4.Request.ReadFrom r) 8
     (fun hdr =>
        socks4.Request.ValidateHeader (socks4_Request_header r hdr) <> None))
  /\ (forall r, stops_after_header (returns (socks5.Request.ReadFrom r)) 4
        (fun hdr =>
           socks5.Request.ValidateHeader (socks5_Request_header r hdr)
           <> None))
  /\ (forall r, stops_after_header (returns (socks5.Reply.ReadFrom r)) 4
        (fun hdr =>
           socks5.Reply.ValidateHeader (socks5_Reply_header r hdr) <> None))
  /\ (forall p, stops_after_header (returns (socks5.UDPPacket.ReadFrom p)) 4
        (fun hdr =>
           socks5.UDPPacket.ValidateHeader (UDPPacket_header p hdr) <> None))
  /\ (forall h,
        stops_after_header (returns (socks5.HandshakeRequest.ReadFrom h)) 2
          zero_length)
  /\ (forall r,
        stops_after_header (returns (socks5.UserPassRequest.ReadFrom r)) 2
          zero_length)
  /\ (forall h src v n methods rest,
        io.concat src = [v; n] ++ methods ++ rest ->
        List.length methods = socks5.nat_of_byte n -> n <> x00 ->
        v <> socks5.SocksVersion ->
        let res := socks5.HandshakeRequest.ReadFrom h src in
        dec.err res = Some socks5.ErrInvalidHandshakeVersion
        /\ dec.n res = 2 + len methods
        /\ io.concat (dec.rest res) = rest)
  /\ (forall r src v ul pl uname pass rest,
        io.concat src = [v; ul] ++ uname ++ [pl] ++ pass ++ rest ->
        List.length uname = socks5.nat_of_byte ul -> ul <> x00 ->
        List.length pass = socks5.nat_of_byte pl -> pl <> x00 ->
        v <> socks5.AuthVersionUserPass ->
        let res := socks5.UserPassRequest.ReadFrom r src in
        dec.err res = Some socks5.ErrInvalidUserPassVersion
        /\ dec.n res = 2 + len uname + 1 + len pass
        /\ io.concat (dec.rest res) = rest)
  /\ (forall r,
        stops_after_header (returns (socks5.GSSAPIRequest.ReadFrom r)) 4
          empty_token)
  /\ (forall r,
        stops_after_header (returns (socks5.GSSAPIReply.ReadFrom r)) 4
          empty_token)
  /\ (forall r src v mt l0 l1 tok rest,
        io.concat src = [v; mt] ++ [l0; l1] ++ tok ++ rest ->
        mt <> socks5.GSSAPITypeAbort ->
        binary.Uint16 l0 l1 <> 0 ->
        List.length tok = Z.to_nat (binary.Uint16 l0 l1) ->
        v <> x01 ->
        let res := socks5.GSSAPIRequest.ReadFrom r src in
        dec.err res = Some socks5.ErrInvalidGSSAPIVersion
        /\ dec.n res = 4 + len tok
        /\ io.concat (dec.rest res) = rest)
  /\ (forall r src v mt l0 l1 tok rest,
        io.concat src = [v; mt] ++ [l0; l1] ++ tok ++ rest ->
        mt <> socks5.GSSAPITypeAbort ->
        binary.Uint16 l0 l1 <> 0 ->
        List.length tok = Z.to_nat (binary.Uint16 l0 l1) ->
        v <> x01 ->
        let res := socks5.GSSAPIReply.ReadFrom r src in
        dec.err res = Some socks5.ErrInvalidGSSAPIReplyVersion
        /\ dec.n res = 4 + len tok
        /\ io.concat (dec.rest res) = rest).
Proof.
  split; [exact socks4_Request_stops_after_header|].
  split; [exact socks5_Request_stops_after_header|].
  split; [exact socks5_Reply_stops_after_header|].
  split; [exact UDPPacket_stops_after_header|].
  split; [exact HandshakeRequest_stops_at_zero_length|].
  split; [exact UserPassRequest_stops_at_zero_length|].
  split; [|split; [|split; [exact GSSAPIRequest_stops_at_empty_token|
                             split; [exact GSSAPIReply_stops_at_empty_token|
                                     split]]]].
  - intros h src v n methods rest E L N V; cbv zeta.
    destruct (HandshakeRequest_ReadFrom_frame h src v n methods rest E L N)
      as (A & B & _).
    rewrite A; cbn [dec.err dec.n dec.rest].
    split; [|split; [reflexivity|exact B]].
    unfold socks5.HandshakeRequest.Validate.
    cbn [socks5.HandshakeRequest.Version].
    apply Byte_eqb_neq in V; rewrite V; reflexivity.
  - intros r src v ul pl uname pass rest E Lu Nu Lp Np V; cbv zeta.
    destruct (UserPassRequest_ReadFrom_frame r src v ul pl uname pass rest
                E Lu Nu Lp Np) as (A & B & _).
    rewrite A; cbn [dec.err dec.n dec.rest].
    split; [|split; [reflexivity|exact B]].
    unfold socks5.UserPassRequest.Validate.
    cbn [socks5.UserPassRequest.Version].
    apply Byte_eqb_neq in V; rewrite V; reflexivity.
  - intros r src v mt l0 l1 tok rest E A N L V; cbv zeta.
    destruct (GSSAPIRequest_ReadFrom_frame r src v mt l0 l1 tok rest E A N L)
      as (src' & R & B).
    rewrite R; cbn [dec.err dec.n dec.rest].
    split; [|split; [reflexivity|exact B]].
    unfold socks5.GSSAPIRequest.Validate.
    cbn [socks5.GSSAPIRequest.Version].
    apply Byte_eqb_neq in V; rewrite V; reflexivity.
  - intros r src v mt l0 l1 tok rest E A N L V; cbv zeta.
    destruct (GSSAPIReply_ReadFrom_frame r src v mt l0 l1 tok rest E A N L)
      as (src' & R & B).
    rewrite R; cbn [dec.err dec.n dec.rest].
    split; [|split; [reflexivity|exact B]].
    unfold socks5.GSSAPIReply.Validate.
    cbn [socks5.GSSAPIReply.Version].
    apply Byte_eqb_neq in V; rewrite V; reflexivity.
Qed.

(** The amended statement on two sources: a SOCKS5 request with version 4
    is refused after its four header bytes, and a handshake request with
    version 4 and two methods after all four of its bytes. *)
Lemma C2_header_first_where_ValidateHeader_runs_witness :
  (exists res,
     returns (socks5.Request.ReadFrom socks5.Request.zero)
       (bytes_.NewReader [x04; x01; x00; x01; x7f; x00; x00; x01; x00; x50])
     = Some res
     /\ dec.err res <> None /\ dec.n res = 4
     /\ io.concat (dec.rest res) = [x7f; x00; x00; x01; x00; x50])
  /\ (let res := socks5.HandshakeRequest.ReadFrom
                   socks5.HandshakeRequest.zero
                   (bytes_.NewReader [x04; x02; x00; x02]) in
      dec.err res = Some socks5.ErrInvalidHandshakeVersion
      /\ dec.n res = 2 + len [x00; x02]
      /\ io.concat (dec.rest res) = []).
Proof.
  destruct C2_header_first_where_ValidateHeader_runs
    as (_ & R5 & _ & _ & _ & _ & HS & _).
  split.
  - apply (R5 socks5.Request.zero
             (bytes_.NewReader
                [x04; x01; x00; x01; x7f; x00; x00; x01; x00; x50])).
    + simpl; lia.
    + vm_compute; discriminate.
  - apply (HS socks5.HandshakeRequest.zero
             (bytes_.NewReader [x04; x02; x00; x02]) x04 x02 [x00; x02] []).
    + reflexivity.
    + reflexivity.
    + discriminate.
    + discriminate.
Defined.

(* ================================================================== *)
(** ** Writing a message and reading it back *)

(** The scans of [ReadUserIDAndDomain] find a user ID and a domain that
    hold no zero byte and fit the limits, when the limits are below
    [math.MaxInt64]. *)
Lemma ReadUserIDAndDomain_finds (r : socks4.Request.t) (src : io.Stream)
  (mu md : Z) (uid dom : list byte) :
  productive src ->
  is_sentinel (final src) bufio.ErrBufferFull = false ->
  ~ In x00 uid -> len uid <= mu ->
  ~ In x00 dom -> len dom <= md ->
  int64 (mu + 1) = mu + 1 -> int64 (md + 1) = md + 1 ->
  io.concat src
  = uid ++ x00 :: (if socks4.Request.IsSOCKS4a r then dom ++ [x00] else []) ->
  exists res,
    socks4.Request.ReadUserIDAndDomain r src mu md = Some res
    /\ dec.err res = None
    /\ dec.n res
       = len uid + 1
         + (if socks4.Request.IsSOCKS4a r then len dom + 1 else 0)
    /\ dec.self res
       = socks4.Request.mk (socks4.Request.Version r)
           (socks4.Request.Command r) (socks4.Request.Port r)
           (socks4.Request.IP r) (string_of_bytes uid)
           (if socks4.Request.IsSOCKS4a r then string_of_bytes dom
            else socks4.Request.Domain r).
Proof.
  intros Hp Hfin Hu Lu Hd Ld Imu Imd E.
  unfold socks4.Request.ReadUserIDAndDomain.
  rewrite Imu, Imd.
  set (b0 := internal_pool.GetReader
               (internal.LimitedReader_Init src (mu + 1))).
  assert (W0 : wf b0).
  { unfold wf, b0, internal_pool.GetReader, bufio.Reset,
      internal.ReaderPool_size; cbn [bufio.size bufio.buf List.length].
    split; lia. }
  destruct (ReadString_finds x00 b0 uid _ W0 eq_refl Hp Hfin E Hu)
    as (b1 & E1 & P1 & W1 & Sz & Er & Pr & Fin).
  { unfold b0, budget; simpl; unfold len in *; simpl; lia. }
  rewrite E1; cbv beta iota zeta.
  rewrite trim_terminator_last.
  match goal with
  | |- context [socks4.Request.IsSOCKS4a ?r1] =>
      lazymatch r1 with
      | r => fail
      | _ => change (socks4.Request.IsSOCKS4a r1)
               with (socks4.Request.IsSOCKS4a r)
      end
  end.
  destruct (socks4.Request.IsSOCKS4a r).
  - set (b2 := {| bufio.size := bufio.size b1;
                  bufio.buf := bufio.buf b1;
                  bufio.rd := internal.LimitedReader_Init
                                (internal.R (bufio.rd b1)) (md + 1);
                  bufio.err := bufio.err b1 |}).
    assert (Fin2 : is_sentinel (final (source b2)) bufio.ErrBufferFull
                   = false).
    { unfold source in *; simpl; rewrite Fin; exact Hfin. }
    destruct (ReadString_finds x00 b2 dom [] W1 Er Pr Fin2 P1 Hd)
      as (b3 & E3 & _).
    { unfold b2, budget; simpl.
      pose proof (len_nonneg (bufio.buf b1)); lia. }
    rewrite E3; cbv beta iota zeta.
    rewrite trim_terminator_last.
    eexists; split; [reflexivity|].
    cbn [dec.err dec.n dec.self socks4.Request.Version
         socks4.Request.Command socks4.Request.Port socks4.Request.IP
         socks4.Request.UserID socks4.Request.Domain].
    split; [reflexivity|]. split; [|reflexivity].
    rewrite !len_app; unfold len; simpl; lia.
  - eexists; split; [reflexivity|].
    cbn [dec.err dec.n dec.self].
    split; [reflexivity|]. split; [|reflexivity].
    rewrite !len_app; unfold len; simpl; lia.
Qed.

Lemma Array4_eta (a : Array4) : mkArray4 (a0 a) (a1 a) (a2 a) (a3 a) = a.
Proof. destruct a; reflexivity. Qed.

Lemma socks4_ValidateHeader_fields (v c : byte) (p p' : Z) (ip : Array4)
  (u u' d d' : string) :
  socks4.Request.ValidateHeader (socks4.Request.mk v c p ip u d)
  = socks4.Request.ValidateHeader (socks4.Request.mk v c p' ip u' d').
Proof. reflexivity. Qed.

Lemma socks4_Validate_inv (m : socks4.Request.t) :
  socks4.Request.Validate m = None ->
  socks4.Request.ValidateHeader m = None
  /\ (socks4.Request.IsSOCKS4a m = false -> socks4.Request.Domain m = "").
Proof.
  unfold socks4.Request.Validate, socks4.Request.ValidateDomain.
  destruct (socks4.Request.ValidateHeader m); [discriminate|].
  destruct (socks4.Request.IsSOCKS4a m).
  - intros _; split; [reflexivity|discriminate].
  - destruct (Z.gtb_spec (len_string (socks4.Request.Domain m)) 0);
      [discriminate|].
    intros _; split; [reflexivity|intros _].
    apply len_string_zero; unfold len_string in *; lia.
Qed.

Lemma frame_header (m : socks4.Request.t) :
  frame m
  = [socks4.Request.Version m; socks4.Request.Command m;
     byte_of_Z (Z.shiftr (socks4.Request.Port m) 8);
     byte_of_Z (socks4.Request.Port m);
     a0 (socks4.Request.IP m); a1 (socks4.Request.IP m);
     a2 (socks4.Request.IP m); a3 (socks4.Request.IP m)]
    ++ (bytes_of_string (socks4.Request.UserID m) ++ x00
        :: (if socks4.Request.IsSOCKS4a m
            then bytes_of_string (socks4.Request.Domain m) ++ [x00]
            else [])).
Proof. reflexivity. Qed.

Lemma socks4_Request_round_trip (m : socks4.Request.t) :
  socks4.Request.Validate m = None ->
  0 <= socks4.Request.Port m < 65536 ->
  ~ In x00 (bytes_of_string (socks4.Request.UserID m)) ->
  len_string (socks4.Request.UserID m) <= socks4.DefaultMaxUserIDLen ->
  ~ In x00 (bytes_of_string (socks4.Request.Domain m)) ->
  len_string (socks4.Request.Domain m) <= socks4.DefaultMaxDomainLen ->
  round_trip socks4.Request.WriteTo
    (socks4.Request.ReadFrom socks4.Request.zero) eq m.
Proof.
  intros V Hport Hu Lu Hd Ld.
  destruct (socks4_Validate_inv m V) as (VH & VD).
  unfold round_trip; rewrite Request_WriteTo_Buffer.
  cbn [fst snd bytes_.Reader bytes_.Bytes app].
  destruct m as [v c p ip u d];
    cbn [socks4.Request.Port socks4.Request.UserID socks4.Request.Domain]
    in *.
  unfold socks4.Request.ReadFrom, socks4.Request.ReadFromWithLimits.
  unfold bytes_.Reader; cbn [bytes_.Bytes].
  rewrite (frame_header (socks4.Request.mk v c p ip u d)).
  cbn [socks4.Request.Version socks4.Request.Command socks4.Request.Port
       socks4.Request.IP socks4.Request.UserID socks4.Request.Domain].
  rewrite Request_ReadHeaderFrom_NewReader; cbv zeta.
  cbn [dec.err dec.self dec.rest dec.n socks4.Request.zero
       socks4.Request.UserID socks4.Request.Domain].
  rewrite (Uint16_PutUint16 p Hport), Array4_eta.
  rewrite (socks4_ValidateHeader_fields v c p p ip "" u "" d), VH.
  destruct (ReadUserIDAndDomain_finds
              (socks4.Request.mk v c p ip "" "")
              (bytes_.NewReader
                 (bytes_of_string u ++ x00
                  :: (if socks4.Request.IsSOCKS4a
                           (socks4.Request.mk v c p ip u d)
                      then bytes_of_string d ++ [x00] else [])))
              socks4.DefaultMaxUserIDLen socks4.DefaultMaxDomainLen
              (bytes_of_string u) (bytes_of_string d))
    as (res & E & Er & N & S).
  - apply productive_NewReader.
  - rewrite final_NewReader; reflexivity.
  - exact Hu.
  - rewrite len_string_bytes; exact Lu.
  - exact Hd.
  - rewrite len_string_bytes; exact Ld.
  - reflexivity.
  - reflexivity.
  - rewrite concat_NewReader; reflexivity.
  - rewrite E; eexists; split; [reflexivity|].
    cbn [dec.err dec.self dec.n].
    split; [reflexivity|]. split; [exact Er|].
    change (socks4.Request.IsSOCKS4a (socks4.Request.mk v c p ip "" ""))
      with (socks4.Request.IsSOCKS4a (socks4.Request.mk v c p ip u d))
      in N, S.
    split.
    + rewrite S; cbn [socks4.Request.Version socks4.Request.Command
                      socks4.Request.Port socks4.Request.IP
                      socks4.Request.Domain].
      rewrite !string_of_bytes_of_string.
      destruct (socks4.Request.IsSOCKS4a _) eqn:E4; [reflexivity|].
      rewrite (VD eq_refl); reflexivity.
    + rewrite N.
      cbn [socks4.Request.Version socks4.Request.Command socks4.Request.Port
           socks4.Request.IP socks4.Request.UserID socks4.Request.Domain].
      destruct (socks4.Request.IsSOCKS4a _);
        unfold len; rewrite ?length_app; cbn [List.length];
        rewrite ?length_app; cbn [List.length]; lia.
Qed.

(** *** Addresses *)

Lemma bytes_eqb_refl (l : list byte) : net.bytes_eqb l l = true.
Proof.
  unfold net.bytes_eqb; destruct (list_eq_dec Byte.byte_eq_dec l l);
    congruence.
Qed.

Lemma bytes_eqb_eq (a b : list byte) : net.bytes_eqb a b = true -> a = b.
Proof.
  unfold net.bytes_eqb; destruct (list_eq_dec Byte.byte_eq_dec a b);
    [auto|discriminate].
Qed.

(** [To4] of an address, when it is not nil, has four bytes and is
    [Equal] to the address. *)
Lemma To4_Equal (ip : net.IP) (l : list byte) :
  net.To4 ip = Some l ->
  List.length l = 4%nat /\ net.Equal (Some l) ip = true.
Proof.
  destruct ip as [b|]; [|discriminate].
  unfold net.To4; cbn [net.IP_len net.IP_bytes].
  destruct (Nat.eqb_spec (List.length b) net.IPv4len) as [L|L].
  - intros E; inversion E; subst; split; [exact L|].
    unfold net.Equal; cbn [net.IP_len net.IP_bytes].
    rewrite Nat.eqb_refl; apply bytes_eqb_refl.
  - destruct (Nat.eqb_spec (List.length b) net.IPv6len) as [L6|L6];
      [|discriminate].
    cbn [andb].
    destruct (net.bytes_eqb (firstn 10 b) (repeat x00 10)) eqn:P;
      [|discriminate].
    destruct (Byte.eqb (nth 10 b x00) xff) eqn:P10; [|discriminate].
    destruct (Byte.eqb (nth 11 b x00) xff) eqn:P11; [|discriminate].
    cbn [andb]; intros E; inversion E; subst; clear E.
    unfold net.IPv6len in L6.
    name_header b L6 16.
    apply bytes_eqb_eq in P; cbn in P; inversion P; subst.
    cbn in P10, P11.
    apply Byte_eqb_eq in P10, P11; subst.
    split; [reflexivity|].
    unfold net.Equal; cbn [net.IP_len net.IP_bytes List.length skipn firstn].
    cbn [Nat.eqb andb net.IPv4len net.IPv6len].
    rewrite !bytes_eqb_refl; reflexivity.
Qed.

Lemma To16_Equal (ip : net.IP) (l : list byte) :
  net.To16 ip = Some l ->
  List.length l = 16%nat /\ net.Equal (Some l) ip = true.
Proof.
  destruct ip as [b|]; [|discriminate].
  unfold net.To16; cbn [net.IP_len net.IP_bytes].
  destruct (Nat.eqb_spec (List.length b) net.IPv4len) as [L|L].
  - unfold net.IPv4len in L.
    name_header b L 4.
    cbn [nth]; unfold net.IPv4; intros E; inversion E; subst; clear E.
    split; [reflexivity|].
    unfold net.Equal, net.v4InV6Prefix;
      cbn [net.IP_len net.IP_bytes List.length skipn firstn app].
    cbn [Nat.eqb andb net.IPv4len net.IPv6len].
    rewrite !bytes_eqb_refl; reflexivity.
  - destruct (Nat.eqb_spec (List.length b) net.IPv6len) as [L6|L6];
      [|discriminate].
    intros E; inversion E; subst; split; [exact L6|].
    unfold net.Equal; cbn [net.IP_len net.IP_bytes].
    rewrite Nat.eqb_refl; apply bytes_eqb_refl.
Qed.

Lemma write_addr_Buffer (b : list byte) (atyp : byte) (ip : net.IP)
  (domain : string) (n total : Z) :
  known_address_type atyp = true ->
  socks5.write_addr (bytes_.mkBuffer b) atyp ip domain n None total
  = ((total + len (address_bytes atyp ip domain), None),
     bytes_.mkBuffer (b ++ address_bytes atyp ip domain)).
Proof.
  unfold known_address_type, socks5.write_addr, address_bytes.
  unfold io.WriteString, io.Write, bytes_.Buffer_Writer; cbn [bytes_.Bytes].
  destruct (Byte.eqb atyp socks5.AddrTypeIPv4); [reflexivity|].
  destruct (Byte.eqb atyp socks5.AddrTypeIPv6); [reflexivity|].
  destruct (Byte.eqb atyp socks5.AddrTypeDomain); [|discriminate].
  intros _; rewrite <- app_assoc; cbn [app].
  f_equal; f_equal.
  unfold len; cbn [List.length]; lia.
Qed.

Lemma read_address_spec {R} (atyp : byte) (set_IP : net.IP -> R -> R)
  (set_Domain : string -> R -> R) (r : R) (t : Z) (src : io.Stream)
  (addr rest : list byte) :
  io.concat src = addr ++ rest -> address_frame atyp addr ->
  exists src',
    read_address atyp set_IP set_Domain (dec.mkState r t src)
    = (inl tt,
       dec.mkState (decoded_address atyp set_IP set_Domain addr r)
         (t + len addr) src')
    /\ io.concat src' = rest /\ final src' = final src.
Proof.
  unfold read_address, address_frame, decoded_address; intros E F.
  destruct (Byte.eqb atyp socks5.AddrTypeIPv4);
    [|destruct (Byte.eqb atyp socks5.AddrTypeIPv6);
      [|destruct (Byte.eqb atyp socks5.AddrTypeDomain)]].
  - destruct (advance_concat src addr rest E) as (E1 & F1).
    exists (advance src (List.length addr)).
    split; [|split; [exact E1|exact F1]].
    unfold dec.bind; rewrite <- F.
    rewrite (readFull_prefix addr rest) by exact E; reflexivity.
  - destruct (advance_concat src addr rest E) as (E1 & F1).
    exists (advance src (List.length addr)).
    split; [|split; [exact E1|exact F1]].
    unfold dec.bind; rewrite <- F.
    rewrite (readFull_prefix addr rest) by exact E; reflexivity.
  - destruct F as (ln & dom & -> & L).
    change (io.concat src = [ln] ++ dom ++ rest) in E.
    destruct (advance_concat src [ln] _ E) as (E1 & F1).
    destruct (advance_concat _ dom rest E1) as (E2 & F2).
    exists (advance (advance src (List.length [ln])) (List.length dom)).
    split; [|split; [exact E2|rewrite F2; exact F1]].
    unfold dec.bind.
    change 1%nat with (List.length [ln]) at 1.
    rewrite (readFull_prefix [ln] (dom ++ rest)) by exact E.
    cbn [at_ nth]; rewrite <- L.
    rewrite (readFull_prefix dom rest) by exact E1.
    unfold dec.modify; cbn [dec.recv dec.total dec.src tl].
    do 2 f_equal; unfold len; cbn [List.length]; lia.
  - subst addr; exists src; split; [|split; [exact E|reflexivity]].
    unfold dec.ret; do 2 f_equal; unfold len; simpl; lia.
Qed.

(** *** The messages of fixed size and the authentication messages *)

Lemma byte_of_Z_nonzero (z : Z) : 0 < z < 256 -> byte_of_Z z <> x00.
Proof.
  intros Hz F; apply (f_equal Z_of_byte) in F.
  rewrite Z_of_byte_of_Z, Z.mod_small in F by lia.
  change (Z_of_byte x00) with 0 in F; lia.
Qed.

Lemma socks4_Response_round_trip (m : socks4.Response.t) :
  socks4.Response.Validate m = None ->
  0 <= socks4.Response.Port m < 65536 ->
  round_trip socks4.Response.WriteTo
    (returns (socks4.Response.ReadFrom socks4.Response.zero)) eq m.
Proof.
  intros V P; destruct m as [v c p ip]; cbn [socks4.Response.Port] in P.
  unfold round_trip, returns, socks4.Response.WriteTo, io.Write,
    bytes_.Buffer_Writer, bytes_.Reader, binary.PutUint16, Array4_slice.
  cbn [fst snd bytes_.Bytes app socks4.Response.Version
       socks4.Response.Code socks4.Response.Port socks4.Response.IP].
  rewrite (Response_ReadFrom_enough _ _ v c (byte_of_Z (Z.shiftr p 8))
             (byte_of_Z p) (a0 ip) (a1 ip) (a2 ip) (a3 ip))
    by (rewrite concat_NewReader; reflexivity).
  cbv zeta; rewrite (Uint16_PutUint16 p P), Array4_eta, V.
  eexists; split; [reflexivity|].
  cbn [dec.err dec.self dec.n]; repeat split.
Qed.

Lemma HandshakeRequest_Validate_inv (h : socks5.HandshakeRequest.t) :
  socks5.HandshakeRequest.Validate h = None ->
  socks5.HandshakeRequest.NMethods h <> x00
  /\ len (socks5.HandshakeRequest.Methods h)
     = Z_of_byte (socks5.HandshakeRequest.NMethods h).
Proof.
  unfold socks5.HandshakeRequest.Validate.
  destruct (negb _); [discriminate|].
  destruct (Byte.eqb _ x00) eqn:N; [discriminate|].
  destruct (Z.eqb_spec (len (socks5.HandshakeRequest.Methods h))
              (Z_of_byte (socks5.HandshakeRequest.NMethods h)));
    [|discriminate].
  intros _; split; [apply Byte_eqb_neq; exact N|assumption].
Qed.

Lemma HandshakeRequest_round_trip (m : socks5.HandshakeRequest.t) :
  socks5.HandshakeRequest.Validate m = None ->
  round_trip socks5.HandshakeRequest.WriteTo
    (returns (socks5.HandshakeRequest.ReadFrom socks5.HandshakeRequest.zero))
    eq m.
Proof.
  intros V; destruct (HandshakeRequest_Validate_inv m V) as (N & L).
  destruct m as [v n methods];
    cbn [socks5.HandshakeRequest.NMethods socks5.HandshakeRequest.Methods]
    in N, L.
  unfold round_trip, returns, socks5.HandshakeRequest.WriteTo, io.Write,
    bytes_.Buffer_Writer, bytes_.Reader.
  cbn [fst snd bytes_.Bytes app socks5.HandshakeRequest.Version
       socks5.HandshakeRequest.NMethods socks5.HandshakeRequest.Methods].
  destruct (HandshakeRequest_ReadFrom_frame socks5.HandshakeRequest.zero
              (bytes_.NewReader (v :: n :: methods)) v n methods [])
    as (A & _).
  - rewrite concat_NewReader, app_nil_r; reflexivity.
  - unfold socks5.nat_of_byte; rewrite <- L; unfold len; lia.
  - exact N.
  - rewrite A, V; eexists; split; [reflexivity|].
    cbn [dec.err dec.self dec.n]; repeat split.
Qed.

Lemma HandshakeReply_round_trip (m : socks5.HandshakeReply.t) :
  socks5.HandshakeReply.Validate m = None ->
  round_trip socks5.HandshakeReply.WriteTo
    (returns (socks5.HandshakeReply.ReadFrom socks5.HandshakeReply.zero))
    eq m.
Proof.
  intros V; destruct m as [v me].
  unfold round_trip, returns, socks5.HandshakeReply.WriteTo, io.Write,
    bytes_.Buffer_Writer, bytes_.Reader.
  cbn [fst snd bytes_.Bytes app socks5.HandshakeReply.Version
       socks5.HandshakeReply.Method].
  unfold socks5.HandshakeReply.ReadFrom, dec.run, dec.bind.
  change 2%nat with (List.length [v; me]).
  rewrite (readFull_prefix [v; me] [])
    by (rewrite concat_NewReader; reflexivity).
  cbn [dec.modify dec.get dec.recv dec.total dec.src at_ nth].
  rewrite V; eexists; split; [reflexivity|].
  cbn [dec.err dec.self dec.n dec.finish dec.recv dec.total]; repeat split.
Qed.

Lemma UserPassReply_round_trip (m : socks5.UserPassReply.t) :
  socks5.UserPassReply.Validate m = None ->
  round_trip socks5.UserPassReply.WriteTo
    (returns (socks5.UserPassReply.ReadFrom socks5.UserPassReply.zero))
    eq m.
Proof.
  intros V; destruct m as [v st].
  unfold round_trip, returns, socks5.UserPassReply.WriteTo, io.Write,
    bytes_.Buffer_Writer, bytes_.Reader.
  cbn [fst snd bytes_.Bytes app socks5.UserPassReply.Version
       socks5.UserPassReply.Status].
  unfold socks5.UserPassReply.ReadFrom, dec.run, dec.bind.
  change 2%nat with (List.length [v; st]).
  rewrite (readFull_prefix [v; st] [])
    by (rewrite concat_NewReader; reflexivity).
  cbn [dec.modify dec.get dec.recv dec.total dec.src at_ nth].
  rewrite V; eexists; split; [reflexivity|].
  cbn [dec.err dec.self dec.n dec.finish dec.recv dec.total]; repeat split.
Qed.

Lemma UserPassRequest_Validate_inv (r : socks5.UserPassRequest.t) :
  socks5.UserPassRequest.Validate r = None ->
  0 < len_string (socks5.UserPassRequest.Username r) <= 255
  /\ 0 < len_string (socks5.UserPassRequest.Password r) <= 255.
Proof.
  unfold socks5.UserPassRequest.Validate.
  destruct (negb _); [discriminate|].
  destruct (Z.eqb_spec (len_string (socks5.UserPassRequest.Username r)) 0);
    [discriminate|].
  destruct (Z.eqb_spec (len_string (socks5.UserPassRequest.Password r)) 0);
    [discriminate|].
  destruct (Z.gtb_spec (len_string (socks5.UserPassRequest.Username r)) 255);
    [discriminate|].
  destruct (Z.gtb_spec (len_string (socks5.UserPassRequest.Password r)) 255);
    [discriminate|].
  unfold len_string in *; lia.
Qed.

Lemma UserPassRequest_round_trip (m : socks5.UserPassRequest.t) :
  socks5.UserPassRequest.Validate m = None ->
  round_trip socks5.UserPassRequest.WriteTo
    (returns (socks5.UserPassRequest.ReadFrom socks5.UserPassRequest.zero))
    eq m.
Proof.
  intros V; destruct (UserPassRequest_Validate_inv m V) as (Lu & Lp).
  destruct m as [v u p];
    cbn [socks5.UserPassRequest.Username socks5.UserPassRequest.Password]
    in Lu, Lp.
  unfold round_trip, returns, socks5.UserPassRequest.WriteTo.
  cbn [socks5.UserPassRequest.Version socks5.UserPassRequest.Username
       socks5.UserPassRequest.Password].
  destruct (Z.gtb_spec (len_string u) 255) as [F|_]; [lia|].
  destruct (Z.gtb_spec (len_string p) 255) as [F|_]; [lia|].
  unfold io.WriteString, io.Write, bytes_.Buffer_Writer, bytes_.Reader.
  cbn [orb fst snd bytes_.Bytes app].
  destruct (UserPassRequest_ReadFrom_frame socks5.UserPassRequest.zero
              (bytes_.NewReader
                 (v :: byte_of_Z (len_string u)
                    :: (bytes_of_string u ++ [byte_of_Z (len_string p)])
                       ++ bytes_of_string p))
              v (byte_of_Z (len_string u)) (byte_of_Z (len_string p))
              (bytes_of_string u) (bytes_of_string p) [])
    as (A & _).
  - rewrite concat_NewReader, app_nil_r, <- !app_assoc; reflexivity.
  - rewrite <- len_string_bytes, nat_of_byte_of_len; [reflexivity|].
    rewrite <- len_string_bytes in Lu; unfold len in Lu; lia.
  - apply byte_of_Z_nonzero; lia.
  - rewrite <- len_string_bytes, nat_of_byte_of_len; [reflexivity|].
    rewrite <- len_string_bytes in Lp; unfold len in Lp; lia.
  - apply byte_of_Z_nonzero; lia.
  - cbv zeta in A; rewrite A, !string_of_bytes_of_string, V.
    eexists; split; [reflexivity|].
    cbn [dec.err dec.self dec.n]; repeat split.
Qed.

(** *** GSSAPI messages *)

Lemma uint16_small (z : Z) : 0 <= z < 65536 -> uint16 z = z.
Proof. intro H; unfold uint16; apply Z.mod_small; exact H. Qed.

Lemma GSSAPIRequest_Validate_inv (r : socks5.GSSAPIRequest.t) :
  socks5.GSSAPIRequest.Validate r = None ->
  socks5.GSSAPIRequest.MsgType r <> socks5.GSSAPITypeAbort ->
  0 < len (socks5.GSSAPIRequest.Token r) <= 65535.
Proof.
  unfold socks5.GSSAPIRequest.Validate; intros V A.
  destruct (negb _); [discriminate|].
  apply Byte_eqb_neq in A; rewrite A in V.
  destruct (Z.eqb_spec (len (socks5.GSSAPIRequest.Token r)) 0);
    [discriminate|].
  destruct (Z.gtb_spec (len (socks5.GSSAPIRequest.Token r)) 65535);
    [discriminate|].
  unfold len in *; lia.
Qed.

Lemma GSSAPIReply_Validate_inv (r : socks5.GSSAPIReply.t) :
  socks5.GSSAPIReply.Validate r = None ->
  socks5.GSSAPIReply.MsgType r <> socks5.GSSAPITypeAbort ->
  0 < len (socks5.GSSAPIReply.Token r) <= 65535.
Proof.
  unfold socks5.GSSAPIReply.Validate; intros V A.
  destruct (negb _); [discriminate|].
  apply Byte_eqb_neq in A; rewrite A in V.
  destruct (Z.eqb_spec (len (socks5.GSSAPIReply.Token r)) 0);
    [discriminate|].
  destruct (Z.gtb_spec (len (socks5.GSSAPIReply.Token r)) 65535);
    [discriminate|].
  unfold len in *; lia.
Qed.

Lemma GSSAPIRequest_round_trip (m : socks5.GSSAPIRequest.t) :
  socks5.GSSAPIRequest.Validate m = None ->
  round_trip socks5.GSSAPIRequest.WriteTo
    (returns (socks5.GSSAPIRequest.ReadFrom socks5.GSSAPIRequest.zero))
    same_GSSAPIRequest m.
Proof.
  intros V; pose proof (GSSAPIRequest_Validate_inv m V) as I.
  destruct m as [v mt tok];
    cbn [socks5.GSSAPIRequest.MsgType socks5.GSSAPIRequest.Token] in I.
  unfold round_trip, returns, socks5.GSSAPIRequest.WriteTo.
  rewrite V; cbn [socks5.GSSAPIRequest.Version socks5.GSSAPIRequest.MsgType
                  socks5.GSSAPIRequest.Token].
  destruct (Byte.eqb mt socks5.GSSAPITypeAbort) eqn:A.
  - unfold io.Write, bytes_.Buffer_Writer, bytes_.Reader.
    cbn [fst snd bytes_.Bytes app].
    unfold socks5.GSSAPIRequest.ReadFrom, dec.run, dec.bind.
    change 2%nat with (List.length [v; mt]).
    rewrite (readFull_prefix [v; mt] [])
      by (rewrite concat_NewReader; reflexivity).
    cbn [dec.modify dec.get dec.recv dec.total dec.src at_ nth
         socks5.GSSAPIRequest.MsgType].
    rewrite A; eexists; split; [reflexivity|].
    cbn [dec.err dec.self dec.n dec.ret dec.recv dec.total].
    apply Byte_eqb_eq in A.
    unfold same_GSSAPIRequest;
      cbn [socks5.GSSAPIRequest.Version socks5.GSSAPIRequest.MsgType].
    repeat split; tauto.
  - apply Byte_eqb_neq in A; specialize (I A).
    unfold io.Write, bytes_.Buffer_Writer, bytes_.Reader, binary.PutUint16.
    cbn [fst snd bytes_.Bytes app].
    rewrite (uint16_small (len tok)) by lia.
    destruct (GSSAPIRequest_ReadFrom_frame socks5.GSSAPIRequest.zero
                (bytes_.NewReader
                   (v :: mt :: byte_of_Z (Z.shiftr (len tok) 8)
                      :: byte_of_Z (len tok) :: tok))
                v mt (byte_of_Z (Z.shiftr (len tok) 8))
                (byte_of_Z (len tok)) tok [])
      as (src' & R & _).
    + rewrite concat_NewReader, app_nil_r; reflexivity.
    + exact A.
    + rewrite Uint16_PutUint16 by lia; lia.
    + rewrite Uint16_PutUint16 by lia; unfold len; lia.
    + rewrite R, V; eexists; split; [reflexivity|].
      cbn [dec.err dec.self dec.n].
      unfold same_GSSAPIRequest; repeat split.
Qed.

Lemma GSSAPIReply_round_trip (m : socks5.GSSAPIReply.t) :
  socks5.GSSAPIReply.Validate m = None ->
  round_trip socks5.GSSAPIReply.WriteTo
    (returns (socks5.GSSAPIReply.ReadFrom socks5.GSSAPIReply.zero))
    same_GSSAPIReply m.
Proof.
  intros V; pose proof (GSSAPIReply_Validate_inv m V) as I.
  destruct m as [v mt tok];
    cbn [socks5.GSSAPIReply.MsgType socks5.GSSAPIReply.Token] in I.
  unfold round_trip, returns, socks5.GSSAPIReply.WriteTo.
  rewrite V; cbn [socks5.GSSAPIReply.Version socks5.GSSAPIReply.MsgType
                  socks5.GSSAPIReply.Token].
  destruct (Byte.eqb mt socks5.GSSAPITypeAbort) eqn:A.
  - unfold io.Write, bytes_.Buffer_Writer, bytes_.Reader.
    cbn [fst snd bytes_.Bytes app].
    unfold socks5.GSSAPIReply.ReadFrom, dec.run, dec.bind.
    change 2%nat with (List.length [v; mt]).
    rewrite (readFull_prefix [v; mt] [])
      by (rewrite concat_NewReader; reflexivity).
    cbn [dec.modify dec.get dec.recv dec.total dec.src at_ nth
         socks5.GSSAPIReply.MsgType].
    rewrite A; eexists; split; [reflexivity|].
    cbn [dec.err dec.self dec.n dec.ret dec.recv dec.total].
    apply Byte_eqb_eq in A.
    unfold same_GSSAPIReply;
      cbn [socks5.GSSAPIReply.Version socks5.GSSAPIReply.MsgType].
    repeat split; tauto.
  - apply Byte_eqb_neq in A; specialize (I A).
    unfold io.Write, bytes_.Buffer_Writer, bytes_.Reader, binary.PutUint16.
    cbn [fst snd bytes_.Bytes app].
    rewrite (uint16_small (len tok)) by lia.
    destruct (GSSAPIReply_ReadFrom_frame socks5.GSSAPIReply.zero
                (bytes_.NewReader
                   (v :: mt :: byte_of_Z (Z.shiftr (len tok) 8)
                      :: byte_of_Z (len tok) :: tok))
                v mt (byte_of_Z (Z.shiftr (len tok) 8))
                (byte_of_Z (len tok)) tok [])
      as (src' & R & _).
    + rewrite concat_NewReader, app_nil_r; reflexivity.
    + exact A.
    + rewrite Uint16_PutUint16 by lia; lia.
    + rewrite Uint16_PutUint16 by lia; unfold len; lia.
    + rewrite R, V; eexists; split; [reflexivity|].
      cbn [dec.err dec.self dec.n].
      unfold same_GSSAPIReply; repeat split.
Qed.

(** *** Requests, replies and UDP packets of SOCKS5 *)

Lemma bind_run {R A B} (m : dec.Dec R A) (k : A -> dec.Dec R B)
  (st : dec.State R) :
  dec.bind m k st
  = match m st with
    | (inl a, st') => k a st'
    | (inr e, st') => (inr e, st')
    end.
Proof. reflexivity. Qed.

Lemma modify_run {R} (f : R -> R) (st : dec.State R) :
  dec.modify f st
  = (inl tt, dec.mkState (f (dec.recv st)) (dec.total st) (dec.src st)).
Proof. reflexivity. Qed.

Lemma get_run {R} (st : dec.State R) : dec.get st = (inl (dec.recv st), st).
Proof. reflexivity. Qed.

Lemma finish_run {R} (st : dec.State R) :
  dec.finish None st = (inl tt, st).
Proof. reflexivity. Qed.

(** Runs the assignments and the reads of the receiver at the head of a
    decoder. *)
Ltac dec_steps :=
  repeat (rewrite bind_run; first [rewrite modify_run | rewrite get_run];
          cbv beta iota; cbn [dec.recv dec.total dec.src at_ nth]).

Lemma address_frame_bytes (atyp : byte) (ip : net.IP) (domain : string) :
  known_address_type atyp = true -> address_ok atyp ip ->
  (atyp = socks5.AddrTypeDomain -> 0 < len_string domain <= 255) ->
  address_frame atyp (address_bytes atyp ip domain).
Proof.
  unfold known_address_type, address_frame, address_bytes.
  intros K (O4 & O6) D.
  destruct (Byte.eqb atyp socks5.AddrTypeIPv4) eqn:E4.
  - apply Byte_eqb_eq in E4.
    destruct (net.To4 ip) as [l|] eqn:T; [|destruct (O4 E4 eq_refl)].
    apply (To4_Equal ip l T).
  - destruct (Byte.eqb atyp socks5.AddrTypeIPv6) eqn:E6.
    + apply Byte_eqb_eq in E6.
      destruct (net.To16 ip) as [l|] eqn:T; [|destruct (O6 E6 eq_refl)].
      apply (To16_Equal ip l T).
    + destruct (Byte.eqb atyp socks5.AddrTypeDomain) eqn:ED;
        [|discriminate].
      apply Byte_eqb_eq in ED; specialize (D ED).
      eexists; eexists; split; [reflexivity|].
      rewrite <- len_string_bytes, nat_of_byte_of_len; [reflexivity|].
      rewrite <- len_string_bytes in D; unfold len in D; lia.
Qed.

(** What the decoder stores for the address that [write_addr] wrote. *)
Lemma decoded_address_bytes {R} (atyp : byte) (set_IP : net.IP -> R -> R)
  (set_Domain : string -> R -> R) (ip : net.IP) (domain : string) (r : R) :
  known_address_type atyp = true -> address_ok atyp ip ->
  decoded_address atyp set_IP set_Domain (address_bytes atyp ip domain) r
  = (if Byte.eqb atyp socks5.AddrTypeDomain then set_Domain domain r
     else set_IP
            (if Byte.eqb atyp socks5.AddrTypeIPv4 then net.To4 ip
             else net.To16 ip) r)
  /\ (Byte.eqb atyp socks5.AddrTypeDomain = false ->
      exists l,
        (if Byte.eqb atyp socks5.AddrTypeIPv4 then net.To4 ip
         else net.To16 ip) = Some l
        /\ net.Equal (Some l) ip = true).
Proof.
  unfold known_address_type, decoded_address, address_bytes.
  intros K (O4 & O6).
  destruct (Byte.eqb atyp socks5.AddrTypeIPv4) eqn:E4.
  - apply Byte_eqb_eq in E4; subst atyp; cbn [Byte.eqb].
    change (Byte.eqb socks5.AddrTypeIPv4 socks5.AddrTypeDomain) with false.
    destruct (net.To4 ip) as [l|] eqn:T; [|destruct (O4 eq_refl eq_refl)].
    split; [reflexivity|].
    intros _; exists l; split; [reflexivity|apply (To4_Equal ip l T)].
  - destruct (Byte.eqb atyp socks5.AddrTypeIPv6) eqn:E6.
    + apply Byte_eqb_eq in E6; subst atyp.
      change (Byte.eqb socks5.AddrTypeIPv6 socks5.AddrTypeDomain) with false.
      destruct (net.To16 ip) as [l|] eqn:T; [|destruct (O6 eq_refl eq_refl)].
      split; [reflexivity|].
      intros _; exists l; split; [reflexivity|apply (To16_Equal ip l T)].
    + destruct (Byte.eqb atyp socks5.AddrTypeDomain) eqn:ED;
        [|discriminate].
      cbn [tl]; rewrite string_of_bytes_of_string.
      split; [reflexivity|discriminate].
Qed.

Lemma socks5_Request_ReadFrom_frame (r : socks5.Request.t) (src : io.Stream)
  (v c rsv atyp p0 p1 : byte) (addr rest : list byte) :
  io.concat src = [v; c; rsv; atyp] ++ addr ++ [p0; p1] ++ rest ->
  socks5.Request.ValidateHeader
    (socks5.Request.mk v c rsv atyp (socks5.Request.IP r)
       (socks5.Request.Domain r) (socks5.Request.Port r)) = None ->
  address_frame atyp addr ->
  let r' := socks5.Request.set_Port (binary.Uint16 p0 p1)
              (decoded_address atyp socks5.Request.set_IP
                 socks5.Request.set_Domain addr
                 (socks5.Request.mk v c rsv atyp (socks5.Request.IP r)
                    (socks5.Request.Domain r) (socks5.Request.Port r))) in
  exists src',
    socks5.Request.ReadFrom r src
    = dec.mkResult (4 + len addr + 2) (socks5.Request.Validate r') r' src'
    /\ io.concat src' = rest.
Proof.
  intros E VH F; cbv zeta.
  destruct (advance_concat src [v; c; rsv; atyp] _ E) as (E2 & _).
  destruct (read_address_spec atyp socks5.Request.set_IP
              socks5.Request.set_Domain
              (socks5.Request.mk v c rsv atyp (socks5.Request.IP r)
                 (socks5.Request.Domain r) (socks5.Request.Port r))
              (0 + len [v; c; rsv; atyp]) _ addr _ E2 F)
    as (src1 & RA & E3 & _).
  destruct (advance_concat src1 [p0; p1] rest E3) as (E4 & _).
  eexists; split; [|exact E4].
  unfold socks5.Request.ReadFrom, dec.run.
  rewrite bind_run.
  change 4%nat with (List.length [v; c; rsv; atyp]) at 1.
  rewrite (readFull_prefix _ (addr ++ [p0; p1] ++ rest)) by exact E.
  cbv beta iota; dec_steps.
  rewrite bind_run, VH, finish_run; cbv beta iota.
  rewrite bind_run; cbn [socks5.Request.AddrType].
  match goal with
  | |- context [(if ?b then ?x else ?y) (dec.mkState ?r0 ?t0 ?s0)] =>
      change ((if b then x else y) (dec.mkState r0 t0 s0))
        with (read_address atyp socks5.Request.set_IP
                socks5.Request.set_Domain (dec.mkState r0 t0 s0))
  end.
  rewrite RA; cbv beta iota.
  rewrite bind_run.
  change 2%nat with (List.length [p0; p1]) at 1.
  rewrite (readFull_prefix _ rest) by exact E3.
  cbv beta iota; dec_steps.
  replace (0 + len [v; c; rsv; atyp] + len addr + len [p0; p1])
    with (4 + len addr + 2) by (unfold len; cbn [List.length]; lia).
  unfold dec.finish.
  destruct (socks5.Request.Validate _); reflexivity.
Qed.

Lemma socks5_Request_Validate_inv (m : socks5.Request.t) :
  socks5.Request.Validate m = None ->
  socks5.Request.ValidateHeader m = None
  /\ known_address_type (socks5.Request.AddrType m) = true
  /\ (socks5.Request.AddrType m = socks5.AddrTypeDomain ->
      0 < len_string (socks5.Request.Domain m) <= 255).
Proof.
  unfold socks5.Request.Validate.
  destruct (socks5.Request.ValidateHeader m) eqn:VH; [discriminate|].
  intros V; split; [reflexivity|]. split.
  - unfold socks5.Request.ValidateHeader in VH.
    repeat match type of VH with
           | (if ?b then _ else _) = None =>
               destruct b eqn:?; [discriminate|]
           end.
    unfold known_address_type.
    destruct (Byte.eqb _ socks5.AddrTypeIPv4);
      destruct (Byte.eqb _ socks5.AddrTypeIPv6);
      destruct (Byte.eqb _ socks5.AddrTypeDomain);
      try reflexivity; discriminate.
  - intros D; rewrite D in V.
    change (Byte.eqb socks5.AddrTypeDomain socks5.AddrTypeDomain)
      with true in V.
    destruct (Z.eqb_spec (len_string (socks5.Request.Domain m)) 0);
      [discriminate|].
    destruct (Z.gtb_spec (len_string (socks5.Request.Domain m)) 255);
      [discriminate|].
    unfold len_string in *; lia.
Qed.

Lemma socks5_Request_round_trip (m : socks5.Request.t) :
  socks5.Request.Validate m = None ->
  0 <= socks5.Request.Port m < 65536 ->
  address_ok (socks5.Request.AddrType m) (socks5.Request.IP m) ->
  round_trip socks5.Request.WriteTo
    (returns (socks5.Request.ReadFrom socks5.Request.zero)) same_Request m.
Proof.
  intros V P O; destruct (socks5_Request_Validate_inv m V) as (VH & K & D).
  destruct m as [v c rsv atyp ip dom port];
    cbn [socks5.Request.AddrType socks5.Request.IP socks5.Request.Domain
         socks5.Request.Port] in *.
  unfold round_trip, returns, socks5.Request.WriteTo.
  cbn [socks5.Request.Version socks5.Request.Command
       socks5.Request.Reserved socks5.Request.AddrType socks5.Request.IP
       socks5.Request.Domain socks5.Request.Port].
  assert (C : Byte.eqb atyp socks5.AddrTypeDomain
              && ((len_string dom =? 0) || (len_string dom >? 255)) = false).
  { destruct (Byte.eqb atyp socks5.AddrTypeDomain) eqn:ED; [|reflexivity].
    apply Byte_eqb_eq in ED; specialize (D ED).
    destruct (Z.eqb_spec (len_string dom) 0); [lia|].
    destruct (Z.gtb_spec (len_string dom) 255); [lia|reflexivity]. }
  rewrite C.
  unfold io.Write, bytes_.Buffer_Writer, bytes_.Reader, binary.PutUint16.
  cbn [bytes_.Bytes app]; cbv beta iota zeta.
  rewrite (write_addr_Buffer _ atyp ip dom _ _ K).
  cbv beta iota zeta; cbn [fst snd bytes_.Bytes].
  destruct (socks5_Request_ReadFrom_frame socks5.Request.zero
              (bytes_.NewReader
                 (([v; c; rsv; atyp] ++ address_bytes atyp ip dom)
                  ++ [byte_of_Z (Z.shiftr port 8); byte_of_Z port]))
              v c rsv atyp (byte_of_Z (Z.shiftr port 8)) (byte_of_Z port)
              (address_bytes atyp ip dom) [])
    as (src' & R & _).
  - rewrite concat_NewReader, <- !app_assoc; reflexivity.
  - exact VH.
  - apply address_frame_bytes; assumption.
  - cbv zeta in R; rewrite R; clear R.
    destruct (decoded_address_bytes atyp socks5.Request.set_IP
                socks5.Request.set_Domain ip dom
                (socks5.Request.mk v c rsv atyp
                   (socks5.Request.IP socks5.Request.zero)
                   (socks5.Request.Domain socks5.Request.zero)
                   (socks5.Request.Port socks5.Request.zero)) K O)
      as (DA & DE).
    rewrite DA, (Uint16_PutUint16 port P); clear DA.
    eexists; split; [reflexivity|].
    cbn [dec.err dec.self dec.n].
    split; [reflexivity|].
    unfold same_Request, same_address.
    destruct (Byte.eqb atyp socks5.AddrTypeDomain) eqn:ED.
    + unfold socks5.Request.set_Port, socks5.Request.set_Domain.
      cbn [socks5.Request.Version socks5.Request.Command
           socks5.Request.Reserved socks5.Request.AddrType
           socks5.Request.IP socks5.Request.Domain socks5.Request.Port
           socks5.Request.zero].
      rewrite ED.
      split; [|split; [repeat split|unfold len; cbn [List.length]; lia]].
      unfold socks5.Request.Validate in V |- *.
      change (socks5.Request.ValidateHeader
                (socks5.Request.mk v c rsv atyp None dom port))
        with (socks5.Request.ValidateHeader
                (socks5.Request.mk v c rsv atyp ip dom port)).
      rewrite VH in V |- *.
      cbn [socks5.Request.AddrType socks5.Request.Domain] in V |- *.
      rewrite ED in V |- *; exact V.
    + destruct (DE eq_refl) as (l & -> & EQ).
      unfold socks5.Request.set_Port, socks5.Request.set_IP.
      cbn [socks5.Request.Version socks5.Request.Command
           socks5.Request.Reserved socks5.Request.AddrType
           socks5.Request.IP socks5.Request.Domain socks5.Request.Port
           socks5.Request.zero].
      rewrite ED.
      split; [|split; [repeat split; exact EQ
                      |unfold len; cbn [List.length]; lia]].
      unfold socks5.Request.Validate.
      change (socks5.Request.ValidateHeader
                (socks5.Request.mk v c rsv atyp (Some l) "" port))
        with (socks5.Request.ValidateHeader
                (socks5.Request.mk v c rsv atyp ip dom port)).
      rewrite VH; cbn [socks5.Request.AddrType socks5.Request.IP].
      rewrite ED.
      destruct (Byte.eqb atyp socks5.AddrTypeIPv4
                || Byte.eqb atyp socks5.AddrTypeIPv6); reflexivity.
Qed.

Lemma socks5_Reply_ReadFrom_frame (r : socks5.Reply.t) (src : io.Stream)
  (v c rsv atyp p0 p1 : byte) (addr rest : list byte) :
  io.concat src = [v; c; rsv; atyp] ++ addr ++ [p0; p1] ++ rest ->
  socks5.Reply.ValidateHeader
    (socks5.Reply.mk v c rsv atyp (socks5.Reply.IP r)
       (socks5.Reply.Domain r) (socks5.Reply.Port r)) = None ->
  address_frame atyp addr ->
  let r' := socks5.Reply.set_Port (binary.Uint16 p0 p1)
              (decoded_address atyp socks5.Reply.set_IP
                 socks5.Reply.set_Domain addr
                 (socks5.Reply.mk v c rsv atyp (socks5.Reply.IP r)
                    (socks5.Reply.Domain r) (socks5.Reply.Port r))) in
  exists src',
    socks5.Reply.ReadFrom r src
    = dec.mkResult (4 + len addr + 2) (socks5.Reply.Validate r') r' src'
    /\ io.concat src' = rest.
Proof.
  intros E VH F; cbv zeta.
  destruct (advance_concat src [v; c; rsv; atyp] _ E) as (E2 & _).
  destruct (read_address_spec atyp socks5.Reply.set_IP
              socks5.Reply.set_Domain
              (socks5.Reply.mk v c rsv atyp (socks5.Reply.IP r)
                 (socks5.Reply.Domain r) (socks5.Reply.Port r))
              (0 + len [v; c; rsv; atyp]) _ addr _ E2 F)
    as (src1 & RA & E3 & _).
  destruct (advance_concat src1 [p0; p1] rest E3) as (E4 & _).
  eexists; split; [|exact E4].
  unfold socks5.Reply.ReadFrom, dec.run.
  rewrite bind_run.
  change 4%nat with (List.length [v; c; rsv; atyp]) at 1.
  rewrite (readFull_prefix _ (addr ++ [p0; p1] ++ rest)) by exact E.
  cbv beta iota; dec_steps.
  rewrite bind_run, VH, finish_run; cbv beta iota.
  rewrite bind_run; cbn [socks5.Reply.AddrType].
  match goal with
  | |- context [(if ?b then ?x else ?y) (dec.mkState ?r0 ?t0 ?s0)] =>
      change ((if b then x else y) (dec.mkState r0 t0 s0))
        with (read_address atyp socks5.Reply.set_IP
                socks5.Reply.set_Domain (dec.mkState r0 t0 s0))
  end.
  rewrite RA; cbv beta iota.
  rewrite bind_run.
  change 2%nat with (List.length [p0; p1]) at 1.
  rewrite (readFull_prefix _ rest) by exact E3.
  cbv beta iota; dec_steps.
  replace (0 + len [v; c; rsv; atyp] + len addr + len [p0; p1])
    with (4 + len addr + 2) by (unfold len; cbn [List.length]; lia).
  unfold dec.finish.
  destruct (socks5.Reply.Validate _); reflexivity.
Qed.

Lemma socks5_Reply_Validate_inv (m : socks5.Reply.t) :
  socks5.Reply.Validate m = None ->
  socks5.Reply.ValidateHeader m = None
  /\ known_address_type (socks5.Reply.AddrType m) = true
  /\ (socks5.Reply.AddrType m = socks5.AddrTypeDomain ->
      0 < len_string (socks5.Reply.Domain m) <= 255).
Proof.
  unfold socks5.Reply.Validate.
  destruct (socks5.Reply.ValidateHeader m) eqn:VH; [discriminate|].
  intros V; split; [reflexivity|]. split.
  - unfold socks5.Reply.ValidateHeader in VH.
    repeat match type of VH with
           | (if ?b then _ else _) = None =>
               destruct b eqn:?; [discriminate|]
           end.
    unfold known_address_type.
    destruct (Byte.eqb _ socks5.AddrTypeIPv4);
      destruct (Byte.eqb _ socks5.AddrTypeIPv6);
      destruct (Byte.eqb _ socks5.AddrTypeDomain);
      try reflexivity; discriminate.
  - intros D; rewrite D in V.
    change (Byte.eqb socks5.AddrTypeDomain socks5.AddrTypeDomain)
      with true in V.
    destruct (Z.eqb_spec (len_string (socks5.Reply.Domain m)) 0);
      [discriminate|].
    destruct (Z.gtb_spec (len_string (socks5.Reply.Domain m)) 255);
      [discriminate|].
    unfold len_string in *; lia.
Qed.

Lemma socks5_Reply_round_trip (m : socks5.Reply.t) :
  socks5.Reply.Validate m = None ->
  0 <= socks5.Reply.Port m < 65536 ->
  address_ok (socks5.Reply.AddrType m) (socks5.Reply.IP m) ->
  round_trip socks5.Reply.WriteTo
    (returns (socks5.Reply.ReadFrom socks5.Reply.zero)) same_Reply m.
Proof.
  intros V P O; destruct (socks5_Reply_Validate_inv m V) as (VH & K & D).
  destruct m as [v c rsv atyp ip dom port];
    cbn [socks5.Reply.AddrType socks5.Reply.IP socks5.Reply.Domain
         socks5.Reply.Port] in *.
  unfold round_trip, returns, socks5.Reply.WriteTo.
  cbn [socks5.Reply.Version socks5.Reply.Reply
       socks5.Reply.Reserved socks5.Reply.AddrType socks5.Reply.IP
       socks5.Reply.Domain socks5.Reply.Port].
  rewrite V.
  unfold io.Write, bytes_.Buffer_Writer, bytes_.Reader, binary.PutUint16.
  cbn [bytes_.Bytes app]; cbv beta iota zeta.
  rewrite (write_addr_Buffer _ atyp ip dom _ _ K).
  cbv beta iota zeta; cbn [fst snd bytes_.Bytes].
  destruct (socks5_Reply_ReadFrom_frame socks5.Reply.zero
              (bytes_.NewReader
                 (([v; c; rsv; atyp] ++ address_bytes atyp ip dom)
                  ++ [byte_of_Z (Z.shiftr port 8); byte_of_Z port]))
              v c rsv atyp (byte_of_Z (Z.shiftr port 8)) (byte_of_Z port)
              (address_bytes atyp ip dom) [])
    as (src' & R & _).
  - rewrite concat_NewReader, <- !app_assoc; reflexivity.
  - exact VH.
  - apply address_frame_bytes; assumption.
  - cbv zeta in R; rewrite R; clear R.
    destruct (decoded_address_bytes atyp socks5.Reply.set_IP
                socks5.Reply.set_Domain ip dom
                (socks5.Reply.mk v c rsv atyp
                   (socks5.Reply.IP socks5.Reply.zero)
                   (socks5.Reply.Domain socks5.Reply.zero)
                   (socks5.Reply.Port socks5.Reply.zero)) K O)
      as (DA & DE).
    rewrite DA, (Uint16_PutUint16 port P); clear DA.
    eexists; split; [reflexivity|].
    cbn [dec.err dec.self dec.n].
    split; [reflexivity|].
    unfold same_Reply, same_address.
    destruct (Byte.eqb atyp socks5.AddrTypeDomain) eqn:ED.
    + unfold socks5.Reply.set_Port, socks5.Reply.set_Domain.
      cbn [socks5.Reply.Version socks5.Reply.Reply
           socks5.Reply.Reserved socks5.Reply.AddrType
           socks5.Reply.IP socks5.Reply.Domain socks5.Reply.Port
           socks5.Reply.zero].
      rewrite ED.
      split; [|split; [repeat split|unfold len; cbn [List.length]; lia]].
      unfold socks5.Reply.Validate in V |- *.
      change (socks5.Reply.ValidateHeader
                (socks5.Reply.mk v c rsv atyp None dom port))
        with (socks5.Reply.ValidateHeader
                (socks5.Reply.mk v c rsv atyp ip dom port)).
      rewrite VH in V |- *.
      cbn [socks5.Reply.AddrType socks5.Reply.Domain] in V |- *.
      rewrite ED in V |- *; exact V.
    + destruct (DE eq_refl) as (l & -> & EQ).
      unfold socks5.Reply.set_Port, socks5.Reply.set_IP.
      cbn [socks5.Reply.Version socks5.Reply.Reply
           socks5.Reply.Reserved socks5.Reply.AddrType
           socks5.Reply.IP socks5.Reply.Domain socks5.Reply.Port
           socks5.Reply.zero].
      rewrite ED.
      split; [|split; [repeat split; exact EQ
                      |unfold len; cbn [List.length]; lia]].
      unfold socks5.Reply.Validate.
      change (socks5.Reply.ValidateHeader
                (socks5.Reply.mk v c rsv atyp (Some l) "" port))
        with (socks5.Reply.ValidateHeader
                (socks5.Reply.mk v c rsv atyp ip dom port)).
      rewrite VH; cbn [socks5.Reply.AddrType socks5.Reply.IP].
      rewrite ED.
      destruct (Byte.eqb atyp socks5.AddrTypeIPv4
                || Byte.eqb atyp socks5.AddrTypeIPv6); reflexivity.
Qed.

Lemma readAll_run {R} (r : R) (t : Z) (s : io.Stream) :
  is_sentinel (final s) io.EOF = true ->
  dec.readAll (dec.mkState r t s)
  = (inl (io.concat s),
     dec.mkState r (t + len (io.concat s)) (io.End (final s))).
Proof.
  intro F; unfold dec.readAll; cbn [dec.src dec.recv dec.total].
  rewrite ReadAll_spec, F; reflexivity.
Qed.

Lemma UDPPacket_ReadFrom_frame (p : socks5.UDPPacket.t) (src : io.Stream)
  (r0 r1 frag atyp p0 p1 : byte) (addr data : list byte) :
  io.concat src = [r0; r1; frag; atyp] ++ addr ++ [p0; p1] ++ data ->
  is_sentinel (final src) io.EOF = true ->
  socks5.UDPPacket.ValidateHeader
    (socks5.UDPPacket.mk (r0, r1) frag atyp (socks5.UDPPacket.IP p)
       (socks5.UDPPacket.Domain p) (socks5.UDPPacket.Port p)
       (socks5.UDPPacket.Data p)) = None ->
  address_frame atyp addr ->
  let p' := socks5.UDPPacket.set_Data data
              (socks5.UDPPacket.set_Port (binary.Uint16 p0 p1)
                 (decoded_address atyp socks5.UDPPacket.set_IP
                    socks5.UDPPacket.set_Domain addr
                    (socks5.UDPPacket.mk (r0, r1) frag atyp
                       (socks5.UDPPacket.IP p) (socks5.UDPPacket.Domain p)
                       (socks5.UDPPacket.Port p)
                       (socks5.UDPPacket.Data p)))) in
  socks5.UDPPacket.ReadFrom p src
  = dec.mkResult (4 + len addr + 2 + len data)
      (socks5.UDPPacket.Validate p') p' (io.End (final src)).
Proof.
  intros E Fin VH F; cbv zeta.
  destruct (advance_concat src [r0; r1; frag; atyp] _ E) as (E2 & F2).
  destruct (read_address_spec atyp socks5.UDPPacket.set_IP
              socks5.UDPPacket.set_Domain
              (socks5.UDPPacket.mk (r0, r1) frag atyp
                 (socks5.UDPPacket.IP p) (socks5.UDPPacket.Domain p)
                 (socks5.UDPPacket.Port p) (socks5.UDPPacket.Data p))
              (0 + len [r0; r1; frag; atyp]) _ addr _ E2 F)
    as (src1 & RA & E3 & F3).
  destruct (advance_concat src1 [p0; p1] data E3) as (E4 & F4).
  unfold socks5.UDPPacket.ReadFrom, dec.run.
  rewrite bind_run.
  change 4%nat with (List.length [r0; r1; frag; atyp]) at 1.
  rewrite (readFull_prefix _ (addr ++ [p0; p1] ++ data)) by exact E.
  cbv beta iota; dec_steps.
  rewrite bind_run, VH, finish_run; cbv beta iota.
  rewrite bind_run; cbn [socks5.UDPPacket.AddrType].
  match goal with
  | |- context [(if ?b then ?x else ?y) (dec.mkState ?r0 ?t0 ?s0)] =>
      change ((if b then x else y) (dec.mkState r0 t0 s0))
        with (read_address atyp socks5.UDPPacket.set_IP
                socks5.UDPPacket.set_Domain (dec.mkState r0 t0 s0))
  end.
  rewrite RA; cbv beta iota.
  rewrite bind_run.
  change 2%nat with (List.length [p0; p1]) at 1.
  rewrite (readFull_prefix _ data) by exact E3.
  cbv beta iota; dec_steps.
  rewrite bind_run, readAll_run by (rewrite F4, F3, F2; exact Fin).
  rewrite E4, F4, F3, F2.
  cbv beta iota; dec_steps.
  replace (0 + len [r0; r1; frag; atyp] + len addr + len [p0; p1] + len data)
    with (4 + len addr + 2 + len data)
    by (unfold len; cbn [List.length]; lia).
  unfold dec.finish.
  destruct (socks5.UDPPacket.Validate _); reflexivity.
Qed.

Lemma UDPPacket_Validate_inv (m : socks5.UDPPacket.t) :
  socks5.UDPPacket.Validate m = None ->
  socks5.UDPPacket.ValidateHeader m = None
  /\ known_address_type (socks5.UDPPacket.AddrType m) = true
  /\ (socks5.UDPPacket.AddrType m = socks5.AddrTypeDomain ->
      0 < len_string (socks5.UDPPacket.Domain m) <= 255).
Proof.
  unfold socks5.UDPPacket.Validate, socks5.UDPPacket.ValidateHeader,
    known_address_type.
  destruct (negb (socks5.UDPPacket.Reserved_is_zero m)); [discriminate|].
  destruct (negb (Byte.eqb (socks5.UDPPacket.Frag m) x00)); [discriminate|].
  cbv zeta.
  destruct (Byte.eqb (socks5.UDPPacket.AddrType m) socks5.AddrTypeIPv4)
    eqn:E4.
  - intros _; split; [reflexivity|]. split; [reflexivity|].
    apply Byte_eqb_eq in E4; intros D; rewrite D in E4; discriminate.
  - destruct (Byte.eqb (socks5.UDPPacket.AddrType m) socks5.AddrTypeIPv6)
      eqn:E6.
    + intros _; split; [reflexivity|]. split; [reflexivity|].
      apply Byte_eqb_eq in E6; intros D; rewrite D in E6; discriminate.
    + destruct (Byte.eqb (socks5.UDPPacket.AddrType m)
                  socks5.AddrTypeDomain) eqn:ED; cbn [orb negb];
        [|discriminate].
      destruct (Z.eqb_spec (len_string (socks5.UDPPacket.Domain m)) 0);
        [discriminate|].
      destruct (Z.gtb_spec (len_string (socks5.UDPPacket.Domain m)) 255);
        [discriminate|].
      intros _; split; [reflexivity|]. split; [reflexivity|].
      intros _; unfold len_string in *; lia.
Qed.

Lemma UDPPacket_round_trip (m : socks5.UDPPacket.t) :
  socks5.UDPPacket.Validate m = None ->
  0 <= socks5.UDPPacket.Port m < 65536 ->
  address_ok (socks5.UDPPacket.AddrType m) (socks5.UDPPacket.IP m) ->
  round_trip socks5.UDPPacket.WriteTo
    (returns (socks5.UDPPacket.ReadFrom socks5.UDPPacket.zero))
    same_UDPPacket m.
Proof.
  intros V P O; destruct (UDPPacket_Validate_inv m V) as (VH & K & D).
  destruct m as [[r0 r1] frag atyp ip dom port data];
    cbn [socks5.UDPPacket.AddrType socks5.UDPPacket.IP
         socks5.UDPPacket.Domain socks5.UDPPacket.Port] in *.
  unfold round_trip, returns, socks5.UDPPacket.WriteTo.
  rewrite V.
  cbn [socks5.UDPPacket.Reserved socks5.UDPPacket.Frag
       socks5.UDPPacket.AddrType socks5.UDPPacket.IP
       socks5.UDPPacket.Domain socks5.UDPPacket.Port
       socks5.UDPPacket.Data fst snd].
  unfold io.Write, bytes_.Buffer_Writer, bytes_.Reader, binary.PutUint16.
  cbn [bytes_.Bytes app]; cbv beta iota zeta.
  rewrite (write_addr_Buffer _ atyp ip dom _ _ K).
  cbv beta iota zeta; cbn [fst snd bytes_.Bytes].
  match goal with
  | |- context [bytes_.NewReader ?X] => set (wire := X)
  end.
  assert (EW : wire = [r0; r1; frag; atyp] ++ address_bytes atyp ip dom
                      ++ [byte_of_Z (Z.shiftr port 8); byte_of_Z port]
                      ++ data)
    by (unfold wire; rewrite <- !app_assoc; reflexivity).
  pose proof (UDPPacket_ReadFrom_frame socks5.UDPPacket.zero
                (bytes_.NewReader wire) r0 r1 frag atyp
                (byte_of_Z (Z.shiftr port 8)) (byte_of_Z port)
                (address_bytes atyp ip dom) data) as R.
  rewrite concat_NewReader, final_NewReader in R.
  specialize (R EW eq_refl VH (address_frame_bytes atyp ip dom K O D)).
  cbv zeta in R; rewrite R; clear R.
  destruct (decoded_address_bytes atyp socks5.UDPPacket.set_IP
              socks5.UDPPacket.set_Domain ip dom
              (socks5.UDPPacket.mk (r0, r1) frag atyp
                 (socks5.UDPPacket.IP socks5.UDPPacket.zero)
                 (socks5.UDPPacket.Domain socks5.UDPPacket.zero)
                 (socks5.UDPPacket.Port socks5.UDPPacket.zero)
                 (socks5.UDPPacket.Data socks5.UDPPacket.zero)) K O)
    as (DA & DE).
  rewrite DA, (Uint16_PutUint16 port P); clear DA.
  eexists; split; [reflexivity|].
  cbn [dec.err dec.self dec.n].
  split; [reflexivity|].
  unfold same_UDPPacket, same_address.
  destruct (Byte.eqb atyp socks5.AddrTypeDomain) eqn:ED.
  - unfold socks5.UDPPacket.set_Data, socks5.UDPPacket.set_Port,
      socks5.UDPPacket.set_Domain.
    cbn [socks5.UDPPacket.Reserved socks5.UDPPacket.Frag
         socks5.UDPPacket.AddrType socks5.UDPPacket.IP
         socks5.UDPPacket.Domain socks5.UDPPacket.Port
         socks5.UDPPacket.Data socks5.UDPPacket.zero].
    rewrite ED.
    split; [|split; [repeat split|unfold len; cbn [List.length]; lia]].
    apply Byte_eqb_eq in ED; subst atyp; exact V.
  - destruct (DE eq_refl) as (l & -> & EQ).
    unfold socks5.UDPPacket.set_Data, socks5.UDPPacket.set_Port,
      socks5.UDPPacket.set_IP.
    cbn [socks5.UDPPacket.Reserved socks5.UDPPacket.Frag
         socks5.UDPPacket.AddrType socks5.UDPPacket.IP
         socks5.UDPPacket.Domain socks5.UDPPacket.Port
         socks5.UDPPacket.Data socks5.UDPPacket.zero].
    rewrite ED.
    split; [|split; [repeat split; exact EQ
                    |unfold len; cbn [List.length]; lia]].
    assert (K4 : Byte.eqb atyp socks5.AddrTypeIPv4
                 || Byte.eqb atyp socks5.AddrTypeIPv6 = true).
    { unfold known_address_type in K; rewrite ED in K.
      destruct (Byte.eqb atyp socks5.AddrTypeIPv4
                || Byte.eqb atyp socks5.AddrTypeIPv6);
        [reflexivity|discriminate]. }
    unfold socks5.UDPPacket.Validate in V |- *.
    cbn [socks5.UDPPacket.AddrType socks5.UDPPacket.IP
         socks5.UDPPacket.Domain socks5.UDPPacket.Data] in V |- *.
    change (socks5.UDPPacket.Reserved_is_zero
              (socks5.UDPPacket.mk (r0, r1) frag atyp (Some l) "" port data))
      with (socks5.UDPPacket.Reserved_is_zero
              (socks5.UDPPacket.mk (r0, r1) frag atyp ip dom port data)).
    destruct (negb (socks5.UDPPacket.Reserved_is_zero _)); [discriminate|].
    cbn [socks5.UDPPacket.Frag] in V |- *.
    destruct (negb (Byte.eqb frag x00)); [discriminate|].
    rewrite K4 in V |- *.
    destruct ip; [exact V|discriminate].
Qed.

(** *** The round-trip law *)

(** C1, counterexample. The request [request_with_NUL] does not come
    back: its user ID is read back as "a". *)
Lemma C1_user_id_with_NUL_does_not_round_trip :
  ~ round_trip_for_every_message.
Proof.
  intros (H & _).
  destruct (H request_with_NUL) as (res & E & _ & _ & S & _).
  vm_compute in E; inversion E; subst res; clear E.
  cbn [dec.self] in S; discriminate S.
Qed.

(** The request of the counterexample is valid for the package; it is
    written as 12 bytes without error, and reading them back takes 10
    bytes and yields the user ID "a". *)
Example request_with_NUL_is_valid :
  socks4.Request.Validate request_with_NUL = None
  /\ fst (socks4.Request.WriteTo request_with_NUL (bytes_.mkBuffer []))
     = (12, None)
  /\ option_map
       (fun res =>
          (dec.n res, dec.err res, socks4.Request.UserID (dec.self res)))
       (socks4.Request.ReadFrom socks4.Request.zero
          (bytes_.Reader
             (snd (socks4.Request.WriteTo request_with_NUL
                     (bytes_.mkBuffer [])))))
     = Some (10, None, "a").
Proof. vm_compute; repeat split. Qed.

(** A SOCKS5 request of address type IPv4 that carries the IPv6 address
    ::1 passes [Validate]; [WriteTo] writes no address for it (6 bytes),
    and reading the bytes back fails. *)
Example request_with_mismatched_address :
  let m := socks5.Request.mk x05 x01 x00 socks5.AddrTypeIPv4
             (net.ParseIP "::1") "" 80 in
  socks5.Request.Validate m = None
  /\ fst (socks5.Request.WriteTo m (bytes_.mkBuffer [])) = (6, None)
  /\ dec.err (socks5.Request.ReadFrom socks5.Request.zero
                (bytes_.Reader
                   (snd (socks5.Request.WriteTo m (bytes_.mkBuffer [])))))
     = Some io.ErrUnexpectedEOF.
Proof. vm_compute; repeat split. Qed.

(** A SOCKS4 request whose user ID has 257 bytes, one more than the
    default limit of [ReadFrom], is valid and is written in full (266
    bytes); reading it back fails with [EOF] after the 265 bytes the
    limit allows. *)
Example request_with_long_user_id :
  let m := socks4.Request.mk x04 x01 80 (mkArray4 x7f x00 x00 x01)
             (string_of_bytes (repeat "a"%byte 257)) "" in
  socks4.Request.Validate m = None
  /\ fst (socks4.Request.WriteTo m (bytes_.mkBuffer [])) = (266, None)
  /\ option_map (fun res => (dec.n res, dec.err res))
       (socks4.Request.ReadFrom socks4.Request.zero
          (bytes_.Reader
             (snd (socks4.Request.WriteTo m (bytes_.mkBuffer [])))))
     = Some (265, Some io.EOF).
Proof. vm_compute; repeat split. Qed.

(** A SOCKS5 reply that does not pass [Validate] (version 4) is not
    written at all, so there is nothing to read back. *)
Example invalid_reply_is_not_written :
  let m := socks5.Reply.mk x04 x00 x00 socks5.AddrTypeIPv4
             (net.IPv4 x7f x00 x00 x01) "" 80 in
  socks5.Reply.WriteTo m (bytes_.mkBuffer [])
  = ((0, Some socks5.ErrInvalidReplyVersion), bytes_.mkBuffer [])
  /\ dec.err (socks5.Reply.ReadFrom socks5.Reply.zero
                (bytes_.Reader
                   (snd (socks5.Reply.WriteTo m (bytes_.mkBuffer [])))))
     = Some io.EOF.
Proof. vm_compute; repeat split. Qed.

(** C1, amended. The round-trip law holds for the messages that pass
    [Validate] and that the wire format can carry: ports are 16-bit
    values; the user ID and the domain of a SOCKS4 request hold no zero
    byte and do not exceed the default limits of [ReadFrom]; the IP
    address of a SOCKS5 request, reply or UDP packet has the form its
    address type asks for ([To4] for IPv4, [To16] for IPv6). Such a
    message, written to an empty buffer and read back into the zero
    value, is decoded without error with the same count; all fields come
    back equal, where the address of a SOCKS5 message is the one its
    address type selects (an IP address compared with [Equal], or the
    domain), and the token of a GSSAPI abort message is not compared. *)
Theorem C1_round_trip_of_valid_messages :
  (forall m,
      socks4.Request.Validate m = None ->
      0 <= socks4.Request.Port m < 65536 ->
      ~ In x00 (bytes_of_string (socks4.Request.UserID m)) ->
      len_string (socks4.Request.UserID m) <= socks4.DefaultMaxUserIDLen ->
      ~ In x00 (bytes_of_string (socks4.Request.Domain m)) ->
      len_string (socks4.Request.Domain m) <= socks4.DefaultMaxDomainLen ->
      round_trip socks4.Request.WriteTo
        (socks4.Request.ReadFrom socks4.Request.zero) eq m)
  /\ (forall m,
        socks4.Response.Validate m = None ->
        0 <= socks4.Response.Port m < 65536 ->
        round_trip socks4.Response.WriteTo
          (returns (socks4.Response.ReadFrom socks4.Response.zero)) eq m)
  /\ (forall m,
        socks5.HandshakeRequest.Validate m = None ->
        round_trip socks5.HandshakeRequest.WriteTo
          (returns (socks5.HandshakeRequest.ReadFrom
                      socks5.HandshakeRequest.zero)) eq m)
  /\ (forall m,
        socks5.HandshakeReply.Validate m = None ->
        round_trip socks5.HandshakeReply.WriteTo
          (returns (socks5.HandshakeReply.ReadFrom
                      socks5.HandshakeReply.zero)) eq m)
  /\ (forall m,
        socks5.Request.Validate m = None ->
        0 <= socks5.Request.Port m < 65536 ->
        address_ok (socks5.Request.AddrType m) (socks5.Request.IP m) ->
        round_trip socks5.Request.WriteTo
          (returns (socks5.Request.ReadFrom socks5.Request.zero))
          same_Request m)
  /\ (forall m,
        socks5.Reply.Validate m = None ->
        0 <= socks5.Reply.Port m < 65536 ->
        address_ok (socks5.Reply.AddrType m) (socks5.Reply.IP m) ->
        round_trip socks5.Reply.WriteTo
          (returns (socks5.Reply.ReadFrom socks5.Reply.zero))
          same_Reply m)
  /\ (forall m,
        socks5.UserPassRequest.Validate m = None ->
        round_trip socks5.UserPassRequest.WriteTo
          (returns (socks5.UserPassRequest.ReadFrom
                      socks5.UserPassRequest.zero)) eq m)
  /\ (forall m,
        socks5.UserPassReply.Validate m = None ->
        round_trip socks5.UserPassReply.WriteTo
          (returns (socks5.UserPassReply.ReadFrom
                      socks5.UserPassReply.zero)) eq m)
  /\ (forall m,
        socks5.GSSAPIRequest.Validate m = None ->
        round_trip socks5.GSSAPIRequest.WriteTo
          (returns (socks5.GSSAPIRequest.ReadFrom
                      socks5.GSSAPIRequest.zero))
          same_GSSAPIRequest m)
  /\ (forall m,
        socks5.GSSAPIReply.Validate m = None ->
        round_trip socks5.GSSAPIReply.WriteTo
          (returns (socks5.GSSAPIReply.ReadFrom socks5.GSSAPIReply.zero))
          same_GSSAPIReply m)
  /\ (forall m,
        socks5.UDPPacket.Validate m = None ->
        0 <= socks5.UDPPacket.Port m < 65536 ->
        address_ok (socks5.UDPPacket.AddrType m) (socks5.UDPPacket.IP m) ->
        round_trip socks5.UDPPacket.WriteTo
          (returns (socks5.UDPPacket.ReadFrom socks5.UDPPacket.zero))
          same_UDPPacket m).
Proof.
  split; [exact socks4_Request_round_trip|].
  split; [exact socks4_Response_round_trip|].
  split; [exact HandshakeRequest_round_trip|].
  split; [exact HandshakeReply_round_trip|].
  split; [exact socks5_Request_round_trip|].
  split; [exact socks5_Reply_round_trip|].
  split; [exact UserPassRequest_round_trip|].
  split; [exact UserPassReply_round_trip|].
  split; [exact GSSAPIRequest_round_trip|].
  split; [exact GSSAPIReply_round_trip|].
  exact UDPPacket_round_trip.
Qed.

(** The amended law on three messages: a SOCKS4a request for
    example.com:80 with the user ID "user", a SOCKS5 CONNECT request for
    the IPv4 address 127.0.0.1 given in its 16-byte form, and a UDP
    packet for the domain "a.b" with the payload 0x01 0x02. *)
Lemma C1_round_trip_of_valid_messages_witness :
  round_trip socks4.Request.WriteTo
    (socks4.Request.ReadFrom socks4.Request.zero) eq
    (socks4.Request.mk x04 x01 80 (mkArray4 x00 x00 x00 x01) "user"
       "example.com")
  /\ round_trip socks5.Request.WriteTo
       (returns (socks5.Request.ReadFrom socks5.Request.zero)) same_Request
       (socks5.Request.mk x05 x01 x00 socks5.AddrTypeIPv4
          (net.IPv4 x7f x00 x00 x01) "" 443)
  /\ round_trip socks5.UDPPacket.WriteTo
       (returns (socks5.UDPPacket.ReadFrom socks5.UDPPacket.zero))
       same_UDPPacket
       (socks5.UDPPacket.mk (x00, x00) x00 socks5.AddrTypeDomain None "a.b"
          53 [x01; x02]).
Proof.
  destruct C1_round_trip_of_valid_messages
    as (R4 & _ & _ & _ & R5 & _ & _ & _ & _ & _ & U5).
  split; [|split].
  - apply R4.
    + reflexivity.
    + simpl; lia.
    + vm_compute; intuition discriminate.
    + vm_compute; discriminate.
    + vm_compute; intuition discriminate.
    + vm_compute; discriminate.
  - apply R5.
    + reflexivity.
    + simpl; lia.
    + split; intros _; vm_compute; discriminate.
  - apply U5.
    + reflexivity.
    + simpl; lia.
    + split; intro F; vm_compute in F; discriminate.
Defined.

(* ================================================================== *)
(** * Further properties of the codecs, the dialer and the listener *)

(* ================================================================== *)
(** ** Every decoder counts the bytes it takes *)

Lemma readFull_cases {R} (n : nat) (r : R) (t : Z) (s : io.Stream) :
  ((n <= List.length (io.concat s))%nat
   /\ dec.readFull n (dec.mkState r t s)
      = (inl (firstn n (io.concat s)),
         dec.mkState r (t + Z.of_nat n) (advance s n))
   /\ io.concat (advance s n) = skipn n (io.concat s)
   /\ final (advance s n) = final s)
  \/ ((List.length (io.concat s) < n)%nat
      /\ exists e,
           dec.readFull n (dec.mkState r t s)
           = (inr e,
              dec.mkState r (t + len (io.concat s)) (io.End (final s)))
           /\ (final s = io.EOF -> e = io.EOF \/ e = io.ErrUnexpectedEOF)).
Proof.
  destruct (Nat.le_gt_cases n (List.length (io.concat s))) as [L|L].
  - left; split; [exact L|].
    destruct (ReadFull_enough s n L) as (_ & B & C).
    split; [apply readFull_enough; exact L|split; [exact B|exact C]].
  - right; split; [exact L|].
    unfold dec.readFull, io.ReadFull; cbn [dec.src dec.recv dec.total].
    rewrite (ReadFull_loop_short s n [] L); cbn [app].
    eexists; split; [reflexivity|].
    intros F; rewrite F.
    destruct (io.concat s); [left|right]; reflexivity.
Qed.

Lemma accounts_readFull {R} (n : nat) : accounts (@dec.readFull R n).
Proof.
  intros [r t s].
  destruct (readFull_cases n r t s) as [(L & E & B & _)|(L & e & E & _)];
    rewrite E; cbn [snd dec.total dec.src io.concat].
  - rewrite B; unfold len; rewrite length_skipn; lia.
  - unfold len; simpl; lia.
Qed.

Lemma accounts_readAll {R} : accounts (@dec.readAll R).
Proof.
  intros [r t s]; unfold dec.readAll; cbn [dec.src dec.recv dec.total].
  rewrite ReadAll_spec.
  destruct (is_sentinel (final s) io.EOF);
    cbn [snd dec.total dec.src io.concat]; unfold len; simpl; lia.
Qed.

Lemma accounts_get {R} : accounts (@dec.get R).
Proof. intros st; reflexivity. Qed.

Lemma accounts_modify {R} (f : R -> R) : accounts (dec.modify f).
Proof. intros st; reflexivity. Qed.

Lemma accounts_ret {R A} (a : A) : accounts (@dec.ret R A a).
Proof. intros st; reflexivity. Qed.

Lemma accounts_finish {R} (e : option error) : accounts (@dec.finish R e).
Proof. intros st; destruct e; reflexivity. Qed.

Lemma accounts_bind {R A B} (m : dec.Dec R A) (k : A -> dec.Dec R B) :
  accounts m -> (forall a, accounts (k a)) -> accounts (dec.bind m k).
Proof.
  intros Hm Hk st; unfold dec.bind.
  specialize (Hm st); destruct (m st) as [[a|e] st1]; cbn [snd] in *.
  - rewrite (Hk a st1); exact Hm.
  - exact Hm.
Qed.

(** Builds the proof that a decoder accounts for its bytes from its
    steps. *)
Ltac accounts_steps :=
  repeat first
    [ apply accounts_readFull | apply accounts_readAll | apply accounts_get
    | apply accounts_modify | apply accounts_ret | apply accounts_finish
    | apply accounts_bind
    | match goal with
      | |- forall _, _ => intro
      | |- accounts (if ?b then _ else _) => destruct b
      | |- accounts (let _ := _ in _) => cbv zeta
      end ].

Lemma run_accounts {R A} (m : dec.Dec R A) (r : R) (s : io.Stream) :
  accounts m ->
  dec.n (dec.run m r s) + len (io.concat (dec.rest (dec.run m r s)))
  = len (io.concat s).
Proof.
  intros Hm; unfold dec.run.
  specialize (Hm (dec.mkState r 0 s)).
  destruct (m _) as [res st]; cbn [snd dec.n dec.rest dec.total dec.src] in *.
  lia.
Qed.

(** X1. The count that a decoder returns is the number of bytes it has
    taken from its source, on every source and whether it succeeds or
    fails: the count and the bytes left in the source add up to the bytes
    the source held. This holds for the header of a SOCKS4 request, the
    SOCKS4 response and the nine SOCKS5 messages. *)
Theorem X1_ReadFrom_counts_the_bytes_taken :
  forall src : io.Stream,
    (forall r, counts_taken src (socks4.Request.ReadHeaderFrom r src))
    /\ (forall r, counts_taken src (socks4.Response.ReadFrom r src))
    /\ (forall r, counts_taken src (socks5.HandshakeRequest.ReadFrom r src))
    /\ (forall r, counts_taken src (socks5.HandshakeReply.ReadFrom r src))
    /\ (forall r, counts_taken src (socks5.Request.ReadFrom r src))
    /\ (forall r, counts_taken src (socks5.Reply.ReadFrom r src))
    /\ (forall r, counts_taken src (socks5.UserPassRequest.ReadFrom r src))
    /\ (forall r, counts_taken src (socks5.UserPassReply.ReadFrom r src))
    /\ (forall r, counts_taken src (socks5.GSSAPIRequest.ReadFrom r src))
    /\ (forall r, counts_taken src (socks5.GSSAPIReply.ReadFrom r src))
    /\ (forall r, counts_taken src (socks5.UDPPacket.ReadFrom r src)).
Proof.
  intros src; unfold counts_taken.
  repeat split; intro r; apply run_accounts; accounts_steps.
Qed.

(* ================================================================== *)
(** ** What a decoder accepts has been validated *)

Lemma validates_bind {R A B} (V : R -> option error) (m : dec.Dec R A)
  (k : A -> dec.Dec R B) :
  (forall a, validates V (k a)) -> validates V (dec.bind m k).
Proof.
  intros Hk st b st' E; unfold dec.bind in E.
  destruct (m st) as [[a|e] st1]; [|discriminate].
  exact (Hk a st1 b st' E).
Qed.

Lemma validates_finish {R} (V : R -> option error) :
  validates V (dec.bind dec.get (fun r => dec.finish (V r))).
Proof.
  intros st a st' E; unfold dec.bind, dec.get, dec.finish in E.
  destruct (V (dec.recv st)) eqn:F; inversion E; subst; exact F.
Qed.

Lemma run_validates {R A} (V : R -> option error) (m : dec.Dec R A)
  (r : R) (s : io.Stream) :
  validates V m ->
  dec.err (dec.run m r s) = None -> V (dec.self (dec.run m r s)) = None.
Proof.
  intros Hm; unfold dec.run.
  specialize (Hm (dec.mkState r 0 s)).
  destruct (m _) as [[a|e] st]; cbn [dec.err dec.self]; [|discriminate].
  intros _; exact (Hm a st eq_refl).
Qed.

Ltac validates_steps :=
  repeat first [ apply validates_finish
               | apply validates_bind; intro ].

(** The validation a GSSAPI decoder has applied to what it accepts: none
    for an abort message. *)
Lemma GSSAPIRequest_ReadFrom_validated (r : socks5.GSSAPIRequest.t)
  (src : io.Stream) :
  let res := socks5.GSSAPIRequest.ReadFrom r src in
  dec.err res = None ->
  socks5.GSSAPIRequest.MsgType (dec.self res) <> socks5.GSSAPITypeAbort ->
  socks5.GSSAPIRequest.Validate (dec.self res) = None.
Proof.
  cbv zeta; unfold socks5.GSSAPIRequest.ReadFrom, dec.run.
  rewrite bind_run.
  destruct (dec.readFull 2 _) as [[hdr|e] st]; [|discriminate].
  dec_steps.
  destruct (Byte.eqb _ socks5.GSSAPITypeAbort) eqn:A.
  - cbn [dec.ret dec.err dec.self dec.recv socks5.GSSAPIRequest.MsgType].
    apply Byte_eqb_eq in A; intros _ N; contradiction.
  - intros E _; revert E.
    match goal with
    | |- context [let '(res, st0) := ?m ?s0 in _] =>
        assert (Hv : validates socks5.GSSAPIRequest.Validate m)
          by validates_steps;
        specialize (Hv s0); destruct (m s0) as [[a|e] st1]
    end; cbn [dec.err dec.self]; [|discriminate].
    intros _; exact (Hv a st1 eq_refl).
Qed.

Lemma GSSAPIReply_ReadFrom_validated (r : socks5.GSSAPIReply.t)
  (src : io.Stream) :
  let res := socks5.GSSAPIReply.ReadFrom r src in
  dec.err res = None ->
  socks5.GSSAPIReply.MsgType (dec.self res) <> socks5.GSSAPITypeAbort ->
  socks5.GSSAPIReply.Validate (dec.self res) = None.
Proof.
  cbv zeta; unfold socks5.GSSAPIReply.ReadFrom, dec.run.
  rewrite bind_run.
  destruct (dec.readFull 2 _) as [[hdr|e] st]; [|discriminate].
  dec_steps.
  destruct (Byte.eqb _ socks5.GSSAPITypeAbort) eqn:A.
  - cbn [dec.ret dec.err dec.self dec.recv socks5.GSSAPIReply.MsgType].
    apply Byte_eqb_eq in A; intros _ N; contradiction.
  - intros E _; revert E.
    match goal with
    | |- context [let '(res, st0) := ?m ?s0 in _] =>
        assert (Hv : validates socks5.GSSAPIReply.Validate m)
          by validates_steps;
        specialize (Hv s0); destruct (m s0) as [[a|e] st1]
    end; cbn [dec.err dec.self]; [|discriminate].
    intros _; exact (Hv a st1 eq_refl).
Qed.

(** X2. A message that a decoder accepts is valid: on every source, when
    [ReadFrom] returns no error the message it has stored passes
    [Validate] ([ValidateHeader] for the header of a SOCKS4 request). The
    GSSAPI decoders are the exception the code makes: they validate
    nothing in a message of type abort. *)
Theorem X2_ReadFrom_accepts_only_valid_messages :
  forall src : io.Stream,
    (forall r, accepted_passes socks4.Request.ValidateHeader
                 (socks4.Request.ReadHeaderFrom r src))
    /\ (forall r, accepted_passes socks4.Response.Validate
                    (socks4.Response.ReadFrom r src))
    /\ (forall r, accepted_passes socks5.HandshakeRequest.Validate
                    (socks5.HandshakeRequest.ReadFrom r src))
    /\ (forall r, accepted_passes socks5.HandshakeReply.Validate
                    (socks5.HandshakeReply.ReadFrom r src))
    /\ (forall r, accepted_passes socks5.Request.Validate
                    (socks5.Request.ReadFrom r src))
    /\ (forall r, accepted_passes socks5.Reply.Validate
                    (socks5.Reply.ReadFrom r src))
    /\ (forall r, accepted_passes socks5.UserPassRequest.Validate
                    (socks5.UserPassRequest.ReadFrom r src))
    /\ (forall r, accepted_passes socks5.UserPassReply.Validate
                    (socks5.UserPassReply.ReadFrom r src))
    /\ (forall r, accepted_passes socks5.UDPPacket.Validate
                    (socks5.UDPPacket.ReadFrom r src))
    /\ (forall r,
          accepted_passes
            (fun m =>
               if Byte.eqb (socks5.GSSAPIRequest.MsgType m)
                    socks5.GSSAPITypeAbort
               then None else socks5.GSSAPIRequest.Validate m)
            (socks5.GSSAPIRequest.ReadFrom r src))
    /\ (forall r,
          accepted_passes
            (fun m =>
               if Byte.eqb (socks5.GSSAPIReply.MsgType m)
                    socks5.GSSAPITypeAbort
               then None else socks5.GSSAPIReply.Validate m)
            (socks5.GSSAPIReply.ReadFrom r src)).
Proof.
  intros src; unfold accepted_passes.
  do 9 (split; [intro r; apply run_validates; validates_steps|]).
  split; intros r E.
  - destruct (Byte.eqb _ socks5.GSSAPITypeAbort) eqn:A; [reflexivity|].
    apply GSSAPIRequest_ReadFrom_validated;
      [exact E|apply Byte_eqb_neq; exact A].
  - destruct (Byte.eqb _ socks5.GSSAPITypeAbort) eqn:A; [reflexivity|].
    apply GSSAPIReply_ReadFrom_validated;
      [exact E|apply Byte_eqb_neq; exact A].
Qed.

(** The property on the bytes 05 01 00 03 01 61 00 50, a CONNECT request
    for the domain "a", port 80. *)
Lemma X2_ReadFrom_accepts_only_valid_messages_witness :
  socks5.Request.Validate
    (dec.self
       (socks5.Request.ReadFrom socks5.Request.zero
          (bytes_.NewReader
             [x05; x01; x00; x03; x01; "a"%byte; x00; x50])))
  = None.
Proof.
  destruct (X2_ReadFrom_accepts_only_valid_messages
              (bytes_.NewReader
                 [x05; x01; x00; x03; x01; "a"%byte; x00; x50]))
    as (_ & _ & _ & _ & H & _).
  apply (H socks5.Request.zero); reflexivity.
Defined.

(** X3. A GSSAPI message of type abort is two bytes long for the
    decoders: they take these two bytes, leave what follows in the
    source, return no error whatever the version byte is, and keep the
    token that the receiver held before. *)
Theorem X3_GSSAPI_abort_is_read_without_validation :
  forall (src : io.Stream) (v : byte) (rest : list byte),
    io.concat src = [v; socks5.GSSAPITypeAbort] ++ rest ->
    (forall r,
        socks5.GSSAPIRequest.ReadFrom r src
        = dec.mkResult 2 None
            (socks5.GSSAPIRequest.mk v socks5.GSSAPITypeAbort
               (socks5.GSSAPIRequest.Token r))
            (advance src 2))
    /\ (forall r,
          socks5.GSSAPIReply.ReadFrom r src
          = dec.mkResult 2 None
              (socks5.GSSAPIReply.mk v socks5.GSSAPITypeAbort
                 (socks5.GSSAPIReply.Token r))
              (advance src 2))
    /\ io.concat (advance src 2) = rest.
Proof.
  intros src v rest E.
  destruct (advance_concat src [v; socks5.GSSAPITypeAbort] rest E)
    as (E2 & _).
  split; [|split; [|exact E2]]; intro r.
  - unfold socks5.GSSAPIRequest.ReadFrom, dec.run, dec.bind.
    change 2%nat with (List.length [v; socks5.GSSAPITypeAbort]) at 1.
    rewrite (readFull_prefix _ rest) by exact E; reflexivity.
  - unfold socks5.GSSAPIReply.ReadFrom, dec.run, dec.bind.
    change 2%nat with (List.length [v; socks5.GSSAPITypeAbort]) at 1.
    rewrite (readFull_prefix _ rest) by exact E; reflexivity.
Qed.

(** An abort with the version byte 9, read into a request that held the
    token 01 02: no error, although [Validate] refuses the result. *)
Lemma X3_GSSAPI_abort_is_read_without_validation_witness :
  let r := socks5.GSSAPIRequest.mk x01 x01 [x01; x02] in
  let res := socks5.GSSAPIRequest.ReadFrom r
               (bytes_.NewReader [x09; xff; x05]) in
  res = dec.mkResult 2 None (socks5.GSSAPIRequest.mk x09 xff [x01; x02])
          (advance (bytes_.NewReader [x09; xff; x05]) 2)
  /\ socks5.GSSAPIRequest.Validate (dec.self res)
     = Some socks5.ErrInvalidGSSAPIVersion.
Proof.
  cbv zeta.
  destruct (X3_GSSAPI_abort_is_read_without_validation
              (bytes_.NewReader [x09; xff; x05]) x09 [x05] eq_refl)
    as (H & _ & _).
  split; [apply (H (socks5.GSSAPIRequest.mk x01 x01 [x01; x02]))|].
  rewrite (H (socks5.GSSAPIRequest.mk x01 x01 [x01; x02])); reflexivity.
Defined.

(* ================================================================== *)
(** ** Frames: what a decoder depends on *)

Lemma firstn_plus {A} (a b : nat) (l : list A) :
  firstn (a + b) l = firstn a l ++ firstn b (skipn a l).
Proof.
  revert l; induction a as [|a IH]; intros [|x l]; simpl;
    try reflexivity.
  - now rewrite firstn_nil.
  - now rewrite IH.
Qed.

Lemma firstn_agree_le {A} (a c : nat) (l1 l2 : list A) :
  (a <= c)%nat -> firstn c l2 = firstn c l1 -> firstn a l2 = firstn a l1.
Proof.
  intros L E.
  assert (F : forall l : list A, firstn a l = firstn a (firstn c l))
    by (intro l; rewrite firstn_firstn, Nat.min_l by exact L; reflexivity).
  rewrite (F l2), (F l1), E; reflexivity.
Qed.

Lemma skipn_firstn_plus {A} (a b : nat) (l : list A) :
  skipn a (firstn (a + b) l) = firstn b (skipn a l).
Proof.
  revert l; induction a as [|a IH]; intros [|x l]; simpl;
    try reflexivity.
  - now rewrite firstn_nil.
  - apply IH.
Qed.

Lemma framed_readFull {R} (n : nat) : framed (@dec.readFull R n).
Proof.
  intros r t s1 a st1' E.
  destruct (readFull_cases n r t s1) as [(L & E1 & B & C)|(L & e & E1 & _)];
    rewrite E1 in E; inversion E; subst; clear E.
  exists n; cbn [dec.total dec.src dec.recv].
  split; [reflexivity|]. split; [exact L|]. split; [exact B|].
  intros s2; split.
  - intros L2 F.
    destruct (readFull_cases n r t s2)
      as [(_ & E2 & B2 & C2)|(L2' & _)]; [|lia].
    exists (advance s2 n); rewrite E2, F; auto.
  - intros L2 F Fin.
    destruct (readFull_cases n r t s2)
      as [(L2' & _)|(_ & e & E2 & He)]; [lia|].
    exists e; eexists; split; [exact E2|].
    split; [exact (He Fin)|]. split; reflexivity.
Qed.

Lemma framed_pure {R A} (m : dec.Dec R A) :
  (forall st, exists r' b,
      m st = (b, dec.mkState r' (dec.total st) (dec.src st))
      /\ forall s2, m (dec.mkState (dec.recv st) (dec.total st) s2)
                    = (b, dec.mkState r' (dec.total st) s2)) ->
  framed m.
Proof.
  intros H r t s1 a st1' E.
  destruct (H (dec.mkState r t s1)) as (r' & b & E1 & E2).
  rewrite E1 in E; inversion E; subst; clear E.
  exists O; cbn [dec.total dec.src dec.recv] in *.
  split; [lia|]. split; [lia|]. split; [reflexivity|].
  intros s2; split; [|lia].
  intros _ _; exists s2; rewrite E2; auto.
Qed.

Lemma framed_get {R} : framed (@dec.get R).
Proof.
  apply framed_pure; intros [r t s]; exists r, (inl r); split;
    [reflexivity|intro; reflexivity].
Qed.

Lemma framed_modify {R} (f : R -> R) : framed (dec.modify f).
Proof.
  apply framed_pure; intros [r t s]; exists (f r), (inl tt); split;
    [reflexivity|intro; reflexivity].
Qed.

Lemma framed_ret {R A} (a : A) : framed (@dec.ret R A a).
Proof.
  apply framed_pure; intros [r t s]; exists r, (inl a); split;
    [reflexivity|intro; reflexivity].
Qed.

Lemma framed_finish {R} (e : option error) : framed (@dec.finish R e).
Proof.
  apply framed_pure; intros [r t s]; destruct e as [x|];
    [exists r, (inr x)|exists r, (inl tt)]; split;
    try reflexivity; intro; reflexivity.
Qed.

Lemma framed_bind {R A B} (m : dec.Dec R A) (k : A -> dec.Dec R B) :
  framed m -> (forall a, framed (k a)) -> framed (dec.bind m k).
Proof.
  intros Hm Hk r t s1 b st1' E; unfold dec.bind in E.
  destruct (m (dec.mkState r t s1)) as [[a|e] [r1 t1 s1m]] eqn:Em;
    [|discriminate].
  destruct (Hm r t s1 a _ Em) as (c1 & T1 & L1 & B1 & H1).
  cbn [dec.total dec.src dec.recv] in *.
  destruct (Hk a r1 t1 s1m b st1' E) as (c2 & T2 & L2 & B2 & H2).
  exists (c1 + c2)%nat.
  split; [lia|]. rewrite B1, length_skipn in L2.
  split; [lia|].
  split; [rewrite B2, B1, skipn_skipn; f_equal; lia|].
  intros s2; destruct (H1 s2) as (P1 & Q1); split.
  - intros L F.
    destruct P1 as (s2' & E2 & B2' & F2');
      [lia|apply (firstn_agree_le c1 (c1 + c2)); [lia|exact F]|].
    destruct (H2 s2') as (P2 & _).
    destruct P2 as (s2'' & E3 & B3 & F3).
    + rewrite B2', length_skipn; lia.
    + rewrite B2', B1, <- !skipn_firstn_plus, F; reflexivity.
    + exists s2''; unfold dec.bind; rewrite E2, E3.
      split; [reflexivity|].
      split; [rewrite B3, B2', skipn_skipn; f_equal; lia|].
      rewrite F3; exact F2'.
  - intros L F Fin.
    remember (List.length (io.concat s2)) as n2 eqn:Hn2.
    destruct (Nat.le_gt_cases c1 n2) as [G|G].
    + destruct P1 as (s2' & E2 & B2' & F2').
      * exact G.
      * rewrite <- F, firstn_firstn, Nat.min_l by exact G; reflexivity.
      * destruct (H2 s2') as (_ & Q2).
        destruct Q2 as (e & st2' & E3 & He & Tot & Emp).
        -- rewrite B2', length_skipn; lia.
        -- rewrite B2', B1, length_skipn, <- Hn2.
           rewrite <- skipn_firstn_plus.
           replace (c1 + (n2 - c1))%nat with n2 by lia.
           rewrite F; reflexivity.
        -- rewrite F2'; exact Fin.
        -- exists e, st2'; unfold dec.bind; rewrite E2, E3.
           split; [reflexivity|]. split; [exact He|].
           split; [|exact Emp].
           rewrite Tot, T1, B2'; unfold len.
           rewrite length_skipn, <- Hn2; lia.
    + destruct Q1 as (e & st2' & E2 & He); [exact G|exact F|exact Fin|].
      exists e, st2'; unfold dec.bind; rewrite E2; auto.
Qed.

Ltac framed_steps :=
  repeat first
    [ apply framed_readFull | apply framed_get | apply framed_modify
    | apply framed_ret | apply framed_finish | apply framed_bind
    | match goal with
      | |- forall _, _ => intro
      | |- framed (if ?b then _ else _) => destruct b
      | |- framed (let _ := _ in _) => cbv zeta
      end ].

Lemma run_framed {R A} (m : dec.Dec R A) (r : R) :
  framed m ->
  reads_a_frame (dec.run m r) /\ fails_when_cut (dec.run m r).
Proof.
  intros Hm; split.
  - intros s1 s2 E; cbv zeta; revert E; unfold dec.run.
    destruct (m (dec.mkState r 0 s1)) as [[a|e] st1] eqn:E1;
      cbn [dec.err dec.n dec.self]; [intros _|discriminate].
    destruct (Hm r 0 s1 a st1 E1) as (c & T & L & B & H).
    rewrite T, Z.add_0_l, Nat2Z.id; intros L2 F.
    destruct (H s2) as (P & _).
    destruct (P L2 F) as (s2' & E2 & B2 & _).
    rewrite E2; cbn [dec.err dec.n dec.self dec.rest dec.recv dec.total
                     dec.src].
    repeat split; [lia|exact B2].
  - intros s1 s2 E; revert E; unfold dec.run.
    destruct (m (dec.mkState r 0 s1)) as [[a|e] st1] eqn:E1;
      cbn [dec.err dec.n dec.self]; [intros _|discriminate].
    destruct (Hm r 0 s1 a st1 E1) as (c & T & L & B & H).
    rewrite T, Z.add_0_l, Nat2Z.id; intros L2 F Fin.
    destruct (H s2) as (_ & Q).
    destruct (Q L2 (eq_sym F) Fin) as (e & st2' & E2 & He & Tot & Emp).
    rewrite E2; cbn [dec.err dec.n dec.rest].
    split; [destruct He as [-> | ->]; auto|].
    split; [rewrite Tot; lia|exact Emp].
Qed.

(** X4. The decoders of the SOCKS4 response and of the SOCKS5 messages
    other than the UDP packet read one frame: when a decoder accepts a
    source, having counted n bytes, it accepts every source that starts
    with the same n bytes, stores the same message, returns the same
    count and leaves in the source exactly the bytes that follow the
    first n. *)
Theorem X4_decoders_read_one_frame :
  (forall r, reads_a_frame (socks4.Request.ReadHeaderFrom r))
  /\ (forall r, reads_a_frame (socks4.Response.ReadFrom r))
  /\ (forall r, reads_a_frame (socks5.HandshakeRequest.ReadFrom r))
  /\ (forall r, reads_a_frame (socks5.HandshakeReply.ReadFrom r))
  /\ (forall r, reads_a_frame (socks5.Request.ReadFrom r))
  /\ (forall r, reads_a_frame (socks5.Reply.ReadFrom r))
  /\ (forall r, reads_a_frame (socks5.UserPassRequest.ReadFrom r))
  /\ (forall r, reads_a_frame (socks5.UserPassReply.ReadFrom r))
  /\ (forall r, reads_a_frame (socks5.GSSAPIRequest.ReadFrom r))
  /\ (forall r, reads_a_frame (socks5.GSSAPIReply.ReadFrom r)).
Proof.
  do 9 (split; [intro r; apply run_framed; framed_steps|]).
  intro r; apply run_framed; framed_steps.
Qed.


(** A handshake request followed by the first bytes of the next message:
    the decoder takes the three bytes of the handshake and leaves the
    rest. *)
Lemma X4_decoders_read_one_frame_witness :
  let read := socks5.HandshakeRequest.ReadFrom socks5.HandshakeRequest.zero in
  let s1 := bytes_.NewReader [x05; x01; x00] in
  let s2 := io.Chunk [x05; x01] (io.Chunk [x00; x05; x01; x00]
                                   (io.End io.ErrClosedPipe)) in
  dec.err (read s2) = None
  /\ dec.self (read s2) = dec.self (read s1)
  /\ dec.n (read s2) = dec.n (read s1)
  /\ io.concat (dec.rest (read s2)) = [x05; x01; x00].
Proof.
  cbv zeta.
  destruct X4_decoders_read_one_frame as (_ & _ & H & _).
  apply (H socks5.HandshakeRequest.zero (bytes_.NewReader [x05; x01; x00])
           (io.Chunk [x05; x01] (io.Chunk [x00; x05; x01; x00]
                                   (io.End io.ErrClosedPipe)))).
  - reflexivity.
  - simpl; lia.
  - reflexivity.
Defined.


(* ================================================================== *)
(** ** A UDP packet extends to the end of its source *)

Lemma reads_to_the_end_bind {A B} (s0 : io.Stream)
  (m : dec.Dec socks5.UDPPacket.t A)
  (k : A -> dec.Dec socks5.UDPPacket.t B) :
  framed m -> (forall a, reads_to_the_end s0 (k a)) ->
  reads_to_the_end s0 (dec.bind m k).
Proof.
  intros Hm Hk r c s b st' L E R; unfold dec.bind in R.
  destruct (m (dec.mkState r (Z.of_nat c) s)) as [[a|e] [r1 t1 s1]] eqn:Em;
    [|discriminate].
  destruct (Hm r (Z.of_nat c) s a _ Em) as (c1 & T1 & L1 & B1 & _).
  cbn [dec.total dec.src] in *.
  rewrite E, length_skipn in L1.
  apply (Hk a r1 (c + c1)%nat s1 b st').
  - lia.
  - rewrite B1, E, skipn_skipn; f_equal; lia.
  - replace (Z.of_nat (c + c1)) with t1 by lia; exact R.
Qed.

Lemma reads_to_the_end_readAll (s0 : io.Stream) :
  reads_to_the_end s0
    (data <- dec.readAll ;;
     dec.modify (socks5.UDPPacket.set_Data data) ;;;
     p <- dec.get ;;
     dec.finish (socks5.UDPPacket.Validate p)).
Proof.
  intros r c s a st' L E R.
  unfold dec.bind, dec.readAll in R; cbn [dec.src dec.recv dec.total] in R.
  rewrite ReadAll_spec in R.
  destruct (is_sentinel (final s) io.EOF); [|discriminate].
  unfold dec.modify, dec.get, dec.finish in R.
  cbn [dec.src dec.recv dec.total] in R.
  destruct (socks5.UDPPacket.Validate _); inversion R; subst; clear R.
  cbn [dec.src dec.recv dec.total io.concat socks5.UDPPacket.set_Data
       socks5.UDPPacket.Data].
  split; [reflexivity|]. split.
  - rewrite E; unfold len; rewrite length_skipn; lia.
  - exists c; split; [exact L|exact E].
Qed.

(** The decoder of UDP packets reads its source to the end: when it
    returns no error nothing is left in the source, the count is the
    number of bytes the source held, and the payload is a tail of the
    source. *)
Lemma UDPPacket_ReadFrom_to_the_end :
  forall (p : socks5.UDPPacket.t) (src : io.Stream),
    let res := socks5.UDPPacket.ReadFrom p src in
    dec.err res = None ->
    io.concat (dec.rest res) = []
    /\ dec.n res = len (io.concat src)
    /\ exists d : nat,
         (d <= List.length (io.concat src))%nat
         /\ socks5.UDPPacket.Data (dec.self res) = skipn d (io.concat src).
Proof.
  intros p src; cbv zeta; unfold socks5.UDPPacket.ReadFrom, dec.run.
  match goal with
  | |- context [?m (dec.mkState p 0 src)] =>
      assert (H : reads_to_the_end src m)
  end.
  { repeat first
      [ apply reads_to_the_end_readAll
      | apply reads_to_the_end_bind; [solve [framed_steps]|intro] ]. }
  match goal with
  | |- context [?m (dec.mkState p 0 src)] =>
      destruct (m (dec.mkState p 0 src)) as [[a|e] st'] eqn:E
  end; cbn [dec.err dec.n dec.self dec.rest]; [intros _|discriminate].
  destruct (H p 0%nat src a st' (Nat.le_0_l _) eq_refl E) as (E1 & E2 & E3).
  auto.
Qed.

(* ================================================================== *)
(** ** What the encoders report about their writes *)

Ltac reported :=
  let E := fresh in
  intro E; inversion E; subst; clear E;
  cbn [fst snd calls first_error count_sum removelast app];
  repeat split; try discriminate; try reflexivity;
  try (intros; lia); try (let H := fresh in intro H; discriminate H).

Ltac logged_write :=
  unfold io.WriteString;
  unfold io.Write at 1, Logged_Writer at 1; cbn [inner calls app];
  match goal with
  | |- context [@io.Write ?W ?H ?w ?p] =>
      destruct (@io.Write W H w p) as [[? [?|]] ?]
  end; [solve [reported]|].

Ltac report :=
  match goal with
  | |- stops_at_first_failure ?V ?res =>
      let E := fresh in
      destruct res as [[? ?] ?] eqn:E;
      unfold stops_at_first_failure; cbn [fst snd]; revert E
  | |- counts_every_write ?res =>
      let E := fresh in
      destruct res as [[? ?] ?] eqn:E;
      unfold counts_every_write; cbn [fst snd]; revert E
  end.

Ltac encoder_steps :=
  repeat first
    [ progress logged_write
    | match goal with
      | |- context [Byte.eqb ?a ?b] => destruct (Byte.eqb a b)
      end
    | solve [reported] ].

Lemma HandshakeRequest_WriteTo_reported (W : Type) (HW : io.Writer W)
  (w : W) (m : socks5.HandshakeRequest.t) :
  stops_at_first_failure None
    (socks5.HandshakeRequest.WriteTo m (mkLogged w []))
  /\ counts_every_write (socks5.HandshakeRequest.WriteTo m (mkLogged w [])).
Proof.
  split; report; unfold socks5.HandshakeRequest.WriteTo; encoder_steps.
Qed.

Lemma Request_WriteTo_reported (W : Type) (HW : io.Writer W) (w : W)
  (m : socks5.Request.t) :
  known_address_type (socks5.Request.AddrType m) = true ->
  stops_at_first_failure (Request_refused m)
    (socks5.Request.WriteTo m (mkLogged w [])).
Proof.
  intro K; report; revert K.
  unfold Request_refused, socks5.Request.WriteTo, socks5.write_addr,
    known_address_type.
  destruct (Byte.eqb _ socks5.AddrTypeIPv4);
    [|destruct (Byte.eqb _ socks5.AddrTypeIPv6)];
    (destruct (Byte.eqb _ socks5.AddrTypeDomain);
     cbn [andb orb]; [destruct (_ || _)|]);
    intro K; try discriminate K; encoder_steps.
Qed.

Lemma Reply_WriteTo_reported (W : Type) (HW : io.Writer W) (w : W)
  (m : socks5.Reply.t) :
  stops_at_first_failure (socks5.Reply.Validate m)
    (socks5.Reply.WriteTo m (mkLogged w [])).
Proof.
  report; unfold socks5.Reply.WriteTo, socks5.write_addr.
  destruct (socks5.Reply.Validate m) eqn:V; [reported|].
  destruct (socks5_Reply_Validate_inv m V) as (_ & K & _); revert K.
  unfold known_address_type.
  destruct (Byte.eqb _ socks5.AddrTypeIPv4);
    [|destruct (Byte.eqb _ socks5.AddrTypeIPv6);
      [|destruct (Byte.eqb _ socks5.AddrTypeDomain)]];
    intro K; try discriminate K; encoder_steps.
Qed.

Lemma UserPassRequest_WriteTo_reported (W : Type) (HW : io.Writer W)
  (w : W) (m : socks5.UserPassRequest.t) :
  stops_at_first_failure (UserPassRequest_refused m)
    (socks5.UserPassRequest.WriteTo m (mkLogged w []))
  /\ counts_every_write (socks5.UserPassRequest.WriteTo m (mkLogged w [])).
Proof.
  split; report;
    unfold UserPassRequest_refused, socks5.UserPassRequest.WriteTo;
    destruct (_ || _); try solve [reported]; encoder_steps.
Qed.

Lemma GSSAPIRequest_WriteTo_reported (W : Type) (HW : io.Writer W)
  (w : W) (m : socks5.GSSAPIRequest.t) :
  stops_at_first_failure (socks5.GSSAPIRequest.Validate m)
    (socks5.GSSAPIRequest.WriteTo m (mkLogged w []))
  /\ counts_every_write (socks5.GSSAPIRequest.WriteTo m (mkLogged w [])).
Proof.
  split; report; unfold socks5.GSSAPIRequest.WriteTo;
    destruct (socks5.GSSAPIRequest.Validate m); try solve [reported];
    destruct (Byte.eqb _ _); encoder_steps.
Qed.

Lemma GSSAPIReply_WriteTo_reported (W : Type) (HW : io.Writer W)
  (w : W) (m : socks5.GSSAPIReply.t) :
  stops_at_first_failure (socks5.GSSAPIReply.Validate m)
    (socks5.GSSAPIReply.WriteTo m (mkLogged w []))
  /\ counts_every_write (socks5.GSSAPIReply.WriteTo m (mkLogged w [])).
Proof.
  split; report; unfold socks5.GSSAPIReply.WriteTo;
    destruct (socks5.GSSAPIReply.Validate m); try solve [reported];
    destruct (Byte.eqb _ _); encoder_steps.
Qed.

Lemma UDPPacket_WriteTo_reported (W : Type) (HW : io.Writer W) (w : W)
  (m : socks5.UDPPacket.t) :
  stops_at_first_failure (socks5.UDPPacket.Validate m)
    (socks5.UDPPacket.WriteTo m (mkLogged w [])).
Proof.
  report; unfold socks5.UDPPacket.WriteTo, socks5.write_addr.
  destruct (socks5.UDPPacket.Validate m) eqn:V; [reported|].
  destruct (UDPPacket_Validate_inv m V) as (_ & K & _); revert K.
  unfold known_address_type.
  destruct (Byte.eqb _ socks5.AddrTypeIPv4);
    [|destruct (Byte.eqb _ socks5.AddrTypeIPv6);
      [|destruct (Byte.eqb _ socks5.AddrTypeDomain)]];
    intro K; try discriminate K; encoder_steps.
Qed.

(** X7. On any writer, the encoders of SOCKS5 that make several writes
    stop at the first write that fails and return its error; a message
    refused by the check made before the first write (Validate for
    replies, UDP packets and GSSAPI messages, the length checks of
    requests and of user/password requests, none for handshake requests)
    is answered with that error and the count 0 without any write; when
    no write fails the count returned is the sum of the counts of the
    writes.  The encoders of handshake requests, user/password requests
    and GSSAPI messages return that sum also when a write fails.  For
    requests this is stated for the three defined address types. *)
Theorem X7_encoders_stop_at_the_first_failed_write :
  forall (W : Type) (HW : io.Writer W) (w : W),
    (forall m,
        stops_at_first_failure None
          (socks5.HandshakeRequest.WriteTo m (mkLogged w []))
        /\ counts_every_write
             (socks5.HandshakeRequest.WriteTo m (mkLogged w [])))
    /\ (forall m,
           known_address_type (socks5.Request.AddrType m) = true ->
           stops_at_first_failure (Request_refused m)
             (socks5.Request.WriteTo m (mkLogged w [])))
    /\ (forall m,
           stops_at_first_failure (socks5.Reply.Validate m)
             (socks5.Reply.WriteTo m (mkLogged w [])))
    /\ (forall m,
           stops_at_first_failure (UserPassRequest_refused m)
             (socks5.UserPassRequest.WriteTo m (mkLogged w []))
           /\ counts_every_write
                (socks5.UserPassRequest.WriteTo m (mkLogged w [])))
    /\ (forall m,
           stops_at_first_failure (socks5.GSSAPIRequest.Validate m)
             (socks5.GSSAPIRequest.WriteTo m (mkLogged w []))
           /\ counts_every_write
                (socks5.GSSAPIRequest.WriteTo m (mkLogged w [])))
    /\ (forall m,
           stops_at_first_failure (socks5.GSSAPIReply.Validate m)
             (socks5.GSSAPIReply.WriteTo m (mkLogged w []))
           /\ counts_every_write
                (socks5.GSSAPIReply.WriteTo m (mkLogged w [])))
    /\ (forall m,
           stops_at_first_failure (socks5.UDPPacket.Validate m)
             (socks5.UDPPacket.WriteTo m (mkLogged w []))).
Proof.
  intros W HW w.
  split; [intro m; apply HandshakeRequest_WriteTo_reported|].
  split; [intros m K; apply Request_WriteTo_reported; exact K|].
  split; [intro m; apply Reply_WriteTo_reported|].
  split; [intro m; apply UserPassRequest_WriteTo_reported|].
  split; [intro m; apply GSSAPIRequest_WriteTo_reported|].
  split; [intro m; apply GSSAPIReply_WriteTo_reported|].
  intro m; apply UDPPacket_WriteTo_reported.
Qed.

Lemma X7_encoders_stop_at_the_first_failed_write_witness :
  let m := socks5.Request.mk x05 x01 x00 x01 (net.IPv4 x7f x00 x00 x01)
             "" 80 in
  let dst := mkLogged
               (socks4.mkConn (io.End io.EOF) (bytes_.mkBuffer []) true) [] in
  known_address_type (socks5.Request.AddrType m) = true
  /\ socks5.Request.WriteTo m dst
     = ((0, Some net.ErrClosed),
        mkLogged (socks4.mkConn (io.End io.EOF) (bytes_.mkBuffer []) true)
          [([x05; x01; x00; x01], (0, Some net.ErrClosed))])
  /\ stops_at_first_failure (Request_refused m)
       (socks5.Request.WriteTo m dst).
Proof.
  cbv zeta; split; [reflexivity|]. split; [reflexivity|].
  apply (proj1 (proj2
           (X7_encoders_stop_at_the_first_failed_write
              (socks4.Conn bytes_.Buffer) _
              (socks4.mkConn (io.End io.EOF) (bytes_.mkBuffer []) true)))).
  reflexivity.
Defined.

(** X8. For a request whose address type is none of the three defined
    ones, Request.WriteTo writes the header and the port only, and adds
    the count of the header write twice: on any writer that accepts the
    header with the count n1 and answers the write of the port with the
    count n2, the count returned is n1 + n1 + n2.  On a buffer it returns
    10 for the 6 bytes it has written. *)
Theorem X8_Request_WriteTo_counts_the_header_twice :
  forall (W : Type) (HW : io.Writer W) (w w1 w2 : W)
         (m : socks5.Request.t) (n1 n2 : Z) (e2 : option error),
    known_address_type (socks5.Request.AddrType m) = false ->
    io.Write w [socks5.Request.Version m; socks5.Request.Command m;
                socks5.Request.Reserved m; socks5.Request.AddrType m]
    = ((n1, None), w1) ->
    io.Write w1 (binary.PutUint16 (socks5.Request.Port m))
    = ((n2, e2), w2) ->
    socks5.Request.WriteTo m w = ((n1 + n1 + n2, e2), w2).
Proof.
  intros W HW w w1 w2 m n1 n2 e2 K H1 H2.
  unfold known_address_type in K.
  apply Bool.orb_false_iff in K; destruct K as (K & K3).
  apply Bool.orb_false_iff in K; destruct K as (K1 & K2).
  unfold socks5.Request.WriteTo, socks5.write_addr.
  rewrite K1, K2, K3; cbn [andb].
  rewrite H1, H2.
  f_equal; f_equal; lia.
Qed.

Lemma X8_Request_WriteTo_counts_the_header_twice_witness :
  let m := socks5.Request.mk x05 x01 x00 x09 None "" 80 in
  known_address_type (socks5.Request.AddrType m) = false
  /\ socks5.Request.WriteTo m (bytes_.mkBuffer [])
     = ((10, None), bytes_.mkBuffer [x05; x01; x00; x09; x00; x50]).
Proof.
  cbv zeta; split; [reflexivity|].
  apply (X8_Request_WriteTo_counts_the_header_twice bytes_.Buffer _
           (bytes_.mkBuffer [])
           (bytes_.mkBuffer [x05; x01; x00; x09])
           (bytes_.mkBuffer [x05; x01; x00; x09; x00; x50])
           (socks5.Request.mk x05 x01 x00 x09 None "" 80) 4 2 None);
    reflexivity.
Defined.

(* ================================================================== *)
(** ** What the decoder of SOCKS4 requests accepts *)

Lemma ReadUserIDAndDomain_keeps_header (r : socks4.Request.t)
  (src : io.Stream) (mu md : Z) (u : dec.Result socks4.Request.t) :
  socks4.Request.ReadUserIDAndDomain r src mu md = Some u ->
  socks4.Request.Version (dec.self u) = socks4.Request.Version r
  /\ socks4.Request.Command (dec.self u) = socks4.Request.Command r
  /\ socks4.Request.Port (dec.self u) = socks4.Request.Port r
  /\ socks4.Request.IP (dec.self u) = socks4.Request.IP r
  /\ (socks4.Request.IsSOCKS4a r = false ->
      socks4.Request.Domain (dec.self u) = socks4.Request.Domain r).
Proof.
  unfold socks4.Request.ReadUserIDAndDomain.
  destruct (bufio.ReadString _ x00) as [[[uid [e|]] b1]|]; [| |discriminate].
  { intro E; inversion E; subst; cbn [dec.self]; auto. }
  match goal with
  | |- context [socks4.Request.IsSOCKS4a ?x] =>
      change (socks4.Request.IsSOCKS4a x) with (socks4.Request.IsSOCKS4a r)
  end.
  destruct (socks4.Request.IsSOCKS4a r).
  - destruct (bufio.ReadString _ x00) as [[[dom [e|]] b2]|]; [| |discriminate];
      intro E; inversion E; subst; cbn [dec.self]; repeat split;
      intro; discriminate.
  - intro E; inversion E; subst; cbn [dec.self]; auto.
Qed.

Lemma ValidateHeader_same_header (r r' : socks4.Request.t) :
  socks4.Request.Version r' = socks4.Request.Version r ->
  socks4.Request.Command r' = socks4.Request.Command r ->
  socks4.Request.IP r' = socks4.Request.IP r ->
  socks4.Request.ValidateHeader r' = socks4.Request.ValidateHeader r.
Proof.
  unfold socks4.Request.ValidateHeader; intros -> -> ->; reflexivity.
Qed.

Lemma ReadFromWithLimits_sound :
  forall (r : socks4.Request.t) (src : io.Stream) (mu md : Z)
         (res : dec.Result socks4.Request.t),
    socks4.Request.ReadFromWithLimits r src mu md = Some res ->
    dec.err res = None ->
    socks4.Request.ValidateHeader (dec.self res) = None
    /\ (socks4.Request.IsSOCKS4a (dec.self res) = false ->
        socks4.Request.Domain (dec.self res) = socks4.Request.Domain r
        /\ (socks4.Request.Domain r = "" ->
            socks4.Request.Validate (dec.self res) = None)).
Proof.
  intros r src mu md res; unfold socks4.Request.ReadFromWithLimits.
  assert (H : accepted_passes socks4.Request.ValidateHeader
                (socks4.Request.ReadHeaderFrom r src))
    by (unfold accepted_passes; apply run_validates; validates_steps).
  assert (D : socks4.Request.Domain
                (dec.self (socks4.Request.ReadHeaderFrom r src))
              = socks4.Request.Domain r).
  { unfold socks4.Request.ReadHeaderFrom, dec.run, dec.bind.
    destruct (readFull_cases 8 r 0 src)
      as [(_ & -> & _)|(_ & e & -> & _)]; [|reflexivity].
    unfold dec.modify, dec.get, dec.finish; cbn [dec.recv dec.total dec.src].
    destruct (socks4.Request.ValidateHeader _); reflexivity. }
  unfold accepted_passes in H.
  destruct (dec.err (socks4.Request.ReadHeaderFrom r src)) as [e|] eqn:Eh.
  { intros E1 E2; inversion E1; subst; congruence. }
  specialize (H eq_refl).
  destruct (socks4.Request.ReadUserIDAndDomain _ _ mu md) as [u|] eqn:Eu;
    [|discriminate].
  intros E1 E2; inversion E1; subst; clear E1; cbn [dec.self dec.err] in *.
  destruct (ReadUserIDAndDomain_keeps_header _ _ _ _ _ Eu)
    as (Kv & Kc & _ & Ki & Kd).
  assert (VH : socks4.Request.ValidateHeader (dec.self u) = None)
    by (rewrite (ValidateHeader_same_header _ _ Kv Kc Ki); exact H).
  split; [exact VH|].
  intro A.
  assert (Dm : socks4.Request.Domain (dec.self u) = socks4.Request.Domain r).
  { rewrite <- D; apply Kd.
    rewrite <- (IsSOCKS4a_ip _ _ Ki); exact A. }
  split; [exact Dm|].
  intro Z; unfold socks4.Request.Validate, socks4.Request.ValidateDomain.
  rewrite VH, A, Dm, Z; reflexivity.
Qed.

(** X9. A request that ReadFrom (or ReadFromWithLimits) accepts passes
    ValidateHeader, and when its address is not of the SOCKS4a form its
    domain is the one the receiver held before the call: read into a
    request with an empty domain, a SOCKS4 request that is accepted
    passes Validate. *)
Theorem X9_Request_ReadFrom_accepts_valid_headers :
  forall (r : socks4.Request.t) (src : io.Stream) (mu md : Z)
         (res : dec.Result socks4.Request.t),
    socks4.Request.ReadFromWithLimits r src mu md = Some res ->
    dec.err res = None ->
    socks4.Request.ValidateHeader (dec.self res) = None
    /\ (socks4.Request.IsSOCKS4a (dec.self res) = false ->
        socks4.Request.Domain (dec.self res) = socks4.Request.Domain r
        /\ (socks4.Request.Domain r = "" ->
            socks4.Request.Validate (dec.self res) = None)).
Proof. exact ReadFromWithLimits_sound. Qed.

(** The property on the bytes 04 01 00 50 7f 00 00 01 'u' 00, a CONNECT
    request for 127.0.0.1:80. *)
Lemma X9_Request_ReadFrom_accepts_valid_headers_witness :
  exists res,
    socks4.Request.ReadFromWithLimits socks4.Request.zero
      (bytes_.NewReader [x04; x01; x00; x50; x7f; x00; x00; x01; x75; x00])
      socks4.DefaultMaxUserIDLen socks4.DefaultMaxDomainLen = Some res
    /\ dec.err res = None
    /\ socks4.Request.ValidateHeader (dec.self res) = None
    /\ (socks4.Request.IsSOCKS4a (dec.self res) = false ->
        socks4.Request.Domain (dec.self res)
        = socks4.Request.Domain socks4.Request.zero
        /\ (socks4.Request.Domain socks4.Request.zero = "" ->
            socks4.Request.Validate (dec.self res) = None)).
Proof.
  eexists; split; [vm_compute; reflexivity|].
  split; [reflexivity|].
  apply (X9_Request_ReadFrom_accepts_valid_headers socks4.Request.zero
           (bytes_.NewReader
              [x04; x01; x00; x50; x7f; x00; x00; x01; x75; x00])
           socks4.DefaultMaxUserIDLen socks4.DefaultMaxDomainLen);
    [vm_compute; reflexivity|reflexivity].
Defined.



(* ================================================================== *)
(** ** The address of a SOCKS4 message *)

Lemma copy4_four (a : Array4) (l : list byte) :
  List.length l = 4%nat -> Array4_slice (copy4 a l) = l.
Proof.
  intro L; name_header l L 4; reflexivity.
Qed.

Lemma To4_four (l : list byte) :
  List.length l = 4%nat -> net.To4 (Some l) = Some l.
Proof.
  intro L; unfold net.To4; cbn [net.IP_len]; rewrite L; reflexivity.
Qed.

(** X11. Init stores the four-byte form of the address it is given, and
    GetIP returns it: for an IPv4 address in its 4-byte or its 16-byte
    form, GetIP after Init is ip.To4() and is Equal to the address.  For
    an address that is not IPv4 (nil or IPv6) Init copies nothing: the
    address field keeps the value it had before the call.  The same holds
    for requests and responses. *)
Theorem X11_Init_stores_the_IPv4_form_of_the_address :
  forall ip : net.IP,
    match net.To4 ip with
    | Some l =>
        (forall r v c p u d,
            socks4.Request.GetIP (socks4.Request.Init r v c p ip u d)
            = Some l
            /\ net.Equal
                 (socks4.Request.GetIP (socks4.Request.Init r v c p ip u d))
                 ip = true)
        /\ (forall r v c p,
               socks4.Response.GetIP (socks4.Response.Init r v c p ip)
               = Some l
               /\ net.Equal
                    (socks4.Response.GetIP (socks4.Response.Init r v c p ip))
                    ip = true)
    | None =>
        (forall r v c p u d,
            socks4.Request.IP (socks4.Request.Init r v c p ip u d)
            = socks4.Request.IP r)
        /\ (forall r v c p,
               socks4.Response.IP (socks4.Response.Init r v c p ip)
               = socks4.Response.IP r)
    end.
Proof.
  intro ip; destruct (net.To4 ip) as [l|] eqn:T.
  - destruct (To4_Equal ip l T) as (L & E).
    split; intros;
      unfold socks4.Request.GetIP, socks4.Request.Init,
        socks4.Response.GetIP, socks4.Response.Init;
      cbn [socks4.Request.IP socks4.Response.IP];
      rewrite T; cbn [net.IP_bytes];
      rewrite (copy4_four _ l L), (To4_four l L); auto.
  - split; intros;
      unfold socks4.Request.Init, socks4.Response.Init;
      cbn [socks4.Request.IP socks4.Response.IP];
      rewrite T; reflexivity.
Qed.

Lemma Equal_IPv4zero (a : Array4) :
  net.Equal (Some (Array4_slice a)) net.IPv4zero = true <-> a = Array4_zero.
Proof.
  destruct a as [b0 b1 b2 b3].
  unfold net.Equal, Array4_slice, net.IPv4zero, net.IPv4;
    cbn [net.IP_len net.IP_bytes List.length Nat.eqb andb
         net.v4InV6Prefix app firstn skipn a0 a1 a2 a3 net.IPv4len
         net.IPv6len].
  rewrite bytes_eqb_refl; cbn [andb].
  unfold net.bytes_eqb, Array4_zero.
  destruct (list_eq_dec _ _ _) as [E|N]; split; intro H;
    try reflexivity; try discriminate.
  - inversion E; reflexivity.
  - exfalso; apply N; inversion H; reflexivity.
Qed.

Lemma ValidateHeader_accepts (r : socks4.Request.t) :
  socks4.Request.ValidateHeader r = None
  <-> socks4.Request.Version r = x04
      /\ (socks4.Request.Command r = socks4.CmdConnect
          \/ socks4.Request.Command r = socks4.CmdBind)
      /\ (socks4.Request.Command r = socks4.CmdConnect ->
          socks4.Request.IP r <> Array4_zero).
Proof.
  unfold socks4.Request.ValidateHeader.
  rewrite (To4_four (Array4_slice (socks4.Request.IP r)) eq_refl); cbv zeta.
  pose proof (Equal_IPv4zero (socks4.Request.IP r)) as Z.
  destruct (Byte.eqb (socks4.Request.Version r) socks4.SocksVersion) eqn:V;
    cbn [negb];
    [apply (proj1 (Byte_eqb_eq _ _)) in V
    |apply (proj1 (Byte_eqb_neq _ _)) in V].
  2:{ split; [discriminate|]. intros (V' & _); contradiction. }
  destruct (Byte.eqb (socks4.Request.Command r) socks4.CmdConnect) eqn:C1;
    [apply (proj1 (Byte_eqb_eq _ _)) in C1
    |apply (proj1 (Byte_eqb_neq _ _)) in C1];
    (destruct (Byte.eqb (socks4.Request.Command r) socks4.CmdBind) eqn:C2;
     [apply (proj1 (Byte_eqb_eq _ _)) in C2
     |apply (proj1 (Byte_eqb_neq _ _)) in C2]);
    cbn [negb andb].
  - rewrite C1 in C2; discriminate C2.
  - destruct (net.Equal _ net.IPv4zero) eqn:E; cbn [andb].
    + split; [discriminate|].
      intros (_ & _ & N); exfalso; apply (N C1), Z; reflexivity.
    + split; [intros _|reflexivity].
      split; [exact V|]. split; [left; exact C1|].
      intros _ H; apply Z in H; discriminate H.
  - rewrite Bool.andb_false_r.
    split; [intros _|reflexivity].
    split; [exact V|]. split; [right; exact C2|].
    intro H; contradiction.
  - split; [discriminate|].
    intros (_ & [K|K] & _); contradiction.
Qed.

Lemma ValidateDomain_accepts (r : socks4.Request.t) :
  socks4.Request.ValidateDomain r = None
  <-> (socks4.Request.Domain r <> ""
       <-> socks4.Request.IsSOCKS4a r = true).
Proof.
  unfold socks4.Request.ValidateDomain.
  pose proof (len_string_zero (socks4.Request.Domain r)) as D.
  assert (P : 0 <= len_string (socks4.Request.Domain r))
    by (rewrite <- len_string_bytes; apply len_nonneg).
  destruct (socks4.Request.IsSOCKS4a r).
  - destruct (Z.eqb_spec (len_string (socks4.Request.Domain r)) 0) as [L|L].
    + split; [discriminate|].
      intros (_ & K); exfalso; apply (K eq_refl), D, L.
    + split; [intros _|reflexivity].
      split; [reflexivity|]. intros _ H; apply L, D, H.
  - destruct (Z.gtb_spec (len_string (socks4.Request.Domain r)) 0) as [L|L].
    + split; [discriminate|].
      intros (K & _).
      assert (F : socks4.Request.Domain r <> "")
        by (intro H; apply D in H; lia).
      specialize (K F); discriminate K.
    + split; [intros _|reflexivity].
      split; [|discriminate].
      intro H; exfalso; apply H, D; lia.
Qed.

(** X12. Validate accepts exactly the requests with version 4, command
    CONNECT or BIND, an address other than 0.0.0.0 when the command is
    CONNECT, and a domain that is non-empty for an address of the SOCKS4a
    form and empty for every other address. *)
Theorem X12_Request_Validate_accepts_exactly :
  forall r : socks4.Request.t,
    socks4.Request.Validate r = None
    <-> socks4.Request.Version r = x04
        /\ (socks4.Request.Command r = socks4.CmdConnect
            \/ socks4.Request.Command r = socks4.CmdBind)
        /\ (socks4.Request.Command r = socks4.CmdConnect ->
            socks4.Request.IP r <> Array4_zero)
        /\ (socks4.Request.Domain r <> ""
            <-> socks4.Request.IsSOCKS4a r = true).
Proof.
  intro r; pose proof (ValidateHeader_accepts r) as H.
  pose proof (ValidateDomain_accepts r) as D.
  unfold socks4.Request.Validate.
  destruct (socks4.Request.ValidateHeader r) as [e|].
  - split; [discriminate|].
    intros (A & B & C & _).
    assert (F : Some e = None) by (apply H; auto).
    discriminate F.
  - rewrite D; split.
    + intro K; destruct (proj1 H eq_refl) as (A & B & C); auto.
    + intros (_ & _ & _ & K); exact K.
Qed.

Lemma X12_Request_Validate_accepts_exactly_witness :
  socks4.Request.Validate
    (socks4.Request.mk x04 x01 80 (mkArray4 x00 x00 x00 x01) "u" "host")
  = None.
Proof.
  apply (proj2 (X12_Request_Validate_accepts_exactly
                  (socks4.Request.mk x04 x01 80 (mkArray4 x00 x00 x00 x01)
                     "u" "host"))).
  split; [reflexivity|]. split; [left; reflexivity|].
  split; [intros _; discriminate|].
  split; [reflexivity|intros _; discriminate].
Defined.

(* ================================================================== *)
(** ** The listener *)

(** X13. The listener calls OnRequest only with a request whose header
    is valid: with any callbacks and on any connection it behaves as it
    does when OnRequest is replaced by a callback that panics on a
    request that ValidateHeader refuses and is the given one on every
    other request. *)
Theorem X13_OnRequest_gets_valid_headers_only :
  forall (W : Type) (HW : io.Writer W) (h : socks4.Hooks W)
         (c : socks4.Conn W),
    socks4.handle h c = socks4.handle (only_valid_headers h) c.
Proof.
  intros W HW h c.
  unfold socks4.handle, socks4.handle_body, only_valid_headers.
  cbn [socks4.onAccept socks4.onRequest socks4.timeout socks4.onPanic
       socks4.onError].
  destruct (socks4.onAccept h _) as [[[e|]|v] w]; try reflexivity.
  destruct (socks4.Request.ReadFrom _ _) as [res|] eqn:E; [|reflexivity].
  destruct (dec.err res) eqn:Er; [reflexivity|].
  destruct (ReadFromWithLimits_sound _ _ _ _ _ E Er) as (VH & _).
  rewrite VH; reflexivity.
Qed.



(* ================================================================== *)
(** ** The dialer when the proxy grants the request *)

Lemma Conn_Reader_open (W : Type) (c : socks4.Conn W) (l : list byte) :
  firstn 8 (io.concat (socks4.Conn_Reader c)) = l ->
  List.length l = 8%nat ->
  socks4.closed c = false.
Proof.
  unfold socks4.Conn_Reader; destruct (socks4.closed c); [|reflexivity].
  intros <-; discriminate.
Qed.

(** X15. When the proxy answers the request with a granted reply (the
    bytes 00 5a, a port and an address), DialContext returns the proxy
    connection without an error: the connection is open, what has been
    written to it is what Request.WriteTo wrote for the request built
    from the target address and the user ID, and exactly the eight bytes
    of the reply have been taken from it, so that the data that follows
    the reply is left for the caller.  BindContext does the same for its
    BIND request and returns in addition the channel and the address and
    port of the reply as the bind address. *)
Theorem X15_granted_reply_gives_the_connection :
  forall (W : Type) (HW : io.Writer W)
    (DefaultDialer : string -> string -> socks4.Conn W + error)
    (SplitHostPort : string -> (string * string) + error)
    (LookupPort : string -> string -> Z + error)
    (ParseIP : string -> net.IP)
    (d : socks4.Dialer W) (network address host portStr : string)
    (c0 : socks4.Conn W) (n : Z) (p0 p1 i0 i1 i2 i3 : byte),
    dial_of W DefaultDialer d network (socks4.ProxyAddr d) = inl c0 ->
    SplitHostPort address = inl (host, portStr) ->
    LookupPort "tcp" portStr = inl n ->
    (forall k c1,
        socks4.Request.WriteTo
          (socks4.buildRequest ParseIP socks4.CmdConnect (uint16 n) host
             (socks4.UserID d)) c0 = ((k, None), c1) ->
        firstn 8 (io.concat (socks4.Conn_Reader c1))
        = [x00; socks4.RepGranted; p0; p1; i0; i1; i2; i3] ->
        let c2 := socks4.mkConn (advance (socks4.inbound c1) 8)
                    (socks4.outbound c1) false in
        socks4.DialContext DefaultDialer SplitHostPort LookupPort ParseIP
          d network address
        = socks4.mkDialResult (Some c2) None (Some c2))
    /\ (forall k c1,
           socks4.Request.WriteTo
             (socks4.buildRequest ParseIP socks4.CmdBind (uint16 n) host
                (socks4.UserID d)) c0 = ((k, None), c1) ->
           firstn 8 (io.concat (socks4.Conn_Reader c1))
           = [x00; socks4.RepGranted; p0; p1; i0; i1; i2; i3] ->
           let c2 := socks4.mkConn (advance (socks4.inbound c1) 8)
                       (socks4.outbound c1) false in
           socks4.BindContext DefaultDialer SplitHostPort LookupPort ParseIP
             d network address
           = socks4.mkBindResult (Some c2)
               (Some (socks4.mkTCPAddr (Some [i0; i1; i2; i3])
                        (binary.Uint16 p0 p1)))
               true None (Some c2)).
Proof.
  intros W HW DefaultDialer SplitHostPort LookupPort ParseIP d network
    address host portStr c0 n p0 p1 i0 i1 i2 i3 D S L.
  unfold dial_of in D.
  split; intros k c1 Wr R; cbv zeta;
    pose proof (Conn_Reader_open W c1 _ R eq_refl) as O;
    unfold socks4.DialContext, socks4.BindContext, socks4.parsePort;
    rewrite D, S, L, Wr;
    unfold socks4.Conn_ReadFrom;
    rewrite (Response_ReadFrom_enough _ _ _ _ _ _ _ _ _ _ R); cbv zeta;
    unfold socks4.Conn_Reader; rewrite O;
    reflexivity.
Qed.

(** The dialer of the tests on a proxy that grants the request and then
    delivers the first bytes of the tunnelled connection. *)
Lemma X15_granted_reply_gives_the_connection_witness :
  let proxy := socks4.mkConn
                 (bytes_.NewReader
                    [x00; x5a; x00; x50; x7f; x00; x00; x01; x68; x69])
                 (bytes_.mkBuffer []) false in
  let d := socks4.NewDialer "127.0.0.1:1080" "user"
             (Some (fun _ _ => inl proxy)) in
  let c2 := socks4.mkConn (bytes_.NewReader [x68; x69])
              (bytes_.mkBuffer
                 [x04; x01; x00; x50; x7f; x00; x00; x01;
                  "u"%byte; "s"%byte; "e"%byte; "r"%byte; x00])
              false in
  socks4.DialContext (fun _ _ => inl proxy) net.SplitHostPort
    (net.LookupPort net.no_services) net.ParseIP d "tcp" "127.0.0.1:80"
  = socks4.mkDialResult (Some c2) None (Some c2).
Proof.
  intros proxy d c2.
  apply (proj1
           (X15_granted_reply_gives_the_connection bytes_.Buffer _
              (fun _ _ => inl proxy)
              net.SplitHostPort (net.LookupPort net.no_services) net.ParseIP
              d "tcp" "127.0.0.1:80" "127.0.0.1" "80" proxy 80
              x00 x50 x7f x00 x00 x01
              eq_refl eq_refl eq_refl)
           13
           (socks4.mkConn
              (bytes_.NewReader
                 [x00; x5a; x00; x50; x7f; x00; x00; x01; x68; x69])
              (bytes_.mkBuffer
                 [x04; x01; x00; x50; x7f; x00; x00; x01;
                  "u"%byte; "s"%byte; "e"%byte; "r"%byte; x00])
              false));
    reflexivity.
Defined.

(* ================================================================== *)
(** ** The limited reader *)

(** X16. Whatever the sizes of the buffers passed to it, a LimitedReader
    delivers over all its reads at most N bytes (none when N is not
    positive), the bytes delivered are the first bytes of the underlying
    reader in order, nothing else is taken from the underlying reader,
    and N decreases by the number of bytes delivered. *)
Theorem X16_LimitedReader_delivers_at_most_N_bytes :
  forall (ks : list nat) (l : internal.LimitedReader),
    let got := fst (LimitedReader_reads l ks) in
    let l' := snd (LimitedReader_reads l ks) in
    len got <= Z.max 0 (internal.N l)
    /\ got ++ io.concat (internal.R l') = io.concat (internal.R l)
    /\ internal.N l' = internal.N l - len got.
Proof.
  induction ks as [|k ks IH]; intro l; cbv zeta.
  - cbn [LimitedReader_reads fst snd app]; unfold len; cbn [List.length].
    split; [lia|]. split; [reflexivity|lia].
  - cbn [LimitedReader_reads].
    destruct (internal.LimitedReader_Read l k) as [[bs e] l1] eqn:E.
    destruct (LimitedReader_Read_spec l k bs e l1 E)
      as (A & _ & B & (C1 & C2) & _).
    specialize (IH l1); cbv zeta in IH.
    destruct (LimitedReader_reads l1 ks) as [more l2];
      cbn [fst snd] in *.
    destruct IH as (I1 & I2 & I3).
    rewrite len_app.
    pose proof (len_nonneg bs) as P1.
    pose proof (len_nonneg more) as P2.
    split; [|split].
    + destruct (Z.le_gt_cases (internal.N l) 0) as [L|L].
      * specialize (C2 L); lia.
      * assert (0 <= internal.N l1) by (apply C1; lia). lia.
    + rewrite <- app_assoc, I2; exact A.
    + lia.
Qed.

(* ================================================================== *)
(** ** Initialising a handshake request *)

(** X17. Init stores the number of methods in one byte, so that the
    request it builds for version 5 is valid exactly when there are
    between 1 and 255 methods: a list whose length is a multiple of 256
    (256 methods as well as none) is refused with ErrNoMethodsProvided,
    and every other list of more than 255 methods with
    ErrTooManyMethods. *)
Theorem X17_HandshakeRequest_Init_and_Validate :
  forall (version : byte) (methods : list byte),
    socks5.HandshakeRequest.Validate
      (socks5.HandshakeRequest.Init version methods)
    = if negb (Byte.eqb version socks5.SocksVersion)
      then Some socks5.ErrInvalidHandshakeVersion
      else if len methods mod 256 =? 0
           then Some socks5.ErrNoMethodsProvided
           else if len methods >? 255
                then Some socks5.ErrTooManyMethods
                else None.
Proof.
  intros version methods.
  unfold socks5.HandshakeRequest.Validate, socks5.HandshakeRequest.Init.
  cbn [socks5.HandshakeRequest.Version socks5.HandshakeRequest.NMethods
       socks5.HandshakeRequest.Methods].
  destruct (negb (Byte.eqb version socks5.SocksVersion)); [reflexivity|].
  pose proof (Z_of_byte_of_Z (len methods)) as M.
  pose proof (len_nonneg methods) as P.
  pose proof (Z.mod_pos_bound (len methods) 256 ltac:(lia)) as B.
  destruct (Byte.eqb (byte_of_Z (len methods)) x00) eqn:E.
  - apply Byte_eqb_eq in E.
    assert (Z0 : len methods mod 256 = 0)
      by (rewrite <- M; apply Z_of_byte_x00; exact E).
    rewrite Z0; reflexivity.
  - apply Byte_eqb_neq in E.
    assert (Z0 : len methods mod 256 <> 0)
      by (intro Z0; apply E, Z_of_byte_x00; rewrite M; exact Z0).
    destruct (Z.eqb_spec (len methods mod 256) 0) as [|_]; [contradiction|].
    rewrite M.
    destruct (Z.gtb_spec (len methods) 255) as [G|G].
    + destruct (Z.eqb_spec (len methods) (len methods mod 256)) as [Q|Q];
        [lia|reflexivity].
    + rewrite Z.mod_small by lia.
      rewrite Z.eqb_refl; reflexivity.
Qed.

(* ================================================================== *)
(** ** What the decoder of SOCKS4 requests takes from its source *)

Lemma PutUint16_Uint16 (a b : byte) :
  binary.PutUint16 (binary.Uint16 a b) = [a; b].
Proof.
  unfold binary.PutUint16, binary.Uint16.
  pose proof (Z_of_byte_range a) as Ra.
  pose proof (Z_of_byte_range b) as Rb.
  rewrite lor_shiftl8 by lia.
  rewrite Z.shiftr_div_pow2 by lia.
  change (2 ^ 8) with 256.
  replace ((Z_of_byte a * 256 + Z_of_byte b) / 256) with (Z_of_byte a)
    by (apply Z.div_unique with (r := Z_of_byte b); lia).
  rewrite byte_of_Z_of_byte.
  f_equal; f_equal.
  apply Z_of_byte_inj; rewrite Z_of_byte_of_Z.
  rewrite Z.add_comm, Z.mod_add by lia.
  apply Z.mod_small; lia.
Qed.

(** A successful scan of the user ID and the domain: the source held the
    user ID, its terminator and, for SOCKS4a, the domain and its
    terminator; of the bytes that followed, those that the scanner had
    already buffered are gone, the others are left in the source. *)
Lemma ReadUserIDAndDomain_accounts (r : socks4.Request.t) (src : io.Stream)
  (mu md : Z) (res : dec.Result socks4.Request.t) :
  productive src ->
  is_sentinel (final src) bufio.ErrBufferFull = false ->
  socks4.Request.ReadUserIDAndDomain r src mu md = Some res ->
  dec.err res = None ->
  exists uid dom lost,
    io.concat src
    = uid ++ [x00]
      ++ (if socks4.Request.IsSOCKS4a r then dom ++ [x00] else [])
      ++ lost ++ io.concat (dec.rest res)
    /\ dec.n res
       = len uid + 1
         + (if socks4.Request.IsSOCKS4a r then len dom + 1 else 0)
    /\ dec.self res
       = socks4.Request.mk (socks4.Request.Version r)
           (socks4.Request.Command r) (socks4.Request.Port r)
           (socks4.Request.IP r) (string_of_bytes uid)
           (if socks4.Request.IsSOCKS4a r then string_of_bytes dom
            else socks4.Request.Domain r)
    /\ (List.length lost <= internal.ReaderPool_size)%nat.
Proof.
  intros Hp Hfin.
  unfold socks4.Request.ReadUserIDAndDomain.
  generalize (int64 (mu + 1)), (int64 (md + 1)); intros n1 n2.
  set (b0 := internal_pool.GetReader
               (internal.LimitedReader_Init src n1)).
  assert (W0 : wf b0).
  { unfold wf, b0, internal_pool.GetReader, bufio.Reset,
      internal.ReaderPool_size; cbn [bufio.size bufio.buf List.length].
    split; lia. }
  destruct (ReadString_spec True x00 b0 W0 eq_refl (fun _ => Hp) Hfin)
    as (res1 & e1 & b1 & E1 & S).
  rewrite E1.
  destruct S as (S1 & S2 & S3 & S4 & _ & _ & S7 & S8 & S9).
  unfold pending, source in *; cbn [b0 internal_pool.GetReader bufio.Reset
    bufio.buf bufio.rd internal.LimitedReader_Init internal.R app] in S1, S7.
  destruct e1 as [x|]; [intros E Er; inversion E; subst; discriminate Er|].
  destruct S9 as (pre & -> & Hpre).
  rewrite trim_terminator_last.
  match goal with
  | |- context [socks4.Request.IsSOCKS4a ?r1] =>
      change (socks4.Request.IsSOCKS4a r1) with (socks4.Request.IsSOCKS4a r)
  end.
  destruct (socks4.Request.IsSOCKS4a r) eqn:E4.
  - set (b2 := {| bufio.size := bufio.size b1;
                  bufio.buf := bufio.buf b1;
                  bufio.rd := internal.LimitedReader_Init
                                (internal.R (bufio.rd b1)) n2;
                  bufio.err := bufio.err b1 |}).
    assert (W2 : wf b2) by exact S3.
    assert (F2 : is_sentinel (final (source b2)) bufio.ErrBufferFull
                 = false)
      by (unfold source; simpl; rewrite S7; exact Hfin).
    destruct (ReadString_spec True x00 b2 W2 S4 S8 F2)
      as (res2 & e2 & b3 & E2 & T).
    rewrite E2.
    destruct T as (T1 & T2 & T3 & _ & _ & _ & _ & _ & T9).
    destruct T3 as (_ & T3).
    unfold pending, source in T1; cbn [b2 bufio.buf bufio.rd
      internal.LimitedReader_Init internal.R] in T1.
    destruct e2 as [x|]; [intros E Er; inversion E; subst; discriminate Er|].
    destruct T9 as (pre2 & -> & Hpre2).
    intros E _; inversion E; subst; clear E.
    cbn [dec.n dec.self dec.rest socks4.Request.Version
         socks4.Request.Command socks4.Request.Port socks4.Request.IP
         socks4.Request.UserID].
    rewrite trim_terminator_last.
    exists pre, pre2, (bufio.buf b3).
    split; [|split; [|split]].
    + rewrite <- S1, <- T1, <- !app_assoc; reflexivity.
    + unfold len, byte; rewrite ?length_app; cbn [List.length]; lia.
    + reflexivity.
    + rewrite T2 in T3; cbn [b2 bufio.size] in T3; rewrite S2 in T3.
      exact T3.
  - destruct S3 as (_ & S3).
    intros E _; inversion E; subst; clear E.
    cbn [dec.n dec.self dec.rest].
    exists pre, [], (bufio.buf b1).
    split; [|split; [|split]].
    + rewrite <- S1, <- !app_assoc; reflexivity.
    + unfold len, byte; rewrite ?length_app; cbn [List.length]; lia.
    + reflexivity.
    + rewrite S2 in S3; exact S3.
Qed.

Lemma ReadFull_loop_productive (s : io.Stream) :
  productive s ->
  forall want acc, productive (snd (io.ReadFull_loop s want acc)).
Proof.
  induction s as [c s IH|e]; intros Hp want acc.
  - destruct Hp as (Hc & Hs).
    destruct want as [|want]; [cbn; auto|].
    cbn [io.ReadFull_loop].
    destruct (Nat.leb_spec (List.length c) (S want)) as [L|L].
    + apply IH; exact Hs.
    + cbn [snd productive]; split; [|exact Hs].
      intro Z; apply (f_equal (@List.length byte)) in Z.
      rewrite length_skipn in Z; cbn [List.length] in Z; lia.
  - destruct want; exact I.
Qed.

Lemma productive_advance (s : io.Stream) (n : nat) :
  productive s -> productive (advance s n).
Proof. intro Hp; apply ReadFull_loop_productive; exact Hp. Qed.

Lemma ReadFromWithLimits_takes_the_request (r : socks4.Request.t)
  (mu md : Z) :
  takes_the_request (fun src => socks4.Request.ReadFromWithLimits r src mu md).
Proof.
  intros src res Hp Hfin; unfold socks4.Request.ReadFromWithLimits.
  destruct (Nat.le_gt_cases 8 (List.length (io.concat src))) as [L|L].
  - destruct (take_header (io.concat src) 8 L) as (E & Len).
    remember (firstn 8 (io.concat src)) as hdr eqn:Eh.
    name_header hdr Len 8.
    rewrite (Request_ReadHeaderFrom_enough r src _ _ _ _ _ _ _ _
               (eq_sym Eh)); cbv zeta.
    set (eight := 8).
    cbn [dec.err dec.self dec.rest dec.n].
    destruct (socks4.Request.ValidateHeader _) as [e|];
      [intros E1 E2; inversion E1; subst; discriminate E2|].
    destruct (socks4.Request.ReadUserIDAndDomain _ _ mu md) as [u|] eqn:Eu;
      [|discriminate].
    intros E1 E2.
    apply (f_equal (fun o => match o with Some x => x | None => res end))
      in E1; cbv beta iota in E1; subst res.
    cbn [dec.err dec.self dec.rest dec.n] in E2 |- *.
    destruct (advance_concat src _ _ E) as (C & F).
    change (List.length _) with 8%nat in C, F.
    destruct (ReadUserIDAndDomain_accounts _ _ _ _ _
                (productive_advance src 8 Hp)
                ltac:(rewrite F; exact Hfin) Eu E2)
      as (uid & dom & lost & A1 & A2 & A3 & A4).
    cbn [socks4.Request.Version socks4.Request.Command socks4.Request.Port
         socks4.Request.IP socks4.Request.UserID socks4.Request.Domain]
      in A3.
    exists lost; rewrite A3, A2; unfold frame.
    assert (L2 : forall v, len (binary.PutUint16 v) = 2) by reflexivity.
    assert (L4 : forall a, len (Array4_slice a) = 4) by reflexivity.
    assert (L1 : @len byte [x00] = 1) by reflexivity.
    assert (Lc : forall a c : byte, len [a; c] = 2) by reflexivity.
    assert (Ln : len (@nil byte) = 0) by reflexivity.
    split; [|split; [|exact A4]].
    + cbn [socks4.Request.Version socks4.Request.Command socks4.Request.Port
           socks4.Request.IP socks4.Request.UserID socks4.Request.Domain].
      rewrite PutUint16_Uint16, !bytes_of_string_of_bytes.
      change (socks4.Request.IsSOCKS4a _)
        with (socks4.Request.IsSOCKS4a
                (socks4.Request.mk b b0 0 (mkArray4 b3 b4 b5 b6) "" ""))
        in A1 |- *.
      rewrite E, <- C, A1; cbn [Array4_slice a0 a1 a2 a3 app].
      destruct (socks4.Request.IsSOCKS4a _);
        rewrite ?bytes_of_string_of_bytes;
        repeat (rewrite <- app_assoc; cbn [app]); reflexivity.
    + subst eight.
      cbn [socks4.Request.Version socks4.Request.Command socks4.Request.Port
           socks4.Request.IP socks4.Request.UserID socks4.Request.Domain].
      rewrite !len_app, L2, L4, L1, Lc.
      change (socks4.Request.IsSOCKS4a _)
        with (socks4.Request.IsSOCKS4a
                (socks4.Request.mk b b0 0 (mkArray4 b3 b4 b5 b6) "" "")).
      rewrite len_string_bytes.
      replace (len_string (string_of_bytes uid)) with (len uid)
        by (rewrite <- len_string_bytes, bytes_of_string_of_bytes;
            reflexivity).
      destruct (socks4.Request.IsSOCKS4a _).
      * rewrite len_app, L1, len_string_bytes.
        replace (len_string (string_of_bytes dom)) with (len dom)
          by (rewrite <- len_string_bytes, bytes_of_string_of_bytes;
              reflexivity).
        unfold byte; lia.
      * change (len (@nil Byte.byte)) with 0; unfold byte; lia.
  - unfold socks4.Request.ReadHeaderFrom, dec.run, dec.bind.
    destruct (readFull_cases 8 r 0 src)
      as [(L' & _)|(_ & e & -> & _)]; [lia|].
    cbn [dec.err]; intros E1 E2; inversion E1; subst; discriminate E2.
Qed.

(** X18. ReadFrom on a SOCKS4 request counts the request and nothing
    else: when it accepts a request, the source held the wire form of
    that request first and the count is the length of this wire form.
    The bytes that followed the request are not all left in the source:
    up to 256 of them, those that the pooled scanner had read ahead, are
    gone.  A request followed by two more bytes in a bytes.Reader is read
    with the count of the request alone, and the source is left empty. *)
Theorem X18_Request_ReadFrom_may_lose_what_follows :
  (forall r mu md,
      takes_the_request
        (fun src => socks4.Request.ReadFromWithLimits r src mu md))
  /\ takes_the_request (socks4.Request.ReadFrom socks4.Request.zero)
  /\ (exists res,
        socks4.Request.ReadFrom socks4.Request.zero
          (bytes_.NewReader
             [x04; x01; x00; x50; x7f; x00; x00; x01; x75; x00; x68; x69])
        = Some res
        /\ dec.err res = None
        /\ dec.n res = 10
        /\ io.concat (dec.rest res) = []).
Proof.
  split; [exact ReadFromWithLimits_takes_the_request|].
  split; [exact (ReadFromWithLimits_takes_the_request socks4.Request.zero
                   socks4.DefaultMaxUserIDLen socks4.DefaultMaxDomainLen)|].
  eexists; split; [vm_compute; reflexivity|].
  repeat split.
Qed.

Lemma X18_Request_ReadFrom_may_lose_what_follows_witness :
  exists res lost,
    socks4.Request.ReadFrom socks4.Request.zero
      (io.Chunk [x04; x01; x00; x50; x7f; x00; x00; x01; x75]
         (io.Chunk [x00; x68] (io.Chunk [x69] (io.End io.EOF))))
    = Some res
    /\ [x04; x01; x00; x50; x7f; x00; x00; x01; x75; x00; x68; x69]
       = frame (dec.self res) ++ lost ++ io.concat (dec.rest res)
    /\ dec.n res = len (frame (dec.self res))
    /\ io.concat (dec.rest res) = [x69].
Proof.
  pose (src := io.Chunk [x04; x01; x00; x50; x7f; x00; x00; x01; x75]
                 (io.Chunk [x00; x68] (io.Chunk [x69] (io.End io.EOF)))).
  assert (E : exists res,
             socks4.Request.ReadFrom socks4.Request.zero src = Some res
             /\ dec.err res = None
             /\ frame (dec.self res)
                = [x04; x01; x00; x50; x7f; x00; x00; x01; x75; x00]
             /\ io.concat (dec.rest res) = [x69]).
  { eexists; split; [vm_compute; reflexivity|]. repeat split. }
  destruct E as (res & E & Er & Fr & Re).
  destruct (proj1 (proj2 X18_Request_ReadFrom_may_lose_what_follows)
              src res) as (lost & A & B & _).
  - cbn; repeat split; discriminate.
  - reflexivity.
  - exact E.
  - exact Er.
  - exists res, lost; split; [exact E|].
    split; [exact A|]. split; [exact B|exact Re].
Defined.

(* ================================================================== *)
(** ** Every accepted connection is closed *)

Lemma ReadUserIDAndDomain_returns (r : socks4.Request.t) (src : io.Stream)
  (mu md : Z) :
  is_sentinel (final src) bufio.ErrBufferFull = false ->
  exists res, socks4.Request.ReadUserIDAndDomain r src mu md = Some res.
Proof.
  intros Hfin.
  unfold socks4.Request.ReadUserIDAndDomain.
  generalize (int64 (mu + 1)), (int64 (md + 1)); intros n1 n2.
  set (b0 := internal_pool.GetReader
               (internal.LimitedReader_Init src n1)).
  assert (W0 : wf b0).
  { unfold wf, b0, internal_pool.GetReader, bufio.Reset,
      internal.ReaderPool_size; cbn [bufio.size bufio.buf List.length].
    split; lia. }
  destruct (ReadString_spec False x00 b0 W0 eq_refl (fun F => match F with end)
              Hfin)
    as (res1 & e1 & b1 & E1 & S).
  rewrite E1.
  destruct S as (_ & _ & S3 & S4 & _ & _ & S7 & S8 & _).
  destruct e1 as [x|]; [eexists; reflexivity|].
  destruct (socks4.Request.IsSOCKS4a _); [|eexists; reflexivity].
  set (b2 := {| bufio.size := bufio.size b1;
                bufio.buf := bufio.buf b1;
                bufio.rd := internal.LimitedReader_Init
                              (internal.R (bufio.rd b1)) n2;
                bufio.err := bufio.err b1 |}).
  assert (W2 : wf b2) by exact S3.
  assert (F2 : is_sentinel (final (source b2)) bufio.ErrBufferFull = false).
  { unfold source in *; cbn [b2 bufio.rd internal.LimitedReader_Init
                             internal.R].
    rewrite S7; exact Hfin. }
  destruct (ReadString_spec False x00 b2 W2 S4 S8 F2)
    as (res2 & e2 & b3 & E2 & _).
  rewrite E2.
  destruct e2; eexists; reflexivity.
Qed.

Lemma ReadHeaderFrom_final (r : socks4.Request.t) (src : io.Stream) :
  final (dec.rest (socks4.Request.ReadHeaderFrom r src)) = final src.
Proof.
  unfold socks4.Request.ReadHeaderFrom, dec.run, dec.bind.
  destruct (readFull_cases 8 r 0 src)
    as [(_ & -> & _ & F)|(_ & e & -> & _)]; [|reflexivity].
  unfold dec.modify, dec.get, dec.finish; cbn [dec.recv dec.total dec.src].
  destruct (socks4.Request.ValidateHeader _); exact F.
Qed.

Lemma ReadFromWithLimits_returns (r : socks4.Request.t) (src : io.Stream)
  (mu md : Z) :
  is_sentinel (final src) bufio.ErrBufferFull = false ->
  exists res, socks4.Request.ReadFromWithLimits r src mu md = Some res.
Proof.
  intro Hfin; unfold socks4.Request.ReadFromWithLimits.
  destruct (dec.err (socks4.Request.ReadHeaderFrom r src));
    [eexists; reflexivity|].
  destruct (ReadUserIDAndDomain_returns
              (dec.self (socks4.Request.ReadHeaderFrom r src))
              (dec.rest (socks4.Request.ReadHeaderFrom r src)) mu md)
    as (u & ->).
  - rewrite ReadHeaderFrom_final; exact Hfin.
  - eexists; reflexivity.
Qed.

(** How the handling ends once its body has ended with [out]. *)
Lemma deferred_function_ends (W : Type) (h : socks4.Hooks W)
  (out : socks4.Outcome) (w0 : socks4.World W) :
  exists w,
    (let '(r, w) := match out with
                    | socks4.Panicked v =>
                        socks4.onPanic h v (socks4.log (socks4.EvOnPanic v) w0)
                    | socks4.Returned _ => (None, w0)
                    end in
     match r with
     | Some v => Some (socks4.log (socks4.EvUnrecovered v) w)
     | None =>
         let w := socks4.log socks4.EvClose w in
         Some (socks4.mkWorld (socks4.Conn_Close (socks4.conn w))
                 (socks4.trace w))
     end) = Some w
    /\ (ends_closed w \/ ends_unrecovered h w)
    /\ ((forall v w1, fst (socks4.onPanic h v w1) = None) -> ends_closed w).
Proof.
  assert (C : forall w1 : socks4.World W,
            ends_closed
              (socks4.mkWorld
                 (socks4.Conn_Close
                    (socks4.conn (socks4.log socks4.EvClose w1)))
                 (socks4.trace (socks4.log socks4.EvClose w1)))).
  { intro w1; split; [reflexivity|eexists; reflexivity]. }
  destruct out as [e|v].
  - eexists; split; [reflexivity|]; split; [left|intros _]; apply C.
  - destruct (socks4.onPanic h v _) as [[v'|] w1] eqn:EP.
    + eexists; split; [reflexivity|]; split.
      * right; exists v, (socks4.log (socks4.EvOnPanic v) w0), v', w1.
        split; [exact EP|reflexivity].
      * intro N; specialize (N v (socks4.log (socks4.EvOnPanic v) w0)).
        rewrite EP in N; discriminate N.
    + eexists; split; [reflexivity|]; split; [left|intros _]; apply C.
Qed.

Ltac deferred_function :=
  first
    [ match goal with
      | |- context [socks4.onPanic ?h ?v (socks4.log _ ?w)] =>
          exact (deferred_function_ends _ h (socks4.Panicked v) w)
      end
    | match goal with
      | |- context [socks4.log socks4.EvClose ?w] =>
          exact (deferred_function_ends _ _ (socks4.Returned None) w)
      end ].



(** A panic of OnError is recovered like a panic of any other callback:
    it is handed to OnPanic, and the connection is closed. *)
Example panic_of_OnError_is_recovered :
  forall onConnectDefault,
    option_map (fun w => (socks4.closed (socks4.conn w), socks4.trace w))
      (socks4.handle
         (socks4.init_defaults onConnectDefault failing_options)
         (client_sends connect_request))
    = Some (true,
            [socks4.EvOnAccept; socks4.EvOnRequest connect_request;
             socks4.EvOnError io.ErrClosedPipe; socks4.EvOnPanic "on error";
             socks4.EvClose]).
Proof. intro; reflexivity. Qed.

(* ================================================================== *)
(** ** Writing what was read *)

Lemma readFull_ok {R} (n : nat) (r : R) (t : Z) (s : io.Stream)
  (a : list byte) (st' : dec.State R) :
  dec.readFull n (dec.mkState r t s) = (inl a, st') ->
  st' = dec.mkState r (t + Z.of_nat n) (advance s n)
  /\ List.length a = n
  /\ io.concat s = a ++ io.concat (advance s n).
Proof.
  destruct (readFull_cases n r t s)
    as [(L & -> & C & _)|(_ & e & -> & _)]; [|discriminate].
  intro E; inversion E; subst; clear E.
  split; [reflexivity|]. split; [rewrite length_firstn; lia|].
  rewrite C; symmetry; apply firstn_skipn.
Qed.

Lemma run_ok {R A} (m : dec.Dec R A) (r : R) (s : io.Stream) :
  dec.err (dec.run m r s) = None ->
  exists a st',
    m (dec.mkState r 0 s) = (inl a, st')
    /\ dec.run m r s
       = dec.mkResult (dec.total st') None (dec.recv st') (dec.src st').
Proof.
  unfold dec.run.
  destruct (m (dec.mkState r 0 s)) as [[a|e] st']; cbn [dec.err];
    [|discriminate].
  intros _; exists a, st'; split; reflexivity.
Qed.

Lemma readAll_ok {R} (r : R) (t : Z) (s : io.Stream) (a : list byte)
  (st' : dec.State R) :
  dec.readAll (dec.mkState r t s) = (inl a, st') ->
  st' = dec.mkState r (t + len (io.concat s)) (io.End (final s))
  /\ a = io.concat s.
Proof.
  unfold dec.readAll; cbn [dec.src dec.recv dec.total].
  rewrite ReadAll_spec.
  destruct (is_sentinel (final s) io.EOF); [|discriminate].
  intro E; inversion E; subst; split; reflexivity.
Qed.

(** Takes the successful run [H] of a decoder apart, read by read. *)
Ltac dec_invert H :=
  repeat first
    [ rewrite bind_run in H
    | progress cbv zeta in H
    | rewrite modify_run in H; cbv beta iota in H;
      cbn [dec.recv dec.total dec.src] in H
    | rewrite get_run in H; cbv beta iota in H;
      cbn [dec.recv dec.total dec.src] in H
    | match type of H with
      | context [dec.readFull ?n (dec.mkState ?r ?t ?s)] =>
          let a := fresh "a" in
          let st := fresh "st" in
          let E := fresh "E" in
          let L := fresh "L" in
          let C := fresh "C" in
          destruct (dec.readFull n (dec.mkState r t s)) as [[a|?] st] eqn:E;
          [apply readFull_ok in E; destruct E as (-> & L & C)
          |discriminate H];
          cbv beta iota in H
      | context [dec.readAll (dec.mkState ?r ?t ?s)] =>
          let a := fresh "data" in
          let st := fresh "st" in
          let E := fresh "E" in
          let D := fresh "D" in
          destruct (dec.readAll (dec.mkState r t s)) as [[a|?] st] eqn:E;
          [apply readAll_ok in E; destruct E as (-> & D)
          |discriminate H];
          cbv beta iota in H
      | context [(if ?b then _ else _) (dec.mkState _ _ _)] =>
          let B := fresh "B" in
          destruct b eqn:B
      | context [dec.finish (Some ?x) ?st] =>
          unfold dec.finish at 1 in H; cbv beta iota in H; discriminate H
      | context [dec.finish ?e ?st] =>
          let V := fresh "V" in
          destruct e eqn:V; unfold dec.finish at 1 in H;
          [discriminate H|]; cbv beta iota in H
      | context [dec.ret ?x ?st] =>
          unfold dec.ret at 1 in H; cbv beta iota in H
      end ].

Lemma firstn_exact {A} (a rest : list A) (n : nat) :
  List.length a = n -> firstn n (a ++ rest) = a.
Proof.
  intros <-; rewrite firstn_app, Nat.sub_diag, firstn_all; cbn [firstn].
  apply app_nil_r.
Qed.

Lemma firstn_wire (src wire rest : list byte) (t : Z) :
  src = wire ++ rest -> t = len wire ->
  firstn (Z.to_nat t) src = wire.
Proof.
  intros -> ->; apply firstn_exact; unfold len; lia.
Qed.

(** Ends the inversion of a run: the final state is the one reached. *)
Ltac dec_done H :=
  apply (f_equal snd) in H; cbv beta iota delta [snd] in H;
  rewrite <- H; clear H; cbn [dec.recv dec.total dec.src].

Lemma buffer_result (n t : Z) (w f : list byte) :
  n = t -> f = w ->
  ((n, @None error), bytes_.mkBuffer w) = ((t, None), bytes_.mkBuffer f).
Proof. intros -> ->; reflexivity. Qed.

Ltac len_lia :=
  unfold len, byte in *;
  repeat first
    [ rewrite length_app
    | progress cbn [List.length Array4_slice binary.PutUint16] ];
  lia.

(** Ends a proof of [reencodes]: the count is the length of what was
    written, and what was written is the head of the source [C]. *)
Ltac wire_done C :=
  apply buffer_result;
  [ len_lia
  | eapply firstn_wire;
    [ rewrite C; repeat first [rewrite <- app_assoc | progress cbn [app]];
      reflexivity
    | len_lia ] ].

Lemma HandshakeRequest_reencodes (r : socks5.HandshakeRequest.t) :
  reencodes (fun _ => True) (socks5.HandshakeRequest.ReadFrom r)
    socks5.HandshakeRequest.WriteTo.
Proof.
  intros src E _; unfold socks5.HandshakeRequest.ReadFrom in *.
  destruct (run_ok _ _ _ E) as (u & st' & H & ->); clear E.
  cbn [dec.n dec.self].
  dec_invert H; dec_done H.
  cbn [socks5.HandshakeRequest.Version socks5.HandshakeRequest.NMethods
       socks5.HandshakeRequest.Methods] in *.
  name_header a L 2; cbn [at_ nth] in *.
  unfold socks5.HandshakeRequest.WriteTo, io.Write, bytes_.Buffer_Writer.
  cbn [socks5.HandshakeRequest.Version socks5.HandshakeRequest.NMethods
       socks5.HandshakeRequest.Methods bytes_.Bytes app].
  rewrite C0 in C.
  wire_done C.
Qed.

Ltac reencode_start rd :=
  let E := fresh "E" in
  let H := fresh "H" in
  intros src E _; unfold rd in *;
  destruct (run_ok _ _ _ E) as (u & st' & H & ->); clear E;
  cbn [dec.n dec.self];
  dec_invert H; dec_done H.

Lemma HandshakeReply_reencodes (r : socks5.HandshakeReply.t) :
  reencodes (fun _ => True) (socks5.HandshakeReply.ReadFrom r)
    socks5.HandshakeReply.WriteTo.
Proof.
  reencode_start socks5.HandshakeReply.ReadFrom.
  name_header a L 2; cbn [at_ nth] in *.
  unfold socks5.HandshakeReply.WriteTo, io.Write, bytes_.Buffer_Writer.
  cbn [socks5.HandshakeReply.Version socks5.HandshakeReply.Method
       bytes_.Bytes app].
  wire_done C.
Qed.

Lemma UserPassReply_reencodes (r : socks5.UserPassReply.t) :
  reencodes (fun _ => True) (socks5.UserPassReply.ReadFrom r)
    socks5.UserPassReply.WriteTo.
Proof.
  reencode_start socks5.UserPassReply.ReadFrom.
  name_header a L 2; cbn [at_ nth] in *.
  unfold socks5.UserPassReply.WriteTo, io.Write, bytes_.Buffer_Writer.
  cbn [socks5.UserPassReply.Version socks5.UserPassReply.Status
       bytes_.Bytes app].
  wire_done C.
Qed.

Lemma socks4_Response_reencodes (r : socks4.Response.t) :
  reencodes (fun _ => True) (socks4.Response.ReadFrom r)
    socks4.Response.WriteTo.
Proof.
  reencode_start socks4.Response.ReadFrom.
  name_header a L 8; cbn [at_ nth slice skipn firstn Nat.sub copy4] in *.
  unfold socks4.Response.WriteTo, io.Write, bytes_.Buffer_Writer.
  cbn [socks4.Response.Version socks4.Response.Code socks4.Response.Port
       socks4.Response.IP bytes_.Bytes].
  rewrite PutUint16_Uint16; cbn [Array4_slice a0 a1 a2 a3 app].
  wire_done C.
Qed.

Lemma string_of_counted_bytes (l : list byte) (b : byte) :
  List.length l = socks5.nat_of_byte b ->
  byte_of_Z (len_string (string_of_bytes l)) = b
  /\ len_string (string_of_bytes l) = Z_of_byte b
  /\ bytes_of_string (string_of_bytes l) = l.
Proof.
  intro L.
  assert (E : len_string (string_of_bytes l) = Z_of_byte b).
  { rewrite <- len_string_bytes, bytes_of_string_of_bytes.
    unfold len; rewrite L; unfold socks5.nat_of_byte.
    pose proof (Z_of_byte_range b); lia. }
  split; [rewrite E; apply byte_of_Z_of_byte|].
  split; [exact E|apply bytes_of_string_of_bytes].
Qed.

Lemma UserPassRequest_reencodes (r : socks5.UserPassRequest.t) :
  reencodes (fun _ => True) (socks5.UserPassRequest.ReadFrom r)
    socks5.UserPassRequest.WriteTo.
Proof.
  reencode_start socks5.UserPassRequest.ReadFrom.
  cbn [socks5.UserPassRequest.Version socks5.UserPassRequest.Username
       socks5.UserPassRequest.Password] in *.
  name_header a L 2; name_header a5 L1 1; cbn [at_ nth] in *.
  destruct (string_of_counted_bytes _ _ L0) as (U1 & U2 & U3).
  destruct (string_of_counted_bytes _ _ L2) as (P1 & P2 & P3).
  pose proof (Z_of_byte_range b0) as R1.
  pose proof (Z_of_byte_range b1) as R2.
  unfold socks5.UserPassRequest.WriteTo.
  cbn [socks5.UserPassRequest.Version socks5.UserPassRequest.Username
       socks5.UserPassRequest.Password].
  rewrite U2, P2.
  destruct (Z.gtb_spec (Z_of_byte b0) 255) as [G|_]; [lia|].
  destruct (Z.gtb_spec (Z_of_byte b1) 255) as [G|_]; [lia|].
  cbn [orb].
  unfold io.WriteString, io.Write, bytes_.Buffer_Writer.
  cbn [bytes_.Bytes app]; rewrite U3, P3, <- U2, <- P2, U1, P1.
  rewrite C0, C1, C2 in C.
  wire_done C.
Qed.

Lemma GSSAPIRequest_reencodes (r : socks5.GSSAPIRequest.t) :
  reencodes (fun m => socks5.GSSAPIRequest.Validate m = None)
    (socks5.GSSAPIRequest.ReadFrom r) socks5.GSSAPIRequest.WriteTo.
Proof.
  intros src E P; revert P; unfold socks5.GSSAPIRequest.ReadFrom in *.
  destruct (run_ok _ _ _ E) as (u & st' & H & ->); clear E.
  cbn [dec.n dec.self].
  dec_invert H; dec_done H;
    cbn [socks5.GSSAPIRequest.Version socks5.GSSAPIRequest.MsgType
         socks5.GSSAPIRequest.Token] in *;
    intro P; unfold socks5.GSSAPIRequest.WriteTo; rewrite ?P, ?V;
    cbn [socks5.GSSAPIRequest.Version socks5.GSSAPIRequest.MsgType
         socks5.GSSAPIRequest.Token]; rewrite B;
    unfold io.Write, bytes_.Buffer_Writer; cbn [bytes_.Bytes app].
  - name_header a L 2; cbn [at_ nth] in *.
    wire_done C.
  - name_header a L 2; name_header a4 L0 2; cbn [at_ nth] in *.
    pose proof (Uint16_range b1 b2) as R.
    assert (T : len a5 = binary.Uint16 b1 b2)
      by (unfold len, byte in *; lia).
    rewrite T, uint16_small, PutUint16_Uint16 by lia.
    rewrite C0, C1 in C.
    wire_done C.
Qed.

Lemma GSSAPIReply_reencodes (r : socks5.GSSAPIReply.t) :
  reencodes (fun m => socks5.GSSAPIReply.Validate m = None)
    (socks5.GSSAPIReply.ReadFrom r) socks5.GSSAPIReply.WriteTo.
Proof.
  intros src E P; revert P; unfold socks5.GSSAPIReply.ReadFrom in *.
  destruct (run_ok _ _ _ E) as (u & st' & H & ->); clear E.
  cbn [dec.n dec.self].
  dec_invert H; dec_done H;
    cbn [socks5.GSSAPIReply.Version socks5.GSSAPIReply.MsgType
         socks5.GSSAPIReply.Token] in *;
    intro P; unfold socks5.GSSAPIReply.WriteTo; rewrite ?P, ?V;
    cbn [socks5.GSSAPIReply.Version socks5.GSSAPIReply.MsgType
         socks5.GSSAPIReply.Token]; rewrite B;
    unfold io.Write, bytes_.Buffer_Writer; cbn [bytes_.Bytes app].
  - name_header a L 2; cbn [at_ nth] in *.
    wire_done C.
  - name_header a L 2; name_header a4 L0 2; cbn [at_ nth] in *.
    pose proof (Uint16_range b1 b2) as R.
    assert (T : len a5 = binary.Uint16 b1 b2)
      by (unfold len, byte in *; lia).
    rewrite T, uint16_small, PutUint16_Uint16 by lia.
    rewrite C0, C1 in C.
    wire_done C.
Qed.

Lemma To16_sixteen (l : list byte) :
  List.length l = 16%nat -> net.To16 (Some l) = Some l.
Proof.
  intro L; unfold net.To16; cbn [net.IP_len]; rewrite L; reflexivity.
Qed.

(** The address that [write_addr] writes for a message whose address was
    read from the bytes [addr]. *)
Lemma address_bytes_decoded (atyp : byte) (addr : list byte)
  (ip : net.IP) (domain : string) :
  (Byte.eqb atyp socks5.AddrTypeIPv4 = true ->
   ip = Some addr /\ List.length addr = 4%nat) ->
  (Byte.eqb atyp socks5.AddrTypeIPv4 = false ->
   Byte.eqb atyp socks5.AddrTypeIPv6 = true ->
   ip = Some addr /\ List.length addr = 16%nat) ->
  (Byte.eqb atyp socks5.AddrTypeIPv4 = false ->
   Byte.eqb atyp socks5.AddrTypeIPv6 = false ->
   exists ln dom,
     addr = ln :: dom /\ List.length dom = socks5.nat_of_byte ln
     /\ domain = string_of_bytes dom) ->
  known_address_type atyp = true ->
  address_bytes atyp ip domain = addr.
Proof.
  unfold address_bytes, known_address_type; intros H4 H6 HD K.
  destruct (Byte.eqb atyp socks5.AddrTypeIPv4).
  - destruct (H4 eq_refl) as (-> & L); rewrite (To4_four _ L); reflexivity.
  - destruct (Byte.eqb atyp socks5.AddrTypeIPv6).
    + destruct (H6 eq_refl eq_refl) as (-> & L).
      rewrite (To16_sixteen _ L); reflexivity.
    + destruct (Byte.eqb atyp socks5.AddrTypeDomain); [|discriminate K].
      destruct (HD eq_refl eq_refl) as (ln & dom & -> & L & ->).
      destruct (string_of_counted_bytes _ _ L) as (U1 & _ & U3).
      rewrite U1, U3; reflexivity.
Qed.

(** A header that [ValidateHeader] accepts has one of the three address
    types. *)
Ltac no_such_address V B B0 B1 :=
  exfalso; cbv beta delta [socks5.Request.ValidateHeader
    socks5.Reply.ValidateHeader socks5.UDPPacket.ValidateHeader] in V;
  cbn [socks5.Request.Version socks5.Request.Command
       socks5.Request.Reserved socks5.Request.AddrType
       socks5.Reply.Version socks5.Reply.Reserved socks5.Reply.AddrType
       socks5.UDPPacket.Frag socks5.UDPPacket.AddrType] in V;
  rewrite B, B0, B1 in V; cbn [orb negb] in V;
  repeat match type of V with
         | (if ?c then _ else _) = None =>
             destruct c; [discriminate V|]
         end;
  discriminate V.

Ltac known_type B :=
  apply (proj1 (Byte_eqb_eq _ _)) in B; subst.

Lemma socks5_Request_reencodes (r : socks5.Request.t) :
  reencodes (fun _ => True) (socks5.Request.ReadFrom r)
    socks5.Request.WriteTo.
Proof.
  reencode_start socks5.Request.ReadFrom.
  all: unfold socks5.Request.set_IP, socks5.Request.set_Domain,
         socks5.Request.set_Port in *.
  all: cbn [socks5.Request.Version socks5.Request.Command
            socks5.Request.Reserved socks5.Request.AddrType
            socks5.Request.IP socks5.Request.Domain socks5.Request.Port]
         in *.
  all: name_header a L 4; cbn [at_ nth] in *.
  - known_type B; name_header a5 L1 2; cbn [at_ nth] in *.
    unfold socks5.Request.WriteTo, socks5.write_addr.
    cbn [socks5.Request.Version socks5.Request.Command
         socks5.Request.Reserved socks5.Request.AddrType
         socks5.Request.IP socks5.Request.Domain socks5.Request.Port].
    change (Byte.eqb socks5.AddrTypeIPv4 socks5.AddrTypeDomain) with false.
    change (Byte.eqb socks5.AddrTypeIPv4 socks5.AddrTypeIPv4) with true.
    cbn [andb]; rewrite (To4_four _ L0), PutUint16_Uint16.
    unfold io.Write, bytes_.Buffer_Writer; cbn [bytes_.Bytes app net.IP_bytes].
    rewrite C0, C1 in C.
    wire_done C.
  - known_type B0; name_header a5 L1 2; cbn [at_ nth] in *.
    unfold socks5.Request.WriteTo, socks5.write_addr.
    cbn [socks5.Request.Version socks5.Request.Command
         socks5.Request.Reserved socks5.Request.AddrType
         socks5.Request.IP socks5.Request.Domain socks5.Request.Port].
    change (Byte.eqb socks5.AddrTypeIPv6 socks5.AddrTypeDomain) with false.
    change (Byte.eqb socks5.AddrTypeIPv6 socks5.AddrTypeIPv4) with false.
    change (Byte.eqb socks5.AddrTypeIPv6 socks5.AddrTypeIPv6) with true.
    cbn [andb]; rewrite (To16_sixteen _ L0), PutUint16_Uint16.
    unfold io.Write, bytes_.Buffer_Writer; cbn [bytes_.Bytes app net.IP_bytes].
    rewrite C0, C1 in C.
    wire_done C.
  - known_type B1; name_header a4 L0 1; name_header a6 L2 2;
      cbn [at_ nth] in *.
    destruct (string_of_counted_bytes _ _ L1) as (U1 & U2 & U3).
    destruct (socks5_Request_Validate_inv _ V0) as (_ & _ & D).
    specialize (D eq_refl); cbn [socks5.Request.Domain] in D.
    unfold socks5.Request.WriteTo, socks5.write_addr.
    cbn [socks5.Request.Version socks5.Request.Command
         socks5.Request.Reserved socks5.Request.AddrType
         socks5.Request.IP socks5.Request.Domain socks5.Request.Port].
    change (Byte.eqb socks5.AddrTypeDomain socks5.AddrTypeDomain) with true.
    change (Byte.eqb socks5.AddrTypeDomain socks5.AddrTypeIPv4) with false.
    change (Byte.eqb socks5.AddrTypeDomain socks5.AddrTypeIPv6) with false.
    destruct (Z.eqb_spec (len_string (string_of_bytes a5)) 0) as [G|_];
      [lia|].
    destruct (Z.gtb_spec (len_string (string_of_bytes a5)) 255) as [G|_];
      [lia|].
    cbn [andb orb]; rewrite PutUint16_Uint16.
    unfold io.WriteString, io.Write, bytes_.Buffer_Writer;
      cbn [bytes_.Bytes app].
    rewrite U1, U3.
    rewrite C0, C1, C2 in C.
    wire_done C.
  - no_such_address V B B0 B1.
Qed.

Lemma socks5_Reply_reencodes (r : socks5.Reply.t) :
  reencodes (fun _ => True) (socks5.Reply.ReadFrom r) socks5.Reply.WriteTo.
Proof.
  reencode_start socks5.Reply.ReadFrom.
  all: unfold socks5.Reply.WriteTo; try rewrite V0.
  all: unfold socks5.Reply.set_IP, socks5.Reply.set_Domain,
         socks5.Reply.set_Port in *.
  all: cbn [socks5.Reply.Version socks5.Reply.Reply socks5.Reply.Reserved
            socks5.Reply.AddrType socks5.Reply.IP socks5.Reply.Domain
            socks5.Reply.Port] in *.
  all: name_header a L 4; cbn [at_ nth] in *.
  - known_type B; name_header a5 L1 2; cbn [at_ nth] in *.
    unfold socks5.write_addr.
    change (Byte.eqb socks5.AddrTypeIPv4 socks5.AddrTypeIPv4) with true.
    cbv iota; rewrite (To4_four _ L0), PutUint16_Uint16.
    unfold io.Write, bytes_.Buffer_Writer; cbn [bytes_.Bytes app net.IP_bytes].
    rewrite C0, C1 in C.
    wire_done C.
  - known_type B0; name_header a5 L1 2; cbn [at_ nth] in *.
    unfold socks5.write_addr.
    change (Byte.eqb socks5.AddrTypeIPv6 socks5.AddrTypeIPv4) with false.
    change (Byte.eqb socks5.AddrTypeIPv6 socks5.AddrTypeIPv6) with true.
    cbv iota; rewrite (To16_sixteen _ L0), PutUint16_Uint16.
    unfold io.Write, bytes_.Buffer_Writer; cbn [bytes_.Bytes app net.IP_bytes].
    rewrite C0, C1 in C.
    wire_done C.
  - known_type B1; name_header a4 L0 1; name_header a6 L2 2;
      cbn [at_ nth] in *.
    destruct (string_of_counted_bytes _ _ L1) as (U1 & U2 & U3).
    unfold socks5.write_addr.
    change (Byte.eqb socks5.AddrTypeDomain socks5.AddrTypeDomain) with true.
    change (Byte.eqb socks5.AddrTypeDomain socks5.AddrTypeIPv4) with false.
    change (Byte.eqb socks5.AddrTypeDomain socks5.AddrTypeIPv6) with false.
    cbv iota; rewrite PutUint16_Uint16.
    unfold io.WriteString, io.Write, bytes_.Buffer_Writer;
      cbn [bytes_.Bytes app].
    rewrite U1, U3.
    rewrite C0, C1, C2 in C.
    wire_done C.
  - no_such_address V B B0 B1.
Qed.

(** The source [C] of a decoder that has read everything: what is left
    of it is empty. *)
Ltac to_the_end C :=
  match type of C with
  | _ = ?w =>
      match w with
      | context [io.concat ?s] => rewrite <- (app_nil_r (io.concat s)) in C
      end
  end.

Lemma UDPPacket_reencodes (r : socks5.UDPPacket.t) :
  reencodes (fun _ => True) (socks5.UDPPacket.ReadFrom r)
    socks5.UDPPacket.WriteTo.
Proof.
  reencode_start socks5.UDPPacket.ReadFrom.
  all: unfold socks5.UDPPacket.WriteTo; try rewrite V0.
  all: unfold socks5.UDPPacket.set_IP, socks5.UDPPacket.set_Domain,
         socks5.UDPPacket.set_Port, socks5.UDPPacket.set_Data in *.
  all: cbn [socks5.UDPPacket.Reserved socks5.UDPPacket.Frag
            socks5.UDPPacket.AddrType socks5.UDPPacket.IP
            socks5.UDPPacket.Domain socks5.UDPPacket.Port
            socks5.UDPPacket.Data fst snd] in *.
  all: name_header a L 4; cbn [at_ nth] in *.
  - known_type B; name_header a5 L1 2; cbn [at_ nth] in *.
    unfold socks5.write_addr.
    change (Byte.eqb socks5.AddrTypeIPv4 socks5.AddrTypeIPv4) with true.
    cbv iota; rewrite (To4_four _ L0), PutUint16_Uint16.
    unfold io.Write, bytes_.Buffer_Writer; cbn [bytes_.Bytes app net.IP_bytes].
    rewrite C0, C1 in C; to_the_end C.
    wire_done C.
  - known_type B0; name_header a5 L1 2; cbn [at_ nth] in *.
    unfold socks5.write_addr.
    change (Byte.eqb socks5.AddrTypeIPv6 socks5.AddrTypeIPv4) with false.
    change (Byte.eqb socks5.AddrTypeIPv6 socks5.AddrTypeIPv6) with true.
    cbv iota; rewrite (To16_sixteen _ L0), PutUint16_Uint16.
    unfold io.Write, bytes_.Buffer_Writer; cbn [bytes_.Bytes app net.IP_bytes].
    rewrite C0, C1 in C; to_the_end C.
    wire_done C.
  - known_type B1; name_header a4 L0 1; name_header a6 L2 2;
      cbn [at_ nth] in *.
    destruct (string_of_counted_bytes _ _ L1) as (U1 & U2 & U3).
    unfold socks5.write_addr.
    change (Byte.eqb socks5.AddrTypeDomain socks5.AddrTypeDomain) with true.
    change (Byte.eqb socks5.AddrTypeDomain socks5.AddrTypeIPv4) with false.
    change (Byte.eqb socks5.AddrTypeDomain socks5.AddrTypeIPv6) with false.
    cbv iota; rewrite PutUint16_Uint16.
    unfold io.WriteString, io.Write, bytes_.Buffer_Writer;
      cbn [bytes_.Bytes app].
    rewrite U1, U3.
    rewrite C0, C1, C2 in C; to_the_end C.
    wire_done C.
  - no_such_address V B B0 B1.
Qed.

(* ================================================================== *)
(** ** The payload of a UDP packet *)

(** X6. The decoder of UDP packets reads its source to the end: when it
    returns no error nothing is left in the source, the count is the
    number of bytes the source held, and the source held exactly the
    header, the address and the port of the message that was decoded,
    followed by its payload: the payload stored in Data is all that
    follows the port, to the last byte. *)
Theorem X6_UDPPacket_ReadFrom_takes_the_whole_source :
  forall (p : socks5.UDPPacket.t) (src : io.Stream),
    let res := socks5.UDPPacket.ReadFrom p src in
    let m := dec.self res in
    let addr := address_bytes (socks5.UDPPacket.AddrType m)
                  (socks5.UDPPacket.IP m) (socks5.UDPPacket.Domain m) in
    dec.err res = None ->
    io.concat (dec.rest res) = []
    /\ dec.n res = len (io.concat src)
    /\ io.concat src
       = [fst (socks5.UDPPacket.Reserved m); snd (socks5.UDPPacket.Reserved m);
          socks5.UDPPacket.Frag m; socks5.UDPPacket.AddrType m]
         ++ addr ++ binary.PutUint16 (socks5.UDPPacket.Port m)
         ++ socks5.UDPPacket.Data m
    /\ socks5.UDPPacket.Data m
       = skipn (4 + List.length addr + 2) (io.concat src).
Proof.
  intros p src; cbv zeta; intros Er.
  destruct (UDPPacket_ReadFrom_to_the_end p src Er) as (R & N & _).
  pose proof (UDPPacket_reencodes p src Er I) as H.
  split; [exact R|]. split; [exact N|].
  match goal with |- ?A /\ _ => assert (Wire : A) end.
  { destruct (socks5.UDPPacket.Validate
                (dec.self (socks5.UDPPacket.ReadFrom p src))) eqn:V.
    - unfold socks5.UDPPacket.WriteTo in H; rewrite V in H; discriminate H.
    - destruct (UDPPacket_Validate_inv _ V) as (VH & K & D).
      unfold socks5.UDPPacket.WriteTo in H; rewrite V in H.
      unfold io.Write, bytes_.Buffer_Writer in H.
      cbn [bytes_.Bytes app] in H; cbv beta iota zeta in H.
      rewrite (write_addr_Buffer _ _ _ _ _ _ K) in H.
      cbv beta iota zeta in H; cbn [fst snd bytes_.Bytes] in H.
      apply (f_equal (fun x => bytes_.Bytes (snd x))) in H.
      cbn [snd bytes_.Bytes] in H.
      rewrite N in H; unfold len in H; rewrite Nat2Z.id, firstn_all in H.
      rewrite <- H, <- !app_assoc; reflexivity. }
  split; [exact Wire|].
  rewrite Wire.
  rewrite app_assoc, app_assoc, skipn_app.
  rewrite skipn_all2, app_nil_l
    by (rewrite !length_app; cbn [List.length binary.PutUint16]; lia).
  match goal with
  | |- _ = skipn ?k _ => replace k with O; [reflexivity|]
  end.
  rewrite !length_app; cbn [List.length binary.PutUint16]; lia.
Qed.

(** The packet of the repository's tests: the payload "hi" for
    127.0.0.1:8080. *)
Lemma X6_UDPPacket_ReadFrom_takes_the_whole_source_witness :
  let src := bytes_.NewReader
               [x00; x00; x00; x01; x7f; x00; x00; x01; x1f; x90; x68; x69] in
  let res := socks5.UDPPacket.ReadFrom socks5.UDPPacket.zero src in
  dec.err res = None
  /\ io.concat (dec.rest res) = []
  /\ dec.n res = 12
  /\ socks5.UDPPacket.Data (dec.self res) = [x68; x69].
Proof.
  cbv zeta; split; [reflexivity|].
  destruct (X6_UDPPacket_ReadFrom_takes_the_whole_source
              socks5.UDPPacket.zero
              (bytes_.NewReader
                 [x00; x00; x00; x01; x7f; x00; x00; x01; x1f; x90; x68; x69]))
    as (A & B & _ & D).
  - reflexivity.
  - split; [exact A|]. split; [exact B|]. rewrite D; reflexivity.
Defined.

Lemma socks4_Request_reencodes (r : socks4.Request.t) (mu md : Z)
  (src : io.Stream) (res : dec.Result socks4.Request.t) :
  productive src ->
  is_sentinel (final src) bufio.ErrBufferFull = false ->
  socks4.Request.ReadFromWithLimits r src mu md = Some res ->
  dec.err res = None ->
  socks4.Request.WriteTo (dec.self res) (bytes_.mkBuffer [])
  = ((dec.n res, None),
     bytes_.mkBuffer (firstn (Z.to_nat (dec.n res)) (io.concat src))).
Proof.
  intros Hp Hfin E Er.
  destruct (ReadFromWithLimits_takes_the_request r mu md src res Hp Hfin E Er)
    as (lost & C & N & _).
  rewrite Request_WriteTo_Buffer; cbn [app].
  apply buffer_result; [symmetry; exact N|].
  apply (firstn_wire _ _ _ _ C N).
Qed.

(** X20. Writing a message that was read gives back the bytes it was read
    from: when ReadFrom accepts a message with the count n, WriteTo writes
    this message to an empty buffer without error, returns the same count
    n, and the buffer holds the first n bytes of the source.  This holds
    for the SOCKS4 response, for every SOCKS5 message and for the SOCKS4
    request; for the two GSSAPI messages it holds when the message read
    passes Validate, which the decoder does not check for an abort
    message and the encoder does. *)
Theorem X20_writing_what_was_read_gives_the_same_bytes :
  (forall r, reencodes (fun _ => True) (socks4.Response.ReadFrom r)
               socks4.Response.WriteTo)
  /\ (forall r, reencodes (fun _ => True) (socks5.HandshakeRequest.ReadFrom r)
                  socks5.HandshakeRequest.WriteTo)
  /\ (forall r, reencodes (fun _ => True) (socks5.HandshakeReply.ReadFrom r)
                  socks5.HandshakeReply.WriteTo)
  /\ (forall r, reencodes (fun _ => True) (socks5.Request.ReadFrom r)
                  socks5.Request.WriteTo)
  /\ (forall r, reencodes (fun _ => True) (socks5.Reply.ReadFrom r)
                  socks5.Reply.WriteTo)
  /\ (forall r, reencodes (fun _ => True) (socks5.UserPassRequest.ReadFrom r)
                  socks5.UserPassRequest.WriteTo)
  /\ (forall r, reencodes (fun _ => True) (socks5.UserPassReply.ReadFrom r)
                  socks5.UserPassReply.WriteTo)
  /\ (forall r, reencodes (fun m => socks5.GSSAPIRequest.Validate m = None)
                  (socks5.GSSAPIRequest.ReadFrom r)
                  socks5.GSSAPIRequest.WriteTo)
  /\ (forall r, reencodes (fun m => socks5.GSSAPIReply.Validate m = None)
                  (socks5.GSSAPIReply.ReadFrom r)
                  socks5.GSSAPIReply.WriteTo)
  /\ (forall r, reencodes (fun _ => True) (socks5.UDPPacket.ReadFrom r)
                  socks5.UDPPacket.WriteTo)
  /\ (forall r mu md src res,
         productive src ->
         is_sentinel (final src) bufio.ErrBufferFull = false ->
         socks4.Request.ReadFromWithLimits r src mu md = Some res ->
         dec.err res = None ->
         socks4.Request.WriteTo (dec.self res) (bytes_.mkBuffer [])
         = ((dec.n res, None),
            bytes_.mkBuffer
              (firstn (Z.to_nat (dec.n res)) (io.concat src)))).
Proof.
  split; [exact socks4_Response_reencodes|].
  split; [exact HandshakeRequest_reencodes|].
  split; [exact HandshakeReply_reencodes|].
  split; [exact socks5_Request_reencodes|].
  split; [exact socks5_Reply_reencodes|].
  split; [exact UserPassRequest_reencodes|].
  split; [exact UserPassReply_reencodes|].
  split; [exact GSSAPIRequest_reencodes|].
  split; [exact GSSAPIReply_reencodes|].
  split; [exact UDPPacket_reencodes|].
  exact socks4_Request_reencodes.
Qed.

(** A CONNECT request for the domain "a", port 80, followed by two more
    bytes, in reads of three bytes. *)
Lemma X20_writing_what_was_read_gives_the_same_bytes_witness :
  let src := io.Chunk [x05; x01; x00]
               (io.Chunk [x03; x01; x61]
                  (io.Chunk [x00; x50; x68]
                     (io.Chunk [x69] (io.End io.EOF)))) in
  let res := socks5.Request.ReadFrom socks5.Request.zero src in
  dec.err res = None
  /\ socks5.Request.WriteTo (dec.self res) (bytes_.mkBuffer [])
     = ((8, None),
        bytes_.mkBuffer [x05; x01; x00; x03; x01; x61; x00; x50]).
Proof.
  cbv zeta; split; [reflexivity|].
  apply (proj1 (proj2 (proj2 (proj2
           X20_writing_what_was_read_gives_the_same_bytes)))
           socks5.Request.zero
           (io.Chunk [x05; x01; x00]
              (io.Chunk [x03; x01; x61]
                 (io.Chunk [x00; x50; x68]
                    (io.Chunk [x69] (io.End io.EOF)))))
           eq_refl I).
Defined.
